(** * RPCSEC_GSS client contexts of the NFS kext (NFS/kext/nfs_gss.c)

    A shallow embedding of the client side of nfs_gss.c: the sequence
    window, the body codecs for krb5i and krb5p, context negotiation and
    its retry loop, the per-mount context list with its negative cache,
    reference counting, and the check of reply verifiers.

    Conventions.
    - A C [uint32_t] is a [Z] kept in [0, 2^32) by [u32]; an [int32_t]
      is wrapped by [s32].
    - A nullable pointer is an [option]; where several owners share one
      [struct nfs_gss_clnt_ctx] (the mount list and the requests), the
      struct lives in a heap [gmap addr nfs_gss_clnt_ctx] and the owners
      hold its address.
    - What the kernel supplies (the clock, signals, the gssd upcall, the
      server, the krb5 primitives) enters as an argument or as a field of
      a capability class. *)

From Stdlib Require Import ZArith Lia List Bool.
From Stdlib.Init Require Import Byte.
From Stdlib.Strings Require Byte.
From stdpp Require Import base option list gmap.

Local Open Scope Z_scope.

(* ===================================================================== *)
(** * Part I. The embedding                                               *)
(* ===================================================================== *)

(** ** Machine integers *)

Definition u32 (z : Z) : Z := z mod 2 ^ 32.

Definition s32 (z : Z) : Z := (z + 2 ^ 31) mod 2 ^ 32 - 2 ^ 31.

Definition INT32_MAX : Z := 2 ^ 31 - 1.

(** ** Error numbers used by nfs_gss.c.  [E0] is the return value 0. *)

Inductive errno_t : Set :=
  | E0 | ENXIO | ENOMEM | EACCES | EINVAL | EPIPE | ETIMEDOUT | EINTR
  | EBADRPC | EAUTH | ENEEDAUTH | NFSERR_EAUTH | ENOENT.

#[global] Instance errno_eq_dec : EqDecision errno_t.
Proof. solve_decision. Defined.

Definition is_error (e : errno_t) : bool := negb (bool_decide (e = E0)).

(** nfs_gss_clnt_ctx_set_principal, lines 2641-2648: the errors that
    function calls "auth errors" and swallows. *)
Definition is_auth_error (e : errno_t) : bool :=
  bool_decide (e = EACCES) || bool_decide (e = EAUTH) || bool_decide (e = ENEEDAUTH).

(** ** GSS and RPCSEC_GSS constants (RFC 2743, RFC 2203) *)

Definition GSS_S_COMPLETE : Z := 0.
Definition GSS_S_CONTINUE_NEEDED : Z := 1.

Definition RPCAUTH_NULL : Z := 0.
Definition RPCSEC_GSS : Z := 6.

Inductive rpcsec_gss_proc : Set :=
  | RPCSEC_GSS_DATA | RPCSEC_GSS_INIT | RPCSEC_GSS_CONTINUE_INIT | RPCSEC_GSS_DESTROY.

#[global] Instance rpcsec_gss_proc_eq_dec : EqDecision rpcsec_gss_proc.
Proof. solve_decision. Defined.

Inductive rpcsec_gss_service : Set :=
  | RPCSEC_GSS_SVC_0 | RPCSEC_GSS_SVC_NONE | RPCSEC_GSS_SVC_INTEGRITY | RPCSEC_GSS_SVC_PRIVACY.

Definition RPC_SUCCESS : Z := 0.

(** nfs_gss.c line 99. *)
Definition KRB5_MAX_MIC_SIZE : Z := 128.

(** nfs_gss.c line 92. *)
Definition NFS_GSS_MACH_MAX_RETRIES : Z := 3.

Definition NFSX_UNSIGNED : Z := 4.

(** XDR rounding (nfsm_rndup, nfsm_pad of xdr_subs.h): sizes are padded
    to four bytes. *)
Definition nfsm_rndup (a : Z) : Z := Z.land (a + 3) (Z.lnot 3).
Definition nfsm_pad (a : Z) : Z := nfsm_rndup a - a.

(** ** Context flags

    Modelled from the spec: the header that declares the flag bits is not
    among the sources.  Section 3 of the specification lists the flag set
    COMPLETE, INVALID, DESTROY, STICKY, NEEDCTX, NEEDSEQ, USECOUNT; each
    is one bit of [gss_clnt_flags].  The proofs use only that the seven
    bits are distinct. *)

Definition GSS_CTX_COMPLETE : Z := 2 ^ 0.
Definition GSS_CTX_INVAL : Z := 2 ^ 1.
Definition GSS_CTX_STICKY : Z := 2 ^ 2.
Definition GSS_NEEDSEQ : Z := 2 ^ 3.
Definition GSS_NEEDCTX : Z := 2 ^ 4.
Definition GSS_CTX_DESTROY : Z := 2 ^ 5.
Definition GSS_CTX_USECOUNT : Z := 2 ^ 6.

(** [flags & F] as a C condition. *)
Definition has_flag (flags F : Z) : bool := negb (Z.land flags F =? 0).

(** [flags |= F] and [flags &= ~F]. *)
Definition set_flag (flags F : Z) : Z := Z.lor flags F.
Definition clear_flag (flags F : Z) : Z := Z.land flags (Z.lnot F).

(** gssd flags (only the restart request is looked at here). *)
Definition GSSD_RESTART : Z := 2 ^ 0.
Definition GSSD_LUCID_CONTEXT : Z := 2 ^ 1.

(** ** The window bitmap

    Modelled from the spec: win_getbit, win_setbit and win_resetbit are
    macros of the same missing header; section 4.2 has them test, set and
    clear the bit of the bitmap at a slot index.  The 32-bit words of the
    C array are laid end to end in one [Z]. *)

Definition win_getbit (bits bit : Z) : bool := Z.testbit bits bit.
Definition win_setbit (bits bit : Z) : Z := Z.lor bits (Z.shiftl 1 bit).
Definition win_resetbit (bits bit : Z) : Z := Z.land bits (Z.lnot (Z.shiftl 1 bit)).

(** nfs_gss_seqbits_size, lines 2879-2883. *)
Definition nfs_gss_seqbits_size (win : Z) : Z := nfsm_rndup (u32 (win + 7) / 8).

(** ** Credentials, threads, addresses *)

Record kauth_cred : Set := mk_cred {
  cr_asid : Z;   (* audit session id: kauth_cred_getasid *)
  cr_auid : Z;   (* kauth_cred_getauid *)
  cr_uid : Z     (* kauth_cred_getuid *)
}.

Definition thread_t : Set := Z.
Definition addr : Set := Z.

(** ** struct nfs_gss_clnt_ctx: the fields nfs_gss.c reads and writes.
    [gss_clnt_verflen], [gss_clnt_tokenlen], [gss_clnt_handle_len] and
    [gss_clnt_prinlen] are the lengths of the corresponding buffers. *)

Record nfs_gss_clnt_ctx : Type := mk_ctx {
  gss_clnt_cred : kauth_cred;
  gss_clnt_principal : option (list byte);
  gss_clnt_prinnt : Z;
  gss_clnt_flags : Z;
  gss_clnt_refcnt : Z;
  gss_clnt_thread : option thread_t;
  gss_clnt_proc : rpcsec_gss_proc;
  gss_clnt_service : rpcsec_gss_service;
  gss_clnt_seqnum : Z;
  gss_clnt_seqwin : Z;
  gss_clnt_seqbits : option Z;
  gss_clnt_nctime : Z;
  gss_clnt_major : Z;
  gss_clnt_minor : Z;
  gss_clnt_gssd_flags : Z;
  gss_clnt_handle : option (list byte);
  gss_clnt_token : option (list byte);
  gss_clnt_verf : option (list byte);
  gss_clnt_ctx_id : option Z;
  gss_clnt_svcname : option (list byte)
}.

(** Field updates: [with_f v c] is [c] after the assignment [c->f = v]. *)

Definition with_flags (v0 : Z) (c : nfs_gss_clnt_ctx) : nfs_gss_clnt_ctx :=
  mk_ctx (gss_clnt_cred c) (gss_clnt_principal c) (gss_clnt_prinnt c) v0
    (gss_clnt_refcnt c) (gss_clnt_thread c) (gss_clnt_proc c) (gss_clnt_service c)
    (gss_clnt_seqnum c) (gss_clnt_seqwin c) (gss_clnt_seqbits c) (gss_clnt_nctime c)
    (gss_clnt_major c) (gss_clnt_minor c) (gss_clnt_gssd_flags c) (gss_clnt_handle c)
    (gss_clnt_token c) (gss_clnt_verf c) (gss_clnt_ctx_id c) (gss_clnt_svcname c).

Definition with_refcnt (v0 : Z) (c : nfs_gss_clnt_ctx) : nfs_gss_clnt_ctx :=
  mk_ctx (gss_clnt_cred c) (gss_clnt_principal c) (gss_clnt_prinnt c) (gss_clnt_flags c)
    v0 (gss_clnt_thread c) (gss_clnt_proc c) (gss_clnt_service c) (gss_clnt_seqnum c)
    (gss_clnt_seqwin c) (gss_clnt_seqbits c) (gss_clnt_nctime c) (gss_clnt_major c)
    (gss_clnt_minor c) (gss_clnt_gssd_flags c) (gss_clnt_handle c) (gss_clnt_token c)
    (gss_clnt_verf c) (gss_clnt_ctx_id c) (gss_clnt_svcname c).

Definition with_thread (v0 : option thread_t) (c : nfs_gss_clnt_ctx) : nfs_gss_clnt_ctx :=
  mk_ctx (gss_clnt_cred c) (gss_clnt_principal c) (gss_clnt_prinnt c) (gss_clnt_flags c)
    (gss_clnt_refcnt c) v0 (gss_clnt_proc c) (gss_clnt_service c) (gss_clnt_seqnum c)
    (gss_clnt_seqwin c) (gss_clnt_seqbits c) (gss_clnt_nctime c) (gss_clnt_major c)
    (gss_clnt_minor c) (gss_clnt_gssd_flags c) (gss_clnt_handle c) (gss_clnt_token c)
    (gss_clnt_verf c) (gss_clnt_ctx_id c) (gss_clnt_svcname c).

Definition with_proc (v0 : rpcsec_gss_proc) (c : nfs_gss_clnt_ctx) : nfs_gss_clnt_ctx :=
  mk_ctx (gss_clnt_cred c) (gss_clnt_principal c) (gss_clnt_prinnt c) (gss_clnt_flags c)
    (gss_clnt_refcnt c) (gss_clnt_thread c) v0 (gss_clnt_service c) (gss_clnt_seqnum c)
    (gss_clnt_seqwin c) (gss_clnt_seqbits c) (gss_clnt_nctime c) (gss_clnt_major c)
    (gss_clnt_minor c) (gss_clnt_gssd_flags c) (gss_clnt_handle c) (gss_clnt_token c)
    (gss_clnt_verf c) (gss_clnt_ctx_id c) (gss_clnt_svcname c).

Definition with_service (v0 : rpcsec_gss_service) (c : nfs_gss_clnt_ctx) : nfs_gss_clnt_ctx :=
  mk_ctx (gss_clnt_cred c) (gss_clnt_principal c) (gss_clnt_prinnt c) (gss_clnt_flags c)
    (gss_clnt_refcnt c) (gss_clnt_thread c) (gss_clnt_proc c) v0 (gss_clnt_seqnum c)
    (gss_clnt_seqwin c) (gss_clnt_seqbits c) (gss_clnt_nctime c) (gss_clnt_major c)
    (gss_clnt_minor c) (gss_clnt_gssd_flags c) (gss_clnt_handle c) (gss_clnt_token c)
    (gss_clnt_verf c) (gss_clnt_ctx_id c) (gss_clnt_svcname c).

Definition with_seqnum (v0 : Z) (c : nfs_gss_clnt_ctx) : nfs_gss_clnt_ctx :=
  mk_ctx (gss_clnt_cred c) (gss_clnt_principal c) (gss_clnt_prinnt c) (gss_clnt_flags c)
    (gss_clnt_refcnt c) (gss_clnt_thread c) (gss_clnt_proc c) (gss_clnt_service c) v0
    (gss_clnt_seqwin c) (gss_clnt_seqbits c) (gss_clnt_nctime c) (gss_clnt_major c)
    (gss_clnt_minor c) (gss_clnt_gssd_flags c) (gss_clnt_handle c) (gss_clnt_token c)
    (gss_clnt_verf c) (gss_clnt_ctx_id c) (gss_clnt_svcname c).

Definition with_seqwin (v0 : Z) (c : nfs_gss_clnt_ctx) : nfs_gss_clnt_ctx :=
  mk_ctx (gss_clnt_cred c) (gss_clnt_principal c) (gss_clnt_prinnt c) (gss_clnt_flags c)
    (gss_clnt_refcnt c) (gss_clnt_thread c) (gss_clnt_proc c) (gss_clnt_service c)
    (gss_clnt_seqnum c) v0 (gss_clnt_seqbits c) (gss_clnt_nctime c) (gss_clnt_major c)
    (gss_clnt_minor c) (gss_clnt_gssd_flags c) (gss_clnt_handle c) (gss_clnt_token c)
    (gss_clnt_verf c) (gss_clnt_ctx_id c) (gss_clnt_svcname c).

Definition with_seqbits (v0 : option Z) (c : nfs_gss_clnt_ctx) : nfs_gss_clnt_ctx :=
  mk_ctx (gss_clnt_cred c) (gss_clnt_principal c) (gss_clnt_prinnt c) (gss_clnt_flags c)
    (gss_clnt_refcnt c) (gss_clnt_thread c) (gss_clnt_proc c) (gss_clnt_service c)
    (gss_clnt_seqnum c) (gss_clnt_seqwin c) v0 (gss_clnt_nctime c) (gss_clnt_major c)
    (gss_clnt_minor c) (gss_clnt_gssd_flags c) (gss_clnt_handle c) (gss_clnt_token c)
    (gss_clnt_verf c) (gss_clnt_ctx_id c) (gss_clnt_svcname c).

Definition with_nctime (v0 : Z) (c : nfs_gss_clnt_ctx) : nfs_gss_clnt_ctx :=
  mk_ctx (gss_clnt_cred c) (gss_clnt_principal c) (gss_clnt_prinnt c) (gss_clnt_flags c)
    (gss_clnt_refcnt c) (gss_clnt_thread c) (gss_clnt_proc c) (gss_clnt_service c)
    (gss_clnt_seqnum c) (gss_clnt_seqwin c) (gss_clnt_seqbits c) v0 (gss_clnt_major c)
    (gss_clnt_minor c) (gss_clnt_gssd_flags c) (gss_clnt_handle c) (gss_clnt_token c)
    (gss_clnt_verf c) (gss_clnt_ctx_id c) (gss_clnt_svcname c).

Definition with_status (v0 : Z) (v1 : Z) (c : nfs_gss_clnt_ctx) : nfs_gss_clnt_ctx :=
  mk_ctx (gss_clnt_cred c) (gss_clnt_principal c) (gss_clnt_prinnt c) (gss_clnt_flags c)
    (gss_clnt_refcnt c) (gss_clnt_thread c) (gss_clnt_proc c) (gss_clnt_service c)
    (gss_clnt_seqnum c) (gss_clnt_seqwin c) (gss_clnt_seqbits c) (gss_clnt_nctime c) v0 v1
    (gss_clnt_gssd_flags c) (gss_clnt_handle c) (gss_clnt_token c) (gss_clnt_verf c)
    (gss_clnt_ctx_id c) (gss_clnt_svcname c).

Definition with_gssd_flags (v0 : Z) (c : nfs_gss_clnt_ctx) : nfs_gss_clnt_ctx :=
  mk_ctx (gss_clnt_cred c) (gss_clnt_principal c) (gss_clnt_prinnt c) (gss_clnt_flags c)
    (gss_clnt_refcnt c) (gss_clnt_thread c) (gss_clnt_proc c) (gss_clnt_service c)
    (gss_clnt_seqnum c) (gss_clnt_seqwin c) (gss_clnt_seqbits c) (gss_clnt_nctime c)
    (gss_clnt_major c) (gss_clnt_minor c) v0 (gss_clnt_handle c) (gss_clnt_token c)
    (gss_clnt_verf c) (gss_clnt_ctx_id c) (gss_clnt_svcname c).

Definition with_handle (v0 : option (list byte)) (c : nfs_gss_clnt_ctx) : nfs_gss_clnt_ctx :=
  mk_ctx (gss_clnt_cred c) (gss_clnt_principal c) (gss_clnt_prinnt c) (gss_clnt_flags c)
    (gss_clnt_refcnt c) (gss_clnt_thread c) (gss_clnt_proc c) (gss_clnt_service c)
    (gss_clnt_seqnum c) (gss_clnt_seqwin c) (gss_clnt_seqbits c) (gss_clnt_nctime c)
    (gss_clnt_major c) (gss_clnt_minor c) (gss_clnt_gssd_flags c) v0 (gss_clnt_token c)
    (gss_clnt_verf c) (gss_clnt_ctx_id c) (gss_clnt_svcname c).

Definition with_token (v0 : option (list byte)) (c : nfs_gss_clnt_ctx) : nfs_gss_clnt_ctx :=
  mk_ctx (gss_clnt_cred c) (gss_clnt_principal c) (gss_clnt_prinnt c) (gss_clnt_flags c)
    (gss_clnt_refcnt c) (gss_clnt_thread c) (gss_clnt_proc c) (gss_clnt_service c)
    (gss_clnt_seqnum c) (gss_clnt_seqwin c) (gss_clnt_seqbits c) (gss_clnt_nctime c)
    (gss_clnt_major c) (gss_clnt_minor c) (gss_clnt_gssd_flags c) (gss_clnt_handle c) v0
    (gss_clnt_verf c) (gss_clnt_ctx_id c) (gss_clnt_svcname c).

Definition with_verf (v0 : option (list byte)) (c : nfs_gss_clnt_ctx) : nfs_gss_clnt_ctx :=
  mk_ctx (gss_clnt_cred c) (gss_clnt_principal c) (gss_clnt_prinnt c) (gss_clnt_flags c)
    (gss_clnt_refcnt c) (gss_clnt_thread c) (gss_clnt_proc c) (gss_clnt_service c)
    (gss_clnt_seqnum c) (gss_clnt_seqwin c) (gss_clnt_seqbits c) (gss_clnt_nctime c)
    (gss_clnt_major c) (gss_clnt_minor c) (gss_clnt_gssd_flags c) (gss_clnt_handle c)
    (gss_clnt_token c) v0 (gss_clnt_ctx_id c) (gss_clnt_svcname c).

Definition with_ctx_id (v0 : option Z) (c : nfs_gss_clnt_ctx) : nfs_gss_clnt_ctx :=
  mk_ctx (gss_clnt_cred c) (gss_clnt_principal c) (gss_clnt_prinnt c) (gss_clnt_flags c)
    (gss_clnt_refcnt c) (gss_clnt_thread c) (gss_clnt_proc c) (gss_clnt_service c)
    (gss_clnt_seqnum c) (gss_clnt_seqwin c) (gss_clnt_seqbits c) (gss_clnt_nctime c)
    (gss_clnt_major c) (gss_clnt_minor c) (gss_clnt_gssd_flags c) (gss_clnt_handle c)
    (gss_clnt_token c) (gss_clnt_verf c) v0 (gss_clnt_svcname c).

Definition with_svcname (v0 : option (list byte)) (c : nfs_gss_clnt_ctx) : nfs_gss_clnt_ctx :=
  mk_ctx (gss_clnt_cred c) (gss_clnt_principal c) (gss_clnt_prinnt c) (gss_clnt_flags c)
    (gss_clnt_refcnt c) (gss_clnt_thread c) (gss_clnt_proc c) (gss_clnt_service c)
    (gss_clnt_seqnum c) (gss_clnt_seqwin c) (gss_clnt_seqbits c) (gss_clnt_nctime c)
    (gss_clnt_major c) (gss_clnt_minor c) (gss_clnt_gssd_flags c) (gss_clnt_handle c)
    (gss_clnt_token c) (gss_clnt_verf c) (gss_clnt_ctx_id c) v0.

(** The bitmap of a context; a NULL [gss_clnt_seqbits] reads as no bit. *)
Definition seqbits_of (c : nfs_gss_clnt_ctx) : Z := default 0 (gss_clnt_seqbits c).

(** ** Constants of headers that are not among the sources

    nfs_gss.c uses these by name only; every definition below takes them
    from this class, and [sample_limits] is one choice of values used to
    run the definitions. *)

Class gss_limits : Set := mk_limits {
  GSS_CLNT_SEQLISTMAX : Z;        (* cap on a request's sequence list *)
  GSS_NEG_CACHE_TO : Z;           (* negative-cache grace period, seconds *)
  GSS_MAX_NEG_CACHE_ENTRIES : Z;  (* negative-cache ceiling *)
  NFS_TRYLATERDEL : Z;            (* first delay of the setup retry loop *)
  GSS_MAX_CTX_HANDLE_LEN : Z;
  GSS_MAX_TOKEN_LEN : Z
}.

Definition sample_limits : gss_limits := mk_limits 32 3 16 4 256 65536.

(** ** Results of kernel code that can stop the machine *)

Inductive kresult (A : Type) : Type :=
  | KOk (a : A)
  | KPanic          (* panic(...) *)
  | KTrap.          (* division by zero, NULL dereference *)

Arguments KOk {A} a.
Arguments KPanic {A}.
Arguments KTrap {A}.

(** ** Wait channels

    msleep(cp, ...) and wakeup(cp) are kernel primitives.  A thread that
    sleeps on the channel [cp] joins the channel's sleepers; wakeup(cp)
    makes every thread asleep on the channel runnable (the comment above
    nfs_gss_clnt_rpcdone: "we notify the waiting thread(s)"; waking a
    single sleeper is a different primitive, wakeup_one).  [ch_sleepq] is
    the set of threads asleep on the context. *)

Record ctx_chan : Type := mk_chan {
  ch_ctx : nfs_gss_clnt_ctx;
  ch_sleepq : list thread_t
}.

Definition msleep (t : thread_t) (ch : ctx_chan) : ctx_chan :=
  mk_chan (ch_ctx ch) (ch_sleepq ch ++ [t]).

Definition wakeup (ch : ctx_chan) : ctx_chan * list thread_t :=
  (mk_chan (ch_ctx ch) [], ch_sleepq ch).

(** ** Taking a sequence number: nfs_gss_clnt_cred_put, lines 845-868 *)

(** The slot tested at lines 846-847, in uint32_t arithmetic. *)
Definition oldest_slot (cp : nfs_gss_clnt_ctx) : Z :=
  u32 (gss_clnt_seqnum cp - gss_clnt_seqwin cp + 1) mod gss_clnt_seqwin cp.

Inductive seq_outcome : Set :=
  | SeqAssigned (seqnum : Z)   (* lines 862-864: the loop was left *)
  | SeqAsleep                  (* line 849: the caller sleeps on cp *)
  | SeqIntr (e : errno_t)      (* line 852: nfs_sigintr reported an error *)
  | SeqRestart                 (* lines 855-859: context renewed, goto retry *)
  | SeqTrap.                   (* zero window or no bitmap *)

(** One evaluation of the [while] condition at line 846 by thread [t],
    with the context mutex held: either the loop body up to msleep, or
    lines 862-864. *)
Definition cred_put_seqwin_check (t : thread_t) (ch : ctx_chan) : seq_outcome * ctx_chan :=
  let cp := ch_ctx ch in
  match gss_clnt_seqbits cp with
  | None => (SeqTrap, ch)
  | Some bits =>
    if gss_clnt_seqwin cp =? 0 then (SeqTrap, ch)
    else if win_getbit bits (oldest_slot cp) then
      (SeqAsleep,
       msleep t (mk_chan (with_flags (set_flag (gss_clnt_flags cp) GSS_NEEDSEQ) cp)
                         (ch_sleepq ch)))
    else
      let seqnum := u32 (gss_clnt_seqnum cp + 1) in
      (SeqAssigned seqnum,
       mk_chan (with_seqbits (Some (win_setbit bits (seqnum mod gss_clnt_seqwin cp)))
                             (with_seqnum seqnum cp))
               (ch_sleepq ch))
  end.

(** What a thread does when it returns from msleep (lines 850-861):
    [sig] is the answer of nfs_sigintr. *)
Definition cred_put_seqwin_resume (sig : errno_t) (t : thread_t) (ch : ctx_chan)
  : seq_outcome * ctx_chan :=
  if is_error sig then (SeqIntr sig, ch)
  else if has_flag (gss_clnt_flags (ch_ctx ch)) GSS_CTX_INVAL then (SeqRestart, ch)
  else cred_put_seqwin_check t ch.

(** [ts] take sequence numbers one after the other, nobody releasing in
    between; [None] as soon as one of them does not get a number. *)
Fixpoint seqwin_take (ts : list thread_t) (ch : ctx_chan) : option (list Z * ctx_chan) :=
  match ts with
  | [] => Some ([], ch)
  | t :: ts' =>
    match cred_put_seqwin_check t ch with
    | (SeqAssigned n, ch') =>
      match seqwin_take ts' ch' with
      | Some (ns, ch'') => Some (n :: ns, ch'')
      | None => None
      end
    | _ => None
    end
  end.

(** Threads that arrive while the window is full: each runs the check. *)
Fixpoint seqwin_arrive (ts : list thread_t) (ch : ctx_chan) : list seq_outcome * ctx_chan :=
  match ts with
  | [] => ([], ch)
  | t :: ts' =>
    let '(o, ch') := cred_put_seqwin_check t ch in
    let '(os, ch'') := seqwin_arrive ts' ch' in
    (o :: os, ch'')
  end.

(** ** nfs_gss_clnt_rpcdone, lines 2109-2150

    [seqlist] is req->r_gss_seqlist (most recent first) and [cpo] is what
    req->r_gss_ctx points to.  The result carries the threads made
    runnable by wakeup. *)
Definition nfs_gss_clnt_rpcdone `{gss_limits} (seqlist : list Z) (cpo : option ctx_chan)
  : kresult (list Z * option ctx_chan * list thread_t) :=
  match cpo with
  | None => KOk (seqlist, None, [])
  | Some ch =>
    let cp := ch_ctx ch in
    if negb (has_flag (gss_clnt_flags cp) GSS_CTX_COMPLETE) then KOk (seqlist, cpo, [])
    else
      let reset :=
        match seqlist with
        | gsp :: _ =>
          if u32 (gss_clnt_seqnum cp - gss_clnt_seqwin cp) <? gsp then
            match gss_clnt_seqbits cp with
            | Some bits =>
              if gss_clnt_seqwin cp =? 0 then KTrap
              else KOk (with_seqbits (Some (win_resetbit bits (gsp mod gss_clnt_seqwin cp))) cp)
            | None => KTrap
            end
          else KOk cp
        | [] => KOk cp
        end in
      match reset with
      | KOk cp1 =>
        let seqlist' := firstn (Z.to_nat GSS_CLNT_SEQLISTMAX) seqlist in
        if has_flag (gss_clnt_flags cp1) GSS_NEEDSEQ then
          let '(ch', woken) :=
            wakeup (mk_chan (with_flags (clear_flag (gss_clnt_flags cp1) GSS_NEEDSEQ) cp1)
                            (ch_sleepq ch)) in
          KOk (seqlist', Some ch', woken)
        else KOk (seqlist', Some (mk_chan cp1 (ch_sleepq ch)), [])
      | KPanic => KPanic
      | KTrap => KTrap
      end
  end.

(** A completed context with an empty window, as nfs_gss_clnt_ctx_init
    leaves it (lines 1430-1436). *)
Definition fresh_window (W s : Z) : ctx_chan :=
  mk_chan (mk_ctx (mk_cred 100 501 501) None 0 GSS_CTX_COMPLETE 1 None RPCSEC_GSS_DATA
                  RPCSEC_GSS_SVC_NONE s W (Some 0) 0 0 0 0 None None None (Some 1) None) [].

(** The scenario of section 8 of the specification, run on the code:
    window 4, counter 999; threads 1 to 4 take 1000 to 1003, threads 5
    and 6 arrive late, then the request holding 1000 completes. *)
Definition scenario_full : ctx_chan :=
  Eval vm_compute in
    match seqwin_take [1; 2; 3; 4] (fresh_window 4 999) with
    | Some (_, ch) => ch
    | None => fresh_window 4 999
    end.

Definition scenario_waiting : ctx_chan :=
  Eval vm_compute in snd (seqwin_arrive [5; 6] scenario_full).

Definition scenario_released : ctx_chan :=
  Eval vm_compute in
    match @nfs_gss_clnt_rpcdone sample_limits [1000] (Some scenario_waiting) with
    | KOk (_, Some ch, _) => ch
    | _ => scenario_waiting
    end.

(** ** mbuf chains

    An mbuf is its data bytes and the free space in front of them; a
    chain is the list of its mbufs, NULL being the empty list.  The mbuf
    KPI (mbuf_adj, mbuf_prepend) and the nfsm_chain macros are kernel
    code outside this file; they are given the effect their callers in
    nfs_gss.c rely on.  The allocations use MBUF_WAITOK and are taken to
    succeed. *)

Record mbuf : Set := mk_mbuf {
  m_lead : Z;            (* mbuf_leadingspace *)
  m_data : list byte     (* mbuf_data, mbuf_len bytes long *)
}.

Definition mbuf_len (m : mbuf) : Z := Z.of_nat (length (m_data m)).

(** nfs_gss_mchain_length, lines 2863-2874. *)
Fixpoint nfs_gss_mchain_length (mhead : list mbuf) : Z :=
  match mhead with
  | [] => 0
  | mb :: rest => mbuf_len mb + nfs_gss_mchain_length rest
  end.

(** The bytes a chain carries on the wire. *)
Definition mchain_bytes (mc : list mbuf) : list byte := concat (map m_data mc).

(** mbuf_adj with a positive length trims from the front of the chain
    and leaves the emptied mbufs linked. *)
Fixpoint mbuf_adj (mc : list mbuf) (len : Z) : list mbuf :=
  match mc with
  | [] => []
  | m :: rest =>
    if len <=? 0 then mc
    else if mbuf_len m <=? len then mk_mbuf (m_lead m) [] :: mbuf_adj rest (len - mbuf_len m)
    else mk_mbuf (m_lead m + len) (skipn (Z.to_nat len) (m_data m)) :: rest
  end.

(** The loops at lines 335-342 and 408-415: free the empty mbufs at the
    head of the chain. *)
Fixpoint drop_empty_mbufs (mc : list mbuf) : list mbuf :=
  match mc with
  | [] => []
  | m :: rest => if mbuf_len m =? 0 then drop_empty_mbufs rest else mc
  end.

#[global] Instance byte_eq_dec : EqDecision byte := Strings.Byte.byte_eq_dec.

Definition byte_of_Z (z : Z) : byte :=
  default x00 (Strings.Byte.of_N (Z.to_N (z mod 256))).

(** txdr_unsigned: a 32-bit value in network byte order. *)
Definition txdr_unsigned (v : Z) : list byte :=
  [byte_of_Z (v / 2 ^ 24); byte_of_Z (v / 2 ^ 16); byte_of_Z (v / 2 ^ 8); byte_of_Z v].

Definition xdrpad (n : Z) : list byte := List.repeat x00 (Z.to_nat n).

(** ** The krb5 mechanism, as a capability (gss_krb5_mech.c)

    [gss_ctx_id_t] handles are numbers.  Each operation returns the GSS
    major status, the minor status the callers store in [error], and its
    output. *)

Class gss_krb5 : Type := mk_gss_krb5 {
  gss_krb5_get_mic_mbuf : Z -> list byte -> Z * errno_t * list byte;
  gss_krb5_verify_mic : Z -> list byte -> list byte -> Z * errno_t;
  gss_krb5_wrap_mbuf : Z -> list byte -> Z * errno_t * list mbuf;
  gss_krb5_unwrap_mbuf : Z -> list byte -> Z * errno_t * list mbuf
}.

(** What the callers expect of the mechanism: a wrap token unwraps to
    the message that was wrapped, and a MIC verifies on its message. *)
Class gss_krb5_laws (G : gss_krb5) : Prop := mk_gss_krb5_laws {
  unwrap_wrap : forall ctx msg e tok,
    gss_krb5_wrap_mbuf ctx msg = (GSS_S_COMPLETE, e, tok) ->
    exists e' plain,
      gss_krb5_unwrap_mbuf ctx (mchain_bytes tok) = (GSS_S_COMPLETE, e', plain) /\
      mchain_bytes plain = msg;
  verify_get_mic : forall ctx msg e mic,
    gss_krb5_get_mic_mbuf ctx msg = (GSS_S_COMPLETE, e, mic) ->
    fst (gss_krb5_verify_mic ctx msg mic) = GSS_S_COMPLETE
}.

(** rpc_gss_prepend_32, lines 127-160.  mbuf_prepend takes the four
    bytes from the leading space of the first mbuf when there is room
    and links a new mbuf in front otherwise. *)
Definition rpc_gss_prepend_32 (mb : list mbuf) (value : Z) : errno_t * list mbuf :=
  match mb with
  | [] => (EINVAL, [])
  | m :: rest =>
    if 4 <=? m_lead m
    then (E0, mk_mbuf (m_lead m - 4) (txdr_unsigned value ++ m_data m) :: rest)
    else (E0, mk_mbuf 0 (txdr_unsigned value) :: m :: rest)
  end.

(** rpc_gss_data_create, lines 170-206: a new mbuf with 16 words of
    leading space and the sequence number, linked in front. *)
Definition rpc_gss_data_create (mbp_head : list mbuf) (seqnum : Z) : errno_t * list mbuf :=
  (E0, mk_mbuf (16 * 4) (txdr_unsigned seqnum) :: mbp_head).

(** Lines 250-256: advance to the end of the data, finish the mbuf, and
    add the opaque MIC (length word, bytes, XDR pad) in an mbuf of its
    own. *)
Definition nfsm_chain_append_opaque (mc : list mbuf) (o : list byte) : list mbuf :=
  mc ++ [mk_mbuf 0 (txdr_unsigned (Z.of_nat (length o)) ++ o
                    ++ xdrpad (nfsm_pad (Z.of_nat (length o))))].

(** rpc_gss_integ_data_create, lines 216-263.  Returns the error, the
    new chain and [*len]. *)
Definition rpc_gss_integ_data_create `{gss_krb5} (ctx : Z) (mb_head : list mbuf) (seqnum : Z)
  : errno_t * list mbuf * Z :=
  let length := u32 (nfs_gss_mchain_length mb_head) in
  let len := length in
  let '(error, mb1) := rpc_gss_data_create mb_head seqnum in
  if is_error error then (error, mb_head, len)
  else
    let length := u32 (length + NFSX_UNSIGNED) in
    let '(major, error, mic) :=
      gss_krb5_get_mic_mbuf ctx (take (Z.to_nat length) (mchain_bytes mb1)) in
    if negb (major =? GSS_S_COMPLETE) then (error, mb1, len)
    else
      let '(error, mb2) := rpc_gss_prepend_32 mb1 length in
      if is_error error then (error, mb2, len)
      else (E0, nfsm_chain_append_opaque mb2 mic, len).

(** rpc_gss_priv_data_create, lines 271-313. *)
Definition rpc_gss_priv_data_create `{gss_krb5} (ctx : Z) (mb_head : list mbuf) (seqnum : Z)
  : errno_t * list mbuf * Z :=
  let '(error, mb1) := rpc_gss_data_create mb_head seqnum in
  if is_error error then (error, mb_head, 0)
  else
    let length := u32 (nfs_gss_mchain_length mb1) in
    let '(major, error, tok) :=
      gss_krb5_wrap_mbuf ctx (take (Z.to_nat length) (mchain_bytes mb1)) in
    if negb (major =? GSS_S_COMPLETE) then (error, tok, 0)
    else
      let length := u32 (nfs_gss_mchain_length tok) in
      let len := length in
      let pad := nfsm_pad length in
      let '(error, mb2) := rpc_gss_prepend_32 tok length in
      if is_error error then (error, mb2, len)
      else if negb (pad =? 0) then (E0, mb2 ++ [mk_mbuf 0 (xdrpad pad)], len)
      else (E0, mb2, len).

(** The loop at lines 345-352: the mbufs walked while [len] is not used
    up, or [None] when an mbuf is longer than what is left of [len]. *)
Fixpoint integ_walk (mb : list mbuf) (len : Z) : option (list mbuf) :=
  match mb with
  | [] => Some []
  | m :: rest =>
    if len =? 0 then Some []
    else if mbuf_len m <=? len then
      match integ_walk rest (len - mbuf_len m) with
      | Some kept => Some (m :: kept)
      | None => None
      end
    else None
  end.

(** rpc_gss_integ_data_restore, lines 325-360. *)
Definition rpc_gss_integ_data_restore (ctx : Z) (mb_head : list mbuf) (len : Z)
  : errno_t * list mbuf :=
  let mb := drop_empty_mbufs (mbuf_adj mb_head (2 * NFSX_UNSIGNED)) in
  match mb with
  | [] => (E0, mb)                       (* tail stays NULL *)
  | _ :: _ =>
    if len =? 0 then (E0, mb)            (* tail stays NULL: nothing is cut *)
    else
      match integ_walk mb len with
      | None => (EBADRPC, mb)
      | Some kept => (E0, kept)          (* the mic is dropped after tail *)
      end
  end.

(** The loop at lines 384-387: the mbufs walked, what follows them, and
    the length counted. *)
Fixpoint priv_walk (mb : list mbuf) (len length : Z) : list mbuf * list mbuf * Z :=
  match mb with
  | [] => ([], [], length)
  | m :: rest =>
    if length <? len then
      let '(kept, after, l) := priv_walk rest len (length + mbuf_len m) in
      (m :: kept, after, l)
    else ([], mb, length)
  end.

(** rpc_gss_priv_data_restore, lines 369-419.  The assert at line 405 is
    compiled out of release kernels and is not modelled. *)
Definition rpc_gss_priv_data_restore `{gss_krb5} (ctx : Z) (mb_head : list mbuf) (len : Z)
  : errno_t * list mbuf :=
  let mb := mbuf_adj mb_head NFSX_UNSIGNED in
  let plen := nfsm_pad len in
  let cut :=
    if negb (plen =? 0) then
      let '(kept, after, length) := priv_walk mb len 0 in
      if negb (length =? len) || bool_decide (after = []) || bool_decide (kept = [])
      then None else Some kept
    else Some mb in
  match cut with
  | None => (EBADRPC, mb)
  | Some mb1 =>
    let '(major, error, plain) :=
      gss_krb5_unwrap_mbuf ctx (take (Z.to_nat len) (mchain_bytes mb1)) in
    if negb (major =? GSS_S_COMPLETE) then (error, mb1)
    else (E0, drop_empty_mbufs (mbuf_adj plain NFSX_UNSIGNED))
  end.

(** A stand-in mechanism to run the codecs on: the MIC of a message is
    its length word, a wrap token is the message behind a one-byte tag. *)
Definition toy_krb5 : gss_krb5 :=
  mk_gss_krb5
    (fun _ msg => (GSS_S_COMPLETE, E0, txdr_unsigned (Z.of_nat (length msg))))
    (fun _ msg mic =>
       if bool_decide (mic = txdr_unsigned (Z.of_nat (length msg)))
       then (GSS_S_COMPLETE, E0) else (2, EBADRPC))
    (fun _ msg => (GSS_S_COMPLETE, E0, [mk_mbuf 0 (x01 :: msg)]))
    (fun _ tok =>
       match tok with
       | x01 :: msg => (GSS_S_COMPLETE, E0, [mk_mbuf 0 (take 4 msg); mk_mbuf 0 (drop 4 msg)])
       | _ => (2, EBADRPC, [])
       end).


(** ** The mount: the fields of struct nfsmount that nfs_gss.c uses *)

(** struct nfs_etype: the configured encryption types, how many there
    are, and the index of the one selected last. *)
Record nfs_etype : Set := mk_etype {
  et_count : Z;
  et_selected : Z;
  et_etypes : list Z
}.

Record nfsmount : Type := mk_mount {
  nm_gone : bool;          (* nfs_mount_gone: forced or dead unmount *)
  nm_soft : bool;          (* NMFLAG(nmp, SOFT) *)
  nm_retry : Z;            (* nm_retry *)
  nm_etype : nfs_etype;
  nm_gsscl : list addr;    (* the TAILQ nm_gsscl, head first *)
  nm_ncentries : Z         (* nm_ncentries, a uint32_t *)
}.

Definition with_nm_selected (i : Z) (nmp : nfsmount) : nfsmount :=
  mk_mount (nm_gone nmp) (nm_soft nmp) (nm_retry nmp)
    (mk_etype (et_count (nm_etype nmp)) i (et_etypes (nm_etype nmp)))
    (nm_gsscl nmp) (nm_ncentries nmp).

Definition with_nm_gsscl (l : list addr) (nmp : nfsmount) : nfsmount :=
  mk_mount (nm_gone nmp) (nm_soft nmp) (nm_retry nmp) (nm_etype nmp) l (nm_ncentries nmp).

Definition with_nm_ncentries (n : Z) (nmp : nfsmount) : nfsmount :=
  mk_mount (nm_gone nmp) (nm_soft nmp) (nm_retry nmp) (nm_etype nmp) (nm_gsscl nmp) n.

(** ** C loops and arrays *)

(** [for_range lo hi body s] is [for (i = lo; i < hi; i++) s = body i s]. *)
Fixpoint for_loop {S : Type} (n : nat) (i : Z) (body : Z -> S -> S) (s : S) : S :=
  match n with
  | O => s
  | Datatypes.S n' => for_loop n' (i + 1) body (body i s)
  end.

Definition for_range {S : Type} (lo hi : Z) (body : Z -> S -> S) (s : S) : S :=
  for_loop (Z.to_nat (hi - lo)) lo body s.

Definition arr_get (a : list Z) (i : Z) : Z := default 0 (a !! Z.to_nat i).
Definition arr_set (a : list Z) (i v : Z) : list Z := <[Z.to_nat i := v]> a.

(** ** The gssd upcall: nfs_gss_clnt_gssd_upcall, lines 1819-2093 *)

(** Lines 1874-1882: the order of preference, the selected type first. *)
Definition etypes_ordered (nm : nfs_etype) : list Z :=
  let src := et_etypes nm in
  if et_selected nm <? et_count nm then
    let e := arr_set src 0 (arr_get src (et_selected nm)) in
    let e := for_range 0 (et_selected nm) (fun i e => arr_set e (i + 1) (arr_get src i)) e in
    for_range (et_selected nm + 1) (et_count nm) (fun i e => arr_set e i (arr_get src i)) e
  else src.

(** Lines 1866-1888: the mount's encryption types with the selected one
    moved to the front and the first [retrycnt] of them removed. *)
Definition gssd_upcall_etypes (nm : nfs_etype) (retrycnt : Z) : nfs_etype :=
  let ordered := etypes_ordered nm in
  let shifted :=
    for_range retrycnt (et_count nm)
      (fun i e => arr_set e (i - retrycnt) (arr_get e i)) ordered in
  mk_etype (et_count nm - retrycnt) (et_selected nm) shifted.

(** The list handed to gssd: [etype.count] entries of [etype.etypes]. *)
Definition etypes_offered (nm : nfs_etype) (retrycnt : Z) : list Z :=
  let etype := gssd_upcall_etypes nm retrycnt in
  take (Z.to_nat (et_count etype)) (et_etypes etype).

(** Lines 2042-2047: the index of an encryption type among the mount's. *)
Fixpoint etype_index (et : Z) (l : list Z) (i : Z) : option Z :=
  match l with
  | [] => None
  | x :: l' => if x =? et then Some i else etype_index et l' (i + 1)
  end.

(** What gssd answers to one upcall.  The Mach exchange, the port lookup
    and the VM copies are outside nfs_gss.c (section 4.5 of the
    specification gives them as a contract); allocations are taken to
    succeed. *)
Inductive gssd_answer : Type :=
  | GssdNoPort     (* line 1918: no port to gssd *)
  | GssdLost       (* lines 1966-1985: the Mach call failed for good *)
  | GssdReply (major minor : Z)
              (lucid : option (Z * Z))   (* exported context: its id and its etype *)
              (otoken : list byte).

Definition gss_major_bad (major : Z) : bool :=
  negb (major =? GSS_S_COMPLETE) && negb (major =? GSS_S_CONTINUE_NEEDED).

(** Label [out], lines 2080-2092. *)
Definition gssd_upcall_out (cp : nfs_gss_clnt_ctx) : nfs_gss_clnt_ctx :=
  with_handle None (with_token None cp).

(** Returns the error, the context, the mount, and the encryption types
    offered to gssd when the call was made. *)
Definition nfs_gss_clnt_gssd_upcall (nmp : nfsmount) (cp : nfs_gss_clnt_ctx)
    (retrycnt : Z) (gssd : gssd_answer)
  : errno_t * nfs_gss_clnt_ctx * nfsmount * option (list Z) :=
  if nm_gone nmp then (ENXIO, cp, nmp, None)
  else
    let cp :=
      if has_flag (gss_clnt_gssd_flags cp) GSSD_RESTART
      then with_handle None (with_proc RPCSEC_GSS_INIT (with_token None cp))
      else cp in
    if et_count (nm_etype nmp) <=? retrycnt then (EACCES, cp, nmp, None)
    else
      let offered := etypes_offered (nm_etype nmp) retrycnt in
      match gssd with
      | GssdNoPort => (NFSERR_EAUTH, gssd_upcall_out cp, nmp, None)
      | GssdLost =>
        let cp := with_gssd_flags
                    (clear_flag (set_flag (gss_clnt_gssd_flags cp) GSSD_LUCID_CONTEXT)
                                GSSD_RESTART) cp in
        (NFSERR_EAUTH, gssd_upcall_out cp, nmp, Some offered)
      | GssdReply major minor lucid otoken =>
        let cp := with_gssd_flags
                    (clear_flag (set_flag (gss_clnt_gssd_flags cp) GSSD_LUCID_CONTEXT)
                                GSSD_RESTART) cp in
        let cp := with_status major minor cp in
        let cp := if gss_major_bad major then with_handle None cp else cp in
        let cp := match lucid with
                  | Some (id, _) => with_ctx_id (Some id) cp
                  | None => cp
                  end in
        let selected :=
          match lucid with
          | Some (_, et) =>
            etype_index et (take (Z.to_nat (et_count (nm_etype nmp)))
                                 (et_etypes (nm_etype nmp))) 0
          | None => None
          end in
        let cp := with_token (match otoken with [] => None | _ => Some otoken end) cp in
        let nmp := match selected with
                   | Some i => with_nm_selected i nmp
                   | None => nmp
                   end in
        (E0, cp, nmp, Some offered)
      end.

(** ** The null call to the server: nfs_gss_clnt_ctx_callserver,
    lines 1556-1644

    [sa_error] is what nfs_request_gss returns (or the RPC status);
    [sa_verf] is the verifier nfs_gss_clnt_verf_get stashed in the
    context while the reply was read, if the reply carried one. *)
Record server_answer : Type := mk_server_answer {
  sa_error : errno_t;
  sa_verf : option (list byte);
  sa_handle : list byte;
  sa_major : Z;
  sa_minor : Z;
  sa_seqwin : Z;
  sa_token : list byte
}.

Definition nfs_gss_clnt_ctx_callserver `{gss_limits} (nmp : nfsmount)
    (cp : nfs_gss_clnt_ctx) (srv : server_answer) : errno_t * nfs_gss_clnt_ctx :=
  if nm_gone nmp then (ENXIO, cp)
  else
    let cp := match sa_verf srv with
              | Some v => with_verf (Some v) cp
              | None => cp
              end in
    let cp := with_token None cp in
    if is_error (sa_error srv) then (sa_error srv, cp)
    else
      let handle_len := Z.of_nat (length (sa_handle srv)) in
      if (0 <? handle_len) && (handle_len <? GSS_MAX_CTX_HANDLE_LEN) then
        let cp := with_handle (Some (sa_handle srv)) cp in
        let cp := with_seqwin (sa_seqwin srv) (with_status (sa_major srv) (sa_minor srv) cp) in
        let tokenlen := Z.of_nat (length (sa_token srv)) in
        if (0 <? tokenlen) && (tokenlen <? GSS_MAX_TOKEN_LEN)
        then (E0, with_token (Some (sa_token srv)) cp)
        else (EBADRPC, cp)
      else (EBADRPC, with_handle None cp).

(** ** Context setup: nfs_gss_clnt_ctx_init, lines 1299-1474 *)

Inductive r_auth_t : Set := RPCAUTH_SYS | RPCAUTH_KRB5 | RPCAUTH_KRB5I | RPCAUTH_KRB5P.

(** Lines 1323-1326. *)
Definition service_of_auth (a : r_auth_t) : rpcsec_gss_service :=
  match a with
  | RPCAUTH_KRB5 => RPCSEC_GSS_SVC_NONE
  | RPCAUTH_KRB5I => RPCSEC_GSS_SVC_INTEGRITY
  | RPCAUTH_KRB5P => RPCSEC_GSS_SVC_PRIVACY
  | RPCAUTH_SYS => RPCSEC_GSS_SVC_0
  end.

(** The answers of gssd and of the server to the n-th pass of the loop. *)
Record round_answer : Type := mk_round {
  ra_gssd : gssd_answer;
  ra_server : server_answer
}.

(** The locals of nfs_gss_clnt_ctx_init while the loop runs.
    [is_offers] records, latest first, the retry count and the
    encryption types of every upcall that reached gssd. *)
Record init_state : Type := mk_init {
  is_cp : nfs_gss_clnt_ctx;
  is_nmp : nfsmount;
  is_retrycnt : Z;
  is_client_complete : bool;
  is_server_complete : bool;
  is_round : nat;
  is_offers : list (Z * list Z)
}.

Inductive loop_step : Type :=
  | LoopAgain (st : init_state)                (* next pass, from the label retry *)
  | LoopBreak (st : init_state)                (* break: both sides complete *)
  | LoopError (e : errno_t) (st : init_state). (* goto nfsmout *)

(** Lines 1356-1359, 1379-1382 and 1396-1398. *)
Definition ctx_init_restart (cp : nfs_gss_clnt_ctx) : nfs_gss_clnt_ctx :=
  with_gssd_flags (set_flag (gss_clnt_gssd_flags cp) GSSD_RESTART) cp.

(** Lines 1362-1399: the token goes to the server.  [st] holds the
    locals at that point. *)
Definition ctx_init_to_server `{gss_limits} (srv : server_answer) (st : init_state)
  : loop_step :=
  let '(error, cp) := nfs_gss_clnt_ctx_callserver (is_nmp st) (is_cp st) srv in
  if is_error error then
    if bool_decide (error = ENEEDAUTH) &&
       (bool_decide (gss_clnt_proc cp = RPCSEC_GSS_INIT) ||
        bool_decide (gss_clnt_proc cp = RPCSEC_GSS_CONTINUE_INIT))
    then LoopAgain (mk_init (ctx_init_restart cp) (is_nmp st) (is_retrycnt st + 1)
                            (is_client_complete st) (is_server_complete st)
                            (is_round st) (is_offers st))
    else LoopError error (mk_init cp (is_nmp st) (is_retrycnt st)
                                  (is_client_complete st) (is_server_complete st)
                                  (is_round st) (is_offers st))
  else if gss_clnt_major cp =? GSS_S_COMPLETE then
    if is_client_complete st
    then LoopBreak (mk_init cp (is_nmp st) (is_retrycnt st) (is_client_complete st) true
                            (is_round st) (is_offers st))
    else LoopAgain (mk_init cp (is_nmp st) (is_retrycnt st) (is_client_complete st) true
                            (is_round st) (is_offers st))
  else if gss_clnt_major cp =? GSS_S_CONTINUE_NEEDED then
    LoopAgain (mk_init (with_proc RPCSEC_GSS_CONTINUE_INIT cp) (is_nmp st) (is_retrycnt st)
                       (is_client_complete st) (is_server_complete st)
                       (is_round st) (is_offers st))
  else
    LoopAgain (mk_init (ctx_init_restart cp) (is_nmp st) (is_retrycnt st + 1)
                       (is_client_complete st) (is_server_complete st)
                       (is_round st) (is_offers st)).

(** One pass of the loop at lines 1333-1400. *)
Definition ctx_init_round `{gss_limits} (world : nat -> round_answer) (st : init_state)
  : loop_step :=
  let ans := world (is_round st) in
  let '(error, cp, nmp, offer) :=
    nfs_gss_clnt_gssd_upcall (is_nmp st) (is_cp st) (is_retrycnt st) (ra_gssd ans) in
  let offers := match offer with
                | Some l => (is_retrycnt st, l) :: is_offers st
                | None => is_offers st
                end in
  let rnd := Datatypes.S (is_round st) in
  if is_error error then
    LoopError error (mk_init cp nmp (is_retrycnt st) (is_client_complete st)
                             (is_server_complete st) rnd offers)
  else if gss_clnt_major cp =? GSS_S_COMPLETE then
    if is_server_complete st
    then LoopBreak (mk_init cp nmp (is_retrycnt st) true (is_server_complete st) rnd offers)
    else ctx_init_to_server (ra_server ans)
           (mk_init cp nmp (is_retrycnt st) true (is_server_complete st) rnd offers)
  else if negb (gss_clnt_major cp =? GSS_S_CONTINUE_NEEDED) then
    LoopAgain (mk_init (ctx_init_restart cp) nmp (is_retrycnt st + 1)
                       (is_client_complete st) (is_server_complete st) rnd offers)
  else ctx_init_to_server (ra_server ans)
         (mk_init cp nmp (is_retrycnt st) (is_client_complete st)
                  (is_server_complete st) rnd offers).

(** The loop; [None] when [fuel] passes were not enough to leave it. *)
Fixpoint ctx_init_loop `{gss_limits} (fuel : nat) (world : nat -> round_answer)
    (st : init_state) : option (loop_step) :=
  match fuel with
  | O => None
  | Datatypes.S fuel' =>
    match ctx_init_round world st with
    | LoopAgain st' => ctx_init_loop fuel' world st'
    | stop => Some stop
    end
  end.

(** Label nfsmout, lines 1441-1473.  wakeup(cp) goes with the clearing
    of NEEDCTX. *)
Definition ctx_init_nfsmout (error : errno_t) (cp : nfs_gss_clnt_ctx)
  : errno_t * nfs_gss_clnt_ctx :=
  if bool_decide (error = ENEEDAUTH) then (error, cp)
  else
    let cp := if is_error error
              then with_flags (set_flag (gss_clnt_flags cp) GSS_CTX_INVAL) cp
              else cp in
    let cp := with_thread None cp in
    let cp := if has_flag (gss_clnt_flags cp) GSS_NEEDCTX
              then with_flags (clear_flag (gss_clnt_flags cp) GSS_NEEDCTX) cp
              else cp in
    (error, cp).

(** The call of gss_krb5_verify_mic at lines 1410-1415 on the context
    as the loop left it: the major status, and the minor status, which
    the call writes into [error]. *)
Definition ctx_init_verify_window `{gss_krb5} (cp : nfs_gss_clnt_ctx) : Z * errno_t :=
  gss_krb5_verify_mic (default 0 (gss_clnt_ctx_id cp))
    (txdr_unsigned (gss_clnt_seqwin cp)) (default [] (gss_clnt_verf cp)).


(** Lines 1402-1439: what follows the loop.  [rnd] is what random()
    returns and [kalloc_ok] whether the kalloc_data of the bitmap at
    line 1436 gives memory.  After a verified window [error] still holds
    the minor status of the mechanism, and that is what goes to nfsmout
    unless the allocation fails. *)
Definition ctx_init_established `{gss_krb5} (rnd : Z) (kalloc_ok : bool)
    (cp : nfs_gss_clnt_ctx) : errno_t * nfs_gss_clnt_ctx :=
  let cp := with_flags (set_flag (gss_clnt_flags cp) GSS_CTX_COMPLETE) cp in
  let cp := with_proc RPCSEC_GSS_DATA cp in
  let '(major, error) := ctx_init_verify_window cp in
  let cp := with_verf None cp in
  if negb (major =? GSS_S_COMPLETE) then (NFSERR_EAUTH, cp)
  else
    let cp := with_seqnum (u32 (Z.land rnd 65535 + gss_clnt_seqwin cp)) cp in
    if kalloc_ok then (error, with_seqbits (Some 0) cp)
    else (NFSERR_EAUTH, with_seqbits None cp).

(** Lines 1311-1326: the locals and the context when the loop is
    entered, or [None] when the service name cannot be built.  [svcname]
    is the name nfs_gss_clnt_svcname builds for a mount that is not
    gone. *)
Definition ctx_init_entry (svcname : list byte) (r_auth : r_auth_t) (nmp : nfsmount)
    (cp : nfs_gss_clnt_ctx) : option init_state :=
  let named :=
    match gss_clnt_svcname cp with
    | Some _ => Some cp
    | None => if nm_gone nmp then None else Some (with_svcname (Some svcname) cp)
    end in
  match named with
  | None => None
  | Some cp =>
    Some (mk_init (with_service (service_of_auth r_auth) (with_proc RPCSEC_GSS_INIT cp))
                  nmp 0 false false 0 [])
  end.

(** nfs_gss_clnt_ctx_init.  The result carries the upcalls that were
    made; [None] when [fuel] passes of the loop were not enough. *)
Definition nfs_gss_clnt_ctx_init `{gss_limits} `{gss_krb5} (fuel : nat)
    (world : nat -> round_answer) (rnd : Z) (kalloc_ok : bool) (svcname : list byte)
    (r_auth : r_auth_t) (nmp : nfsmount) (cp : nfs_gss_clnt_ctx)
  : option (errno_t * nfs_gss_clnt_ctx * nfsmount * list (Z * list Z)) :=
  match ctx_init_entry svcname r_auth nmp cp with
  | None => Some (ctx_init_nfsmout NFSERR_EAUTH cp, nmp, [])
  | Some st0 =>
    match ctx_init_loop fuel world st0 with
    | None => None
    | Some (LoopAgain _) => None
    | Some (LoopError e st) => Some (ctx_init_nfsmout e (is_cp st), is_nmp st, is_offers st)
    | Some (LoopBreak st) =>
      let '(error, cp) := ctx_init_established rnd kalloc_ok (is_cp st) in
      Some (ctx_init_nfsmout error cp, is_nmp st, is_offers st)
    end
  end.

(** ** The retry loop: nfs_gss_clnt_ctx_init_retry, lines 1484-1548 *)

(** The locals while the loop runs; [rs_delays] records, latest first,
    the delay of every wait that was started. *)
Record retry_state : Type := mk_retry {
  rs_cp : nfs_gss_clnt_ctx;
  rs_nmp : nfsmount;
  rs_retries : Z;
  rs_timeo : Z;
  rs_now : Z;
  rs_attempts : nat;
  rs_delays : list Z
}.

Inductive retry_step : Type :=
  | RetryAgain (st : retry_state)
  | RetryDone (e : errno_t) (st : retry_state)
  | RetryStuck.     (* the setup attempt itself did not return *)

(** The n-th call of nfs_gss_clnt_ctx_init. *)
Definition init_fn : Type :=
  nat -> nfs_gss_clnt_ctx -> nfsmount -> option (errno_t * nfs_gss_clnt_ctx * nfsmount).

(** Lines 1505-1513: sleep a second at a time until [waituntil];
    [sig t] is the answer of nfs_sigintr at time [t]. *)
Fixpoint retry_wait (n : nat) (sig : Z -> errno_t) (now waituntil : Z) : errno_t * Z :=
  match n with
  | O => (E0, now)
  | Datatypes.S n' =>
    if now <? waituntil then
      let now' := now + 1 in
      if is_error (sig now') then (sig now', now')
      else retry_wait n' sig now' waituntil
    else (E0, now)
  end.

(** One pass of the [while] at lines 1502-1525, its condition included. *)
Definition ctx_init_retry_round (init : init_fn) (sig : Z -> errno_t) (r_soft : bool)
    (st : retry_state) : retry_step :=
  match init (rs_attempts st) (rs_cp st) (rs_nmp st) with
  | None => RetryStuck
  | Some (error, cp, nmp) =>
    let attempts := Datatypes.S (rs_attempts st) in
    if negb (bool_decide (error = ENEEDAUTH)) then
      RetryDone error (mk_retry cp nmp (rs_retries st) (rs_timeo st) (rs_now st) attempts
                                (rs_delays st))
    else
      let waituntil := rs_now st + rs_timeo st in
      let delays := rs_timeo st :: rs_delays st in
      let '(err, now) := retry_wait (Z.to_nat (rs_timeo st)) sig (rs_now st) waituntil in
      if is_error err then
        RetryDone err (mk_retry cp nmp (rs_retries st) (rs_timeo st) now attempts delays)
      else
        let retries := rs_retries st + 1 in
        if (nm_soft nmp || r_soft) && (nm_retry nmp <? retries) then
          RetryDone ETIMEDOUT (mk_retry cp nmp retries (rs_timeo st) now attempts delays)
        else
          let timeo := rs_timeo st * 2 in
          let timeo := if 60 <? timeo then 60 else timeo in
          RetryAgain (mk_retry cp nmp retries timeo now attempts delays)
  end.

(** [n] passes of the loop, stopping early when it is left. *)
Fixpoint ctx_init_retry_run (n : nat) (init : init_fn) (sig : Z -> errno_t) (r_soft : bool)
    (st : retry_state) : retry_step :=
  match n with
  | O => RetryAgain st
  | Datatypes.S n' =>
    match ctx_init_retry_round init sig r_soft st with
    | RetryAgain st' => ctx_init_retry_run n' init sig r_soft st'
    | stop => stop
    end
  end.

(** Label bad, lines 1530-1547. *)
Definition ctx_init_retry_bad (cp : nfs_gss_clnt_ctx) : nfs_gss_clnt_ctx :=
  let cp := with_flags (set_flag (gss_clnt_flags cp) GSS_CTX_INVAL) cp in
  let cp := with_thread None cp in
  if has_flag (gss_clnt_flags cp) GSS_NEEDCTX
  then with_flags (clear_flag (gss_clnt_flags cp) GSS_NEEDCTX) cp
  else cp.

(** nfs_gss_clnt_ctx_init_retry; [None] when the loop is still running
    after [fuel] passes. *)
Definition nfs_gss_clnt_ctx_init_retry `{gss_limits} (fuel : nat) (init : init_fn)
    (sig : Z -> errno_t) (now : Z) (r_soft : bool) (nmp : nfsmount) (cp : nfs_gss_clnt_ctx)
  : option (errno_t * nfs_gss_clnt_ctx * nfsmount) :=
  if nm_gone nmp then Some (ENXIO, ctx_init_retry_bad cp, nmp)
  else
    match ctx_init_retry_run fuel init sig r_soft
            (mk_retry cp nmp 0 NFS_TRYLATERDEL now 0 []) with
    | RetryDone e st =>
      if is_error e then Some (e, ctx_init_retry_bad (rs_cp st), rs_nmp st)
      else Some (E0, rs_cp st, rs_nmp st)
    | RetryAgain _ => None
    | RetryStuck => None
    end.


(** ** Sample mount, context and worlds to run the setup on *)

Definition sample_mount : nfsmount :=
  mk_mount false false 2 (mk_etype 3 3 [18; 17; 16]) [] 0.

Definition sample_new_ctx : nfs_gss_clnt_ctx :=
  mk_ctx (mk_cred 100 501 501) None 0 0 1 (Some 9) RPCSEC_GSS_DATA RPCSEC_GSS_SVC_0
         0 0 None 0 0 0 0 None None None None None.

(** Both sides complete in the first pass; the server's verifier is the
    MIC of the window (for the stand-in mechanism) or is not. *)
Definition world_complete (verf : list byte) (n : nat) : round_answer :=
  mk_round (GssdReply GSS_S_COMPLETE 0 (Some (7, 18)) [x01])
           (mk_server_answer E0 (Some verf) [x0a] GSS_S_COMPLETE 0 4 [x02]).

(** gssd asks to continue and the server answers with a failure status,
    in every pass. *)
Definition world_rejecting (n : nat) : round_answer :=
  mk_round (GssdReply GSS_S_CONTINUE_NEEDED 0 None [x01])
           (mk_server_answer E0 None [x0a] 13 0 0 [x02]).


Definition sample_svcname : list byte := [x6e; x66; x73; x40; x68].


Definition sample_init_badverf : errno_t * nfs_gss_clnt_ctx * nfsmount * list (Z * list Z) :=
  Eval vm_compute in
    match @nfs_gss_clnt_ctx_init sample_limits toy_krb5 5 (world_complete [x00])
            12345 true sample_svcname RPCAUTH_KRB5 sample_mount sample_new_ctx with
    | Some r => r
    | None => (E0, sample_new_ctx, sample_mount, [])
    end.


(** The setup attempts of the retry loop, each against its own sequence
    of answers. *)
Definition init_of_worlds `{gss_limits} `{gss_krb5} (fuel : nat)
    (worlds : nat -> nat -> round_answer) (rnd : Z) (kalloc_ok : bool)
    (svcname : list byte) (r_auth : r_auth_t) : init_fn :=
  fun k cp nmp =>
    match nfs_gss_clnt_ctx_init fuel (worlds k) rnd kalloc_ok svcname r_auth nmp cp with
    | Some (e, cp', nmp', _) => Some (e, cp', nmp')
    | None => None
    end.


(** The delay before the retry numbered [k], for a first delay [T]. *)
Definition backoff (T : Z) (k : Z) : Z := Z.min 60 (T * 2 ^ k).

(** A setup that fails with ENEEDAUTH every time, a thread that is never
    interrupted, and the soft variant of the sample mount. *)
Definition init_always_needauth : init_fn := fun _ cp nmp => Some (ENEEDAUTH, cp, nmp).

Definition never_interrupted : Z -> errno_t := fun _ => E0.

Definition sample_soft_mount : nfsmount :=
  mk_mount false true 2 (mk_etype 3 3 [18; 17; 16]) [] 0.


(** ** The context registry of a mount

    The contexts of a mount are kernel objects linked on the TAILQ
    [nm_gsscl]; a request points at its context through [r_gss_ctx].
    The registry code is modelled over a store of contexts indexed by
    address, with a record of the events that can be observed from outside:
    mutex operations, stores to a reference count, allocation and
    release of contexts, destruction of a Kerberos context, and calls of
    the context setup. *)

Inductive kevent : Set :=
  | EvLock (a : addr)            (* lck_mtx_lock(&cp->gss_clnt_mtx) *)
  | EvUnlock (a : addr)          (* lck_mtx_unlock(&cp->gss_clnt_mtx) *)
  | EvLockMount                  (* lck_mtx_lock(&nmp->nm_lock) *)
  | EvUnlockMount                (* lck_mtx_unlock(&nmp->nm_lock) *)
  | EvRefcnt (a : addr) (v : Z)  (* a store of v to cp->gss_clnt_refcnt *)
  | EvAlloc (a : addr)           (* kalloc_type(struct nfs_gss_clnt_ctx, ...) *)
  | EvFree (a : addr)            (* kfree_type(struct nfs_gss_clnt_ctx, cp) *)
  | EvKrb5Destroy (id : Z)       (* gss_krb5_destroy_context *)
  | EvInit (a : addr).           (* nfs_gss_clnt_ctx_init_retry(req, cp) *)

#[global] Instance kevent_eq_dec : EqDecision kevent.
Proof. solve_decision. Defined.

Record kernel : Type := mk_kernel {
  k_heap : gmap addr nfs_gss_clnt_ctx;  (* the contexts that are allocated *)
  k_nmp : nfsmount;                     (* the mount of the requests *)
  k_now : Z;                            (* microuptime(&now); now.tv_sec *)
  k_next : addr;                        (* the address kalloc hands out next *)
  k_mnt_error : errno_t;                (* what nfs_gss_clnt_mnt_ref and _rele return *)
  k_upcall_port : bool;                 (* nfs_gss_clnt_get_upcall_port finds a port *)
  k_trace : list kevent                 (* the events so far, newest first *)
}.

Definition k_log (ev : kevent) (k : kernel) : kernel :=
  mk_kernel (k_heap k) (k_nmp k) (k_now k) (k_next k) (k_mnt_error k) (k_upcall_port k)
            (ev :: k_trace k).

Definition k_put (a : addr) (cp : nfs_gss_clnt_ctx) (k : kernel) : kernel :=
  mk_kernel (<[a := cp]> (k_heap k)) (k_nmp k) (k_now k) (k_next k) (k_mnt_error k)
            (k_upcall_port k) (k_trace k).

Definition k_mount (nmp : nfsmount) (k : kernel) : kernel :=
  mk_kernel (k_heap k) nmp (k_now k) (k_next k) (k_mnt_error k) (k_upcall_port k)
            (k_trace k).

(** kalloc_type followed by the initialisation of the new object. *)
Definition k_alloc (cp : nfs_gss_clnt_ctx) (k : kernel) : addr * kernel :=
  (k_next k,
   mk_kernel (<[k_next k := cp]> (k_heap k)) (k_nmp k) (k_now k) (k_next k + 1)
             (k_mnt_error k) (k_upcall_port k) (EvAlloc (k_next k) :: k_trace k)).

Definition k_free (a : addr) (k : kernel) : kernel :=
  mk_kernel (delete a (k_heap k)) (k_nmp k) (k_now k) (k_next k) (k_mnt_error k)
            (k_upcall_port k) (EvFree a :: k_trace k).

(** struct nfsreq: the fields the registry code uses. *)
Record nfsreq : Type := mk_req {
  r_nmp : bool;                (* req->r_nmp points at the mount (is not NULL) *)
  r_cred : kauth_cred;
  r_thread : thread_t;         (* current_thread() of the caller *)
  r_gss_ctx : option addr
}.

Definition with_r_gss_ctx (c : option addr) (req : nfsreq) : nfsreq :=
  mk_req (r_nmp req) (r_cred req) (r_thread req) c.

(** TAILQ_REMOVE and TAILQ_INSERT_HEAD on [nm_gsscl]. *)
Definition tailq_remove (a : addr) (l : list addr) : list addr :=
  filter (fun b => b <> a) l.

Definition tailq_insert_head (a : addr) (l : list addr) : list addr := a :: l.

(** A context fresh from kalloc_type(..., Z_ZERO). *)
Definition zero_cred : kauth_cred := mk_cred 0 0 0.

Definition zero_ctx : nfs_gss_clnt_ctx :=
  mk_ctx zero_cred None 0 0 0 None RPCSEC_GSS_DATA RPCSEC_GSS_SVC_0
         0 0 None 0 0 0 0 None None None None None.

Definition with_cred (v0 : kauth_cred) (c : nfs_gss_clnt_ctx) : nfs_gss_clnt_ctx :=
  mk_ctx v0 (gss_clnt_principal c) (gss_clnt_prinnt c) (gss_clnt_flags c)
    (gss_clnt_refcnt c) (gss_clnt_thread c) (gss_clnt_proc c) (gss_clnt_service c)
    (gss_clnt_seqnum c) (gss_clnt_seqwin c) (gss_clnt_seqbits c) (gss_clnt_nctime c)
    (gss_clnt_major c) (gss_clnt_minor c) (gss_clnt_gssd_flags c) (gss_clnt_handle c)
    (gss_clnt_token c) (gss_clnt_verf c) (gss_clnt_ctx_id c) (gss_clnt_svcname c).

Definition with_principal (p : option (list byte)) (nt : Z) (c : nfs_gss_clnt_ctx)
  : nfs_gss_clnt_ctx :=
  mk_ctx (gss_clnt_cred c) p nt (gss_clnt_flags c)
    (gss_clnt_refcnt c) (gss_clnt_thread c) (gss_clnt_proc c) (gss_clnt_service c)
    (gss_clnt_seqnum c) (gss_clnt_seqwin c) (gss_clnt_seqbits c) (gss_clnt_nctime c)
    (gss_clnt_major c) (gss_clnt_minor c) (gss_clnt_gssd_flags c) (gss_clnt_handle c)
    (gss_clnt_token c) (gss_clnt_verf c) (gss_clnt_ctx_id c) (gss_clnt_svcname c).

(** nfs_gss_clnt_ctx_cred_match, lines 514-521: the audit session ids. *)
Definition nfs_gss_clnt_ctx_cred_match (cred1 cred2 : kauth_cred) : bool :=
  cr_asid cred1 =? cr_asid cred2.

(** nfs_gss_clnt_ctx_clean, lines 2293-2346.  The two assert()s are
    compiled out of a release kernel and are left out; kfree_data clears
    the pointer it is given. *)
Definition nfs_gss_clnt_ctx_clean (cp : nfs_gss_clnt_ctx) : nfs_gss_clnt_ctx :=
  let cp := with_flags 0 cp in
  let cp := with_seqnum 0 cp in
  let cp := with_handle None cp in
  let cp := with_nctime 0 cp in
  let cp := with_seqbits None cp in
  let cp := with_seqwin 0 cp in
  let cp := with_verf None cp in
  let cp := with_svcname None cp in
  with_token None cp.

(** nfs_gss_clnt_ctx_copy, lines 2354-2386. *)
Definition nfs_gss_clnt_ctx_copy (scp : nfs_gss_clnt_ctx) (k : kernel)
  : errno_t * option addr * kernel :=
  let '(dcp, k) := k_alloc zero_ctx k in
  if negb (k_upcall_port k) then (EPIPE, None, k_free dcp k)
  else
    let d := with_cred (gss_clnt_cred scp) zero_ctx in
    let d := with_principal (gss_clnt_principal scp) (gss_clnt_prinnt scp) d in
    let d := with_service (gss_clnt_service scp) d in
    let d := with_ctx_id None d in
    let d := with_gssd_flags (gss_clnt_gssd_flags scp) d in
    let d := with_status (gss_clnt_major scp) (gss_clnt_minor scp) d in
    (E0, Some dcp, k_put dcp d k).

(** nfs_gss_clnt_ctx_destroy, lines 2391-2422. *)
Definition nfs_gss_clnt_ctx_destroy (a : addr) (k : kernel) : kernel :=
  match k_heap k !! a with
  | Some cp =>
    let k := match gss_clnt_ctx_id cp with
             | Some id => k_log (EvKrb5Destroy id) k
             | None => k
             end in
    k_free a k
  | None => k_free a k
  end.

(** nfs_gss_clnt_ctx_ref, lines 2156-2164. *)
Definition nfs_gss_clnt_ctx_ref (req : nfsreq) (a : addr) (k : kernel)
  : kresult (nfsreq * kernel) :=
  let req := with_r_gss_ctx (Some a) req in
  match k_heap k !! a with
  | None => KTrap
  | Some cp =>
    let k := k_log (EvLock a) k in
    let v := s32 (gss_clnt_refcnt cp + 1) in
    let k := k_log (EvRefcnt a v) (k_put a (with_refcnt v cp) k) in
    KOk (req, k_log (EvUnlock a) k)
  end.

(** nfs_gss_clnt_mnt_ref and nfs_gss_clnt_mnt_rele, lines 535-577: EINVAL
    without a mount, and else what the VFS layer answers. *)
Definition nfs_gss_clnt_mnt_ref (nmp : bool) (k : kernel) : errno_t :=
  if nmp then k_mnt_error k else EINVAL.

Definition nfs_gss_clnt_mnt_rele (nmp : bool) (k : kernel) : errno_t :=
  if nmp then k_mnt_error k else EINVAL.

(** nfs_gss_clnt_ctx_neg_cache_reap, lines 2245-2288.  The walk is the
    TAILQ_FOREACH_SAFE over the list as it was on entry: the body unlinks
    no entry but the current one.  [nm_ncentries] is a uint32_t: every
    write of it wraps. *)
Fixpoint neg_cache_reap_walk `{gss_limits} (todo : list addr) (k : kernel) : kresult kernel :=
  match todo with
  | [] => KOk k
  | a :: rest =>
    match k_heap k !! a with
    | None => KTrap
    | Some cp =>
      if has_flag (gss_clnt_flags cp) GSS_CTX_STICKY
         || negb (has_flag (gss_clnt_flags cp) GSS_CTX_INVAL)
      then neg_cache_reap_walk rest k
      else if nm_ncentries (k_nmp k) <=? GSS_MAX_NEG_CACHE_ENTRIES then KOk k
      else if k_now k <=? gss_clnt_nctime cp + GSS_NEG_CACHE_TO
      then neg_cache_reap_walk rest k
      else
        let k := k_log (EvLock a) k in
        if gss_clnt_refcnt cp =? 0 then
          let cp := with_flags (set_flag (gss_clnt_flags cp) GSS_CTX_DESTROY) cp in
          let k := k_log (EvUnlock a) (k_put a cp k) in
          let nmp := with_nm_gsscl (tailq_remove a (nm_gsscl (k_nmp k))) (k_nmp k) in
          let nmp := with_nm_ncentries (u32 (nm_ncentries nmp + 1)) nmp in
          neg_cache_reap_walk rest (nfs_gss_clnt_ctx_destroy a (k_mount nmp k))
        else neg_cache_reap_walk rest (k_log (EvUnlock a) k)
    end
  end.

Definition nfs_gss_clnt_ctx_neg_cache_reap `{gss_limits} (k : kernel) : kresult kernel :=
  neg_cache_reap_walk (nm_gsscl (k_nmp k)) k.

(** nfs_gss_clnt_ctx_unref, lines 2171-2239, in three parts.

    What is decided under the mutex of the context once the new count
    has been written (lines 2193-2214): the context as it is left, the
    locals [destroy], [on_neg_cache] and [neg_cache], and the Kerberos
    context handed to gss_krb5_destroy_context, if any.  [mnt_rele] is
    what nfs_gss_clnt_mnt_rele would return. *)
Record unref_plan : Type := mk_plan {
  up_cp : nfs_gss_clnt_ctx;
  up_destroy : bool;
  up_on_neg_cache : bool;
  up_neg_cache : bool;
  up_krb5 : option Z
}.

Definition unref_locked (mnt_rele : errno_t) (now : Z) (cp : nfs_gss_clnt_ctx)
  : unref_plan :=
  let zero := gss_clnt_refcnt cp =? 0 in
  let krb5 :=
    if zero && has_flag (gss_clnt_flags cp) GSS_CTX_INVAL then gss_clnt_ctx_id cp
    else None in
  let cp := match krb5 with Some _ => with_ctx_id None cp | None => cp end in
  let destroy := zero && has_flag (gss_clnt_flags cp) GSS_CTX_DESTROY in
  let cp :=
    if destroy && has_flag (gss_clnt_flags cp) GSS_CTX_USECOUNT && negb (is_error mnt_rele)
    then with_flags (clear_flag (gss_clnt_flags cp) GSS_CTX_USECOUNT) cp
    else cp in
  let on_neg_cache := destroy && negb (gss_clnt_nctime cp =? 0) in
  let neg_cache :=
    negb destroy && (gss_clnt_nctime cp =? 0)
    && has_flag (gss_clnt_flags cp) GSS_CTX_INVAL in
  let cp := if neg_cache then with_nctime now cp else cp in
  mk_plan cp destroy on_neg_cache neg_cache krb5.

(** What follows the unlock (lines 2216-2237).  The test of
    [gss_clnt_entries.tqe_next] against NFSNOLIST is the test whether the
    context is linked on [nm_gsscl]. *)
Definition unref_unlocked `{gss_limits} (req : nfsreq) (a : addr) (plan : unref_plan)
    (k : kernel) : kresult (nfsreq * kernel) :=
  if up_destroy plan then
    let k :=
      if r_nmp req then
        let k := k_log EvLockMount k in
        let nmp := k_nmp k in
        let nmp := if bool_decide (a ∈ nm_gsscl nmp)
                   then with_nm_gsscl (tailq_remove a (nm_gsscl nmp)) nmp
                   else nmp in
        let nmp := if up_on_neg_cache plan
                   then with_nm_ncentries (u32 (nm_ncentries nmp - 1)) nmp
                   else nmp in
        k_log EvUnlockMount (k_mount nmp k)
      else k in
    KOk (req, nfs_gss_clnt_ctx_destroy a k)
  else if up_neg_cache plan then
    if r_nmp req then
      let k := k_log EvLockMount k in
      let k := k_mount (with_nm_ncentries (u32 (nm_ncentries (k_nmp k) + 1)) (k_nmp k)) k in
      match nfs_gss_clnt_ctx_neg_cache_reap k with
      | KOk k => KOk (req, k_log EvUnlockMount k)
      | KPanic => KPanic
      | KTrap => KTrap
      end
    else KOk (req, k)
  else KOk (req, k).

Definition nfs_gss_clnt_ctx_unref `{gss_limits} (req : nfsreq) (k : kernel)
  : kresult (nfsreq * kernel) :=
  match r_gss_ctx req with
  | None => KOk (req, k)
  | Some a =>
    let req := with_r_gss_ctx None req in
    match k_heap k !! a with
    | None => KTrap
    | Some cp =>
      let k := k_log (EvLock a) k in
      let v := s32 (gss_clnt_refcnt cp - 1) in
      let cp := with_refcnt v cp in
      let k := k_log (EvRefcnt a v) (k_put a cp k) in
      if v <? 0 then KPanic
      else
        let plan := unref_locked (nfs_gss_clnt_mnt_rele (r_nmp req) k) (k_now k) cp in
        let k := match up_krb5 plan with
                 | Some id => k_log (EvKrb5Destroy id) k
                 | None => k
                 end in
        let k := k_log (EvUnlock a) (k_put a (up_cp plan) k) in
        unref_unlocked req a plan k
    end
  end.

(** ** Finding the context of a request *)

(** The comparison of lines 617-618: lengths, name types, bytes. *)
Definition principal_mismatch (cp : nfs_gss_clnt_ctx) (principal : list byte) (nt : Z)
  : bool :=
  negb (bool_decide (length (default [] (gss_clnt_principal cp)) = length principal))
  || negb (gss_clnt_prinnt cp =? nt)
  || negb (bool_decide (default [] (gss_clnt_principal cp) = principal)).

(** How the walk over [nm_gsscl] (lines 598-682) ends: by a return, or at
    the code after the loop with [cp] and [treq->r_gss_ctx] as they are
    then. *)
Inductive find_walk : Type :=
  | FindReturn (error : errno_t) (req : nfsreq) (k : kernel)
  | FindBreak (cp : option addr) (treq_ctx : option addr) (k : kernel)
  | FindTrap.

Fixpoint find_principal_walk `{gss_limits} (req : nfsreq) (principal : option (list byte))
    (nt : Z) (todo : list addr) (k : kernel) : find_walk :=
  match todo with
  | [] => FindBreak None None k
  | a :: rest =>
    match k_heap k !! a with
    | None => FindTrap
    | Some cp =>
      let k := k_log (EvLock a) k in
      if has_flag (gss_clnt_flags cp) GSS_CTX_DESTROY
      then find_principal_walk req principal nt rest (k_log (EvUnlock a) k)
      else if nfs_gss_clnt_ctx_cred_match (gss_clnt_cred cp) (r_cred req) then
        let k :=
          if bool_decide (head (nm_gsscl (k_nmp k)) = Some a) then k
          else k_mount (with_nm_gsscl
                          (tailq_insert_head a (tailq_remove a (nm_gsscl (k_nmp k))))
                          (k_nmp k)) k in
        if match principal with
           | Some p => principal_mismatch cp p nt
           | None => false
           end
        then
          let v := s32 (gss_clnt_refcnt cp + 1) in
          let cp := with_flags (set_flag (gss_clnt_flags cp)
                                         (Z.lor GSS_CTX_INVAL GSS_CTX_DESTROY)) cp in
          let cp := with_refcnt v cp in
          FindBreak None (Some a) (k_log (EvUnlock a) (k_log (EvRefcnt a v) (k_put a cp k)))
        else if has_flag (gss_clnt_flags cp) GSS_CTX_INVAL then
          if (k_now k <=? gss_clnt_nctime cp + GSS_NEG_CACHE_TO)
             || (gss_clnt_nctime cp =? 0)
          then FindReturn NFSERR_EAUTH req (k_log EvUnlockMount (k_log (EvUnlock a) k))
          else if negb (gss_clnt_refcnt cp =? 0) then
            let cp := with_flags (set_flag (gss_clnt_flags cp) GSS_CTX_DESTROY) cp in
            let '(error, ncp, k) := nfs_gss_clnt_ctx_copy cp (k_put a cp k) in
            let k := k_log (EvUnlock a) k in
            if is_error error then FindReturn error req (k_log EvUnlockMount k)
            else FindBreak ncp None k
          else
            let k :=
              if gss_clnt_nctime cp =? 0 then k
              else k_mount (with_nm_ncentries (u32 (nm_ncentries (k_nmp k) - 1)) (k_nmp k)) k in
            let k := k_log (EvUnlock a) k in
            FindBreak (Some a) None
              (k_mount (with_nm_gsscl (tailq_remove a (nm_gsscl (k_nmp k))) (k_nmp k)) k)
        else
          let v := s32 (gss_clnt_refcnt cp + 1) in
          let k := k_log (EvRefcnt a v) (k_put a (with_refcnt v cp) k) in
          FindReturn E0 (with_r_gss_ctx (Some a) req)
                     (k_log EvUnlockMount (k_log (EvUnlock a) k))
      else find_principal_walk req principal nt rest (k_log (EvUnlock a) k)
    end
  end.

(** The loop of lines 692-700: the first context on the list that is
    neither INVALID nor marked for destruction. *)
Fixpoint find_root_steal (l : list addr) (k : kernel) : kresult (option addr) :=
  match l with
  | [] => KOk None
  | a :: rest =>
    match k_heap k !! a with
    | None => KTrap
    | Some cp =>
      if Z.land (gss_clnt_flags cp) (Z.lor GSS_CTX_INVAL GSS_CTX_DESTROY) =? 0
      then KOk (Some a)
      else find_root_steal rest k
    end
  end.

(** The setup of a context at [a], the call of line 762: the outcome of
    nfs_gss_clnt_ctx_init_retry is stored back, and the call is recorded. *)
Definition init_retry_fn : Type :=
  nfs_gss_clnt_ctx -> nfsmount -> option (errno_t * nfs_gss_clnt_ctx * nfsmount).

(** Lines 712-772: a new context, or the old one cleaned, is set up. *)
Definition find_principal_setup `{gss_limits} (init_retry : init_retry_fn) (req : nfsreq)
    (principal : option (list byte)) (nt : Z) (found : option addr) (treq : nfsreq)
    (k : kernel) : option (kresult (errno_t * nfsreq * kernel)) :=
  let made :=
    match found with
    | None =>
      let cp := with_cred (r_cred req) zero_ctx in
      let cp :=
        match principal with
        | Some p =>
          let cp := with_principal (Some p) nt cp in
          let cp := with_flags (set_flag (gss_clnt_flags cp) GSS_CTX_STICKY) cp in
          if negb (is_error (nfs_gss_clnt_mnt_ref (r_nmp req) k))
          then with_flags (set_flag (gss_clnt_flags cp) GSS_CTX_USECOUNT) cp
          else cp
        | None => cp
        end in
      Some (k_alloc cp k)
    | Some a =>
      match k_heap k !! a with
      | None => None
      | Some cp =>
        let oldflags := gss_clnt_flags cp in
        let cp := nfs_gss_clnt_ctx_clean cp in
        let cp :=
          match principal with
          | Some _ =>
            let cp := with_flags (set_flag (gss_clnt_flags cp) GSS_CTX_STICKY) cp in
            if has_flag oldflags GSS_CTX_USECOUNT
               || negb (is_error (nfs_gss_clnt_mnt_ref (r_nmp req) k))
            then with_flags (set_flag (gss_clnt_flags cp) GSS_CTX_USECOUNT) cp
            else cp
          | None => cp
          end in
        Some (a, k_put a cp k)
      end
    end in
  match made with
  | None => Some KTrap
  | Some (a, k) =>
    match k_heap k !! a with
    | None => Some KTrap
    | Some cp =>
      let k := k_put a (with_thread (Some (r_thread req)) cp) k in
      match nfs_gss_clnt_ctx_ref req a k with
      | KOk (req, k) =>
        let k := k_mount (with_nm_gsscl (tailq_insert_head a (nm_gsscl (k_nmp k)))
                                        (k_nmp k)) k in
        let k := k_log (EvInit a) (k_log EvUnlockMount k) in
        match k_heap k !! a with
        | None => Some KTrap
        | Some cp =>
          match init_retry cp (k_nmp k) with
          | None => None
          | Some (error, cp, nmp) =>
            let k := k_mount nmp (k_put a cp k) in
            let released :=
              if is_error error then nfs_gss_clnt_ctx_unref req k else KOk (req, k) in
            match released with
            | KOk (req, k) =>
              match nfs_gss_clnt_ctx_unref treq k with
              | KOk (_, k) => Some (KOk (error, req, k))
              | KPanic => Some KPanic
              | KTrap => Some KTrap
              end
            | KPanic => Some KPanic
            | KTrap => Some KTrap
            end
          end
        end
      | KPanic => Some KPanic
      | KTrap => Some KTrap
      end
    end
  end.

(** nfs_gss_clnt_ctx_find_principal, lines 583-772.  [None] stands for a
    setup that has not come back; [nfs_root_steals_ctx] is the global of
    line 581. *)
Definition nfs_gss_clnt_ctx_find_principal `{gss_limits} (init_retry : init_retry_fn)
    (nfs_root_steals_ctx : bool) (req : nfsreq) (principal : option (list byte)) (nt : Z)
    (k : kernel) : option (kresult (errno_t * nfsreq * kernel)) :=
  if negb (r_nmp req) then Some KTrap
  else
    let treq := mk_req true zero_cred 0 None in
    let k := k_log EvLockMount k in
    match find_principal_walk req principal nt (nm_gsscl (k_nmp k)) k with
    | FindTrap => Some KTrap
    | FindReturn error req k => Some (KOk (error, req, k))
    | FindBreak cp treq_ctx k =>
      let treq := with_r_gss_ctx treq_ctx treq in
      let steal :=
        if bool_decide (cp = None) && nfs_root_steals_ctx && bool_decide (principal = None)
           && (cr_uid (r_cred req) =? 0)
        then find_root_steal (nm_gsscl (k_nmp k)) k
        else KOk None in
      match steal with
      | KTrap => Some KTrap
      | KPanic => Some KPanic
      | KOk (Some a) =>
        match nfs_gss_clnt_ctx_ref req a k with
        | KOk (req, k) => Some (KOk (E0, req, k_log EvUnlockMount k))
        | KPanic => Some KPanic
        | KTrap => Some KTrap
        end
      | KOk None => find_principal_setup init_retry req principal nt cp treq k
      end
    end.

(** nfs_gss_clnt_ctx_find, lines 774-778. *)
Definition nfs_gss_clnt_ctx_find `{gss_limits} (init_retry : init_retry_fn)
    (nfs_root_steals_ctx : bool) (req : nfsreq) (k : kernel)
  : option (kresult (errno_t * nfsreq * kernel)) :=
  nfs_gss_clnt_ctx_find_principal init_retry nfs_root_steals_ctx req None 0 k.

(** ** Reading a reply

    The nfsm_chain_* macros (nfsm_subs.h), NFS_MAXPACKET and
    gss_normalize_mbuf belong to code outside nfs_gss.c and are taken as
    operations on a type of chains.  A macro of the family does nothing
    once [error] is set and leaves its variable alone when it fails;
    that much is written out in [chain_adv], [chain_get_32] and
    [chain_get_opaque]. *)

Class nfsm_subs (chain : Type) : Type := mk_nfsm_subs {
  NFS_MAXPACKET : Z;
  nfsm_chain_adv : chain -> Z -> errno_t * chain;
  nfsm_chain_get_32 : chain -> errno_t * chain * Z;
  nfsm_chain_get_opaque : chain -> Z -> errno_t * chain * list byte;
  (* the [len] bytes at the position of the chain *)
  nfsm_chain_data : chain -> Z -> list byte;
  (* gss_normalize_mbuf: the token of [len] bytes, and the chain behind it *)
  gss_normalize_mbuf : chain -> Z -> errno_t * list byte * chain;
  (* the chain with [mb] linked in at its position *)
  nfsm_chain_splice : list mbuf -> chain -> chain
}.

Definition chain_adv {chain} `{nfsm_subs chain} (error : errno_t) (nmc : chain) (len : Z)
  : errno_t * chain :=
  if is_error error then (error, nmc) else nfsm_chain_adv nmc len.

Definition chain_get_32 {chain} `{nfsm_subs chain} (error : errno_t) (nmc : chain) (var : Z)
  : errno_t * chain * Z :=
  if is_error error then (error, nmc, var)
  else
    let '(e, nmc', v) := nfsm_chain_get_32 nmc in
    if is_error e then (e, nmc', var) else (e, nmc', v).

Definition chain_get_opaque {chain} `{nfsm_subs chain} (error : errno_t) (nmc : chain)
    (len : Z) (buf : list byte) : errno_t * chain * list byte :=
  if is_error error then (error, nmc, buf)
  else
    let '(e, nmc', v) := nfsm_chain_get_opaque nmc len in
    if is_error e then (e, nmc', buf) else (e, nmc', v).

(** What nfs_gss_clnt_verf_get leaves behind: its return value, the
    context of the request, the chain, *accepted_statusp, and the
    (message, MIC) pairs it has handed to the mechanism for
    verification, newest first. *)
Record verf_get_result (chain : Type) : Type := mk_verf_get {
  vg_error : errno_t;
  vg_cp : option nfs_gss_clnt_ctx;
  vg_nmc : chain;
  vg_accepted_status : Z;
  vg_mic_calls : list (list byte * list byte)
}.

Arguments mk_verf_get {chain} _ _ _ _ _.
Arguments vg_error {chain} _.
Arguments vg_cp {chain} _.
Arguments vg_nmc {chain} _.
Arguments vg_accepted_status {chain} _.
Arguments vg_mic_calls {chain} _.

(** The SLIST_FOREACH of lines 1077-1087: the first sequence number of
    the request whose MIC is the verifier, with the calls made. *)
Fixpoint verf_get_search `{gss_krb5} (ctx_id : Z) (cksum : list byte) (seqlist : list Z)
    (calls : list (list byte * list byte)) : option Z * list (list byte * list byte) :=
  match seqlist with
  | [] => (None, calls)
  | gss_seqnum :: rest =>
    let seqnum_buf := txdr_unsigned gss_seqnum in
    let major := fst (gss_krb5_verify_mic ctx_id seqnum_buf cksum) in
    if major =? GSS_S_COMPLETE then (Some gss_seqnum, (seqnum_buf, cksum) :: calls)
    else verf_get_search ctx_id cksum rest ((seqnum_buf, cksum) :: calls)
  end.

(** nfs_gss_clnt_verf_get, lines 987-1236.  [r_gss_ctx] is the context
    req->r_gss_ctx points at, [kalloc_ok] whether the kalloc_data of
    line 1047 hands out a buffer. *)
Definition nfs_gss_clnt_verf_get {chain} `{gss_krb5} `{nfsm_subs chain}
    (kalloc_ok : bool) (r_gss_ctx : option nfs_gss_clnt_ctx) (r_gss_seqlist : list Z)
    (nmc : chain) (verftype verflen : Z) : verf_get_result chain :=
  match r_gss_ctx with
  | None => mk_verf_get NFSERR_EAUTH None nmc 0 []
  | Some cp =>
    if negb (verftype =? RPCSEC_GSS) then
      if negb (verftype =? RPCAUTH_NULL) then mk_verf_get NFSERR_EAUTH (Some cp) nmc 0 []
      else if has_flag (gss_clnt_flags cp) GSS_CTX_COMPLETE
      then mk_verf_get NFSERR_EAUTH (Some cp) nmc 0 []
      else
        let '(error, nmc) :=
          if 0 <? verflen then chain_adv E0 nmc (nfsm_rndup verflen) else (E0, nmc) in
        let '(error, nmc, status) := chain_get_32 error nmc 0 in
        mk_verf_get error (Some cp) nmc status []
    else if negb (has_flag (gss_clnt_flags cp) GSS_CTX_COMPLETE) then
      if KRB5_MAX_MIC_SIZE <? verflen then mk_verf_get EBADRPC (Some cp) nmc 0 []
      else if negb kalloc_ok then mk_verf_get ENOMEM (Some (with_verf None cp)) nmc 0 []
      else
        let '(error, nmc, verf) :=
          chain_get_opaque E0 nmc verflen (List.repeat x00 (Z.to_nat verflen)) in
        let cp := with_verf (Some verf) cp in
        let '(error, nmc, status) := chain_get_32 error nmc 0 in
        mk_verf_get error (Some cp) nmc status []
    else if KRB5_MAX_MIC_SIZE <? verflen then mk_verf_get EBADRPC (Some cp) nmc 0 []
    else
      let ctx_id := default 0 (gss_clnt_ctx_id cp) in
      let '(error, nmc, cksum) :=
        chain_get_opaque E0 nmc verflen (List.repeat x00 (Z.to_nat verflen)) in
      if is_error error then mk_verf_get error (Some cp) nmc 0 []
      else
        match verf_get_search ctx_id cksum r_gss_seqlist [] with
        | (None, calls) => mk_verf_get NFSERR_EAUTH (Some cp) nmc 0 calls
        | (Some gss_seqnum, calls) =>
          let '(error, nmc, status) := chain_get_32 error nmc 0 in
          if negb (status =? RPC_SUCCESS) then mk_verf_get E0 (Some cp) nmc status calls
          else
            match gss_clnt_service cp with
            | RPCSEC_GSS_SVC_INTEGRITY =>
              let '(error, nmc, reslen) := chain_get_32 error nmc 0 in
              if NFS_MAXPACKET <? reslen then mk_verf_get EBADRPC (Some cp) nmc status calls
              else
                let '(error, nmc_tmp) := chain_adv error nmc reslen in
                let '(error, nmc_tmp, cklen) := chain_get_32 error nmc_tmp verflen in
                if KRB5_MAX_MIC_SIZE <? cklen
                then mk_verf_get EBADRPC (Some cp) nmc status calls
                else
                  let '(error, _, mic) :=
                    chain_get_opaque error nmc_tmp cklen (List.repeat x00 (Z.to_nat cklen)) in
                  let msg := nfsm_chain_data nmc reslen in
                  let '(major, minor) := gss_krb5_verify_mic ctx_id msg mic in
                  let calls := (msg, mic) :: calls in
                  if negb (major =? GSS_S_COMPLETE)
                  then mk_verf_get EBADRPC (Some cp) nmc status calls
                  else
                    let '(error, nmc, seqnum) := chain_get_32 minor nmc 0 in
                    if negb (gss_seqnum =? seqnum)
                    then mk_verf_get EBADRPC (Some cp) nmc status calls
                    else mk_verf_get error (Some cp) nmc status calls
            | RPCSEC_GSS_SVC_PRIVACY =>
              let '(error, nmc, reslen) := chain_get_32 error nmc 0 in
              if (reslen =? 0) || (NFS_MAXPACKET <? reslen)
              then mk_verf_get EBADRPC (Some cp) nmc status calls
              else
                let '(error, token, rest) := gss_normalize_mbuf nmc reslen in
                if is_error error then mk_verf_get error (Some cp) nmc status calls
                else
                  let '(major, minor, results_mbuf) := gss_krb5_unwrap_mbuf ctx_id token in
                  if negb (major =? 0) then mk_verf_get minor (Some cp) nmc status calls
                  else
                    let nmc := nfsm_chain_splice results_mbuf rest in
                    let '(error, nmc, seqnum) := chain_get_32 minor nmc 0 in
                    if negb (gss_seqnum =? seqnum)
                    then mk_verf_get EBADRPC (Some cp) nmc status calls
                    else mk_verf_get error (Some cp) nmc status calls
            | _ => mk_verf_get error (Some cp) nmc status calls
            end
        end
  end.

(** A chain that is the bytes still to be read. *)
Definition fxdr_unsigned (b : list byte) : Z :=
  fold_left (fun acc x => acc * 256 + Z.of_N (Strings.Byte.to_N x)) (take 4 b) 0.

Definition stream_chain : nfsm_subs (list byte) :=
  mk_nfsm_subs (list byte) (16 * 1024 * 1024)
    (fun nmc len =>
       if len <=? Z.of_nat (length nmc) then (E0, drop (Z.to_nat len) nmc)
       else (EBADRPC, nmc))
    (fun nmc =>
       if 4 <=? Z.of_nat (length nmc) then (E0, drop 4 nmc, fxdr_unsigned nmc)
       else (EBADRPC, nmc, 0))
    (fun nmc len =>
       if nfsm_rndup len <=? Z.of_nat (length nmc)
       then (E0, drop (Z.to_nat (nfsm_rndup len)) nmc, take (Z.to_nat len) nmc)
       else (EBADRPC, nmc, []))
    (fun nmc len => take (Z.to_nat len) nmc)
    (fun nmc len =>
       if nfsm_rndup len <=? Z.of_nat (length nmc)
       then (E0, take (Z.to_nat len) nmc, drop (Z.to_nat (nfsm_rndup len)) nmc)
       else (EBADRPC, [], nmc))
    (fun mb rest => mchain_bytes mb ++ rest).

(** ** Sample replies and registries *)

(** A context in negotiation and one that is established (Kerberos
    context 7, integrity protection). *)
Definition sample_complete_ctx : nfs_gss_clnt_ctx :=
  mk_ctx (mk_cred 100 501 501) None 0 GSS_CTX_COMPLETE 1 None RPCSEC_GSS_DATA
         RPCSEC_GSS_SVC_NONE 1003 4 (Some 0) 0 0 0 0 (Some [x0a]) None None (Some 7) None.

(** A reply whose verifier has [n] bytes, all of them [b], followed by
    the accepted status RPC_SUCCESS. *)
Definition sample_reply (n : nat) (b : byte) : list byte :=
  List.repeat b n ++ xdrpad (nfsm_pad (Z.of_nat n)) ++ txdr_unsigned RPC_SUCCESS.

(** ** What is said about the registry *)

Definition refcnt_event (ev : kevent) : bool :=
  match ev with EvRefcnt _ _ => true | _ => false end.

Definition mutex_event (ev : kevent) : bool :=
  match ev with
  | EvLock _ | EvUnlock _ | EvLockMount | EvUnlockMount => true
  | _ => false
  end.

(** Every context that is allocated has a reference count of 0 or more. *)
Definition refcnts_nonneg (k : kernel) : Prop :=
  forall a cp, k_heap k !! a = Some cp -> 0 <= gss_clnt_refcnt cp.

(** The list of the mount links allocated contexts, each of them once. *)
Definition registry_linked (k : kernel) : Prop :=
  NoDup (nm_gsscl (k_nmp k)) /\
  forall a, a ∈ nm_gsscl (k_nmp k) -> is_Some (k_heap k !! a).

(** The contexts nfs_gss_clnt_ctx_neg_cache_reap passes over: STICKY, or
    not INVALID, or referenced, or not yet GSS_NEG_CACHE_TO seconds in
    the negative cache. *)
Definition reap_exempt `{gss_limits} (now : Z) (cp : nfs_gss_clnt_ctx) : bool :=
  has_flag (gss_clnt_flags cp) GSS_CTX_STICKY
  || negb (has_flag (gss_clnt_flags cp) GSS_CTX_INVAL)
  || negb (gss_clnt_refcnt cp =? 0)
  || (now <=? gss_clnt_nctime cp + GSS_NEG_CACHE_TO).

(** A walk of the reaper over [todo] that takes [k] to [k']: the clock
    stands still, no reference count is written, nothing is linked or
    allocated, and each context is either kept as it is or, being on
    [todo], not exempt and met with the count above the ceiling, is
    unlinked and released. *)
Definition reap_post `{gss_limits} (todo : list addr) (k k' : kernel) : Prop :=
  k_now k' = k_now k /\
  (exists evs, k_trace k' = evs ++ k_trace k /\
               Forall (fun ev => refcnt_event ev = false) evs) /\
  (forall b, b ∈ nm_gsscl (k_nmp k') -> b ∈ nm_gsscl (k_nmp k)) /\
  (forall b c, k_heap k' !! b = Some c -> k_heap k !! b = Some c) /\
  (forall b cp, k_heap k !! b = Some cp ->
     (k_heap k' !! b = Some cp /\
      (b ∈ nm_gsscl (k_nmp k) -> b ∈ nm_gsscl (k_nmp k'))) \/
     (b ∈ todo /\ k_heap k' !! b = None /\ (b ∉ nm_gsscl (k_nmp k')) /\
      reap_exempt (k_now k) cp = false /\
      GSS_MAX_NEG_CACHE_ENTRIES < nm_ncentries (k_nmp k))).

(** An INVALID context of audit session [asid], in the negative cache
    since [nctime], with [refcnt] references. *)
Definition inval_ctx (asid nctime refcnt : Z) : nfs_gss_clnt_ctx :=
  mk_ctx (mk_cred asid 501 501) None 0 GSS_CTX_INVAL refcnt None RPCSEC_GSS_DATA
         RPCSEC_GSS_SVC_NONE 0 0 None nctime 0 0 0 None None None None None.

(** A mount with a valid context of session 200 at address 11 and an
    INVALID one of session 100 at address 12, at uptime [now]. *)
Definition sample_registry (now : Z) : kernel :=
  mk_kernel
    (<[11 := with_cred (mk_cred 200 502 502) sample_complete_ctx]>
       (<[12 := inval_ctx 100 100 0]> ∅))
    (mk_mount false false 2 (mk_etype 3 3 [18; 17; 16]) [11; 12] 1)
    now 13 EINVAL true [].

Definition sample_req : nfsreq := mk_req true (mk_cred 100 501 501) 9 None.

(** A mount with [n] INVALID, unreferenced contexts at addresses 1 to
    [n], all in the negative cache since uptime 100. *)
Definition crowded_registry (n now : Z) : kernel :=
  mk_kernel
    (list_to_map ((fun a => (a, inval_ctx a 100 0)) <$> seqZ 1 n))
    (mk_mount false false 2 (mk_etype 3 3 [18; 17; 16]) (seqZ 1 n) n)
    now (n + 1) EINVAL true [].

(** [k1] differs from [k] by mutex operations only. *)
Definition k_quiet (k k1 : kernel) : Prop :=
  k_heap k1 = k_heap k /\ k_nmp k1 = k_nmp k /\ k_now k1 = k_now k /\
  k_next k1 = k_next k /\
  exists evs, k_trace k1 = evs ++ k_trace k /\
              Forall (fun ev => mutex_event ev = true) evs.

(** The contexts the walk of nfs_gss_clnt_ctx_find_principal passes
    over for a request: marked for destruction, or of another audit
    session. *)
Definition find_passes_over (req : nfsreq) (cp : nfs_gss_clnt_ctx) : Prop :=
  has_flag (gss_clnt_flags cp) GSS_CTX_DESTROY = true \/
  nfs_gss_clnt_ctx_cred_match (gss_clnt_cred cp) (r_cred req) = false.

(** ** What is said about the sequence window and the setup *)

(** The sleepers of a context have all announced themselves: whoever
    goes to sleep sets NEEDSEQ first (line 848), and whoever clears the
    flag wakes the whole channel. *)
Definition sleepers_announced (ch : ctx_chan) : Prop :=
  ch_sleepq ch <> [] -> has_flag (gss_clnt_flags (ch_ctx ch)) GSS_NEEDSEQ = true.




(** The server ends the attempt: it rejects the call with a context
    problem (ENEEDAUTH), or answers with a status that is neither
    COMPLETE nor CONTINUE_NEEDED. *)
Definition server_fails `{gss_limits} (s : server_answer) : Prop :=
  sa_error s = ENEEDAUTH \/
  (sa_error s = E0 /\
   0 < Z.of_nat (length (sa_handle s)) < GSS_MAX_CTX_HANDLE_LEN /\
   0 < Z.of_nat (length (sa_token s)) < GSS_MAX_TOKEN_LEN /\
   gss_major_bad (sa_major s) = true).

(** A pass of the loop that ends the attempt: gssd reports a status
    that is neither COMPLETE nor CONTINUE_NEEDED, or gssd goes on and the
    server ends the attempt. *)
Definition round_fails `{gss_limits} (a : round_answer) : Prop :=
  match ra_gssd a with
  | GssdReply major _ _ _ =>
    gss_major_bad major = true \/ (gss_major_bad major = false /\ server_fails (ra_server a))
  | _ => False
  end.

Definition fail_inv (nmp0 : nfsmount) (st : init_state) : Prop :=
  nm_gone (is_nmp st) = false /\
  et_count (nm_etype (is_nmp st)) = et_count (nm_etype nmp0) /\
  et_etypes (nm_etype (is_nmp st)) = et_etypes (nm_etype nmp0) /\
  is_server_complete st = false /\
  (gss_clnt_proc (is_cp st) = RPCSEC_GSS_INIT \/
   gss_clnt_proc (is_cp st) = RPCSEC_GSS_CONTINUE_INIT).


(** The context is in negotiation: its procedure is INIT or
    CONTINUE_INIT. *)
Definition proc_negotiating (cp : nfs_gss_clnt_ctx) : Prop :=
  gss_clnt_proc cp = RPCSEC_GSS_INIT \/ gss_clnt_proc cp = RPCSEC_GSS_CONTINUE_INIT.

(** The kernel at a later uptime. *)
Definition k_tick (now : Z) (k : kernel) : kernel :=
  mk_kernel (k_heap k) (k_nmp k) now (k_next k) (k_mnt_error k) (k_upcall_port k)
            (k_trace k).

(** ** Removing and renewing contexts *)

(** nfs_gss_clnt_ctx_remove, lines 2571-2619: the walk of the list with
    the mount locked.  The request that carries the reference is the
    zeroed one of line 2577 with its mount set. *)
Fixpoint ctx_remove_walk `{gss_limits} (cred : kauth_cred) (todo : list addr) (k : kernel)
  : kresult (errno_t * kernel) :=
  match todo with
  | [] => KOk (ENOENT, k_log EvUnlockMount k)
  | a :: rest =>
    match k_heap k !! a with
    | None => KTrap
    | Some cp =>
      let k := k_log (EvLock a) k in
      if nfs_gss_clnt_ctx_cred_match (gss_clnt_cred cp) cred then
        if has_flag (gss_clnt_flags cp) GSS_CTX_DESTROY
        then ctx_remove_walk cred rest (k_log (EvUnlock a) k)
        else
          let v := s32 (gss_clnt_refcnt cp + 1) in
          let cp := with_refcnt v cp in
          let cp := with_flags (set_flag (gss_clnt_flags cp)
                                         (Z.lor GSS_CTX_INVAL GSS_CTX_DESTROY)) cp in
          let k := k_log (EvUnlock a) (k_log (EvRefcnt a v) (k_put a cp k)) in
          let req := mk_req true zero_cred 0 (Some a) in
          match nfs_gss_clnt_ctx_unref req (k_log EvUnlockMount k) with
          | KOk (_, k) => KOk (E0, k)
          | KPanic => KPanic
          | KTrap => KTrap
          end
      else ctx_remove_walk cred rest (k_log (EvUnlock a) k)
    end
  end.

Definition nfs_gss_clnt_ctx_remove `{gss_limits} (cred : kauth_cred) (k : kernel)
  : kresult (errno_t * kernel) :=
  let k := k_log EvLockMount k in
  ctx_remove_walk cred (nm_gsscl (k_nmp k)) k.

(** nfs_gss_clnt_ctx_renew, lines 2429-2495.  The last component of the
    result tells whether wakeup(cp) was called (line 2458); [None] stands
    for a setup that has not come back. *)
Definition nfs_gss_clnt_ctx_renew `{gss_limits} (init_retry : init_retry_fn) (req : nfsreq)
    (k : kernel) : option (kresult (errno_t * nfsreq * kernel * bool)) :=
  match r_gss_ctx req with
  | None => Some (KOk (E0, req, k, false))
  | Some a =>
    if negb (r_nmp req) then Some (KOk (ENXIO, req, k, false))
    else
      match k_heap k !! a with
      | None => Some KTrap
      | Some cp =>
        let k := k_log (EvLock a) k in
        if has_flag (gss_clnt_flags cp) GSS_CTX_INVAL then
          match nfs_gss_clnt_ctx_unref req (k_log (EvUnlock a) k) with
          | KOk (req, k) => Some (KOk (E0, req, k, false))
          | KPanic => Some KPanic
          | KTrap => Some KTrap
          end
        else
          let cp := with_flags (set_flag (gss_clnt_flags cp)
                                         (Z.lor GSS_CTX_INVAL GSS_CTX_DESTROY)) cp in
          let woken :=
            negb (Z.land (gss_clnt_flags cp) (Z.lor GSS_NEEDCTX GSS_NEEDSEQ) =? 0) in
          let cp := if woken
                    then with_flags (clear_flag (gss_clnt_flags cp) GSS_NEEDSEQ) cp
                    else cp in
          let k := k_log (EvUnlock a) (k_put a cp k) in
          if bool_decide (gss_clnt_proc cp = RPCSEC_GSS_DESTROY)
          then Some (KOk (EACCES, req, k, woken))
          else if negb (bool_decide (gss_clnt_proc cp = RPCSEC_GSS_DATA))
          then Some (KOk (ENEEDAUTH, req, k, woken))
          else
            let '(error, ncp, k) := nfs_gss_clnt_ctx_copy cp k in
            match nfs_gss_clnt_ctx_unref req k with
            | KPanic => Some KPanic
            | KTrap => Some KTrap
            | KOk (req, k) =>
              if is_error error then Some (KOk (error, req, k, woken))
              else
                match ncp with
                | None => Some KTrap
                | Some n =>
                  let k := k_log EvLockMount k in
                  match k_heap k !! n with
                  | None => Some KTrap
                  | Some c =>
                    let k := k_put n (with_thread (Some (r_thread req)) c) k in
                    match nfs_gss_clnt_ctx_ref req n k with
                    | KPanic => Some KPanic
                    | KTrap => Some KTrap
                    | KOk (req, k) =>
                      let k := k_mount (with_nm_gsscl
                                          (tailq_insert_head n (nm_gsscl (k_nmp k)))
                                          (k_nmp k)) k in
                      let k := k_log (EvInit n) (k_log EvUnlockMount k) in
                      match k_heap k !! n with
                      | None => Some KTrap
                      | Some c =>
                        match init_retry c (k_nmp k) with
                        | None => None
                        | Some (error, c, nmp) =>
                          let k := k_mount nmp (k_put n c k) in
                          if is_error error then
                            match nfs_gss_clnt_ctx_unref req k with
                            | KOk (req, k) => Some (KOk (error, req, k, woken))
                            | KPanic => Some KPanic
                            | KTrap => Some KTrap
                            end
                          else Some (KOk (error, req, k, woken))
                        end
                      end
                    end
                  end
                end
            end
      end
  end.

(** The Kerberos contexts handed to gss_krb5_destroy_context and the
    contexts handed to kfree_type in a run of events. *)
Definition krb5_destroyed (evs : list kevent) : list Z :=
  omap (fun ev => match ev with EvKrb5Destroy id => Some id | _ => None end) evs.

Definition ctx_freed (evs : list kevent) : list addr :=
  omap (fun ev => match ev with EvFree a => Some a | _ => None end) evs.

(** A mechanism whose unwrap reports a minor status other than 0
    whenever it fails. *)
Definition unwrap_failure_has_minor (G : gss_krb5) : Prop :=
  forall ctx token major minor results,
    @gss_krb5_unwrap_mbuf G ctx token = (major, minor, results) ->
    major <> 0 -> minor <> E0.

(** A mechanism that unwraps nothing and fails without a minor status. *)
Definition silent_krb5 : gss_krb5 :=
  mk_gss_krb5 (@gss_krb5_get_mic_mbuf toy_krb5) (@gss_krb5_verify_mic toy_krb5)
              (@gss_krb5_wrap_mbuf toy_krb5) (fun _ _ => (2, E0, [])).

(** nfs_gss_clnt_ctx_unmount, lines 2502-2565: the loop over the head of
    the list, with the mount locked on entry.  [nfs_mount_gone] is what
    nfs_mount_gone(nmp) answers, and [nfs_request_gss] what the DESTROY
    call of line 2544, code outside nfs_gss.c, does to the kernel.  The
    loop has run out of [fuel] when the result is [None]. *)
Fixpoint ctx_unmount_loop `{gss_limits} (fuel : nat) (nfs_mount_gone : bool)
    (nfs_request_gss : addr -> kernel -> kernel) (k : kernel) : option (kresult kernel) :=
  match fuel with
  | O => None
  | Datatypes.S fuel =>
    match nm_gsscl (k_nmp k) with
    | [] => Some (KOk (k_log EvUnlockMount k))
    | a :: _ =>
      let k := k_mount (with_nm_gsscl (tailq_remove a (nm_gsscl (k_nmp k))) (k_nmp k)) k in
      match k_heap k !! a with
      | None => Some KTrap
      | Some cp =>
        let k := k_log (EvLock a) k in
        if has_flag (gss_clnt_flags cp) GSS_CTX_DESTROY
        then ctx_unmount_loop fuel nfs_mount_gone nfs_request_gss (k_log (EvUnlock a) k)
        else
          let v := s32 (gss_clnt_refcnt cp + 1) in
          let cp := with_refcnt v cp in
          let k := k_log (EvUnlock a) (k_log (EvRefcnt a v) (k_put a cp k)) in
          let req := mk_req true zero_cred 0 (Some a) in
          let k := k_log EvUnlockMount k in
          let k :=
            if negb nfs_mount_gone
               && (Z.land (gss_clnt_flags cp)
                          (Z.lor (Z.lor GSS_CTX_INVAL GSS_CTX_DESTROY) GSS_CTX_COMPLETE)
                   =? GSS_CTX_COMPLETE)
            then nfs_request_gss a (k_put a (with_proc RPCSEC_GSS_DESTROY cp) k)
            else k in
          match k_heap k !! a with
          | None => Some KTrap
          | Some cp =>
            let k := k_log (EvLock a) k in
            let cp := with_flags (set_flag (gss_clnt_flags cp)
                                           (Z.lor GSS_CTX_INVAL GSS_CTX_DESTROY)) cp in
            let k := k_log (EvUnlock a) (k_put a cp k) in
            match nfs_gss_clnt_ctx_unref req k with
            | KOk (_, k) =>
              ctx_unmount_loop fuel nfs_mount_gone nfs_request_gss (k_log EvLockMount k)
            | KPanic => Some KPanic
            | KTrap => Some KTrap
            end
          end
      end
    end
  end.

Definition nfs_gss_clnt_ctx_unmount `{gss_limits} (fuel : nat) (nfs_mount_gone : bool)
    (nfs_request_gss : addr -> kernel -> kernel) (nmp : bool) (k : kernel)
  : option (kresult kernel) :=
  if negb nmp then Some (KOk k)
  else ctx_unmount_loop fuel nfs_mount_gone nfs_request_gss (k_log EvLockMount k).

(** What nfs_gss_clnt_ctx_unmount leaves of a kernel [k]: an empty list;
    the contexts that were not on the list as they were; of those on the
    list, the ones not marked for destruction released if they had no
    references and otherwise kept with their references, marked INVALID
    and for destruction; the ones already marked for destruction left to
    whoever marked them, unless the reaper has released them. *)
Definition unmount_post (k k' : kernel) : Prop :=
  nm_gsscl (k_nmp k') = [] /\
  (forall b, b ∉ nm_gsscl (k_nmp k) -> k_heap k' !! b = k_heap k !! b) /\
  (forall b cp, b ∈ nm_gsscl (k_nmp k) -> k_heap k !! b = Some cp ->
     if has_flag (gss_clnt_flags cp) GSS_CTX_DESTROY
     then k_heap k' !! b = Some cp \/ (k_heap k' !! b = None /\ gss_clnt_refcnt cp = 0)
     else if gss_clnt_refcnt cp =? 0 then k_heap k' !! b = None
     else exists cp',
            k_heap k' !! b = Some cp' /\
            gss_clnt_refcnt cp' = gss_clnt_refcnt cp /\
            gss_clnt_cred cp' = gss_clnt_cred cp /\
            has_flag (gss_clnt_flags cp') GSS_CTX_INVAL = true /\
            has_flag (gss_clnt_flags cp') GSS_CTX_DESTROY = true).

(** ** What is asked of the mechanism in the setup, and worlds that fail *)

(** A MIC that the mechanism accepts is not reported with ENEEDAUTH as
    its minor status. *)
Definition verified_minor_not_needauth (G : gss_krb5) : Prop :=
  forall ctx msg mic major minor,
    gss_krb5_verify_mic ctx msg mic = (major, minor) ->
    major = GSS_S_COMPLETE -> minor <> ENEEDAUTH.

(** A mechanism that accepts every MIC and leaves ENEEDAUTH in the
    minor status. *)
Definition needauth_krb5 : gss_krb5 :=
  mk_gss_krb5
    (fun _ msg => (GSS_S_COMPLETE, E0, txdr_unsigned (Z.of_nat (length msg))))
    (fun _ _ _ => (GSS_S_COMPLETE, ENEEDAUTH))
    (fun _ msg => (GSS_S_COMPLETE, E0, [mk_mbuf 0 (x01 :: msg)]))
    (fun _ _ => (2, EBADRPC, [])).

(** gssd asks to continue and the server rejects the null call with a
    credential problem (ENEEDAUTH), in every pass: the server is failing
    the context setup. *)
Definition world_needauth (n : nat) : round_answer :=
  mk_round (GssdReply GSS_S_CONTINUE_NEEDED 0 None [x01])
           (mk_server_answer ENEEDAUTH None [] 0 0 0 []).

Definition sample_init_needauth : errno_t * nfs_gss_clnt_ctx * nfsmount * list (Z * list Z) :=
  Eval vm_compute in
    match @nfs_gss_clnt_ctx_init sample_limits toy_krb5 4 world_needauth
            12345 true sample_svcname RPCAUTH_KRB5 sample_mount sample_new_ctx with
    | Some r => r
    | None => (E0, sample_new_ctx, sample_mount, [])
    end.

(** gssd completes with an exported context of encryption type [e1] in
    the second pass and of type [e0] in the others, and the server
    answers each time with a status that is neither COMPLETE nor
    CONTINUE_NEEDED. *)
Definition world_picking (e0 e1 : Z) (n : nat) : round_answer :=
  mk_round (GssdReply GSS_S_COMPLETE 0
              (Some (7, match n with 1%nat => e1 | _ => e0 end)) [x01])
           (mk_server_answer E0 None [x0a] 13 0 0 [x02]).


(* ===================================================================== *)
(** * Part II. Properties                                                 *)
(* ===================================================================== *)

(** ** Flag arithmetic *)

Lemma has_flag_pow2 (f k : Z) : 0 <= k -> has_flag f (2 ^ k) = Z.testbit f k.
Proof.
  intros Hk. unfold has_flag.
  destruct (Z.testbit f k) eqn:Hb.
  - apply negb_true_iff, Z.eqb_neq. intros H0.
    assert (Z.testbit (Z.land f (2 ^ k)) k = true) as Ht.
    { rewrite Z.land_spec, Hb, Z.pow2_bits_true by lia. reflexivity. }
    rewrite H0, Z.bits_0 in Ht. discriminate.
  - apply negb_false_iff, Z.eqb_eq, Z.bits_inj'. intros n Hn.
    rewrite Z.land_spec, Z.bits_0, Z.pow2_bits_eqb by lia.
    destruct (Z.eqb_spec k n) as [->|]; [rewrite Hb|]; simpl; [reflexivity|].
    apply andb_false_r.
Qed.

Lemma testbit_set_flag (f j k : Z) :
  0 <= j -> 0 <= k -> Z.testbit (set_flag f (2 ^ j)) k = Z.testbit f k || (j =? k).
Proof. intros. unfold set_flag. rewrite Z.lor_spec, Z.pow2_bits_eqb by lia. reflexivity. Qed.

Lemma testbit_clear_flag (f j k : Z) :
  0 <= j -> 0 <= k -> Z.testbit (clear_flag f (2 ^ j)) k = Z.testbit f k && negb (j =? k).
Proof.
  intros. unfold clear_flag.
  rewrite Z.land_spec, Z.lnot_spec, Z.pow2_bits_eqb by lia. reflexivity.
Qed.

Lemma has_flag_set (f j k : Z) :
  0 <= j -> 0 <= k -> has_flag (set_flag f (2 ^ j)) (2 ^ k) = has_flag f (2 ^ k) || (j =? k).
Proof. intros. rewrite !has_flag_pow2 by lia. apply testbit_set_flag; lia. Qed.

Lemma has_flag_clear (f j k : Z) :
  0 <= j -> 0 <= k ->
  has_flag (clear_flag f (2 ^ j)) (2 ^ k) = has_flag f (2 ^ k) && negb (j =? k).
Proof. intros. rewrite !has_flag_pow2 by lia. apply testbit_clear_flag; lia. Qed.

(** Rewrites every flag test on a set or cleared flag word. *)
Ltac flag_simpl :=
  unfold GSS_CTX_COMPLETE, GSS_CTX_INVAL, GSS_CTX_STICKY, GSS_NEEDSEQ, GSS_NEEDCTX,
    GSS_CTX_DESTROY, GSS_CTX_USECOUNT, GSSD_RESTART, GSSD_LUCID_CONTEXT in *;
  repeat first
    [ rewrite has_flag_set by lia
    | rewrite has_flag_clear by lia ];
  simpl Z.eqb; simpl negb;
  rewrite ?orb_false_r, ?orb_true_r, ?andb_true_r, ?andb_false_r.

(** Reads fields through field updates, and nothing else. *)
Ltac ctx_simpl :=
  cbn [gss_clnt_cred gss_clnt_principal gss_clnt_prinnt gss_clnt_flags gss_clnt_refcnt
       gss_clnt_thread gss_clnt_proc gss_clnt_service gss_clnt_seqnum gss_clnt_seqwin
       gss_clnt_seqbits gss_clnt_nctime gss_clnt_major gss_clnt_minor gss_clnt_gssd_flags
       gss_clnt_handle gss_clnt_token gss_clnt_verf gss_clnt_ctx_id gss_clnt_svcname
       with_flags with_refcnt with_thread with_proc with_service with_seqnum with_seqwin
       with_seqbits with_nctime with_status with_gssd_flags with_handle with_token
       with_verf with_ctx_id with_svcname fst snd] in *.

(** ** Window bits *)

Lemma win_getbit_setbit (bits b r : Z) :
  0 <= b -> 0 <= r -> win_getbit (win_setbit bits b) r = win_getbit bits r || (b =? r).
Proof.
  intros. unfold win_getbit, win_setbit.
  rewrite Z.shiftl_1_l, Z.lor_spec, Z.pow2_bits_eqb by lia. reflexivity.
Qed.

Lemma win_getbit_resetbit (bits b r : Z) :
  0 <= b -> 0 <= r -> win_getbit (win_resetbit bits b) r = win_getbit bits r && negb (b =? r).
Proof.
  intros. unfold win_getbit, win_resetbit.
  rewrite Z.shiftl_1_l, Z.land_spec, Z.lnot_spec, Z.pow2_bits_eqb by lia. reflexivity.
Qed.

Lemma u32_small (z : Z) : 0 <= z < 2 ^ 32 -> u32 z = z.
Proof. intros. unfold u32. apply Z.mod_small. lia. Qed.

(** ** Taking sequence numbers in a row *)

(** What [n] successful takes in a row do to a context: the numbers are
    consecutive, the counter has advanced by [n], bits were only added,
    one per number, and nothing else moved. *)
Lemma seqwin_take_spec (ts : list thread_t) :
  forall (ch ch' : ctx_chan) (ns : list Z) (bits : Z),
    seqwin_take ts ch = Some (ns, ch') ->
    gss_clnt_seqbits (ch_ctx ch) = Some bits ->
    0 < gss_clnt_seqwin (ch_ctx ch) ->
    0 <= gss_clnt_seqnum (ch_ctx ch) ->
    gss_clnt_seqnum (ch_ctx ch) + Z.of_nat (length ts) < 2 ^ 32 ->
    ns = seqZ (gss_clnt_seqnum (ch_ctx ch) + 1) (Z.of_nat (length ts)) /\
    gss_clnt_seqnum (ch_ctx ch') = gss_clnt_seqnum (ch_ctx ch) + Z.of_nat (length ts) /\
    gss_clnt_seqwin (ch_ctx ch') = gss_clnt_seqwin (ch_ctx ch) /\
    gss_clnt_flags (ch_ctx ch') = gss_clnt_flags (ch_ctx ch) /\
    ch_sleepq ch' = ch_sleepq ch /\
    exists bits',
      gss_clnt_seqbits (ch_ctx ch') = Some bits' /\
      forall r, 0 <= r ->
        win_getbit bits' r =
        win_getbit bits r || existsb (fun n => n mod gss_clnt_seqwin (ch_ctx ch) =? r) ns.
Proof.
  induction ts as [|t ts IH]; intros ch ch' ns bits Htake Hbits HW Hs Hwrap.
  - simpl in Htake. injection Htake as <- <-. simpl.
    repeat split; try reflexivity; try lia.
    exists bits. split; [assumption|]. intros. now rewrite orb_false_r.
  - simpl in Htake. unfold cred_put_seqwin_check in Htake.
    rewrite Hbits in Htake.
    destruct (gss_clnt_seqwin (ch_ctx ch) =? 0) eqn:HW0; [apply Z.eqb_eq in HW0; lia|].
    destruct (win_getbit bits (oldest_slot (ch_ctx ch))) eqn:Hold; [discriminate|].
    match type of Htake with
    | match seqwin_take ts ?c with _ => _ end = _ => set (ch1 := c) in *
    end.
    destruct (seqwin_take ts ch1) as [[ns1 ch2]|] eqn:Hrec; [|discriminate].
    injection Htake as <- <-.
    simpl length in Hwrap. rewrite Nat2Z.inj_succ in Hwrap.
    assert (Hu : u32 (gss_clnt_seqnum (ch_ctx ch) + 1) = gss_clnt_seqnum (ch_ctx ch) + 1)
      by (apply u32_small; lia).
    specialize (IH ch1 ch2 ns1 _ Hrec eq_refl).
    subst ch1. simpl in IH. rewrite Hu in IH.
    destruct IH as (Hns & Hnum & Hwin & Hfl & Hq & bits' & Hb' & Hget); [lia..|].
    simpl length. rewrite Nat2Z.inj_succ, Hu.
    repeat split.
    + rewrite (seqZ_cons (gss_clnt_seqnum (ch_ctx ch) + 1)) by lia.
      rewrite Hns. do 2 f_equal; lia.
    + lia.
    + assumption.
    + assumption.
    + assumption.
    + exists bits'. split; [assumption|]. intros r Hr.
      rewrite Hget by assumption. simpl existsb.
      rewrite win_getbit_setbit; [|apply Z.mod_pos_bound; lia|lia].
      now rewrite orb_assoc.
Qed.

(** Starting from an empty window, [W] takes in a row all succeed. *)
Lemma seqwin_take_from_empty (ts : list thread_t) :
  forall (ch : ctx_chan) (bits : Z) (k : Z),
    gss_clnt_seqbits (ch_ctx ch) = Some bits ->
    0 < gss_clnt_seqwin (ch_ctx ch) ->
    0 <= k ->
    k + Z.of_nat (length ts) <= gss_clnt_seqwin (ch_ctx ch) ->
    gss_clnt_seqwin (ch_ctx ch) - 1 <= gss_clnt_seqnum (ch_ctx ch) - k ->
    gss_clnt_seqnum (ch_ctx ch) + Z.of_nat (length ts) < 2 ^ 32 ->
    (forall r, 0 <= r ->
       win_getbit bits r = true ->
       exists j, 0 <= j < k /\ r = (gss_clnt_seqnum (ch_ctx ch) - j) mod gss_clnt_seqwin (ch_ctx ch)) ->
    exists ns ch', seqwin_take ts ch = Some (ns, ch').
Proof.
  induction ts as [|t ts IH]; intros ch bits k Hbits HW Hk Hlen Hs Hwrap Hocc.
  - simpl. eauto.
  - simpl length in *. rewrite Nat2Z.inj_succ in *.
    simpl. unfold cred_put_seqwin_check. rewrite Hbits.
    destruct (gss_clnt_seqwin (ch_ctx ch) =? 0) eqn:HW0; [apply Z.eqb_eq in HW0; lia|].
    set (W := gss_clnt_seqwin (ch_ctx ch)) in *.
    set (s := gss_clnt_seqnum (ch_ctx ch)) in *.
    destruct (win_getbit bits (oldest_slot (ch_ctx ch))) eqn:Hold.
    + exfalso.
      destruct (Hocc (oldest_slot (ch_ctx ch))) as (j & Hj & Heq); [|assumption|].
      { unfold oldest_slot. apply Z.mod_pos_bound. assumption. }
      unfold oldest_slot in Heq. fold W s in Heq.
      rewrite u32_small in Heq by lia.
      (* s - W + 1 and s - j are congruent mod W with 0 <= j < k < W *)
      assert (Hd : (s - j - (s - W + 1)) mod W = 0).
      { rewrite Zminus_mod, <- Heq, Z.sub_diag. apply Z.mod_0_l. lia. }
      replace (s - j - (s - W + 1)) with (W - 1 - j) in Hd by lia.
      rewrite Z.mod_small in Hd by lia. lia.
    + assert (Hu : u32 (s + 1) = s + 1) by (apply u32_small; lia).
      match goal with
      | |- context [seqwin_take ts ?c] => set (ch1 := c)
      end.
      destruct (IH ch1 (win_setbit bits (u32 (s + 1) mod W)) (k + 1))
        as (ns & ch' & Htake); try (subst ch1; simpl; fold W s; rewrite ?Hu; lia).
      { reflexivity. }
      { subst ch1. simpl. fold W s. rewrite Hu. intros r Hr Hget.
        rewrite win_getbit_setbit in Hget; [|apply Z.mod_pos_bound; lia|lia].
        apply orb_true_iff in Hget as [Hget|Hget].
        - destruct (Hocc r Hr Hget) as (j & Hj & ->).
          exists (j + 1). split; [lia|]. f_equal. lia.
        - apply Z.eqb_eq in Hget. exists 0. split; [lia|]. rewrite <- Hget. f_equal. lia. }
      rewrite Htake. eauto.
Qed.

(** A thread that finds the oldest slot still set goes to sleep: it sets
    NEEDSEQ, joins the sleepers and changes nothing else. *)
Lemma seqwin_check_blocks (t : thread_t) (ch : ctx_chan) (bits : Z) :
  gss_clnt_seqbits (ch_ctx ch) = Some bits ->
  0 < gss_clnt_seqwin (ch_ctx ch) ->
  win_getbit bits (oldest_slot (ch_ctx ch)) = true ->
  cred_put_seqwin_check t ch =
    (SeqAsleep,
     mk_chan (with_flags (set_flag (gss_clnt_flags (ch_ctx ch)) GSS_NEEDSEQ) (ch_ctx ch))
             (ch_sleepq ch ++ [t])).
Proof.
  intros Hbits HW Hold. unfold cred_put_seqwin_check. rewrite Hbits.
  destruct (gss_clnt_seqwin (ch_ctx ch) =? 0) eqn:HW0; [apply Z.eqb_eq in HW0; lia|].
  rewrite Hold. reflexivity.
Qed.

Lemma set_flag_idem (f F : Z) : set_flag (set_flag f F) F = set_flag f F.
Proof. unfold set_flag. now rewrite <- Z.lor_assoc, Z.lor_diag. Qed.

Lemma seqwin_arrive_blocked (ws : list thread_t) :
  forall (ch : ctx_chan) (bits : Z),
    gss_clnt_seqbits (ch_ctx ch) = Some bits ->
    0 < gss_clnt_seqwin (ch_ctx ch) ->
    win_getbit bits (oldest_slot (ch_ctx ch)) = true ->
    ws <> [] ->
    seqwin_arrive ws ch =
      (replicate (length ws) SeqAsleep,
       mk_chan (with_flags (set_flag (gss_clnt_flags (ch_ctx ch)) GSS_NEEDSEQ) (ch_ctx ch))
               (ch_sleepq ch ++ ws)).
Proof.
  induction ws as [|w ws IH]; intros ch bits Hbits HW Hold Hne; [congruence|].
  simpl. rewrite (seqwin_check_blocks w ch bits) by assumption.
  destruct ws as [|w' ws].
  - reflexivity.
  - rewrite (IH _ bits); try assumption; try discriminate.
    simpl. rewrite set_flag_idem, <- app_assoc. reflexivity.
Qed.

(** ** Releasing a sequence number *)

(** nfs_gss_clnt_rpcdone on a completed context whose counter has not
    fallen below the window size: the bit of the request's most recent
    number is cleared exactly when the number is inside the live window,
    NEEDSEQ is cleared, and every sleeper is made runnable. *)
Lemma rpcdone_spec `{gss_limits} (ch : ctx_chan) (gsp : Z) (rest : list Z) (bits : Z) :
  has_flag (gss_clnt_flags (ch_ctx ch)) GSS_CTX_COMPLETE = true ->
  0 < gss_clnt_seqwin (ch_ctx ch) ->
  gss_clnt_seqwin (ch_ctx ch) <= gss_clnt_seqnum (ch_ctx ch) < 2 ^ 32 ->
  gss_clnt_seqbits (ch_ctx ch) = Some bits ->
  (ch_sleepq ch <> [] -> has_flag (gss_clnt_flags (ch_ctx ch)) GSS_NEEDSEQ = true) ->
  exists ch',
    nfs_gss_clnt_rpcdone (gsp :: rest) (Some ch) =
      KOk (firstn (Z.to_nat GSS_CLNT_SEQLISTMAX) (gsp :: rest), Some ch', ch_sleepq ch) /\
    ch_sleepq ch' = [] /\
    has_flag (gss_clnt_flags (ch_ctx ch')) GSS_NEEDSEQ = false /\
    has_flag (gss_clnt_flags (ch_ctx ch')) GSS_CTX_INVAL =
      has_flag (gss_clnt_flags (ch_ctx ch)) GSS_CTX_INVAL /\
    gss_clnt_seqnum (ch_ctx ch') = gss_clnt_seqnum (ch_ctx ch) /\
    gss_clnt_seqwin (ch_ctx ch') = gss_clnt_seqwin (ch_ctx ch) /\
    gss_clnt_seqbits (ch_ctx ch') =
      Some (if gss_clnt_seqnum (ch_ctx ch) - gss_clnt_seqwin (ch_ctx ch) <? gsp
            then win_resetbit bits (gsp mod gss_clnt_seqwin (ch_ctx ch))
            else bits).
Proof.
  intros Hc HW Hs Hbits Hinv.
  unfold nfs_gss_clnt_rpcdone. rewrite Hc. simpl negb. cbv iota.
  rewrite u32_small by lia. rewrite Hbits.
  destruct (gss_clnt_seqwin (ch_ctx ch) =? 0) eqn:HW0; [apply Z.eqb_eq in HW0; lia|].
  destruct (gss_clnt_seqnum (ch_ctx ch) - gss_clnt_seqwin (ch_ctx ch) <? gsp) eqn:Hin.
  - cbv beta iota. simpl gss_clnt_flags.
    destruct (has_flag (gss_clnt_flags (ch_ctx ch)) GSS_NEEDSEQ) eqn:Hneed.
    + eexists. split; [reflexivity|]. simpl.
      repeat split; try reflexivity. all: flag_simpl; reflexivity.
    + assert (ch_sleepq ch = []) as Hq.
      { destruct (ch_sleepq ch); [reflexivity|]. discriminate Hinv. discriminate. }
      eexists. split; [rewrite Hq; reflexivity|]. simpl.
      repeat split; try reflexivity; assumption.
  - cbv beta iota.
    destruct (has_flag (gss_clnt_flags (ch_ctx ch)) GSS_NEEDSEQ) eqn:Hneed.
    + eexists. split; [reflexivity|]. simpl.
      repeat split; try assumption; try reflexivity. all: flag_simpl; reflexivity.
    + assert (ch_sleepq ch = []) as Hq.
      { destruct (ch_sleepq ch); [reflexivity|]. discriminate Hinv. discriminate. }
      eexists. split; [rewrite Hq; reflexivity|]. simpl.
      repeat split; try reflexivity; assumption.
Qed.

Lemma sleepers_announced_check (t : thread_t) (ch : ctx_chan) :
  sleepers_announced ch -> sleepers_announced (snd (cred_put_seqwin_check t ch)).
Proof.
  intros Hinv. unfold cred_put_seqwin_check.
  destruct (gss_clnt_seqbits (ch_ctx ch)) as [bits|]; [|exact Hinv].
  destruct (gss_clnt_seqwin (ch_ctx ch) =? 0); [exact Hinv|].
  destruct (win_getbit bits (oldest_slot (ch_ctx ch))).
  - intros _. simpl. flag_simpl. reflexivity.
  - exact Hinv.
Qed.

Lemma sleepers_announced_rpcdone `{gss_limits} (seqlist seqlist' : list Z)
    (ch ch' : ctx_chan) (woken : list thread_t) :
  sleepers_announced ch ->
  nfs_gss_clnt_rpcdone seqlist (Some ch) = KOk (seqlist', Some ch', woken) ->
  sleepers_announced ch'.
Proof.
  intros Hinv. unfold nfs_gss_clnt_rpcdone.
  destruct (negb (has_flag (gss_clnt_flags (ch_ctx ch)) GSS_CTX_COMPLETE)).
  { intros [= <- <- <-]. exact Hinv. }
  match goal with |- context [match ?r with KOk _ => _ | KPanic => _ | KTrap => _ end] =>
    assert (forall cp1, r = KOk cp1 -> gss_clnt_flags cp1 = gss_clnt_flags (ch_ctx ch)) as Hfl;
    [|destruct r as [cp1| |]; try discriminate]
  end.
  { intros cp1. destruct seqlist as [|gsp ?]; [intros [= <-]; reflexivity|].
    destruct (_ <? gsp); [|intros [= <-]; reflexivity].
    destruct (gss_clnt_seqbits (ch_ctx ch)); [|discriminate].
    destruct (_ =? 0); [discriminate|]. intros [= <-]. reflexivity. }
  specialize (Hfl cp1 eq_refl).
  destruct (has_flag (gss_clnt_flags cp1) GSS_NEEDSEQ) eqn:Hneed.
  - simpl. intros [= <- <- <-]. intros Hq. simpl in Hq. congruence.
  - intros [= <- <- <-]. intros Hq. simpl in *. specialize (Hinv Hq). congruence.
Qed.

Lemma seqwin_check_assigns (t : thread_t) (ch : ctx_chan) (bits : Z) :
  gss_clnt_seqbits (ch_ctx ch) = Some bits ->
  0 < gss_clnt_seqwin (ch_ctx ch) ->
  win_getbit bits (oldest_slot (ch_ctx ch)) = false ->
  cred_put_seqwin_check t ch =
    (SeqAssigned (u32 (gss_clnt_seqnum (ch_ctx ch) + 1)),
     mk_chan (with_seqbits
                (Some (win_setbit bits
                         (u32 (gss_clnt_seqnum (ch_ctx ch) + 1) mod gss_clnt_seqwin (ch_ctx ch))))
                (with_seqnum (u32 (gss_clnt_seqnum (ch_ctx ch) + 1)) (ch_ctx ch)))
             (ch_sleepq ch)).
Proof.
  intros Hbits HW Hold. unfold cred_put_seqwin_check. rewrite Hbits.
  destruct (gss_clnt_seqwin (ch_ctx ch) =? 0) eqn:HW0; [apply Z.eqb_eq in HW0; lia|].
  rewrite Hold. reflexivity.
Qed.

Lemma existsb_mod_seqZ (W m len x : Z) :
  m <= x < m + len ->
  existsb (fun n => n mod W =? x mod W) (seqZ m len) = true.
Proof.
  intros Hx. apply existsb_exists. exists x. split; [|apply Z.eqb_refl].
  apply list_elem_of_In, elem_of_seqZ. lia.
Qed.

(** C1, as the code has it.  Take a completed, valid context with window
    [W] whose counter [s] is clear of the 32-bit wrap, and let [W] threads
    take sequence numbers with no release in between.  Then the numbers
    are [s+1 .. s+W]; every further thread that asks goes to sleep; when
    the request holding the oldest number [s+1] completes, wakeup makes
    all the sleepers runnable, not one of them; whichever of them runs
    first is given [s+W+1], larger than every number handed out before,
    with its bit set at [(s+W+1) mod W]; and every other one, running
    after it, finds the oldest slot set and sleeps again. *)
Theorem seqwin_full_then_release_admits_one `{gss_limits}
    (ch0 ch1 : ctx_chan) (W s : Z) (ts ws : list thread_t) (ns rest : list Z) :
  gss_clnt_seqwin (ch_ctx ch0) = W ->
  gss_clnt_seqnum (ch_ctx ch0) = s ->
  0 < W -> W - 1 <= s -> s + W + 1 < 2 ^ 32 ->
  has_flag (gss_clnt_flags (ch_ctx ch0)) GSS_CTX_COMPLETE = true ->
  has_flag (gss_clnt_flags (ch_ctx ch0)) GSS_CTX_INVAL = false ->
  ch_sleepq ch0 = [] ->
  Z.of_nat (length ts) = W ->
  seqwin_take ts ch0 = Some (ns, ch1) ->
  ws <> [] ->
  ns = seqZ (s + 1) W /\
  exists ch2 ch3,
    seqwin_arrive ws ch1 = (replicate (length ws) SeqAsleep, ch2) /\
    ch_sleepq ch2 = ws /\
    has_flag (gss_clnt_flags (ch_ctx ch2)) GSS_NEEDSEQ = true /\
    nfs_gss_clnt_rpcdone ((s + 1) :: rest) (Some ch2) =
      KOk (firstn (Z.to_nat GSS_CLNT_SEQLISTMAX) ((s + 1) :: rest), Some ch3, ws) /\
    ch_sleepq ch3 = [] /\
    forall w, exists ch4,
      cred_put_seqwin_resume E0 w ch3 = (SeqAssigned (s + W + 1), ch4) /\
      gss_clnt_seqnum (ch_ctx ch4) = s + W + 1 /\
      win_getbit (seqbits_of (ch_ctx ch4)) ((s + W + 1) mod W) = true /\
      Forall (fun n => n < s + W + 1) ns /\
      forall w', exists ch5, cred_put_seqwin_resume E0 w' ch4 = (SeqAsleep, ch5).
Proof.
  intros HW Hs HWpos Hlow Hwrap Hcomp Hinval Hq Hlen Htake Hws.
  destruct (gss_clnt_seqbits (ch_ctx ch0)) as [bits0|] eqn:Hbits0.
  2:{ destruct ts as [|t ts]; [simpl in Hlen; lia|].
      simpl in Htake. unfold cred_put_seqwin_check in Htake.
      rewrite Hbits0 in Htake. discriminate. }
  destruct (seqwin_take_spec ts ch0 ch1 ns bits0 Htake Hbits0)
    as (Hns & Hnum1 & Hwin1 & Hfl1 & Hq1 & bits1 & Hbits1 & Hget1); [lia..|].
  rewrite Hs, Hlen in Hns, Hnum1. rewrite HW in Hwin1, Hget1. rewrite Hq in Hq1.
  split; [exact Hns|].
  assert (Hold1 : oldest_slot (ch_ctx ch1) = (s + 1) mod W).
  { unfold oldest_slot. rewrite Hnum1, Hwin1, u32_small by lia. f_equal. lia. }
  assert (Hset1 : forall x, s + 1 <= x < s + 1 + W -> win_getbit bits1 (x mod W) = true).
  { intros x Hx. rewrite Hget1 by (apply Z.mod_pos_bound; lia).
    rewrite Hns, existsb_mod_seqZ by lia. apply orb_true_r. }
  (* the late arrivals *)
  pose proof (seqwin_arrive_blocked ws ch1 bits1 Hbits1) as Harr.
  rewrite Hwin1, Hold1, Hq1 in Harr.
  specialize (Harr HWpos (Hset1 (s + 1) ltac:(lia)) Hws). simpl in Harr.
  set (ch2 := mk_chan
                (with_flags (set_flag (gss_clnt_flags (ch_ctx ch1)) GSS_NEEDSEQ) (ch_ctx ch1))
                ws) in *.
  assert (Hneed2 : has_flag (gss_clnt_flags (ch_ctx ch2)) GSS_NEEDSEQ = true).
  { subst ch2. simpl. flag_simpl. reflexivity. }
  (* the release of s + 1 *)
  destruct (rpcdone_spec ch2 (s + 1) rest bits1)
    as (ch3 & Hdone & Hq3 & Hneed3 & Hinv3 & Hnum3 & Hwin3 & Hbits3).
  { subst ch2. simpl. rewrite Hfl1. revert Hcomp. flag_simpl. intros ->. reflexivity. }
  { subst ch2. simpl. lia. }
  { subst ch2. simpl. lia. }
  { subst ch2. simpl. exact Hbits1. }
  { intros _. exact Hneed2. }
  assert (Hinv2 : has_flag (gss_clnt_flags (ch_ctx ch2)) GSS_CTX_INVAL = false).
  { subst ch2. simpl. rewrite Hfl1. revert Hinval. flag_simpl. intros ->. reflexivity. }
  rewrite Hinv2 in Hinv3.
  replace (gss_clnt_seqnum (ch_ctx ch2)) with (s + W) in * by (subst ch2; simpl; lia).
  replace (gss_clnt_seqwin (ch_ctx ch2)) with W in * by (subst ch2; simpl; lia).
  replace (s + W - W <? s + 1) with true in Hbits3 by (symmetry; apply Z.ltb_lt; lia).
  exists ch2, ch3.
  split; [exact Harr|]. split; [reflexivity|]. split; [exact Hneed2|].
  split; [exact Hdone|]. split; [exact Hq3|].
  (* the woken threads *)
  intros w.
  assert (Hold3 : oldest_slot (ch_ctx ch3) = (s + 1) mod W).
  { unfold oldest_slot. rewrite Hnum3, Hwin3, u32_small by lia. f_equal. lia. }
  assert (Hx : 0 <= (s + 1) mod W) by (apply Z.mod_pos_bound; lia).
  unfold cred_put_seqwin_resume. simpl is_error. cbv iota. rewrite Hinv3.
  rewrite (seqwin_check_assigns w ch3 _ Hbits3).
  2:{ lia. }
  2:{ rewrite Hold3, win_getbit_resetbit, Z.eqb_refl by lia. apply andb_false_r. }
  rewrite Hnum3, Hwin3, u32_small by lia.
  replace (s + W + 1) with (s + 1 + 1 * W) by lia.
  rewrite Z.mod_add by lia.
  eexists. split; [reflexivity|]. unfold seqbits_of. simpl.
  split; [lia|].
  split.
  { rewrite win_getbit_setbit, Z.eqb_refl by lia. apply orb_true_r. }
  split.
  { rewrite Hns. apply Forall_forall. intros n Hn.
    apply elem_of_seqZ in Hn. lia. }
  intros w'. rewrite Hinv3.
  erewrite seqwin_check_blocks; [eexists; reflexivity|simpl; reflexivity|simpl; lia|].
  simpl. unfold oldest_slot. simpl. rewrite Hwin3.
  rewrite u32_small by lia.
  assert (Hy : 0 <= (s + 1 + 1 * W - W + 1) mod W) by (apply Z.mod_pos_bound; lia).
  rewrite win_getbit_setbit, win_getbit_resetbit by lia.
  destruct (Z.eqb_spec ((s + 1) mod W) ((s + 1 + 1 * W - W + 1) mod W)) as [|Hne].
  { apply orb_true_r. }
  rewrite orb_false_r, andb_true_r.
  apply Hset1.
  assert (W <> 1).
  { intros ->. apply Hne. now rewrite !Z.mod_1_r. }
  lia.
Qed.

(** The scenario of the specification, through the theorem. *)
Lemma seqwin_full_then_release_admits_one_witness :
  seqwin_take [1; 2; 3; 4] (fresh_window 4 999)
    = Some ([1000; 1001; 1002; 1003], scenario_full) /\
  exists ch2 ch3,
    seqwin_arrive [5; 6] scenario_full = ([SeqAsleep; SeqAsleep], ch2) /\
    ch_sleepq ch2 = [5; 6] /\
    has_flag (gss_clnt_flags (ch_ctx ch2)) GSS_NEEDSEQ = true /\
    @nfs_gss_clnt_rpcdone sample_limits [1000] (Some ch2) = KOk ([1000], Some ch3, [5; 6]) /\
    ch_sleepq ch3 = [] /\
    forall w, exists ch4,
      cred_put_seqwin_resume E0 w ch3 = (SeqAssigned 1004, ch4) /\
      gss_clnt_seqnum (ch_ctx ch4) = 1004 /\
      win_getbit (seqbits_of (ch_ctx ch4)) (1004 mod 4) = true /\
      Forall (fun n => n < 1004) [1000; 1001; 1002; 1003] /\
      forall w', exists ch5, cred_put_seqwin_resume E0 w' ch4 = (SeqAsleep, ch5).
Proof.
  split; [vm_compute; reflexivity|].
  refine (proj2 (@seqwin_full_then_release_admits_one sample_limits
                   (fresh_window 4 999) scenario_full 4 999 [1; 2; 3; 4] [5; 6]
                   [1000; 1001; 1002; 1003] []
                   eq_refl eq_refl _ _ _ _ _ eq_refl eq_refl _ _)).
  - lia.
  - lia.
  - lia.
  - vm_compute; reflexivity.
  - vm_compute; reflexivity.
  - vm_compute; reflexivity.
  - discriminate.
Defined.

(** C1 as written fails on the code: with two sleepers on a full window,
    the release of the oldest number makes both of them runnable. *)
Lemma seqwin_release_wakes_every_sleeper :
  seqwin_take [1; 2; 3; 4] (fresh_window 4 999)
    = Some ([1000; 1001; 1002; 1003], scenario_full) /\
  seqwin_arrive [5; 6] scenario_full = ([SeqAsleep; SeqAsleep], scenario_waiting) /\
  @nfs_gss_clnt_rpcdone sample_limits [1000] (Some scenario_waiting)
    = KOk ([1000], Some scenario_released, [5; 6]) /\
  length [5; 6] <> 1%nat.
Proof.
  split; [vm_compute; reflexivity|]. split; [vm_compute; reflexivity|].
  split; [vm_compute; reflexivity|]. simpl. lia.
Qed.

(** nfs_gss_clnt_rpcdone on any completed context with a window and a
    bitmap: the test of line 2125 is made on the difference as a
    uint32_t. *)
Lemma rpcdone_any_counter `{gss_limits} (ch : ctx_chan) (gsp : Z) (rest : list Z) (bits : Z) :
  has_flag (gss_clnt_flags (ch_ctx ch)) GSS_CTX_COMPLETE = true ->
  0 < gss_clnt_seqwin (ch_ctx ch) ->
  gss_clnt_seqbits (ch_ctx ch) = Some bits ->
  (ch_sleepq ch <> [] -> has_flag (gss_clnt_flags (ch_ctx ch)) GSS_NEEDSEQ = true) ->
  exists ch',
    nfs_gss_clnt_rpcdone (gsp :: rest) (Some ch) =
      KOk (firstn (Z.to_nat GSS_CLNT_SEQLISTMAX) (gsp :: rest), Some ch', ch_sleepq ch) /\
    ch_sleepq ch' = [] /\
    has_flag (gss_clnt_flags (ch_ctx ch')) GSS_NEEDSEQ = false /\
    gss_clnt_seqnum (ch_ctx ch') = gss_clnt_seqnum (ch_ctx ch) /\
    gss_clnt_seqwin (ch_ctx ch') = gss_clnt_seqwin (ch_ctx ch) /\
    gss_clnt_seqbits (ch_ctx ch') =
      Some (if u32 (gss_clnt_seqnum (ch_ctx ch) - gss_clnt_seqwin (ch_ctx ch)) <? gsp
            then win_resetbit bits (gsp mod gss_clnt_seqwin (ch_ctx ch))
            else bits).
Proof.
  intros Hc HW Hbits Hinv.
  unfold nfs_gss_clnt_rpcdone. rewrite Hc. simpl negb. cbv iota.
  rewrite Hbits.
  destruct (gss_clnt_seqwin (ch_ctx ch) =? 0) eqn:HW0; [apply Z.eqb_eq in HW0; lia|].
  destruct (u32 (gss_clnt_seqnum (ch_ctx ch) - gss_clnt_seqwin (ch_ctx ch)) <? gsp) eqn:Hin;
    cbv beta iota; simpl gss_clnt_flags;
    destruct (has_flag (gss_clnt_flags (ch_ctx ch)) GSS_NEEDSEQ) eqn:Hneed.
  - eexists. split; [reflexivity|]. simpl.
    repeat split; try reflexivity. flag_simpl; reflexivity.
  - assert (ch_sleepq ch = []) as Hq.
    { destruct (ch_sleepq ch); [reflexivity|]. discriminate Hinv. discriminate. }
    eexists. split; [rewrite Hq; reflexivity|]. simpl.
    repeat split; try reflexivity; assumption.
  - eexists. split; [reflexivity|]. simpl.
    repeat split; try assumption; try reflexivity. flag_simpl; reflexivity.
  - assert (ch_sleepq ch = []) as Hq.
    { destruct (ch_sleepq ch); [reflexivity|]. discriminate Hinv. discriminate. }
    eexists. split; [rewrite Hq; reflexivity|]. simpl.
    repeat split; try reflexivity; assumption.
Qed.

(** C2.  When a request completes on a completed context (window [W],
    counter [cur], a uint32_t), nfs_gss_clnt_rpcdone changes the bitmap
    only if the request's sequence number [seq] is inside the live
    window, [seq > cur - W], and then only by clearing the bit at
    [seq mod W]; if [seq <= cur - W] the bitmap is unchanged; in both
    cases NEEDSEQ is cleared and every thread asleep on the context for
    window space is woken.  The test is made on [cur - W] as a uint32_t:
    where the counter is not below the window size, every number inside
    the live window has its bit cleared. *)
Theorem rpcdone_clears_only_live_slot `{gss_limits}
    (ch : ctx_chan) (seq : Z) (rest : list Z) (bits W cur : Z) :
  has_flag (gss_clnt_flags (ch_ctx ch)) GSS_CTX_COMPLETE = true ->
  gss_clnt_seqwin (ch_ctx ch) = W ->
  gss_clnt_seqnum (ch_ctx ch) = cur ->
  gss_clnt_seqbits (ch_ctx ch) = Some bits ->
  0 < W -> cur < 2 ^ 32 ->
  sleepers_announced ch ->
  exists seqlist' ch' bits',
    nfs_gss_clnt_rpcdone (seq :: rest) (Some ch) = KOk (seqlist', Some ch', ch_sleepq ch) /\
    ch_sleepq ch' = [] /\
    has_flag (gss_clnt_flags (ch_ctx ch')) GSS_NEEDSEQ = false /\
    gss_clnt_seqbits (ch_ctx ch') = Some bits' /\
    bits' = (if u32 (cur - W) <? seq then win_resetbit bits (seq mod W) else bits) /\
    (bits' <> bits -> seq > cur - W) /\
    (seq <= cur - W -> bits' = bits) /\
    (forall r, 0 <= r -> r <> seq mod W -> win_getbit bits' r = win_getbit bits r) /\
    (W <= cur -> seq > cur - W ->
       bits' = win_resetbit bits (seq mod W) /\
       win_getbit bits' (seq mod W) = false).
Proof.
  intros Hc HW Hcur Hbits HWpos Hrange Hinv.
  destruct (rpcdone_any_counter ch seq rest bits Hc)
    as (ch' & Hdone & Hq & Hneed & _ & _ & Hb); try assumption; try lia.
  rewrite HW, Hcur in Hb.
  eexists _, ch', _. split; [exact Hdone|]. split; [exact Hq|]. split; [exact Hneed|].
  split; [exact Hb|]. split; [reflexivity|].
  assert (0 <= seq mod W) by (apply Z.mod_pos_bound; lia).
  assert (Hu : 0 <= u32 (cur - W) /\ (0 <= cur - W -> u32 (cur - W) = cur - W)).
  { split; [apply Z.mod_pos_bound; lia|]. intros ?. apply u32_small. lia. }
  destruct Hu as [Hu0 Hu1].
  split; [|split; [|split]].
  - destruct (Z.ltb_spec (u32 (cur - W)) seq) as [Hlt|Hge]; [|congruence].
    intros _. destruct (Z_lt_le_dec (cur - W) 0); [lia|]. rewrite Hu1 in Hlt; lia.
  - intros Hout. destruct (Z.ltb_spec (u32 (cur - W)) seq) as [Hlt|Hge]; [|reflexivity].
    destruct (Z_lt_le_dec (cur - W) 0); [lia|]. rewrite Hu1 in Hlt; lia.
  - intros r Hr Hne. destruct (u32 (cur - W) <? seq); [|reflexivity].
    rewrite win_getbit_resetbit by lia.
    destruct (Z.eqb_spec (seq mod W) r); [congruence|]. apply andb_true_r.
  - intros HWc Hin. rewrite Hu1 by lia.
    replace (cur - W <? seq) with true by (symmetry; apply Z.ltb_lt; lia).
    split; [reflexivity|].
    rewrite win_getbit_resetbit, Z.eqb_refl by lia. apply andb_false_r.
Qed.

(** C2 on the full window of the scenario (1000 to 1003 outstanding, two
    sleepers): 1001 is inside the live window, and its bit is cleared. *)
Lemma rpcdone_clears_only_live_slot_witness :
  exists seqlist' ch' bits',
    @nfs_gss_clnt_rpcdone sample_limits [1001] (Some scenario_waiting)
      = KOk (seqlist', Some ch', [5; 6]) /\
    ch_sleepq ch' = [] /\
    gss_clnt_seqbits (ch_ctx ch') = Some bits' /\
    bits' = win_resetbit 15 (1001 mod 4) /\
    win_getbit bits' (1001 mod 4) = false.
Proof.
  destruct (@rpcdone_clears_only_live_slot sample_limits scenario_waiting 1001 [] 15 4 1003)
    as (l & ch' & bits' & Hrun & Hq & _ & Hb & _ & _ & _ & _ & Hin).
  - vm_compute; reflexivity.
  - reflexivity.
  - reflexivity.
  - reflexivity.
  - lia.
  - lia.
  - intros _. vm_compute; reflexivity.
  - exists l, ch', bits'. split; [exact Hrun|]. split; [exact Hq|]. split; [exact Hb|].
    apply Hin; lia.
Defined.

(** The counter below the window size, as it is after it has wrapped
    (window 4, counter 2, numbers 4294967295 to 2 outstanding): 2 is
    inside the live window and keeps its bit, because [2 - 4] is
    4294967294 as a uint32_t. *)
Example rpcdone_after_wrap_keeps_live_bit :
  @nfs_gss_clnt_rpcdone sample_limits [2]
     (Some (mk_chan (with_seqbits (Some 15) (ch_ctx (fresh_window 4 2))) []))
  = KOk ([2], Some (mk_chan (with_seqbits (Some 15) (ch_ctx (fresh_window 4 2))) []), []).
Proof. vm_compute. reflexivity. Qed.

(** ** mbuf chains *)

Lemma mbuf_len_nonneg (m : mbuf) : 0 <= mbuf_len m.
Proof. unfold mbuf_len. lia. Qed.

Lemma mchain_length_nonneg (mc : list mbuf) : 0 <= nfs_gss_mchain_length mc.
Proof. induction mc as [|m mc IH]; simpl; [lia|]. pose proof (mbuf_len_nonneg m). lia. Qed.

Lemma mchain_bytes_cons (m : mbuf) (mc : list mbuf) :
  mchain_bytes (m :: mc) = m_data m ++ mchain_bytes mc.
Proof. reflexivity. Qed.

Lemma mchain_bytes_app (l r : list mbuf) :
  mchain_bytes (l ++ r) = mchain_bytes l ++ mchain_bytes r.
Proof. unfold mchain_bytes. now rewrite map_app, concat_app. Qed.

Lemma mchain_length_bytes (mc : list mbuf) :
  nfs_gss_mchain_length mc = Z.of_nat (length (mchain_bytes mc)).
Proof.
  induction mc as [|m mc IH]; [reflexivity|].
  rewrite mchain_bytes_cons, length_app. simpl. unfold mbuf_len. lia.
Qed.

Lemma mchain_length_0_bytes (mc : list mbuf) :
  nfs_gss_mchain_length mc = 0 -> mchain_bytes mc = [].
Proof.
  rewrite mchain_length_bytes. destruct (mchain_bytes mc); [reflexivity|simpl; lia].
Qed.

Lemma mbuf_len_0_data (m : mbuf) : mbuf_len m = 0 -> m_data m = [].
Proof. unfold mbuf_len. destruct (m_data m); [reflexivity|simpl; lia]. Qed.

Lemma mbuf_adj_0 (mc : list mbuf) : mbuf_adj mc 0 = mc.
Proof. destruct mc; reflexivity. Qed.

Lemma mbuf_adj_cons (m : mbuf) (rest : list mbuf) (len : Z) :
  0 < len ->
  mbuf_adj (m :: rest) len =
    if mbuf_len m <=? len then mk_mbuf (m_lead m) [] :: mbuf_adj rest (len - mbuf_len m)
    else mk_mbuf (m_lead m + len) (skipn (Z.to_nat len) (m_data m)) :: rest.
Proof.
  intros Hlen. cbn [mbuf_adj].
  replace (len <=? 0) with false by (symmetry; apply Z.leb_gt; lia). reflexivity.
Qed.

Lemma mchain_bytes_mbuf_adj (mc : list mbuf) :
  forall n, 0 <= n -> mchain_bytes (mbuf_adj mc n) = drop (Z.to_nat n) (mchain_bytes mc).
Proof.
  induction mc as [|m mc IH]; intros n Hn; simpl.
  - unfold mchain_bytes. simpl. now destruct (Z.to_nat n).
  - destruct (Z.leb_spec n 0).
    + replace n with 0 by lia. reflexivity.
    + destruct (Z.leb_spec (mbuf_len m) n) as [Hle|Hgt].
      * rewrite !mchain_bytes_cons. simpl m_data. rewrite IH by lia. simpl.
        rewrite drop_app_ge by (unfold mbuf_len in Hle; lia).
        f_equal. unfold mbuf_len. lia.
      * rewrite !mchain_bytes_cons. simpl m_data.
        rewrite skipn_app.
        replace (Z.to_nat n - length (m_data m))%nat with 0%nat
          by (unfold mbuf_len in Hgt; lia).
        reflexivity.
Qed.

Lemma mchain_bytes_drop_empty (mc : list mbuf) :
  mchain_bytes (drop_empty_mbufs mc) = mchain_bytes mc.
Proof.
  induction mc as [|m mc IH]; [reflexivity|]. simpl.
  destruct (Z.eqb_spec (mbuf_len m) 0) as [H0|]; [|reflexivity].
  rewrite IH, mchain_bytes_cons, (mbuf_len_0_data m H0). reflexivity.
Qed.

Lemma drop_empty_all_empty (l r : list mbuf) :
  nfs_gss_mchain_length l = 0 -> drop_empty_mbufs (l ++ r) = drop_empty_mbufs r.
Proof.
  induction l as [|m l IH]; [reflexivity|]. simpl. intros H0.
  pose proof (mbuf_len_nonneg m). pose proof (mchain_length_nonneg l).
  replace (mbuf_len m =? 0) with true by (symmetry; apply Z.eqb_eq; lia).
  apply IH. lia.
Qed.

Lemma drop_empty_some_data (l r : list mbuf) :
  0 < nfs_gss_mchain_length l -> drop_empty_mbufs (l ++ r) = drop_empty_mbufs l ++ r.
Proof.
  induction l as [|m l IH]; simpl; [lia|]. intros Hpos.
  destruct (Z.eqb_spec (mbuf_len m) 0) as [H0|]; [|reflexivity].
  apply IH. lia.
Qed.

Lemma mchain_length_drop_empty (mc : list mbuf) :
  nfs_gss_mchain_length (drop_empty_mbufs mc) = nfs_gss_mchain_length mc.
Proof. now rewrite !mchain_length_bytes, mchain_bytes_drop_empty. Qed.

Lemma txdr_unsigned_length (v : Z) : length (txdr_unsigned v) = 4%nat.
Proof. reflexivity. Qed.

(** The walk of the integrity restore keeps exactly the data in front of
    the MIC when the MIC starts on an mbuf boundary. *)
Lemma integ_walk_prefix (l r : list mbuf) :
  exists kept,
    integ_walk (l ++ r) (nfs_gss_mchain_length l) = Some kept /\
    mchain_bytes kept = mchain_bytes l.
Proof.
  induction l as [|m l (kept & IH & Hb)].
  - exists []. split; [|reflexivity]. simpl. destruct r; reflexivity.
  - simpl. pose proof (mbuf_len_nonneg m) as Hm. pose proof (mchain_length_nonneg l) as Hl.
    destruct (Z.eqb_spec (mbuf_len m + nfs_gss_mchain_length l) 0) as [Hz|Hne].
    + exists []. split; [reflexivity|]. symmetry.
      apply (mchain_length_0_bytes (m :: l)). exact Hz.
    + replace (mbuf_len m <=? mbuf_len m + nfs_gss_mchain_length l) with true
        by (symmetry; apply Z.leb_le; lia).
      replace (mbuf_len m + nfs_gss_mchain_length l - mbuf_len m)
        with (nfs_gss_mchain_length l) by lia.
      rewrite IH. exists (m :: kept). split; [reflexivity|].
      now rewrite !mchain_bytes_cons, Hb.
Qed.

(** ** Integrity: create, then restore *)

(** What rpc_gss_integ_data_create builds when the MIC is computed: the
    length word and the sequence number in the one new mbuf, the
    caller's mbufs, and the MIC in an mbuf of its own. *)
Lemma integ_create_shape `{gss_krb5} (ctx : Z) (args : list mbuf) (seqnum : Z)
    (e : errno_t) (mic : list byte) :
  nfs_gss_mchain_length args < 2 ^ 32 - 4 ->
  gss_krb5_get_mic_mbuf ctx (txdr_unsigned seqnum ++ mchain_bytes args)
    = (GSS_S_COMPLETE, e, mic) ->
  rpc_gss_integ_data_create ctx args seqnum =
    (E0,
     mk_mbuf 60 (txdr_unsigned (nfs_gss_mchain_length args + 4) ++ txdr_unsigned seqnum)
       :: args
       ++ [mk_mbuf 0 (txdr_unsigned (Z.of_nat (length mic)) ++ mic
                      ++ xdrpad (nfsm_pad (Z.of_nat (length mic))))],
     nfs_gss_mchain_length args).
Proof.
  intros Hlen Hmic. pose proof (mchain_length_nonneg args) as Hnn.
  unfold rpc_gss_integ_data_create, rpc_gss_data_create. simpl is_error. cbv iota.
  rewrite (u32_small (nfs_gss_mchain_length args)) by lia.
  unfold NFSX_UNSIGNED. rewrite u32_small by lia.
  rewrite mchain_bytes_cons. simpl m_data.
  rewrite take_ge.
  2:{ rewrite length_app, txdr_unsigned_length, mchain_length_bytes. lia. }
  rewrite Hmic. simpl negb. cbv iota.
  unfold rpc_gss_prepend_32. simpl. reflexivity.
Qed.

(** C3: where the code falls short.  For a call body of length 0 under
    integrity protection, rpc_gss_integ_data_create succeeds and records
    length 0, and rpc_gss_integ_data_restore, given that length, returns
    0 but leaves the MIC frame (length word, MIC, pad) as the restored
    body: the loop that finds the last data mbuf never runs, so nothing
    is cut off.  The restored bytes are not the original, empty, body. *)
Theorem integ_restore_empty_body_keeps_mic `{gss_krb5}
    (ctx : Z) (args : list mbuf) (seqnum : Z) (e : errno_t) (mic : list byte) :
  nfs_gss_mchain_length args = 0 ->
  gss_krb5_get_mic_mbuf ctx (txdr_unsigned seqnum) = (GSS_S_COMPLETE, e, mic) ->
  exists enc dec,
    rpc_gss_integ_data_create ctx args seqnum = (E0, enc, 0) /\
    rpc_gss_integ_data_restore ctx enc 0 = (E0, dec) /\
    mchain_bytes dec =
      txdr_unsigned (Z.of_nat (length mic)) ++ mic ++ xdrpad (nfsm_pad (Z.of_nat (length mic))) /\
    mchain_bytes dec <> mchain_bytes args.
Proof.
  intros Hlen Hmic.
  pose proof (mchain_length_0_bytes args Hlen) as Hbytes.
  pose proof (integ_create_shape ctx args seqnum e mic) as Hc.
  rewrite Hbytes, app_nil_r, Hlen in Hc. specialize (Hc ltac:(lia) Hmic).
  eexists _, _. split; [exact Hc|].
  unfold rpc_gss_integ_data_restore. simpl mbuf_adj. rewrite mbuf_adj_0.
  simpl drop_empty_mbufs. rewrite (drop_empty_all_empty args _ Hlen).
  simpl. split; [reflexivity|]. unfold mchain_bytes at 1. simpl. rewrite app_nil_r.
  split; [reflexivity|]. rewrite Hbytes. discriminate.
Qed.

(** The failing input of C3 on the stand-in mechanism: the empty chain
    with sequence number 1000. *)
Lemma integ_restore_empty_body_keeps_mic_witness :
  exists enc dec,
    @rpc_gss_integ_data_create toy_krb5 1 [] 1000 = (E0, enc, 0) /\
    rpc_gss_integ_data_restore 1 enc 0 = (E0, dec) /\
    mchain_bytes dec =
      txdr_unsigned (Z.of_nat (length (txdr_unsigned 4))) ++ txdr_unsigned 4
        ++ xdrpad (nfsm_pad (Z.of_nat (length (txdr_unsigned 4)))) /\
    mchain_bytes dec <> mchain_bytes [].
Proof.
  exact (@integ_restore_empty_body_keeps_mic toy_krb5 1 [] 1000 E0 (txdr_unsigned 4)
           eq_refl eq_refl).
Defined.

(** For a body that carries at least one byte the integrity codec does
    give the body back. *)
Lemma integ_roundtrip_nonempty `{gss_krb5}
    (ctx : Z) (args : list mbuf) (seqnum : Z) (e : errno_t) (mic : list byte) :
  0 < nfs_gss_mchain_length args < 2 ^ 32 - 4 ->
  gss_krb5_get_mic_mbuf ctx (txdr_unsigned seqnum ++ mchain_bytes args)
    = (GSS_S_COMPLETE, e, mic) ->
  exists enc dec,
    rpc_gss_integ_data_create ctx args seqnum = (E0, enc, nfs_gss_mchain_length args) /\
    rpc_gss_integ_data_restore ctx enc (nfs_gss_mchain_length args) = (E0, dec) /\
    mchain_bytes dec = mchain_bytes args.
Proof.
  intros Hlen Hmic.
  pose proof (integ_create_shape ctx args seqnum e mic ltac:(lia) Hmic) as Hc.
  destruct (integ_walk_prefix (drop_empty_mbufs args)
              [mk_mbuf 0 (txdr_unsigned (Z.of_nat (length mic)) ++ mic
                          ++ xdrpad (nfsm_pad (Z.of_nat (length mic))))])
    as (kept & Hwalk & Hb).
  rewrite mchain_length_drop_empty in Hwalk.
  eexists _, kept. split; [exact Hc|].
  unfold rpc_gss_integ_data_restore. simpl mbuf_adj. rewrite mbuf_adj_0.
  simpl drop_empty_mbufs. rewrite drop_empty_some_data by lia.
  destruct (drop_empty_mbufs args ++ _) as [|m0 rest] eqn:Hd.
  { destruct (drop_empty_mbufs args); discriminate. }
  replace (nfs_gss_mchain_length args =? 0) with false by (symmetry; apply Z.eqb_neq; lia).
  rewrite Hwalk. split; [reflexivity|].
  now rewrite Hb, mchain_bytes_drop_empty.
Qed.

(** ** Privacy: create, then restore *)

(** Chopping the length word that rpc_gss_prepend_32 put in front gives
    back the token, whichever way mbuf_prepend found the room. *)
Lemma prepend_32_then_adj (tok mb2 r : list mbuf) (v : Z) :
  rpc_gss_prepend_32 tok v = (E0, mb2) ->
  exists tok',
    mbuf_adj (mb2 ++ r) NFSX_UNSIGNED = tok' ++ r /\
    mchain_bytes tok' = mchain_bytes tok.
Proof.
  unfold rpc_gss_prepend_32, NFSX_UNSIGNED.
  destruct tok as [|m rest]; [discriminate|].
  pose proof (mbuf_len_nonneg m) as Hm.
  destruct (4 <=? m_lead m); intros Heq.
  - assert (mb2 = mk_mbuf (m_lead m - 4) (txdr_unsigned v ++ m_data m) :: rest) as ->
      by congruence.
    clear Heq.
    assert (Hl : mbuf_len (mk_mbuf (m_lead m - 4) (txdr_unsigned v ++ m_data m))
                 = 4 + mbuf_len m).
    { unfold mbuf_len. cbn [m_data]. rewrite length_app, txdr_unsigned_length. lia. }
    rewrite <- app_comm_cons, mbuf_adj_cons, Hl by lia.
    destruct (Z.leb_spec (4 + mbuf_len m) 4) as [Hle|Hgt].
    + assert (m_data m = []) as Hd by (apply mbuf_len_0_data; lia).
      replace (4 - (4 + mbuf_len m)) with 0 by lia. rewrite mbuf_adj_0.
      exists (mk_mbuf (m_lead m - 4) [] :: rest). split; [reflexivity|].
      now rewrite !mchain_bytes_cons, Hd.
    + exists (mk_mbuf (m_lead m - 4 + 4) (m_data m) :: rest). split; reflexivity.
  - assert (mb2 = mk_mbuf 0 (txdr_unsigned v) :: m :: rest) as -> by congruence.
    clear Heq.
    rewrite <- app_comm_cons, mbuf_adj_cons by lia.
    change (mbuf_len (mk_mbuf 0 (txdr_unsigned v))) with 4.
    change (4 <=? 4) with true. cbv iota. change (4 - 4) with 0. rewrite mbuf_adj_0.
    exists (mk_mbuf 0 [] :: m :: rest). split; reflexivity.
Qed.

(** The walk of the privacy restore stops on the mbuf boundary at which
    the pad begins. *)
Lemma priv_walk_prefix (len : Z) (l r : list mbuf) :
  forall acc,
    acc + nfs_gss_mchain_length l = len ->
    r <> [] ->
    exists kept after,
      priv_walk (l ++ r) len acc = (kept, after, len) /\
      after <> [] /\
      mchain_bytes kept = mchain_bytes l /\
      (kept = [] -> len <= acc).
Proof.
  induction l as [|m l IH]; intros acc Hacc Hr.
  - simpl in *. destruct r as [|m r]; [congruence|]. simpl.
    replace (acc <? len) with false by (symmetry; apply Z.ltb_ge; lia).
    exists [], (m :: r). replace acc with len by lia.
    repeat split; [discriminate|lia].
  - simpl in *. pose proof (mbuf_len_nonneg m) as Hm.
    pose proof (mchain_length_nonneg l) as Hl.
    destruct (Z.ltb_spec acc len) as [Hlt|Hge].
    + destruct (IH (acc + mbuf_len m) ltac:(lia) Hr) as (kept & after & -> & Ha & Hb & _).
      exists (m :: kept), after. repeat split; [assumption| |discriminate].
      now rewrite !mchain_bytes_cons, Hb.
    + exists [], (m :: l ++ r). replace acc with len by lia.
      repeat split; [discriminate| |lia].
      symmetry. apply (mchain_length_0_bytes (m :: l)). simpl. lia.
Qed.

(** For every body, empty ones included, the privacy codec gives the
    body back, for any mechanism whose unwrap undoes its wrap. *)
Lemma priv_roundtrip (G : gss_krb5) `{!gss_krb5_laws G}
    (ctx : Z) (args : list mbuf) (seqnum : Z) (e : errno_t) (tok : list mbuf) :
  nfs_gss_mchain_length args < 2 ^ 32 - 4 ->
  gss_krb5_wrap_mbuf ctx (txdr_unsigned seqnum ++ mchain_bytes args)
    = (GSS_S_COMPLETE, e, tok) ->
  tok <> [] ->
  nfs_gss_mchain_length tok < 2 ^ 32 ->
  exists enc dec,
    rpc_gss_priv_data_create ctx args seqnum = (E0, enc, nfs_gss_mchain_length tok) /\
    rpc_gss_priv_data_restore ctx enc (nfs_gss_mchain_length tok) = (E0, dec) /\
    mchain_bytes dec = mchain_bytes args.
Proof.
  intros Hlen Hwrap Htok Htlen.
  pose proof (mchain_length_nonneg args) as Hnn.
  pose proof (mchain_length_nonneg tok) as Htn.
  destruct (unwrap_wrap _ _ _ _ Hwrap) as (e' & plain & Hun & Hplain).
  set (len := nfs_gss_mchain_length tok) in *.
  destruct (rpc_gss_prepend_32 tok len) as [err mb2] eqn:Hpre.
  assert (err = E0) as ->.
  { unfold rpc_gss_prepend_32 in Hpre. destruct tok; [congruence|].
    destruct (4 <=? m_lead m); now injection Hpre as <- _. }
  assert (Hdec : mchain_bytes (drop_empty_mbufs (mbuf_adj plain NFSX_UNSIGNED))
                 = mchain_bytes args).
  { rewrite mchain_bytes_drop_empty, mchain_bytes_mbuf_adj, Hplain by (unfold NFSX_UNSIGNED; lia).
    unfold NFSX_UNSIGNED. change (Z.to_nat 4) with (length (txdr_unsigned seqnum)).
    now rewrite drop_app_length. }
  assert (Hcreate : rpc_gss_priv_data_create ctx args seqnum =
            (E0, if negb (nfsm_pad len =? 0) then mb2 ++ [mk_mbuf 0 (xdrpad (nfsm_pad len))]
                 else mb2, len)).
  { unfold rpc_gss_priv_data_create, rpc_gss_data_create. simpl is_error. cbv iota.
    simpl nfs_gss_mchain_length. unfold mbuf_len at 1. simpl m_data.
    rewrite txdr_unsigned_length. rewrite u32_small by lia.
    rewrite mchain_bytes_cons. simpl m_data.
    rewrite take_ge.
    2:{ rewrite length_app, txdr_unsigned_length, mchain_length_bytes. lia. }
    rewrite Hwrap. simpl negb. cbv iota. fold len.
    rewrite (u32_small len) by lia. rewrite Hpre. simpl is_error. cbv iota.
    destruct (negb (nfsm_pad len =? 0)); reflexivity. }
  assert (Htake : forall kept, mchain_bytes kept = mchain_bytes tok ->
            take (Z.to_nat len) (mchain_bytes kept) = mchain_bytes tok).
  { intros kept ->. apply take_ge. subst len. rewrite mchain_length_bytes. lia. }
  eexists _, (drop_empty_mbufs (mbuf_adj plain NFSX_UNSIGNED)).
  split; [exact Hcreate|]. split; [|exact Hdec].
  unfold rpc_gss_priv_data_restore.
  destruct (nfsm_pad len =? 0) eqn:Hpad; simpl negb; cbv iota.
  - destruct (prepend_32_then_adj tok mb2 [] len Hpre) as (tok' & Hadj & Hb).
    rewrite !app_nil_r in Hadj. rewrite Hadj, (Htake tok' Hb), Hun. reflexivity.
  - destruct (prepend_32_then_adj tok mb2 [mk_mbuf 0 (xdrpad (nfsm_pad len))] len Hpre)
      as (tok' & Hadj & Hb).
    rewrite Hadj.
    destruct (priv_walk_prefix len tok' [mk_mbuf 0 (xdrpad (nfsm_pad len))] 0)
      as (kept & after & Hwalk & Hafter & Hkb & Hkept).
    { rewrite !mchain_length_bytes, Hb. subst len. rewrite mchain_length_bytes. lia. }
    { discriminate. }
    rewrite Hwalk, Z.eqb_refl. simpl negb.
    assert (len <> 0) by (intros Hz; rewrite Hz in Hpad; discriminate Hpad).
    rewrite (bool_decide_eq_false_2 (after = [])) by assumption.
    rewrite (bool_decide_eq_false_2 (kept = [])) by (intros Hk; specialize (Hkept Hk); lia).
    simpl orb. cbv iota.
    rewrite (Htake kept) by congruence. rewrite Hun. reflexivity.
Qed.

(** The stand-in mechanism obeys the laws, so the round trip above is
    not vacuous; the example runs it on a 13-byte body, which needs XDR
    padding. *)
Lemma toy_krb5_laws : gss_krb5_laws toy_krb5.
Proof.
  split.
  - intros ctx msg e tok [= _ <-]. simpl.
    eexists _, _. split; [reflexivity|].
    rewrite !mchain_bytes_cons. cbn [m_data mchain_bytes map concat].
    rewrite !app_nil_r. apply take_drop.
  - intros ctx msg e mic [= _ <-]. simpl.
    rewrite bool_decide_eq_true_2 by reflexivity. reflexivity.
Qed.

Example priv_roundtrip_13_bytes :
  let body := [mk_mbuf 0 (List.repeat x2a 13)] in
  exists enc dec,
    @rpc_gss_priv_data_create toy_krb5 1 body 1000 = (E0, enc, 18) /\
    @rpc_gss_priv_data_restore toy_krb5 1 enc 18 = (E0, dec) /\
    mchain_bytes dec = mchain_bytes body.
Proof.
  exact (@priv_roundtrip toy_krb5 toy_krb5_laws 1 [mk_mbuf 0 (List.repeat x2a 13)] 1000 E0 _
           ltac:(vm_compute; reflexivity) eq_refl ltac:(discriminate)
           ltac:(vm_compute; reflexivity)).
Qed.

Example integ_roundtrip_13_bytes :
  let body := [mk_mbuf 0 (List.repeat x2a 13)] in
  exists enc dec,
    @rpc_gss_integ_data_create toy_krb5 1 body 1000 = (E0, enc, 13) /\
    rpc_gss_integ_data_restore 1 enc 13 = (E0, dec) /\
    mchain_bytes dec = mchain_bytes body.
Proof.
  exact (@integ_roundtrip_nonempty toy_krb5 1 [mk_mbuf 0 (List.repeat x2a 13)] 1000 E0 _
           ltac:(split; vm_compute; reflexivity) eq_refl).
Qed.

(** ** Context setup: what the loop guarantees *)

Lemma is_error_false (e : errno_t) : is_error e = false -> e = E0.
Proof. destruct e; first [reflexivity | intros Hf; vm_compute in Hf; discriminate]. Qed.







Lemma ctx_init_nfsmout_spec (e : errno_t) (cp : nfs_gss_clnt_ctx) :
  (ctx_init_nfsmout e cp).1 = e /\
  has_flag (gss_clnt_flags (ctx_init_nfsmout e cp).2) GSS_CTX_COMPLETE
    = has_flag (gss_clnt_flags cp) GSS_CTX_COMPLETE /\
  has_flag (gss_clnt_flags (ctx_init_nfsmout e cp).2) GSS_CTX_INVAL
    = (if bool_decide (e = ENEEDAUTH) then has_flag (gss_clnt_flags cp) GSS_CTX_INVAL
       else has_flag (gss_clnt_flags cp) GSS_CTX_INVAL || is_error e) /\
  gss_clnt_proc (ctx_init_nfsmout e cp).2 = gss_clnt_proc cp /\
  gss_clnt_seqbits (ctx_init_nfsmout e cp).2 = gss_clnt_seqbits cp.
Proof.
  unfold ctx_init_nfsmout.
  destruct (bool_decide (e = ENEEDAUTH)); [simpl; auto|].
  destruct (is_error e); simpl.
  - destruct (has_flag _ GSS_NEEDCTX); simpl; repeat split; flag_simpl; reflexivity.
  - destruct (has_flag _ GSS_NEEDCTX); simpl; repeat split; flag_simpl; reflexivity.
Qed.

Lemma ctx_init_nfsmout_eq (e e' : errno_t) (cp cp' : nfs_gss_clnt_ctx) :
  ctx_init_nfsmout e cp = (e', cp') ->
  e' = e /\
  has_flag (gss_clnt_flags cp') GSS_CTX_COMPLETE
    = has_flag (gss_clnt_flags cp) GSS_CTX_COMPLETE /\
  has_flag (gss_clnt_flags cp') GSS_CTX_INVAL
    = (if bool_decide (e = ENEEDAUTH) then has_flag (gss_clnt_flags cp) GSS_CTX_INVAL
       else has_flag (gss_clnt_flags cp) GSS_CTX_INVAL || is_error e) /\
  gss_clnt_proc cp' = gss_clnt_proc cp /\
  gss_clnt_seqbits cp' = gss_clnt_seqbits cp.
Proof.
  intros Heq. pose proof (ctx_init_nfsmout_spec e cp) as Hs.
  rewrite Heq in Hs. simpl in Hs. destruct Hs as (-> & ?). auto.
Qed.





(** ** The encryption types offered to gssd *)

Lemma for_loop_length (n : nat) (body : Z -> list Z -> list Z) :
  (forall i e, length (body i e) = length e) ->
  forall i e, length (for_loop n i body e) = length e.
Proof.
  intros Hbody. induction n as [|n IH]; intros i e; simpl; [reflexivity|].
  now rewrite IH, Hbody.
Qed.

Lemma arr_set_length (e : list Z) (i v : Z) : length (arr_set e i v) = length e.
Proof. apply length_insert. Qed.

(** The loop at lines 1885-1887 moves every entry [r] places down. *)
Lemma for_loop_shift (r : Z) (n : nat) :
  forall (i : Z) (e : list Z),
    0 <= r <= i ->
    (Z.to_nat i + n <= length e)%nat ->
    forall j : nat,
      for_loop n i (fun i e => arr_set e (i - r) (arr_get e i)) e !! j =
      if bool_decide (Z.to_nat (i - r) <= j < Z.to_nat (i - r) + n)%nat
      then e !! (j + Z.to_nat r)%nat
      else e !! j.
Proof.
  induction n as [|n IH]; intros i e Hr Hlen j.
  - simpl. rewrite bool_decide_eq_false_2 by lia. reflexivity.
  - simpl for_loop. rewrite IH by (rewrite ?arr_set_length; lia).
    unfold arr_set, arr_get.
    destruct (lookup_lt_is_Some_2 e (Z.to_nat i) ltac:(lia)) as [x Hx].
    rewrite Hx. simpl default.
    destruct (decide (j = Z.to_nat (i - r))) as [->|Hne].
    + rewrite bool_decide_eq_false_2 by lia.
      rewrite bool_decide_eq_true_2 by lia.
      rewrite list_lookup_insert_eq by lia.
      rewrite <- Hx. f_equal. lia.
    + destruct (decide (Z.to_nat (i + 1 - r) <= j < Z.to_nat (i + 1 - r) + n)%nat).
      * rewrite bool_decide_eq_true_2 by assumption.
        rewrite bool_decide_eq_true_2 by lia.
        apply list_lookup_insert_ne. lia.
      * rewrite bool_decide_eq_false_2 by assumption.
        rewrite bool_decide_eq_false_2 by lia.
        apply list_lookup_insert_ne. lia.
Qed.

Lemma etypes_ordered_length (nm : nfs_etype) :
  length (etypes_ordered nm) = length (et_etypes nm).
Proof.
  unfold etypes_ordered, for_range.
  destruct (et_selected nm <? et_count nm); [|reflexivity].
  rewrite !for_loop_length by (intros; apply arr_set_length).
  apply arr_set_length.
Qed.

Lemma etypes_offered_lookup (nm : nfs_etype) (r : Z) (j : nat) :
  0 <= r <= et_count nm ->
  (Z.to_nat (et_count nm) <= length (et_etypes nm))%nat ->
  etypes_offered nm r !! j =
    if bool_decide (j < Z.to_nat (et_count nm - r))%nat
    then etypes_ordered nm !! (j + Z.to_nat r)%nat
    else None.
Proof.
  intros Hr Hlen. unfold etypes_offered, gssd_upcall_etypes. cbn [et_count et_etypes].
  fold (etypes_ordered nm). unfold for_range.
  destruct (decide (j < Z.to_nat (et_count nm - r))%nat) as [Hj|Hj].
  - rewrite bool_decide_eq_true_2 by assumption.
    rewrite lookup_take_lt by assumption.
    rewrite for_loop_shift by (rewrite ?etypes_ordered_length; lia).
    rewrite bool_decide_eq_true_2 by lia. reflexivity.
  - rewrite bool_decide_eq_false_2 by assumption.
    apply lookup_take_ge. lia.
Qed.

(** On the retry numbered [r] gssd is offered the order of preference
    without its first [r] entries. *)
Lemma etypes_offered_drop (nm : nfs_etype) (r : Z) :
  0 <= r <= et_count nm ->
  (Z.to_nat (et_count nm) <= length (et_etypes nm))%nat ->
  etypes_offered nm r = drop (Z.to_nat r) (etypes_offered nm 0) /\
  length (etypes_offered nm r) = Z.to_nat (et_count nm - r).
Proof.
  intros Hr Hlen. split.
  - apply list_eq. intros j.
    rewrite lookup_drop, !etypes_offered_lookup by lia.
    destruct (decide (j < Z.to_nat (et_count nm - r))%nat).
    + rewrite !bool_decide_eq_true_2 by lia. f_equal. lia.
    + rewrite !bool_decide_eq_false_2 by lia. reflexivity.
  - unfold etypes_offered, gssd_upcall_etypes. cbn [et_count et_etypes].
    fold (etypes_ordered nm). unfold for_range.
    rewrite length_take_le; [reflexivity|].
    rewrite for_loop_length by (intros; apply arr_set_length).
    rewrite etypes_ordered_length. lia.
Qed.

Example etypes_offered_selected_first :
  etypes_offered (mk_etype 3 1 [18; 17; 16]) 0 = [17; 18; 16] /\
  etypes_offered (mk_etype 3 1 [18; 17; 16]) 1 = [18; 16] /\
  etypes_offered (mk_etype 3 1 [18; 17; 16]) 2 = [16].
Proof. repeat split; reflexivity. Qed.

(** ** Negotiation that is refused for every encryption type *)

Lemma gss_major_bad_spec (major : Z) :
  gss_major_bad major = true ->
  (major =? GSS_S_COMPLETE) = false /\ (major =? GSS_S_CONTINUE_NEEDED) = false.
Proof.
  unfold gss_major_bad. intros Hb. apply andb_true_iff in Hb as [H1 H2].
  now apply negb_true_iff in H1, H2.
Qed.

Lemma upcall_reply_spec (nmp : nfsmount) (cp : nfs_gss_clnt_ctx) (r : Z)
    (major minor : Z) (lucid : option (Z * Z)) (otoken : list byte) :
  nm_gone nmp = false ->
  r < et_count (nm_etype nmp) ->
  exists cp' nmp',
    nfs_gss_clnt_gssd_upcall nmp cp r (GssdReply major minor lucid otoken)
      = (E0, cp', nmp', Some (etypes_offered (nm_etype nmp) r)) /\
    gss_clnt_major cp' = major /\
    gss_clnt_flags cp' = gss_clnt_flags cp /\
    gss_clnt_thread cp' = gss_clnt_thread cp /\
    gss_clnt_proc cp' =
      (if has_flag (gss_clnt_gssd_flags cp) GSSD_RESTART
       then RPCSEC_GSS_INIT else gss_clnt_proc cp) /\
    nm_gone nmp' = false /\
    et_count (nm_etype nmp') = et_count (nm_etype nmp) /\
    et_etypes (nm_etype nmp') = et_etypes (nm_etype nmp).
Proof.
  intros Hgone Hr. unfold nfs_gss_clnt_gssd_upcall. rewrite Hgone.
  replace (et_count (nm_etype nmp) <=? r) with false by (symmetry; apply Z.leb_gt; lia).
  eexists _, _. split; [reflexivity|].
  destruct (has_flag (gss_clnt_gssd_flags cp) GSSD_RESTART), (gss_major_bad major),
    lucid as [[id et]|]; ctx_simpl; repeat split; try reflexivity; try assumption.
  all: destruct (etype_index _ _ _); simpl; auto.
Qed.

Lemma to_server_fails `{gss_limits} (s : server_answer) (st : init_state) :
  nm_gone (is_nmp st) = false ->
  (gss_clnt_proc (is_cp st) = RPCSEC_GSS_INIT \/
   gss_clnt_proc (is_cp st) = RPCSEC_GSS_CONTINUE_INIT) ->
  server_fails s ->
  exists cp2,
    ctx_init_to_server s st =
      LoopAgain (mk_init (ctx_init_restart cp2) (is_nmp st) (is_retrycnt st + 1)
                         (is_client_complete st) (is_server_complete st)
                         (is_round st) (is_offers st)) /\
    gss_clnt_proc cp2 = gss_clnt_proc (is_cp st) /\
    gss_clnt_flags cp2 = gss_clnt_flags (is_cp st) /\
    gss_clnt_thread cp2 = gss_clnt_thread (is_cp st).
Proof.
  intros Hgone Hproc Hs.
  unfold ctx_init_to_server, nfs_gss_clnt_ctx_callserver. rewrite Hgone.
  destruct Hs as [Hneed|(Hok & Hh & Ht & Hbad)].
  - rewrite Hneed. change (is_error ENEEDAUTH) with true. cbv beta iota.
    rewrite (bool_decide_eq_true_2 (ENEEDAUTH = ENEEDAUTH)) by reflexivity.
    exists (with_token None
              match sa_verf s with
              | Some v => with_verf (Some v) (is_cp st)
              | None => is_cp st
              end).
    assert (Hp : gss_clnt_proc
                   (with_token None
                      match sa_verf s with
                      | Some v => with_verf (Some v) (is_cp st)
                      | None => is_cp st
                      end) = gss_clnt_proc (is_cp st))
      by (destruct (sa_verf s); reflexivity).
    rewrite Hp.
    replace (bool_decide (gss_clnt_proc (is_cp st) = RPCSEC_GSS_INIT)
             || bool_decide (gss_clnt_proc (is_cp st) = RPCSEC_GSS_CONTINUE_INIT))
      with true.
    2:{ symmetry. apply orb_true_iff.
        destruct Hproc as [-> | ->]; [left|right]; apply bool_decide_eq_true_2; reflexivity. }
    split; [reflexivity|]. destruct (sa_verf s); repeat split; reflexivity.
  - rewrite Hok. change (is_error E0) with false. cbv beta iota.
    replace (0 <? Z.of_nat (length (sa_handle s))) with true
      by (symmetry; apply Z.ltb_lt; lia).
    replace (Z.of_nat (length (sa_handle s)) <? GSS_MAX_CTX_HANDLE_LEN) with true
      by (symmetry; apply Z.ltb_lt; lia).
    replace (0 <? Z.of_nat (length (sa_token s))) with true
      by (symmetry; apply Z.ltb_lt; lia).
    replace (Z.of_nat (length (sa_token s)) <? GSS_MAX_TOKEN_LEN) with true
      by (symmetry; apply Z.ltb_lt; lia).
    simpl andb. cbv beta iota. change (is_error E0) with false. cbv beta iota. ctx_simpl.
    destruct (gss_major_bad_spec _ Hbad) as (-> & ->).
    eexists. split; [reflexivity|]. destruct (sa_verf s); repeat split; reflexivity.
Qed.

Lemma ctx_init_round_fails `{gss_limits} (world : nat -> round_answer) (nmp0 : nfsmount)
    (st : init_state) :
  fail_inv nmp0 st ->
  is_retrycnt st < et_count (nm_etype nmp0) ->
  round_fails (world (is_round st)) ->
  exists st',
    ctx_init_round world st = LoopAgain st' /\
    fail_inv nmp0 st' /\
    is_retrycnt st' = is_retrycnt st + 1 /\
    is_round st' = S (is_round st) /\
    gss_clnt_flags (is_cp st') = gss_clnt_flags (is_cp st) /\
    gss_clnt_thread (is_cp st') = gss_clnt_thread (is_cp st) /\
    is_offers st' =
      (is_retrycnt st, etypes_offered (nm_etype (is_nmp st)) (is_retrycnt st)) :: is_offers st.
Proof.
  intros (Hgone & Hcount & Hetypes & Hsc & Hproc) Hretry Hfails.
  unfold round_fails in Hfails. unfold ctx_init_round.
  destruct (world (is_round st)) as [g s]. cbn [ra_gssd ra_server] in *.
  destruct g as [| |major minor lucid otoken]; try contradiction.
  destruct (upcall_reply_spec (is_nmp st) (is_cp st) (is_retrycnt st) major minor lucid otoken
              Hgone ltac:(lia))
    as (cp1 & nmp1 & -> & Hm1 & Hf1 & Ht1 & Hp1 & Hg1 & Hc1 & He1).
  cbv beta iota zeta. change (is_error E0) with false. cbv beta iota. rewrite Hm1.
  assert (Hp1' : gss_clnt_proc cp1 = RPCSEC_GSS_INIT \/
                 gss_clnt_proc cp1 = RPCSEC_GSS_CONTINUE_INIT).
  { rewrite Hp1. destruct (has_flag _ GSSD_RESTART); [left; reflexivity|exact Hproc]. }
  destruct Hfails as [Hbad|(Hgood & Hs)].
  - destruct (gss_major_bad_spec _ Hbad) as (-> & ->). simpl negb. cbv iota.
    eexists. split; [reflexivity|].
    unfold fail_inv. cbn [is_cp is_nmp is_retrycnt is_round is_offers is_server_complete].
    unfold ctx_init_restart. ctx_simpl.
    repeat split; try assumption; congruence.
  - assert (Hcases : (major =? GSS_S_COMPLETE) = true \/
                     ((major =? GSS_S_COMPLETE) = false /\
                      (major =? GSS_S_CONTINUE_NEEDED) = true)).
    { unfold gss_major_bad in Hgood.
      destruct (major =? GSS_S_COMPLETE); [left; reflexivity|right].
      destruct (major =? GSS_S_CONTINUE_NEEDED); [auto|discriminate]. }
    destruct Hcases as [-> | (-> & ->)]; simpl negb; cbv iota; rewrite ?Hsc.
    + match goal with |- context [ctx_init_to_server s ?st1] =>
        destruct (to_server_fails s st1 Hg1 Hp1' Hs) as (cp2 & -> & Hp2 & Hf2 & Ht2) end.
      cbn [is_cp is_nmp is_retrycnt is_round is_offers is_server_complete
           is_client_complete] in *.
      eexists. split; [reflexivity|].
      unfold fail_inv. cbn [is_cp is_nmp is_retrycnt is_round is_offers is_server_complete].
      unfold ctx_init_restart. ctx_simpl.
      repeat split; try assumption; congruence.
    + match goal with |- context [ctx_init_to_server s ?st1] =>
        destruct (to_server_fails s st1 Hg1 Hp1' Hs) as (cp2 & -> & Hp2 & Hf2 & Ht2) end.
      cbn [is_cp is_nmp is_retrycnt is_round is_offers is_server_complete
           is_client_complete] in *.
      eexists. split; [reflexivity|].
      unfold fail_inv. cbn [is_cp is_nmp is_retrycnt is_round is_offers is_server_complete].
      unfold ctx_init_restart. ctx_simpl.
      repeat split; try assumption; congruence.
Qed.

Lemma ctx_init_round_exhausted `{gss_limits} (world : nat -> round_answer) (st : init_state) :
  nm_gone (is_nmp st) = false ->
  et_count (nm_etype (is_nmp st)) <= is_retrycnt st ->
  exists st',
    ctx_init_round world st = LoopError EACCES st' /\
    gss_clnt_flags (is_cp st') = gss_clnt_flags (is_cp st) /\
    gss_clnt_thread (is_cp st') = gss_clnt_thread (is_cp st) /\
    is_nmp st' = is_nmp st /\
    is_retrycnt st' = is_retrycnt st /\
    is_offers st' = is_offers st.
Proof.
  intros Hgone Hcount. unfold ctx_init_round, nfs_gss_clnt_gssd_upcall. rewrite Hgone.
  replace (et_count (nm_etype (is_nmp st)) <=? is_retrycnt st) with true
    by (symmetry; apply Z.leb_le; lia).
  change (is_error EACCES) with true. cbv beta iota zeta.
  eexists. split; [reflexivity|]. cbn [is_cp is_nmp is_retrycnt is_offers].
  destruct (has_flag _ GSSD_RESTART); repeat split; reflexivity.
Qed.

Lemma ctx_init_loop_all_fail `{gss_limits} (world : nat -> round_answer) (nmp0 : nfsmount)
    (n : nat) :
  forall st,
    fail_inv nmp0 st ->
    is_retrycnt st + Z.of_nat n = et_count (nm_etype nmp0) ->
    (forall i, (is_round st <= i < is_round st + n)%nat -> round_fails (world i)) ->
    exists st' new,
      ctx_init_loop (S n) world st = Some (LoopError EACCES st') /\
      gss_clnt_flags (is_cp st') = gss_clnt_flags (is_cp st) /\
      gss_clnt_thread (is_cp st') = gss_clnt_thread (is_cp st) /\
      nm_gone (is_nmp st') = false /\
      et_count (nm_etype (is_nmp st')) = et_count (nm_etype nmp0) /\
      is_retrycnt st' = et_count (nm_etype nmp0) /\
      is_offers st' = new ++ is_offers st /\
      map fst (reverse new) = seqZ (is_retrycnt st) (Z.of_nat n) /\
      Forall (fun o => exists sel,
                o.2 = etypes_offered
                        (mk_etype (et_count (nm_etype nmp0)) sel (et_etypes (nm_etype nmp0)))
                        o.1) new.
Proof.
  induction n as [|n IH]; intros st Hinv Hcnt Hfail.
  - destruct Hinv as (Hgone & Hcount & Hetypes & _).
    destruct (ctx_init_round_exhausted world st Hgone ltac:(lia))
      as (st' & Hround & Hf & Ht & Hn & Hr & Ho).
    exists st', []. simpl ctx_init_loop. rewrite Hround.
    rewrite Hn. repeat split; auto; lia.
  - destruct (ctx_init_round_fails world nmp0 st Hinv ltac:(lia))
      as (st1 & Hround & Hinv1 & Hr1 & Hrd1 & Hf1 & Ht1 & Ho1).
    { apply Hfail. lia. }
    destruct (IH st1 Hinv1 ltac:(lia)) as (st' & new & Hloop & Hf & Ht & Hg & Hc & Hr & Ho & Hm & Hall).
    { intros i Hi. apply Hfail. lia. }
    exists st', (new ++ [(is_retrycnt st,
                          etypes_offered (nm_etype (is_nmp st)) (is_retrycnt st))]).
    change (ctx_init_loop (S (S n)) world st)
      with (match ctx_init_round world st with
            | LoopAgain st' => ctx_init_loop (S n) world st'
            | stop => Some stop
            end).
    rewrite Hround, Hloop.
    repeat split; try congruence.
    + rewrite Ho, Ho1, <- app_assoc. reflexivity.
    + rewrite reverse_app, map_app, Hm. simpl.
      rewrite Hr1, Nat2Z.inj_succ.
      rewrite (seqZ_cons (is_retrycnt st)) by lia. do 2 f_equal; lia.
    + apply Forall_app. split; [exact Hall|]. constructor; [|constructor].
      destruct Hinv as (_ & Hcount & Hetypes & _).
      exists (et_selected (nm_etype (is_nmp st))). simpl.
      rewrite <- Hcount, <- Hetypes. destruct (nm_etype (is_nmp st)); reflexivity.
Qed.

Lemma ctx_init_retry_first_error `{gss_limits} (fuel : nat) (init : init_fn)
    (sig : Z -> errno_t) (now : Z) (r_soft : bool) (nmp nmp' : nfsmount)
    (cp cp' : nfs_gss_clnt_ctx) (e : errno_t) :
  nm_gone nmp = false ->
  init 0%nat cp nmp = Some (e, cp', nmp') ->
  e <> ENEEDAUTH -> e <> E0 ->
  nfs_gss_clnt_ctx_init_retry (S fuel) init sig now r_soft nmp cp
    = Some (e, ctx_init_retry_bad cp', nmp').
Proof.
  intros Hgone Hinit Hne Hn0. unfold nfs_gss_clnt_ctx_init_retry. rewrite Hgone.
  simpl ctx_init_retry_run. unfold ctx_init_retry_round.
  cbn [rs_attempts rs_cp rs_nmp]. rewrite Hinit.
  rewrite (bool_decide_eq_false_2 (e = ENEEDAUTH)) by assumption. simpl negb. cbv iota.
  replace (is_error e) with true; [reflexivity|].
  symmetry. unfold is_error. rewrite bool_decide_eq_false_2 by assumption. reflexivity.
Qed.

Lemma ctx_init_retry_bad_invalid (cp : nfs_gss_clnt_ctx) :
  has_flag (gss_clnt_flags (ctx_init_retry_bad cp)) GSS_CTX_INVAL = true /\
  gss_clnt_thread (ctx_init_retry_bad cp) = None.
Proof.
  unfold ctx_init_retry_bad. ctx_simpl.
  destruct (has_flag _ GSS_NEEDCTX); ctx_simpl; split; try reflexivity; flag_simpl; reflexivity.
Qed.

(** Using up the encryption types.  Let the mount have [count]
    encryption types configured and let every pass of the negotiation
    end the attempt (a status that is neither COMPLETE nor
    CONTINUE_NEEDED from gssd, or from the server in a reply that carries
    a handle and a token, or the server's ENEEDAUTH).  Then
    nfs_gss_clnt_ctx_init makes exactly
    [count] upcalls, with retry counts 0, 1, ..., count - 1; on retry [r]
    gssd is offered the order of preference without its first [r]
    entries, one entry fewer each time; the next upcall finds the retry
    count equal to [count] and returns EACCES; the context is marked
    INVALID and released by its owner; and the caller of the retry loop
    receives that same EACCES, one of the errors nfs_gss.c treats as
    authentication errors, with the context still INVALID. *)
Theorem negotiation_exhausts_etypes `{gss_limits} `{gss_krb5}
    (world : nat -> round_answer) (rnd : Z) (kalloc_ok : bool) (svcname : list byte)
    (r_auth : r_auth_t) (nmp : nfsmount) (cp : nfs_gss_clnt_ctx) (sig : Z -> errno_t)
    (now : Z) (r_soft : bool) (fuel : nat) :
  nm_gone nmp = false ->
  0 <= et_count (nm_etype nmp) ->
  (Z.to_nat (et_count (nm_etype nmp)) <= length (et_etypes (nm_etype nmp)))%nat ->
  (forall i, (i < Z.to_nat (et_count (nm_etype nmp)))%nat -> round_fails (world i)) ->
  exists cp' nmp' offers,
    nfs_gss_clnt_ctx_init (S (Z.to_nat (et_count (nm_etype nmp)))) world rnd kalloc_ok
                          svcname r_auth nmp cp
      = Some (EACCES, cp', nmp', offers) /\
    (forall cp1 g,
       (nfs_gss_clnt_gssd_upcall nmp' cp1 (et_count (nm_etype nmp)) g).1.1.1 = EACCES) /\
    has_flag (gss_clnt_flags cp') GSS_CTX_INVAL = true /\
    gss_clnt_thread cp' = None /\
    map fst (reverse offers) = seqZ 0 (et_count (nm_etype nmp)) /\
    Forall (fun o => exists sel,
              o.2 = drop (Z.to_nat o.1)
                      (etypes_offered
                         (mk_etype (et_count (nm_etype nmp)) sel (et_etypes (nm_etype nmp))) 0)
              /\ length o.2 = Z.to_nat (et_count (nm_etype nmp) - o.1)) offers /\
    exists cp'',
      nfs_gss_clnt_ctx_init_retry (S fuel)
        (init_of_worlds (S (Z.to_nat (et_count (nm_etype nmp)))) (fun _ => world)
                        rnd kalloc_ok svcname r_auth)
        sig now r_soft nmp cp
        = Some (EACCES, cp'', nmp') /\
      has_flag (gss_clnt_flags cp'') GSS_CTX_INVAL = true /\
      is_auth_error EACCES = true.
Proof.
  intros Hgone Hcount Hlen Hfail.
  set (count := et_count (nm_etype nmp)) in *.
  assert (Hentry : exists cp0,
            ctx_init_entry svcname r_auth nmp cp = Some (mk_init cp0 nmp 0 false false 0 []) /\
            gss_clnt_proc cp0 = RPCSEC_GSS_INIT /\
            gss_clnt_flags cp0 = gss_clnt_flags cp).
  { unfold ctx_init_entry. rewrite Hgone.
    destruct (gss_clnt_svcname cp); eexists; repeat split; reflexivity. }
  destruct Hentry as (cp0 & Hentry & Hp0 & Hf0).
  destruct (ctx_init_loop_all_fail world nmp (Z.to_nat count)
              (mk_init cp0 nmp 0 false false 0 []))
    as (st' & new & Hloop & Hf & Ht & Hg & Hc & Hr & Ho & Hm & Hall).
  { unfold fail_inv. simpl. repeat split; auto. }
  { simpl. fold count. lia. }
  { intros i Hi. apply Hfail. simpl in Hi. lia. }
  cbn [is_cp is_offers is_retrycnt] in *. rewrite app_nil_r in Ho. subst new.
  rewrite Z2Nat.id in Hm by lia. fold count in Hc, Hr, Hall.
  destruct (ctx_init_nfsmout EACCES (is_cp st')) as [e1 cp'] eqn:Hout.
  assert (Hinit : nfs_gss_clnt_ctx_init (S (Z.to_nat count)) world rnd kalloc_ok svcname
                    r_auth nmp cp
                  = Some (EACCES, cp', is_nmp st', is_offers st')).
  { unfold nfs_gss_clnt_ctx_init. rewrite Hentry, Hloop, Hout.
    apply ctx_init_nfsmout_eq in Hout as (-> & _). reflexivity. }
  assert (Hthread : gss_clnt_thread cp' = None).
  { revert Hout. unfold ctx_init_nfsmout.
    rewrite (bool_decide_eq_false_2 (EACCES = ENEEDAUTH)) by discriminate.
    destruct (has_flag _ GSS_NEEDCTX); intros [= _ <-]; reflexivity. }
  apply ctx_init_nfsmout_eq in Hout as (-> & _ & Hi' & _).
  rewrite (bool_decide_eq_false_2 (EACCES = ENEEDAUTH)) in Hi' by discriminate.
  change (is_error EACCES) with true in Hi'. rewrite orb_true_r in Hi'.
  exists cp', (is_nmp st'), (is_offers st').
  split; [exact Hinit|].
  split.
  { intros cp1 g. unfold nfs_gss_clnt_gssd_upcall. rewrite Hg, Hc.
    rewrite Z.leb_refl. reflexivity. }
  split; [exact Hi'|]. split; [exact Hthread|]. split; [exact Hm|].
  split.
  { apply Forall_forall. intros o Ho.
    pose proof (proj1 (Forall_forall _ _) Hall o Ho) as (sel & Hsel).
    assert (Hin : o.1 ∈ seqZ 0 count).
    { rewrite <- Hm. apply list_elem_of_fmap. exists o. split; [reflexivity|].
      apply elem_of_reverse. exact Ho. }
    apply elem_of_seqZ in Hin.
    exists sel.
    destruct (etypes_offered_drop (mk_etype count sel (et_etypes (nm_etype nmp))) o.1)
      as (Hd & Hl); cbn [et_count et_etypes]; [lia|lia|].
    cbn [et_count] in Hl. rewrite Hsel. split; [exact Hd|exact Hl]. }
  exists (ctx_init_retry_bad cp'). split.
  { apply ctx_init_retry_first_error; try assumption; try discriminate.
    unfold init_of_worlds. rewrite Hinit. reflexivity. }
  split; [apply ctx_init_retry_bad_invalid|reflexivity].
Qed.

(** Three configured encryption types, gssd asking to continue and the
    server refusing, every time: as long as gssd exports no context the
    selection stays as it is, and each retry offers the list without its
    first entry. *)
Lemma negotiation_exhausts_etypes_witness :
  exists cp' nmp' offers,
    @nfs_gss_clnt_ctx_init sample_limits toy_krb5 4 world_rejecting 12345 true
       sample_svcname RPCAUTH_KRB5 sample_mount sample_new_ctx
      = Some (EACCES, cp', nmp', offers) /\
    (forall cp1 g, (nfs_gss_clnt_gssd_upcall nmp' cp1 3 g).1.1.1 = EACCES) /\
    has_flag (gss_clnt_flags cp') GSS_CTX_INVAL = true /\
    gss_clnt_thread cp' = None /\
    map fst (reverse offers) = seqZ 0 3 /\
    Forall (fun o => exists sel,
              o.2 = drop (Z.to_nat o.1) (etypes_offered (mk_etype 3 sel [18; 17; 16]) 0)
              /\ length o.2 = Z.to_nat (3 - o.1)) offers /\
    exists cp'',
      @nfs_gss_clnt_ctx_init_retry sample_limits 1
        (@init_of_worlds sample_limits toy_krb5 4 (fun _ => world_rejecting) 12345 true
                         sample_svcname RPCAUTH_KRB5)
        (fun _ => E0) 0 false sample_mount sample_new_ctx
        = Some (EACCES, cp'', nmp') /\
      has_flag (gss_clnt_flags cp'') GSS_CTX_INVAL = true /\
      is_auth_error EACCES = true.
Proof.
  refine (@negotiation_exhausts_etypes sample_limits toy_krb5 world_rejecting 12345 true
            sample_svcname RPCAUTH_KRB5 sample_mount sample_new_ctx (fun _ => E0) 0 false 0%nat
            eq_refl _ _ _).
  - simpl. lia.
  - simpl. lia.
  - intros i _. right. split; [reflexivity|]. right. repeat split; reflexivity.
Defined.

Example negotiation_rejected_offers :
  (fun r => (r.1.1.1, r.2)) <$>
    @nfs_gss_clnt_ctx_init sample_limits toy_krb5 4 world_rejecting 12345 true
      sample_svcname RPCAUTH_KRB5 sample_mount sample_new_ctx
  = Some (EACCES, [(2, [16]); (1, [17; 16]); (0, [18; 17; 16])]).
Proof. vm_compute. reflexivity. Qed.

(** C5.  The retries do not always go on to an encryption type that has
    not been tried.  Lines 1874-1882 put the type selected last at the
    front of the list and lines 1884-1888 then drop the first [retrycnt]
    entries, under the comment "Remove the ones we've already have
    tried"; once gssd has selected a type that was not at the front, the
    entries dropped are not the ones tried.  Of three types a, b, c with
    b selected, retry 1 is offered a and c; with c selected after that,
    retry 2 is offered b again.  On the sample mount (types 18, 17, 16),
    with gssd completing on 17 in the first pass, on 16 in the second
    and on 17 in the third, and the server refusing every time, the
    three upcalls are offered 18 17 16, then 18 16, then 17; the fourth
    finds no retry left and the setup ends with EACCES and the context
    INVALID. *)
Theorem negotiation_retry_offers_tried_etype :
  (forall a b c : Z,
     etypes_offered (mk_etype 3 3 [a; b; c]) 0 = [a; b; c] /\
     etypes_offered (mk_etype 3 1 [a; b; c]) 1 = [a; c] /\
     etypes_offered (mk_etype 3 2 [a; b; c]) 2 = [b]) /\
  (forall i, @round_fails sample_limits (world_picking 17 16 i)) /\
  exists cp' nmp',
    @nfs_gss_clnt_ctx_init sample_limits toy_krb5 4 (world_picking 17 16) 12345 true
       sample_svcname RPCAUTH_KRB5 sample_mount sample_new_ctx
      = Some (EACCES, cp', nmp', [(2, [17]); (1, [18; 16]); (0, [18; 17; 16])]) /\
    has_flag (gss_clnt_flags cp') GSS_CTX_INVAL = true /\
    et_selected (nm_etype nmp') = 1 /\
    et_etypes (nm_etype nmp') = [18; 17; 16].
Proof.
  split; [intros a b c; repeat split; reflexivity|].
  split.
  { intros i. right. split; [reflexivity|]. right.
    split; [reflexivity|]. split; [vm_compute; split; reflexivity|].
    split; [vm_compute; split; reflexivity|reflexivity]. }
  eexists _, _. split; [vm_compute; reflexivity|]. cbn [gss_clnt_flags nm_etype et_selected].
  split; [reflexivity|]. split; reflexivity.
Qed.

(** ** The retry loop *)

Lemma retry_wait_quiet (sig : Z -> errno_t) (n : nat) :
  (forall t, sig t = E0) ->
  forall now, retry_wait n sig now (now + Z.of_nat n) = (E0, now + Z.of_nat n).
Proof.
  intros Hsig. induction n as [|n IH]; intros now.
  - simpl. f_equal. lia.
  - cbn [retry_wait]. replace (now <? now + Z.of_nat (S n)) with true
      by (symmetry; apply Z.ltb_lt; lia).
    rewrite Hsig. change (is_error E0) with false. cbv iota.
    replace (now + Z.of_nat (S n)) with (now + 1 + Z.of_nat n) by lia.
    apply IH.
Qed.

Lemma backoff_next (T k : Z) :
  0 < T -> 0 <= k ->
  (if 60 <? backoff T k * 2 then 60 else backoff T k * 2) = backoff T (k + 1).
Proof.
  intros HT Hk. unfold backoff. rewrite Z.pow_add_r, Z.pow_1_r by lia.
  assert (0 < 2 ^ k) by (apply Z.pow_pos_nonneg; lia).
  destruct (Z.ltb_spec 60 (Z.min 60 (T * 2 ^ k) * 2)); lia.
Qed.

(** One pass when the attempt fails with ENEEDAUTH and nobody
    interrupts the wait. *)
Lemma ctx_init_retry_round_quiet (init : init_fn) (sig : Z -> errno_t) (r_soft : bool)
    (st : retry_state) :
  (forall k cp nmp, init k cp nmp = Some (ENEEDAUTH, cp, nmp)) ->
  (forall t, sig t = E0) ->
  0 <= rs_timeo st ->
  ctx_init_retry_round init sig r_soft st =
    if (nm_soft (rs_nmp st) || r_soft) && (nm_retry (rs_nmp st) <? rs_retries st + 1)
    then RetryDone ETIMEDOUT
           (mk_retry (rs_cp st) (rs_nmp st) (rs_retries st + 1) (rs_timeo st)
                     (rs_now st + rs_timeo st) (S (rs_attempts st))
                     (rs_timeo st :: rs_delays st))
    else RetryAgain
           (mk_retry (rs_cp st) (rs_nmp st) (rs_retries st + 1)
                     (if 60 <? rs_timeo st * 2 then 60 else rs_timeo st * 2)
                     (rs_now st + rs_timeo st) (S (rs_attempts st))
                     (rs_timeo st :: rs_delays st)).
Proof.
  intros Hinit Hsig Ht. unfold ctx_init_retry_round. rewrite Hinit.
  rewrite (bool_decide_eq_true_2 (ENEEDAUTH = ENEEDAUTH)) by reflexivity.
  simpl negb. cbv iota.
  pose proof (retry_wait_quiet sig (Z.to_nat (rs_timeo st)) Hsig (rs_now st)) as Hw.
  rewrite Z2Nat.id in Hw by lia. rewrite Hw.
  change (is_error E0) with false. cbv iota. reflexivity.
Qed.

(** On a hard mount the loop is still running after any number of
    passes, and has waited [backoff T 0], ..., [backoff T (n - 1)]. *)
Lemma ctx_init_retry_run_hard (init : init_fn) (sig : Z -> errno_t) (T : Z) (n : nat) :
  (forall k cp nmp, init k cp nmp = Some (ENEEDAUTH, cp, nmp)) ->
  (forall t, sig t = E0) ->
  0 < T <= 60 ->
  forall st k,
    0 <= k ->
    nm_soft (rs_nmp st) = false ->
    rs_timeo st = backoff T k ->
    exists st',
      ctx_init_retry_run n init sig false st = RetryAgain st' /\
      rs_cp st' = rs_cp st /\ rs_nmp st' = rs_nmp st /\
      rs_attempts st' = (rs_attempts st + n)%nat /\
      rs_retries st' = rs_retries st + Z.of_nat n /\
      rs_timeo st' = backoff T (k + Z.of_nat n) /\
      reverse (rs_delays st') = reverse (rs_delays st) ++ (backoff T <$> seqZ k (Z.of_nat n)).
Proof.
  intros Hinit Hsig HT. induction n as [|n IH]; intros st k Hk Hsoft Htimeo.
  - exists st. cbn [ctx_init_retry_run]. change (Z.of_nat 0) with 0.
    rewrite !Z.add_0_r, Nat.add_0_r. change (seqZ k 0) with (@nil Z).
    rewrite fmap_nil, app_nil_r. repeat split; auto.
  - cbn [ctx_init_retry_run].
    assert (0 <= rs_timeo st).
    { rewrite Htimeo. unfold backoff.
      assert (0 < 2 ^ k) by (apply Z.pow_pos_nonneg; lia). lia. }
    rewrite ctx_init_retry_round_quiet by assumption.
    rewrite Hsoft. simpl orb. simpl andb. cbv iota.
    match goal with |- context [ctx_init_retry_run n init sig false ?s] =>
      destruct (IH s (k + 1)) as (st' & Hrun & Hcp & Hnmp & Hatt & Hret & Hto & Hdel)
    end.
    { lia. }
    { exact Hsoft. }
    { cbn [rs_timeo]. rewrite Htimeo. apply backoff_next; lia. }
    cbn [rs_cp rs_nmp rs_attempts rs_retries rs_delays] in *.
    exists st'. split; [exact Hrun|].
    repeat split; try assumption; try lia.
    + rewrite Hto. f_equal. lia.
    + rewrite Hdel, reverse_cons, <- app_assoc. f_equal.
      rewrite Nat2Z.inj_succ, (seqZ_cons k) by lia. rewrite fmap_cons.
      rewrite Htimeo. simpl. do 3 f_equal; lia.
Qed.

(** On a soft mount the loop goes on while the retry count is within
    [nm_retry] and stops with ETIMEDOUT on the pass that exceeds it. *)
Lemma ctx_init_retry_run_soft (init : init_fn) (sig : Z -> errno_t) (r_soft : bool)
    (T : Z) (n : nat) :
  (forall k cp nmp, init k cp nmp = Some (ENEEDAUTH, cp, nmp)) ->
  (forall t, sig t = E0) ->
  0 < T <= 60 ->
  forall st k,
    0 <= k ->
    nm_soft (rs_nmp st) || r_soft = true ->
    rs_timeo st = backoff T k ->
    rs_retries st + Z.of_nat n = nm_retry (rs_nmp st) ->
    exists st',
      ctx_init_retry_run (S n) init sig r_soft st = RetryDone ETIMEDOUT st' /\
      rs_cp st' = rs_cp st /\ rs_nmp st' = rs_nmp st /\
      rs_attempts st' = (rs_attempts st + S n)%nat /\
      reverse (rs_delays st') =
        reverse (rs_delays st) ++ (backoff T <$> seqZ k (Z.of_nat (S n))).
Proof.
  intros Hinit Hsig HT. induction n as [|n IH]; intros st k Hk Hsoft Htimeo Hretry.
  - cbn [ctx_init_retry_run].
    assert (0 <= rs_timeo st).
    { rewrite Htimeo. unfold backoff.
      assert (0 < 2 ^ k) by (apply Z.pow_pos_nonneg; lia). lia. }
    rewrite ctx_init_retry_round_quiet by assumption.
    rewrite Hsoft. replace (nm_retry (rs_nmp st) <? rs_retries st + 1) with true
      by (symmetry; apply Z.ltb_lt; lia).
    simpl andb. cbv iota. eexists. split; [reflexivity|].
    cbn [rs_cp rs_nmp rs_attempts rs_delays].
    repeat split; try lia.
    rewrite reverse_cons, Htimeo. reflexivity.
  - change (ctx_init_retry_run (S (S n)) init sig r_soft st)
      with (match ctx_init_retry_round init sig r_soft st with
            | RetryAgain st' => ctx_init_retry_run (S n) init sig r_soft st'
            | stop => stop
            end).
    assert (0 <= rs_timeo st).
    { rewrite Htimeo. unfold backoff.
      assert (0 < 2 ^ k) by (apply Z.pow_pos_nonneg; lia). lia. }
    rewrite ctx_init_retry_round_quiet by assumption.
    rewrite Hsoft. replace (nm_retry (rs_nmp st) <? rs_retries st + 1) with false
      by (symmetry; apply Z.ltb_ge; lia).
    simpl andb. cbv iota.
    match goal with |- context [ctx_init_retry_run (S n) init sig r_soft ?s] =>
      destruct (IH s (k + 1)) as (st' & Hrun & Hcp & Hnmp & Hatt & Hdel)
    end.
    { lia. }
    { exact Hsoft. }
    { cbn [rs_timeo]. rewrite Htimeo. apply backoff_next; lia. }
    { cbn [rs_retries rs_nmp]. lia. }
    cbn [rs_cp rs_nmp rs_attempts rs_retries rs_delays] in *.
    exists st'. split; [exact Hrun|].
    repeat split; try assumption; try lia.
    rewrite Hdel, reverse_cons, <- app_assoc. f_equal.
    rewrite (Nat2Z.inj_succ (S n)), (seqZ_cons k) by lia. rewrite fmap_cons.
    rewrite Htimeo. simpl. do 3 f_equal; lia.
Qed.

Lemma ctx_init_retry_run_done (init : init_fn) (sig : Z -> errno_t) (r_soft : bool)
    (n m : nat) :
  forall st e st',
    ctx_init_retry_run n init sig r_soft st = RetryDone e st' ->
    ctx_init_retry_run (n + m) init sig r_soft st = RetryDone e st'.
Proof.
  induction n as [|n IH]; intros st e st' Hrun; [discriminate|].
  simpl in *. destruct (ctx_init_retry_round init sig r_soft st); auto.
Qed.

Lemma is_error_true (e : errno_t) : e <> E0 -> is_error e = true.
Proof. intros Hne. unfold is_error. now rewrite bool_decide_eq_false_2. Qed.

(** The loop of lines 1502-1525 by itself, run on a setup function that
    answers ENEEDAUTH every time and leaves the context as it is
    (nfs_gss_clnt_ctx_init is not such a function, as is shown further
    down).  Attempts that fail with
    ENEEDAUTH are retried after a delay that starts at NFS_TRYLATERDEL,
    doubles after each attempt and is capped at 60 seconds.  On a soft
    mount (or
    for a soft request) the loop gives up with ETIMEDOUT on the pass in
    which the retry count exceeds [nm_retry]; on a hard mount it never
    gives up by itself and goes on until nfs_sigintr reports an
    interrupt or an unmount, whose error it then returns; a mount that is
    already gone yields ENXIO at once.  Whenever the loop gives up, the
    context is marked INVALID. *)
Theorem ctx_init_retry_backoff `{gss_limits} (init : init_fn) (nmp : nfsmount)
    (cp : nfs_gss_clnt_ctx) (now : Z) (r_soft : bool) :
  0 < NFS_TRYLATERDEL <= 60 ->
  (forall k cp nmp, init k cp nmp = Some (ENEEDAUTH, cp, nmp)) ->
  has_flag (gss_clnt_flags (ctx_init_retry_bad cp)) GSS_CTX_INVAL = true /\
  (nm_gone nmp = true ->
     forall fuel sig,
       nfs_gss_clnt_ctx_init_retry fuel init sig now r_soft nmp cp
         = Some (ENXIO, ctx_init_retry_bad cp, nmp)) /\
  (nm_gone nmp = false -> nm_soft nmp || r_soft = true -> 0 <= nm_retry nmp ->
     forall sig fuel,
       (forall t, sig t = E0) ->
       (Z.to_nat (nm_retry nmp) < fuel)%nat ->
       nfs_gss_clnt_ctx_init_retry fuel init sig now r_soft nmp cp
         = Some (ETIMEDOUT, ctx_init_retry_bad cp, nmp) /\
       exists st,
         ctx_init_retry_run (S (Z.to_nat (nm_retry nmp))) init sig r_soft
           (mk_retry cp nmp 0 NFS_TRYLATERDEL now 0 []) = RetryDone ETIMEDOUT st /\
         rs_attempts st = S (Z.to_nat (nm_retry nmp)) /\
         reverse (rs_delays st) = backoff NFS_TRYLATERDEL <$> seqZ 0 (nm_retry nmp + 1)) /\
  (nm_gone nmp = false -> nm_soft nmp = false -> r_soft = false ->
     forall sig,
       (forall t, sig t = E0) ->
       forall n,
         nfs_gss_clnt_ctx_init_retry n init sig now r_soft nmp cp = None /\
         exists st,
           ctx_init_retry_run n init sig r_soft
             (mk_retry cp nmp 0 NFS_TRYLATERDEL now 0 []) = RetryAgain st /\
           rs_attempts st = n /\
           rs_timeo st = backoff NFS_TRYLATERDEL (Z.of_nat n) /\
           reverse (rs_delays st) = backoff NFS_TRYLATERDEL <$> seqZ 0 (Z.of_nat n)) /\
  (nm_gone nmp = false ->
     forall sig e fuel,
       sig (now + 1) = e -> e <> E0 ->
       nfs_gss_clnt_ctx_init_retry (S fuel) init sig now r_soft nmp cp
         = Some (e, ctx_init_retry_bad cp, nmp)).
Proof.
  intros HT Hinit.
  assert (HT0 : NFS_TRYLATERDEL = backoff NFS_TRYLATERDEL 0).
  { unfold backoff. rewrite Z.pow_0_r. lia. }
  split; [apply ctx_init_retry_bad_invalid|].
  split; [|split; [|split]].
  - intros Hgone fuel sig. unfold nfs_gss_clnt_ctx_init_retry. now rewrite Hgone.
  - intros Hgone Hsoft Hretry sig fuel Hsig Hfuel.
    destruct (ctx_init_retry_run_soft init sig r_soft NFS_TRYLATERDEL
                (Z.to_nat (nm_retry nmp)) Hinit Hsig HT
                (mk_retry cp nmp 0 NFS_TRYLATERDEL now 0 []) 0)
      as (st & Hrun & Hcp & Hnmp & Hatt & Hdel); cbn [rs_nmp rs_timeo rs_retries];
      try assumption; try lia.
    cbn [rs_cp rs_nmp rs_attempts rs_delays] in *.
    split.
    + unfold nfs_gss_clnt_ctx_init_retry. rewrite Hgone.
      replace fuel with (S (Z.to_nat (nm_retry nmp)) + (fuel - S (Z.to_nat (nm_retry nmp))))%nat
        by lia.
      rewrite (ctx_init_retry_run_done _ _ _ _ _ _ _ _ Hrun).
      change (is_error ETIMEDOUT) with true. cbv iota. now rewrite Hcp, Hnmp.
    + exists st. split; [exact Hrun|]. split; [exact Hatt|].
      rewrite Hdel. change (reverse []) with (@nil Z). rewrite app_nil_l.
      do 2 f_equal. lia.
  - intros Hgone Hsoft -> sig Hsig n.
    destruct (ctx_init_retry_run_hard init sig NFS_TRYLATERDEL n Hinit Hsig HT
                (mk_retry cp nmp 0 NFS_TRYLATERDEL now 0 []) 0)
      as (st & Hrun & Hcp & Hnmp & Hatt & Hret & Hto & Hdel); cbn [rs_nmp rs_timeo];
      try assumption; try lia.
    cbn [rs_cp rs_nmp rs_attempts rs_delays] in *.
    split.
    + unfold nfs_gss_clnt_ctx_init_retry. rewrite Hgone, Hrun. reflexivity.
    + exists st. repeat split; assumption.
  - intros Hgone sig e fuel Hsig He.
    unfold nfs_gss_clnt_ctx_init_retry. rewrite Hgone.
    cbn [ctx_init_retry_run]. unfold ctx_init_retry_round.
    cbn [rs_attempts rs_cp rs_nmp rs_timeo rs_now rs_retries rs_delays].
    rewrite Hinit. rewrite (bool_decide_eq_true_2 (ENEEDAUTH = ENEEDAUTH)) by reflexivity.
    simpl negb. cbv iota.
    destruct (Z.to_nat NFS_TRYLATERDEL) as [|t] eqn:Ht; [lia|].
    cbn [retry_wait].
    replace (now <? now + NFS_TRYLATERDEL) with true by (symmetry; apply Z.ltb_lt; lia).
    rewrite Hsig. pose proof (is_error_true e He) as Herr.
    rewrite Herr. cbv beta iota zeta. rewrite Herr. cbv beta iota zeta.
    rewrite Herr. reflexivity.
Qed.

(** The sample values: first delay 4, [nm_retry] 2.  The soft mount gives
    up after three attempts, having waited 4, 8 and 16 seconds. *)
Lemma ctx_init_retry_backoff_witness :
  @nfs_gss_clnt_ctx_init_retry sample_limits 3 init_always_needauth never_interrupted 0 false
     sample_soft_mount sample_new_ctx
    = Some (ETIMEDOUT, ctx_init_retry_bad sample_new_ctx, sample_soft_mount) /\
  exists st,
    ctx_init_retry_run 3 init_always_needauth never_interrupted false
      (mk_retry sample_new_ctx sample_soft_mount 0 4 0 0 []) = RetryDone ETIMEDOUT st /\
    rs_attempts st = 3%nat /\
    reverse (rs_delays st) = backoff 4 <$> seqZ 0 3.
Proof.
  refine (proj1 (proj2 (proj2 (@ctx_init_retry_backoff sample_limits init_always_needauth
                                 sample_soft_mount sample_new_ctx 0 false _ _)))
            eq_refl eq_refl _ never_interrupted 3%nat _ _).
  - simpl. lia.
  - reflexivity.
  - simpl. lia.
  - reflexivity.
  - simpl. lia.
Defined.

(** Which mounts the loop gives up on, for such a setup function: the
    hard sample mount ([nm_retry] 2) is still retrying after ten
    attempts, with no timeout, and the soft one stops with ETIMEDOUT
    although nobody interrupted it (line 1516 applies the limit to soft
    mounts and soft requests). *)
Lemma ctx_init_retry_hard_goes_on_soft_gives_up :
  nm_soft sample_mount = false /\ nm_retry sample_mount = 2 /\
  @nfs_gss_clnt_ctx_init_retry sample_limits 10 init_always_needauth never_interrupted 0 false
     sample_mount sample_new_ctx = None /\
  (exists st,
     ctx_init_retry_run 10 init_always_needauth never_interrupted false
       (mk_retry sample_new_ctx sample_mount 0 4 0 0 []) = RetryAgain st /\
     rs_attempts st = 10%nat /\
     reverse (rs_delays st) = [4; 8; 16; 32; 60; 60; 60; 60; 60; 60]) /\
  nm_soft sample_soft_mount = true /\
  fst <$> @nfs_gss_clnt_ctx_init_retry sample_limits 10 init_always_needauth
            never_interrupted 0 false sample_soft_mount sample_new_ctx
    = Some (ETIMEDOUT, ctx_init_retry_bad sample_new_ctx).
Proof.
  split; [reflexivity|]. split; [reflexivity|]. split; [vm_compute; reflexivity|].
  split; [eexists; split; [vm_compute; reflexivity|split; reflexivity]|].
  split; [reflexivity|]. vm_compute. reflexivity.
Qed.

(** ** The retry loop on the setup itself *)

Lemma upcall_error_not_needauth (nmp : nfsmount) (cp : nfs_gss_clnt_ctx) (retrycnt : Z)
    (g : gssd_answer) :
  (nfs_gss_clnt_gssd_upcall nmp cp retrycnt g).1.1.1 <> ENEEDAUTH.
Proof.
  unfold nfs_gss_clnt_gssd_upcall.
  destruct (nm_gone nmp); [discriminate|].
  destruct (et_count (nm_etype nmp) <=? retrycnt); [discriminate|].
  destruct g; discriminate.
Qed.

Lemma upcall_proc_negotiating (nmp : nfsmount) (cp : nfs_gss_clnt_ctx) (retrycnt : Z)
    (g : gssd_answer) :
  proc_negotiating cp ->
  proc_negotiating (nfs_gss_clnt_gssd_upcall nmp cp retrycnt g).1.1.2.
Proof.
  intros Hp. unfold nfs_gss_clnt_gssd_upcall, proc_negotiating in *.
  destruct (nm_gone nmp); [exact Hp|].
  destruct (has_flag (gss_clnt_gssd_flags cp) GSSD_RESTART);
    destruct (et_count (nm_etype nmp) <=? retrycnt); cbn; auto;
    destruct g as [| |major minor lucid otoken]; cbn; auto;
    destruct (gss_major_bad major), lucid as [[id et]|]; cbn; auto.
Qed.

Lemma callserver_proc `{gss_limits} (nmp : nfsmount) (cp : nfs_gss_clnt_ctx)
    (srv : server_answer) :
  gss_clnt_proc (nfs_gss_clnt_ctx_callserver nmp cp srv).2 = gss_clnt_proc cp.
Proof.
  unfold nfs_gss_clnt_ctx_callserver.
  destruct (nm_gone nmp); [reflexivity|].
  destruct (sa_verf srv), (is_error (sa_error srv)); cbn; try reflexivity.
  all: destruct (_ && _); cbn; try reflexivity; destruct (_ && _); reflexivity.
Qed.

(** A pass of the loop keeps the procedure at INIT or CONTINUE_INIT, and
    the error it leaves the loop with is never ENEEDAUTH. *)
Lemma ctx_init_round_no_needauth `{gss_limits} (world : nat -> round_answer)
    (st : init_state) :
  proc_negotiating (is_cp st) ->
  match ctx_init_round world st with
  | LoopAgain st' => proc_negotiating (is_cp st')
  | LoopBreak st' => proc_negotiating (is_cp st')
  | LoopError e _ => e <> ENEEDAUTH
  end.
Proof.
  intros Hp.
  assert (Hsrv : forall srv st1,
            proc_negotiating (is_cp st1) ->
            match ctx_init_to_server srv st1 with
            | LoopAgain st' => proc_negotiating (is_cp st')
            | LoopBreak st' => proc_negotiating (is_cp st')
            | LoopError e _ => e <> ENEEDAUTH
            end).
  { intros srv st1 Hp1. unfold ctx_init_to_server.
    pose proof (callserver_proc (is_nmp st1) (is_cp st1) srv) as Hproc.
    destruct (nfs_gss_clnt_ctx_callserver (is_nmp st1) (is_cp st1) srv) as [error cp1].
    cbn [snd] in Hproc.
    assert (Hp2 : proc_negotiating cp1) by (unfold proc_negotiating in *; now rewrite Hproc).
    destruct (is_error error).
    - destruct (bool_decide (error = ENEEDAUTH)) eqn:He; cbn [andb].
      + assert (Hor : bool_decide (gss_clnt_proc cp1 = RPCSEC_GSS_INIT)
                      || bool_decide (gss_clnt_proc cp1 = RPCSEC_GSS_CONTINUE_INIT) = true).
        { destruct Hp2 as [-> | ->]; reflexivity. }
        rewrite Hor. exact Hp2.
      + now apply bool_decide_eq_false_1 in He.
    - destruct (gss_clnt_major cp1 =? GSS_S_COMPLETE).
      + destruct (is_client_complete st1); exact Hp2.
      + destruct (gss_clnt_major cp1 =? GSS_S_CONTINUE_NEEDED); [right; reflexivity|exact Hp2]. }
  unfold ctx_init_round.
  pose proof (upcall_error_not_needauth (is_nmp st) (is_cp st) (is_retrycnt st)
                (ra_gssd (world (is_round st)))) as Herr.
  pose proof (upcall_proc_negotiating (is_nmp st) (is_cp st) (is_retrycnt st)
                (ra_gssd (world (is_round st))) Hp) as Hproc.
  destruct (nfs_gss_clnt_gssd_upcall _ _ _ _) as [[[error cp1] nmp1] offer].
  cbn [fst snd] in Herr, Hproc.
  destruct (is_error error); [exact Herr|].
  destruct (gss_clnt_major cp1 =? GSS_S_COMPLETE).
  - destruct (is_server_complete st); [exact Hproc|]. apply Hsrv. exact Hproc.
  - destruct (negb (gss_clnt_major cp1 =? GSS_S_CONTINUE_NEEDED)); [exact Hproc|].
    apply Hsrv. exact Hproc.
Qed.

Lemma ctx_init_loop_no_needauth `{gss_limits} (world : nat -> round_answer) (fuel : nat) :
  forall st e st',
    proc_negotiating (is_cp st) ->
    ctx_init_loop fuel world st = Some (LoopError e st') -> e <> ENEEDAUTH.
Proof.
  induction fuel as [|fuel IH]; intros st e st' Hp Hrun; [discriminate|].
  simpl in Hrun. pose proof (ctx_init_round_no_needauth world st Hp) as Hround.
  destruct (ctx_init_round world st) as [st1|st1|e1 st1].
  - exact (IH st1 e st' Hround Hrun).
  - discriminate.
  - injection Hrun as <- _. exact Hround.
Qed.

(** The error that nfs_gss_clnt_ctx_init returns is ENEEDAUTH only when
    the mechanism leaves that value as the minor status of a MIC it
    accepts (line 1415 writes the minor status into [error]). *)
Lemma ctx_init_never_returns_needauth_aux `{gss_limits} `{G : gss_krb5}
    (fuel : nat) (world : nat -> round_answer) (rnd : Z) (kalloc_ok : bool)
    (svcname : list byte) (r_auth : r_auth_t) (nmp nmp' : nfsmount)
    (cp cp' : nfs_gss_clnt_ctx) (error : errno_t) (offers : list (Z * list Z)) :
  verified_minor_not_needauth G ->
  nfs_gss_clnt_ctx_init fuel world rnd kalloc_ok svcname r_auth nmp cp
    = Some (error, cp', nmp', offers) ->
  exists e c, e <> ENEEDAUTH /\ ctx_init_nfsmout e c = (error, cp').
Proof.
  intros Hmech Hrun.
  unfold nfs_gss_clnt_ctx_init in Hrun.
  destruct (ctx_init_entry svcname r_auth nmp cp) as [st0|] eqn:Hentry.
  - assert (Hp0 : proc_negotiating (is_cp st0)).
    { unfold ctx_init_entry in Hentry.
      destruct (gss_clnt_svcname cp); [|destruct (nm_gone nmp); [discriminate|]];
        injection Hentry as <-; left; reflexivity. }
    destruct (ctx_init_loop fuel world st0) as [[st|st|e st]|] eqn:Hloop; try discriminate.
    + destruct (ctx_init_established rnd kalloc_ok (is_cp st)) as [e1 c1] eqn:Hest.
      exists e1, c1. split; [|congruence].
      unfold ctx_init_established in Hest.
      destruct (ctx_init_verify_window _) as [major minor] eqn:Hv.
      destruct (major =? GSS_S_COMPLETE) eqn:Hm; cbn [negb] in Hest;
        [destruct kalloc_ok|]; injection Hest as <- _; try discriminate.
      apply (Hmech _ _ _ _ _ Hv). now apply Z.eqb_eq.
    + exists e, (is_cp st). split; [|congruence].
      exact (ctx_init_loop_no_needauth world fuel st0 e st Hp0 Hloop).
  - exists NFSERR_EAUTH, cp. split; [discriminate|congruence].
Qed.

Lemma toy_verified_minor_not_needauth : verified_minor_not_needauth toy_krb5.
Proof.
  intros ctx msg mic major minor. cbn.
  destruct (bool_decide _); intros [= <- <-]; discriminate.
Qed.

(** C9.  The retries at growing intervals that the claim and the comment
    above nfs_gss_clnt_ctx_init_retry describe do not happen.  With a
    mechanism that does not leave ENEEDAUTH as the minor status of a MIC
    it accepts, nfs_gss_clnt_ctx_init never returns ENEEDAUTH (a
    credential problem reported by the server is used up inside the
    setup, as a reason to go to the next encryption type), so the
    condition of the [while] at line 1502 is false the first time it is
    evaluated: on every mount that is not gone, hard or soft, and
    whatever nfs_sigintr would report, the setup is called once, nothing
    is waited for, no retry is counted, and the caller gets what that one
    call returned, with the context marked INVALID if it is an error. *)
Theorem ctx_init_retry_makes_one_attempt `{gss_limits} `{G : gss_krb5}
    (fuel fuel' : nat) (worlds : nat -> nat -> round_answer) (rnd : Z) (kalloc_ok : bool)
    (svcname : list byte) (r_auth : r_auth_t) (sig : Z -> errno_t) (now : Z) (r_soft : bool)
    (nmp nmp1 : nfsmount) (cp cp1 : nfs_gss_clnt_ctx) (e : errno_t)
    (offers : list (Z * list Z)) :
  verified_minor_not_needauth G ->
  nm_gone nmp = false ->
  nfs_gss_clnt_ctx_init fuel (worlds 0%nat) rnd kalloc_ok svcname r_auth nmp cp
    = Some (e, cp1, nmp1, offers) ->
  e <> ENEEDAUTH /\
  nfs_gss_clnt_ctx_init_retry (S fuel')
      (init_of_worlds fuel worlds rnd kalloc_ok svcname r_auth) sig now r_soft nmp cp
    = Some (e, if is_error e then ctx_init_retry_bad cp1 else cp1, nmp1) /\
  (is_error e = true ->
     has_flag (gss_clnt_flags (ctx_init_retry_bad cp1)) GSS_CTX_INVAL = true) /\
  exists st,
    ctx_init_retry_run (S fuel') (init_of_worlds fuel worlds rnd kalloc_ok svcname r_auth)
      sig r_soft (mk_retry cp nmp 0 NFS_TRYLATERDEL now 0 []) = RetryDone e st /\
    rs_attempts st = 1%nat /\ rs_delays st = [] /\ rs_retries st = 0 /\ rs_now st = now.
Proof.
  intros Hmech Hgone Hinit.
  assert (Hne : e <> ENEEDAUTH).
  { destruct (ctx_init_never_returns_needauth_aux fuel (worlds 0%nat) rnd kalloc_ok svcname
                r_auth nmp nmp1 cp cp1 e offers Hmech Hinit) as (e0 & c0 & He0 & Hout).
    pose proof (ctx_init_nfsmout_spec e0 c0) as (Hfst & _).
    rewrite Hout in Hfst. cbn in Hfst. now subst e0. }
  set (init := init_of_worlds fuel worlds rnd kalloc_ok svcname r_auth).
  assert (Hround : ctx_init_retry_round init sig r_soft
                     (mk_retry cp nmp 0 NFS_TRYLATERDEL now 0 [])
                   = RetryDone e (mk_retry cp1 nmp1 0 NFS_TRYLATERDEL now 1 [])).
  { unfold ctx_init_retry_round, init, init_of_worlds. cbn [rs_attempts rs_cp rs_nmp].
    rewrite Hinit. rewrite (bool_decide_eq_false_2 (e = ENEEDAUTH)) by assumption.
    reflexivity. }
  assert (Hrun : ctx_init_retry_run (S fuel') init sig r_soft
                   (mk_retry cp nmp 0 NFS_TRYLATERDEL now 0 [])
                 = RetryDone e (mk_retry cp1 nmp1 0 NFS_TRYLATERDEL now 1 [])).
  { change (ctx_init_retry_run (S fuel') ?i ?s ?r ?st)
      with (match ctx_init_retry_round i s r st with
            | RetryAgain st' => ctx_init_retry_run fuel' i s r st'
            | stop => stop
            end).
    now rewrite Hround. }
  split; [exact Hne|]. split; [|split].
  - unfold nfs_gss_clnt_ctx_init_retry. rewrite Hgone, Hrun. cbn [rs_cp rs_nmp].
    destruct (is_error e) eqn:He; [reflexivity|].
    apply is_error_false in He. now subst e.
  - intros _. apply ctx_init_retry_bad_invalid.
  - eexists. split; [exact Hrun|]. repeat split.
Qed.

(** C9 on the hard sample mount ([nm_retry] 2, three encryption types)
    with a server that rejects every null call with a credential
    problem: the one call of the setup uses up the three encryption
    types and returns EACCES, and the retry loop returns that at once,
    without a wait and without a second attempt. *)
Lemma ctx_init_retry_makes_one_attempt_witness :
  @nfs_gss_clnt_ctx_init sample_limits toy_krb5 4 world_needauth 12345 true sample_svcname
     RPCAUTH_KRB5 sample_mount sample_new_ctx = Some sample_init_needauth /\
  sample_init_needauth.1.1.1 = EACCES /\
  nm_soft sample_mount = false /\
  @nfs_gss_clnt_ctx_init_retry sample_limits 1
     (@init_of_worlds sample_limits toy_krb5 4 (fun _ => world_needauth) 12345 true
        sample_svcname RPCAUTH_KRB5)
     never_interrupted 0 false sample_mount sample_new_ctx
    = Some (EACCES, ctx_init_retry_bad sample_init_needauth.1.1.2,
            sample_init_needauth.1.2) /\
  exists st,
    ctx_init_retry_run 1
      (@init_of_worlds sample_limits toy_krb5 4 (fun _ => world_needauth) 12345 true
         sample_svcname RPCAUTH_KRB5)
      never_interrupted false
      (mk_retry sample_new_ctx sample_mount 0 (@NFS_TRYLATERDEL sample_limits) 0 0 [])
      = RetryDone EACCES st /\
    rs_attempts st = 1%nat /\ rs_delays st = [] /\ rs_retries st = 0 /\ rs_now st = 0.
Proof.
  assert (Hrun : @nfs_gss_clnt_ctx_init sample_limits toy_krb5 4 world_needauth 12345 true
                   sample_svcname RPCAUTH_KRB5 sample_mount sample_new_ctx
                 = Some (EACCES, sample_init_needauth.1.1.2, sample_init_needauth.1.2,
                         sample_init_needauth.2))
    by (vm_compute; reflexivity).
  split; [vm_compute; reflexivity|]. split; [reflexivity|]. split; [reflexivity|].
  destruct (@ctx_init_retry_makes_one_attempt sample_limits toy_krb5 4 0
              (fun _ => world_needauth) 12345 true sample_svcname RPCAUTH_KRB5
              never_interrupted 0 false sample_mount sample_init_needauth.1.2 sample_new_ctx
              sample_init_needauth.1.1.2 EACCES sample_init_needauth.2
              toy_verified_minor_not_needauth eq_refl Hrun)
    as (_ & Hretry & _ & Hst).
  split; [exact Hretry|exact Hst].
Defined.

(** With a mechanism that does leave ENEEDAUTH as the minor status of
    the MIC it accepts, the loop is entered: on the soft sample mount
    the setup is called three times, 4, 8 and 16 seconds apart, and the
    caller gets ETIMEDOUT. *)
Example ctx_init_retry_entered_on_minor_needauth :
  (fun r => r.1.1) <$>
    @nfs_gss_clnt_ctx_init_retry sample_limits 3
       (@init_of_worlds sample_limits needauth_krb5 5 (fun _ => world_complete [x00]) 12345
          true sample_svcname RPCAUTH_KRB5)
       never_interrupted 0 false sample_soft_mount sample_new_ctx
    = Some ETIMEDOUT /\
  exists st,
    ctx_init_retry_run 3
      (@init_of_worlds sample_limits needauth_krb5 5 (fun _ => world_complete [x00]) 12345
         true sample_svcname RPCAUTH_KRB5)
      never_interrupted false
      (mk_retry sample_new_ctx sample_soft_mount 0 (@NFS_TRYLATERDEL sample_limits) 0 0 [])
      = RetryDone ETIMEDOUT st /\
    rs_attempts st = 3%nat /\ reverse (rs_delays st) = [4; 8; 16].
Proof.
  split; [vm_compute; reflexivity|].
  eexists. split; [vm_compute; reflexivity|]. split; reflexivity.
Qed.

(** ** The verifier of a reply *)

(** C10.  A reply with an RPCSEC_GSS verifier of more than
    KRB5_MAX_MIC_SIZE (128) bytes is refused with EBADRPC, whatever the
    context of the request: when the context is not yet COMPLETE (where
    the verifier would be stashed) and when it is (where the verifier
    would be checked against the sequence numbers of the request).  The
    context is left as it was, so no verifier has been stashed; nothing
    has been read from the reply; and the mechanism has not been asked
    to verify any MIC. *)
Theorem verf_get_rejects_long_verifier {chain : Type} `{gss_krb5} `{nfsm_subs chain}
    (kalloc_ok : bool) (cp : nfs_gss_clnt_ctx) (seqlist : list Z) (nmc : chain)
    (verflen : Z) :
  KRB5_MAX_MIC_SIZE < verflen ->
  nfs_gss_clnt_verf_get kalloc_ok (Some cp) seqlist nmc RPCSEC_GSS verflen
    = mk_verf_get EBADRPC (Some cp) nmc 0 [].
Proof.
  intros Hlen. unfold nfs_gss_clnt_verf_get.
  change (RPCSEC_GSS =? RPCSEC_GSS) with true. cbv beta iota. simpl negb. cbv iota.
  apply Z.ltb_lt in Hlen. rewrite Hlen.
  destruct (has_flag (gss_clnt_flags cp) GSS_CTX_COMPLETE); reflexivity.
Qed.

(** C10 on two replies with a verifier of 129 bytes: for the context in
    negotiation and for the established one. *)
Lemma verf_get_rejects_long_verifier_witness :
  @nfs_gss_clnt_verf_get _ toy_krb5 stream_chain true (Some sample_new_ctx) [1003]
      (sample_reply 129 x01) RPCSEC_GSS 129
    = mk_verf_get EBADRPC (Some sample_new_ctx) (sample_reply 129 x01) 0 [] /\
  @nfs_gss_clnt_verf_get _ toy_krb5 stream_chain true (Some sample_complete_ctx) [1003]
      (sample_reply 129 x01) RPCSEC_GSS 129
    = mk_verf_get EBADRPC (Some sample_complete_ctx) (sample_reply 129 x01) 0 [].
Proof.
  split.
  - apply (@verf_get_rejects_long_verifier _ toy_krb5 stream_chain). vm_compute. reflexivity.
  - apply (@verf_get_rejects_long_verifier _ toy_krb5 stream_chain). vm_compute. reflexivity.
Defined.

(** A verifier of 128 bytes is accepted on both paths: it is stashed in
    the context in negotiation, and it is checked (here: found wrong)
    against the sequence number of the request for the established one. *)
Example verf_get_takes_verifier_of_128 :
  (let r := @nfs_gss_clnt_verf_get _ toy_krb5 stream_chain true (Some sample_new_ctx) [1003]
              (sample_reply 128 x01) RPCSEC_GSS 128 in
   vg_error r = E0 /\
   (gss_clnt_verf <$> vg_cp r) = Some (Some (List.repeat x01 128)) /\
   vg_mic_calls r = []) /\
  (let r := @nfs_gss_clnt_verf_get _ toy_krb5 stream_chain true (Some sample_complete_ctx)
              [1003] (sample_reply 128 x01) RPCSEC_GSS 128 in
   vg_error r = NFSERR_EAUTH /\
   vg_mic_calls r = [(txdr_unsigned 1003, List.repeat x01 128)]).
Proof. vm_compute. repeat split. Qed.

(** An established context with the right verifier: the MIC of the
    sequence number is verified and the accepted status is read. *)
Example verf_get_checks_mic :
  let r := @nfs_gss_clnt_verf_get _ toy_krb5 stream_chain true (Some sample_complete_ctx)
             [1003] (txdr_unsigned 4 ++ txdr_unsigned RPC_SUCCESS) RPCSEC_GSS 4 in
  vg_error r = E0 /\ vg_nmc r = [] /\
  vg_mic_calls r = [(txdr_unsigned 1003, txdr_unsigned 4)].
Proof. vm_compute. repeat split. Qed.

(** ** The registry: reaping the negative cache *)

Lemma elem_of_tailq_remove (a b : addr) (l : list addr) :
  b ∈ tailq_remove a l <-> b <> a /\ b ∈ l.
Proof. unfold tailq_remove. exact (list_elem_of_filter (fun c => c <> a) l b). Qed.

Lemma reap_post_refl `{gss_limits} (todo : list addr) (k : kernel) : reap_post todo k k.
Proof.
  split; [reflexivity|]. split; [exists []; split; [reflexivity|constructor]|].
  split; [auto|]. split; [auto|]. intros b cp Hb. left. auto.
Qed.

(** A step of the walk that changes the record of events only. *)
Lemma reap_post_skip `{gss_limits} (a : addr) (rest : list addr) (k k1 k' : kernel)
    (evs1 : list kevent) :
  k_heap k1 = k_heap k -> k_nmp k1 = k_nmp k -> k_now k1 = k_now k ->
  k_trace k1 = evs1 ++ k_trace k ->
  Forall (fun ev => refcnt_event ev = false) evs1 ->
  reap_post rest k1 k' -> reap_post (a :: rest) k k'.
Proof.
  intros Hh Hn Ht Htr Hev (Hnow & (evs & Hevs & Hall) & Hl & Hsub & Hd).
  rewrite Hh, Hn, Ht in *.
  split; [assumption|].
  split.
  { exists (evs ++ evs1). rewrite Hevs, Htr, app_assoc. split; [reflexivity|].
    apply Forall_app. auto. }
  split; [assumption|]. split; [assumption|].
  intros b cp Hb. destruct (Hd b cp Hb) as [Hk|(Hin & Hr)]; [left; assumption|].
  right. split; [right; assumption|assumption].
Qed.

(** The step that unlinks and releases the context at [a]. *)
Lemma reap_post_remove `{gss_limits} (a : addr) (cp : nfs_gss_clnt_ctx) (rest : list addr)
    (k k1 k' : kernel) (evs1 : list kevent) :
  a ∉ rest ->
  k_heap k !! a = Some cp ->
  reap_exempt (k_now k) cp = false ->
  GSS_MAX_NEG_CACHE_ENTRIES < nm_ncentries (k_nmp k) ->
  k_heap k1 !! a = None ->
  (forall b, b <> a -> k_heap k1 !! b = k_heap k !! b) ->
  nm_gsscl (k_nmp k1) = tailq_remove a (nm_gsscl (k_nmp k)) ->
  k_now k1 = k_now k ->
  k_trace k1 = evs1 ++ k_trace k ->
  Forall (fun ev => refcnt_event ev = false) evs1 ->
  reap_post rest k1 k' -> reap_post (a :: rest) k k'.
Proof.
  intros Hnotin Ha Hex Hmax Hgone Hother Hlist Ht Htr Hev
         (Hnow & (evs & Hevs & Hall) & Hl & Hsub & Hd).
  split; [congruence|].
  split.
  { exists (evs ++ evs1). rewrite Hevs, Htr, app_assoc. split; [reflexivity|].
    apply Forall_app. auto. }
  split.
  { intros b Hb. apply Hl in Hb. rewrite Hlist in Hb.
    apply elem_of_tailq_remove in Hb. tauto. }
  split.
  { intros b c Hb. apply Hsub in Hb. destruct (decide (b = a)) as [->|Hne].
    - congruence.
    - rewrite <- Hother; assumption. }
  intros b c Hb. destruct (decide (b = a)) as [->|Hne].
  - right. assert (c = cp) by congruence. subst c.
    split; [left|]. split.
    { destruct (k_heap k' !! a) as [c'|] eqn:Hk'; [|reflexivity].
      apply Hsub in Hk'. congruence. }
    split.
    { intros Hin. apply Hl in Hin. rewrite Hlist in Hin.
      apply elem_of_tailq_remove in Hin. tauto. }
    split; assumption.
  - rewrite <- Hother in Hb by assumption.
    destruct (Hd b c Hb) as [(Hk & Hin)|(Hin & Hnone & Hnl & Hnex & Hm)].
    + left. split; [assumption|]. intros Hbl. apply Hin. rewrite Hlist.
      apply elem_of_tailq_remove. auto.
    + right. split; [right; assumption|]. split; [assumption|]. split; [assumption|].
      split; [congruence|assumption].
Qed.

Lemma reap_exempt_false `{gss_limits} (now : Z) (cp : nfs_gss_clnt_ctx) :
  has_flag (gss_clnt_flags cp) GSS_CTX_STICKY
    || negb (has_flag (gss_clnt_flags cp) GSS_CTX_INVAL) = false ->
  (now <=? gss_clnt_nctime cp + GSS_NEG_CACHE_TO) = false ->
  (gss_clnt_refcnt cp =? 0) = true ->
  reap_exempt now cp = false.
Proof. intros H1 H2 H3. unfold reap_exempt. rewrite H1, H2, H3. reflexivity. Qed.

(** The walk of the reaper comes to an end on every list of allocated
    contexts without repetition, and does what [reap_post] says. *)
Lemma neg_cache_reap_walk_spec `{gss_limits} (todo : list addr) :
  forall k,
    NoDup todo ->
    (forall a, a ∈ todo -> is_Some (k_heap k !! a)) ->
    exists k', neg_cache_reap_walk todo k = KOk k' /\ reap_post todo k k'.
Proof.
  induction todo as [|a rest IH]; intros k Hnd Hin.
  - exists k. split; [reflexivity|apply reap_post_refl].
  - apply NoDup_cons in Hnd as [Hnotin Hnd].
    destruct (Hin a ltac:(left)) as [cp Ha].
    assert (Hrest : forall b, b ∈ rest -> is_Some (k_heap k !! b)).
    { intros b Hb. apply Hin. now right. }
    cbn [neg_cache_reap_walk]. rewrite Ha.
    destruct (has_flag (gss_clnt_flags cp) GSS_CTX_STICKY
              || negb (has_flag (gss_clnt_flags cp) GSS_CTX_INVAL)) eqn:Hskip.
    { destruct (IH k Hnd Hrest) as (k' & Hrun & Hpost). exists k'. split; [exact Hrun|].
      apply (reap_post_skip a rest k k k' []); auto. }
    destruct (nm_ncentries (k_nmp k) <=? GSS_MAX_NEG_CACHE_ENTRIES) eqn:Hmax.
    { exists k. split; [reflexivity|apply reap_post_refl]. }
    destruct (k_now k <=? gss_clnt_nctime cp + GSS_NEG_CACHE_TO) eqn:Hyoung.
    { destruct (IH k Hnd Hrest) as (k' & Hrun & Hpost). exists k'. split; [exact Hrun|].
      apply (reap_post_skip a rest k k k' []); auto. }
    apply Z.leb_gt in Hmax.
    destruct (gss_clnt_refcnt cp =? 0) eqn:Href.
    + set (cp1 := with_flags (set_flag (gss_clnt_flags cp) GSS_CTX_DESTROY) cp).
      set (k1 := nfs_gss_clnt_ctx_destroy a _).
      assert (Hk1 : k_heap k1 = delete a (k_heap k) /\
                    k_nmp k1 = with_nm_ncentries (u32 (nm_ncentries (k_nmp k) + 1))
                                 (with_nm_gsscl (tailq_remove a (nm_gsscl (k_nmp k)))
                                                (k_nmp k)) /\
                    k_now k1 = k_now k /\
                    exists evs1, k_trace k1 = evs1 ++ k_trace k /\
                                 Forall (fun ev => refcnt_event ev = false) evs1).
      { subst k1. unfold nfs_gss_clnt_ctx_destroy. cbn [k_heap k_mount k_log k_put].
        rewrite lookup_insert_eq. cbn [gss_clnt_ctx_id cp1 with_flags].
        destruct (gss_clnt_ctx_id cp) as [id|]; cbn; rewrite delete_insert_eq.
        - repeat split.
          exists [EvFree a; EvKrb5Destroy id; EvUnlock a; EvLock a].
          split; [reflexivity|]. repeat constructor.
        - repeat split.
          exists [EvFree a; EvUnlock a; EvLock a].
          split; [reflexivity|]. repeat constructor. }
      destruct Hk1 as (Hh1 & Hn1 & Ht1 & evs1 & Htr1 & Hev1).
      destruct (IH k1 Hnd) as (k' & Hrun & Hpost).
      { intros b Hb. rewrite Hh1, lookup_delete_ne by (intros ->; contradiction).
        now apply Hrest. }
      exists k'. split; [exact Hrun|].
      apply (reap_post_remove a cp rest k k1 k' evs1); auto.
      * now apply reap_exempt_false.
      * rewrite Hh1. apply lookup_delete_eq.
      * intros b Hne. rewrite Hh1. now apply lookup_delete_ne.
      * rewrite Hn1. reflexivity.
    + destruct (IH (k_log (EvUnlock a) (k_log (EvLock a) k)) Hnd Hrest)
        as (k' & Hrun & Hpost).
      exists k'. split; [exact Hrun|].
      apply (reap_post_skip a rest k (k_log (EvUnlock a) (k_log (EvLock a) k)) k'
               [EvUnlock a; EvLock a]); auto.
Qed.

(** C7, as the code has it.  On a registry whose list links allocated
    contexts, the reaper comes to an end and removes no context that is
    STICKY, or not INVALID, or referenced, or younger than the aging
    threshold: each such context stays allocated, unchanged, and linked
    if it was.  A context that is removed was INVALID, not STICKY,
    unreferenced and older than the threshold, and the count was above
    the ceiling on entry; with a count at or below the ceiling every
    context stays.  Nothing is linked that was not linked before. *)
Theorem neg_cache_reap_keeps_exempt `{gss_limits} (k : kernel) :
  registry_linked k ->
  exists k',
    nfs_gss_clnt_ctx_neg_cache_reap k = KOk k' /\
    (forall a cp,
       k_heap k !! a = Some cp ->
       has_flag (gss_clnt_flags cp) GSS_CTX_STICKY = true \/
       has_flag (gss_clnt_flags cp) GSS_CTX_INVAL = false \/
       gss_clnt_refcnt cp <> 0 \/
       k_now k <= gss_clnt_nctime cp + GSS_NEG_CACHE_TO ->
       k_heap k' !! a = Some cp /\
       (a ∈ nm_gsscl (k_nmp k) -> a ∈ nm_gsscl (k_nmp k'))) /\
    (forall a,
       a ∈ nm_gsscl (k_nmp k) -> a ∉ nm_gsscl (k_nmp k') ->
       exists cp,
         k_heap k !! a = Some cp /\ k_heap k' !! a = None /\
         has_flag (gss_clnt_flags cp) GSS_CTX_STICKY = false /\
         has_flag (gss_clnt_flags cp) GSS_CTX_INVAL = true /\
         gss_clnt_refcnt cp = 0 /\
         gss_clnt_nctime cp + GSS_NEG_CACHE_TO < k_now k /\
         GSS_MAX_NEG_CACHE_ENTRIES < nm_ncentries (k_nmp k)) /\
    (nm_ncentries (k_nmp k) <= GSS_MAX_NEG_CACHE_ENTRIES ->
     forall a, a ∈ nm_gsscl (k_nmp k) -> a ∈ nm_gsscl (k_nmp k')) /\
    (forall a, a ∈ nm_gsscl (k_nmp k') -> a ∈ nm_gsscl (k_nmp k)).
Proof.
  intros [Hnd Hin].
  destruct (neg_cache_reap_walk_spec (nm_gsscl (k_nmp k)) k Hnd Hin)
    as (k' & Hrun & Hnow & _ & Hl & Hsub & Hd).
  assert (Hremoved : forall a,
            a ∈ nm_gsscl (k_nmp k) -> a ∉ nm_gsscl (k_nmp k') ->
            exists cp, k_heap k !! a = Some cp /\ k_heap k' !! a = None /\
                       reap_exempt (k_now k) cp = false /\
                       GSS_MAX_NEG_CACHE_ENTRIES < nm_ncentries (k_nmp k)).
  { intros a Ha Hna. destruct (Hin a Ha) as [cp Hcp]. exists cp.
    destruct (Hd a cp Hcp) as [(_ & Hkeep)|(_ & Hnone & _ & Hex & Hmax)]; [tauto|].
    auto. }
  exists k'. split; [exact Hrun|]. split; [|split; [|split]].
  - intros a cp Hcp Hex.
    destruct (Hd a cp Hcp) as [Hkeep|(_ & _ & _ & Hno & _)]; [exact Hkeep|].
    exfalso. unfold reap_exempt in Hno.
    apply orb_false_elim in Hno as [Hno Hy]. apply orb_false_elim in Hno as [Hno Hr].
    apply orb_false_elim in Hno as [Hs Hi]. apply negb_false_iff in Hi, Hr.
    apply Z.eqb_eq in Hr. apply Z.leb_gt in Hy.
    destruct Hex as [Hex|[Hex|[Hex|Hex]]]; try congruence; lia.
  - intros a Ha Hna. destruct (Hremoved a Ha Hna) as (cp & Hcp & Hnone & Hno & Hmax).
    exists cp. unfold reap_exempt in Hno.
    apply orb_false_elim in Hno as [Hno Hy]. apply orb_false_elim in Hno as [Hno Hr].
    apply orb_false_elim in Hno as [Hs Hi]. apply negb_false_iff in Hi, Hr.
    apply Z.eqb_eq in Hr. apply Z.leb_gt in Hy. repeat split; auto.
  - intros Hmax a Ha. destruct (decide (a ∈ nm_gsscl (k_nmp k'))) as [Hy|Hn]; [exact Hy|].
    destruct (Hremoved a Ha Hn) as (cp & _ & _ & _ & Hgt). lia.
  - exact Hl.
Qed.

Lemma crowded_registry_linked (n now : Z) : registry_linked (crowded_registry n now).
Proof.
  split; cbn [crowded_registry k_nmp nm_gsscl k_heap].
  - apply NoDup_seqZ.
  - intros a Ha. exists (inval_ctx a 100 0).
    apply elem_of_list_to_map_1.
    + rewrite <- list_fmap_compose. cbn. rewrite list_fmap_id. apply NoDup_seqZ.
    + apply list_elem_of_fmap. exists a. auto.
Qed.

(** The theorem on seventeen unreferenced INVALID contexts that have aged
    (ceiling 16, threshold 3 seconds, in the cache since 100, uptime
    200). *)
Lemma neg_cache_reap_keeps_exempt_witness :
  exists k',
    @nfs_gss_clnt_ctx_neg_cache_reap sample_limits (crowded_registry 17 200) = KOk k' /\
    (forall a, a ∈ nm_gsscl (k_nmp (crowded_registry 17 200)) ->
               a ∉ nm_gsscl (k_nmp k') ->
       exists cp,
         k_heap (crowded_registry 17 200) !! a = Some cp /\ k_heap k' !! a = None /\
         has_flag (gss_clnt_flags cp) GSS_CTX_STICKY = false /\
         has_flag (gss_clnt_flags cp) GSS_CTX_INVAL = true /\
         gss_clnt_refcnt cp = 0 /\
         gss_clnt_nctime cp + 3 < 200 /\
         16 < nm_ncentries (k_nmp (crowded_registry 17 200))).
Proof.
  destruct (@neg_cache_reap_keeps_exempt sample_limits (crowded_registry 17 200)
              (crowded_registry_linked 17 200)) as (k' & Hrun & _ & Hrem & _).
  exists k'. split; [exact Hrun|exact Hrem].
Defined.

(** C7 as written fails on the code: seventeen unreferenced INVALID
    contexts that entered the negative cache two seconds ago are all too
    young to be reaped, and the count stays at seventeen, above the
    ceiling of sixteen. *)
Lemma neg_cache_reap_leaves_count_above_ceiling :
  nm_ncentries (k_nmp (crowded_registry 17 102)) = 17 /\
  @GSS_MAX_NEG_CACHE_ENTRIES sample_limits = 16 /\
  @nfs_gss_clnt_ctx_neg_cache_reap sample_limits (crowded_registry 17 102)
    = KOk (crowded_registry 17 102).
Proof. split; [reflexivity|]. split; [reflexivity|]. vm_compute. reflexivity. Qed.

(** When the reaper does remove contexts, line 2282 adds to the count for
    each of them: the seventeen aged contexts are all released, and the
    count goes from 17 to 34. *)
Example neg_cache_reap_counts_upwards :
  match @nfs_gss_clnt_ctx_neg_cache_reap sample_limits (crowded_registry 17 200) with
  | KOk k' => nm_gsscl (k_nmp k') = [] /\ k_heap k' = ∅ /\ nm_ncentries (k_nmp k') = 34
  | _ => False
  end.
Proof. vm_compute. repeat split. Qed.

(** ** The registry: reference counts *)

Lemma s32_small (z : Z) : - 2 ^ 31 <= z < 2 ^ 31 -> s32 z = z.
Proof. intros Hz. unfold s32. rewrite Z.mod_small; lia. Qed.

Lemma unref_locked_refcnt (e : errno_t) (now : Z) (cp : nfs_gss_clnt_ctx) :
  gss_clnt_refcnt (up_cp (unref_locked e now cp)) = gss_clnt_refcnt cp.
Proof.
  unfold unref_locked. cbv zeta. cbn [up_cp].
  repeat case_match; reflexivity.
Qed.

Lemma refcnts_nonneg_put (a : addr) (cp : nfs_gss_clnt_ctx) (k : kernel) :
  refcnts_nonneg k -> 0 <= gss_clnt_refcnt cp -> refcnts_nonneg (k_put a cp k).
Proof.
  intros Hk Hcp b c. cbn [k_put k_heap]. rewrite lookup_insert.
  case_decide; [intros [= <-]; exact Hcp|apply Hk].
Qed.

Lemma refcnts_nonneg_sub (k k' : kernel) :
  (forall b c, k_heap k' !! b = Some c -> k_heap k !! b = Some c) ->
  refcnts_nonneg k -> refcnts_nonneg k'.
Proof. intros Hsub Hk b c Hb. apply (Hk b c). now apply Hsub. Qed.

(** What follows the unlock writes no reference count and leaves the
    counts of the contexts that stay as they are. *)
Lemma unref_unlocked_spec `{gss_limits} (req : nfsreq) (a : addr) (plan : unref_plan)
    (k : kernel) (cp : nfs_gss_clnt_ctx) :
  refcnts_nonneg k -> registry_linked k -> k_heap k !! a = Some cp ->
  exists k' after,
    unref_unlocked req a plan k = KOk (req, k') /\
    refcnts_nonneg k' /\
    (forall cp', k_heap k' !! a = Some cp' -> cp' = cp) /\
    k_trace k' = after ++ k_trace k /\
    Forall (fun ev => refcnt_event ev = false) after.
Proof.
  intros Hk [Hnd Hin] Ha. unfold unref_unlocked.
  destruct (up_destroy plan).
  - set (k1 := if r_nmp req then _ else k).
    assert (Hk1 : k_heap k1 = k_heap k /\
                  exists evs, k_trace k1 = evs ++ k_trace k /\
                              Forall (fun ev => refcnt_event ev = false) evs).
    { subst k1. destruct (r_nmp req).
      - split; [reflexivity|]. exists [EvUnlockMount; EvLockMount].
        split; [reflexivity|repeat constructor].
      - split; [reflexivity|]. exists []. split; [reflexivity|constructor]. }
    destruct Hk1 as (Hh1 & evs & Htr & Hev).
    unfold nfs_gss_clnt_ctx_destroy. rewrite Hh1, Ha.
    destruct (gss_clnt_ctx_id cp) as [id|].
    + eexists _, (EvFree a :: EvKrb5Destroy id :: evs).
      split; [reflexivity|]. cbn [k_free k_log k_heap k_trace]. rewrite Hh1, Htr.
      split; [|split; [|split; [reflexivity|repeat constructor; assumption]]].
      * intros b c Hb. cbn [k_free k_log k_heap] in Hb. rewrite Hh1 in Hb.
        apply lookup_delete_Some in Hb as [_ Hb]. now apply (Hk b c).
      * intros cp'. rewrite lookup_delete_eq. discriminate.
    + eexists _, (EvFree a :: evs).
      split; [reflexivity|]. cbn [k_free k_log k_heap k_trace]. rewrite Hh1, Htr.
      split; [|split; [|split; [reflexivity|repeat constructor; assumption]]].
      * intros b c Hb. cbn [k_free k_log k_heap] in Hb. rewrite Hh1 in Hb.
        apply lookup_delete_Some in Hb as [_ Hb]. now apply (Hk b c).
      * intros cp'. rewrite lookup_delete_eq. discriminate.
  - destruct (up_neg_cache plan).
    2:{ exists k, []. repeat split; auto. intros cp' Hcp'. congruence. }
    destruct (r_nmp req).
    2:{ exists k, []. repeat split; auto. intros cp' Hcp'. congruence. }
    set (k1 := k_mount _ (k_log EvLockMount k)).
    destruct (neg_cache_reap_walk_spec (nm_gsscl (k_nmp k1)) k1 Hnd Hin)
      as (k' & Hrun & _ & (evs & Htr & Hev) & _ & Hsub & _).
    unfold nfs_gss_clnt_ctx_neg_cache_reap. rewrite Hrun.
    exists (k_log EvUnlockMount k'), (EvUnlockMount :: evs ++ [EvLockMount]).
    split; [reflexivity|]. split; [|split; [|split]].
    + apply (refcnts_nonneg_sub k); [|exact Hk]. exact Hsub.
    + intros cp' Hcp'. apply Hsub in Hcp'. cbn in Hcp'. congruence.
    + cbn [k_log k_trace]. rewrite Htr. cbn. now rewrite <- app_assoc.
    + constructor; [reflexivity|]. apply Forall_app. split; [exact Hev|repeat constructor].
Qed.

(** C8.  Take a registry in which every reference count is 0 or more,
    and a context at [a] in it.  nfs_gss_clnt_ctx_ref adds one to the
    count between the lock and the unlock of the context's mutex, and the
    counts are still 0 or more.  nfs_gss_clnt_ctx_unref on a count above
    0 takes one off between the lock and the unlock of the same mutex,
    writes no other count, returns, and the counts are still 0 or more.
    On a count of 0 it does not return: it takes the lock, writes -1 and
    stops in panic("Over release of gss context!"). *)
Theorem ctx_refcnt_never_negative `{gss_limits} (req : nfsreq) (a : addr)
    (cp : nfs_gss_clnt_ctx) (k : kernel) :
  refcnts_nonneg k -> registry_linked k ->
  k_heap k !! a = Some cp ->
  gss_clnt_refcnt cp <= INT32_MAX ->
  (gss_clnt_refcnt cp < INT32_MAX ->
   exists k',
     nfs_gss_clnt_ctx_ref req a k = KOk (with_r_gss_ctx (Some a) req, k') /\
     k_heap k' = <[a := with_refcnt (gss_clnt_refcnt cp + 1) cp]> (k_heap k) /\
     refcnts_nonneg k' /\
     k_trace k'
       = EvUnlock a :: EvRefcnt a (gss_clnt_refcnt cp + 1) :: EvLock a :: k_trace k) /\
  (r_gss_ctx req = Some a -> 0 < gss_clnt_refcnt cp ->
   exists k' after held,
     nfs_gss_clnt_ctx_unref req k = KOk (with_r_gss_ctx None req, k') /\
     refcnts_nonneg k' /\
     (forall cp', k_heap k' !! a = Some cp' ->
                  gss_clnt_refcnt cp' = gss_clnt_refcnt cp - 1) /\
     k_trace k'
       = after ++ EvUnlock a :: held
           ++ EvRefcnt a (gss_clnt_refcnt cp - 1) :: EvLock a :: k_trace k /\
     Forall (fun ev => refcnt_event ev = false) after /\
     Forall (fun ev => refcnt_event ev = false /\ mutex_event ev = false) held) /\
  (r_gss_ctx req = Some a -> gss_clnt_refcnt cp = 0 ->
   nfs_gss_clnt_ctx_unref req k = KPanic).
Proof.
  intros Hk Hlinked Ha Hmax. pose proof (Hk a cp Ha) as Hpos.
  assert (H31 : INT32_MAX = 2 ^ 31 - 1) by reflexivity.
  split; [|split].
  - intros Hlt. unfold nfs_gss_clnt_ctx_ref. rewrite Ha.
    rewrite s32_small by lia.
    eexists. split; [reflexivity|]. split; [reflexivity|]. split; [|reflexivity].
    apply (refcnts_nonneg_put a _ k Hk). cbn. lia.
  - intros Hreq Hgt. unfold nfs_gss_clnt_ctx_unref. rewrite Hreq, Ha.
    rewrite s32_small by lia. cbv zeta.
    replace (gss_clnt_refcnt cp - 1 <? 0) with false by (symmetry; apply Z.ltb_ge; lia).
    set (v := gss_clnt_refcnt cp - 1).
    set (plan := unref_locked _ _ (with_refcnt v cp)).
    set (k1 := match up_krb5 plan with Some _ => _ | None => _ end).
    set (held := match up_krb5 plan with Some id => [EvKrb5Destroy id] | None => [] end).
    assert (Hk1 : k_heap k1 = <[a := with_refcnt v cp]> (k_heap k) /\
                  k_nmp k1 = k_nmp k /\
                  k_trace k1 = held ++ EvRefcnt a v :: EvLock a :: k_trace k /\
                  Forall (fun ev => refcnt_event ev = false /\ mutex_event ev = false)
                         held).
    { subst k1 held. destruct (up_krb5 plan); repeat split; repeat constructor. }
    destruct Hk1 as (Hh1 & Hn1 & Htr1 & Hheld).
    set (k2 := k_log (EvUnlock a) (k_put a (up_cp plan) k1)).
    assert (Hcnt : gss_clnt_refcnt (up_cp plan) = v).
    { subst plan. rewrite unref_locked_refcnt. reflexivity. }
    destruct (unref_unlocked_spec (with_r_gss_ctx None req) a plan k2 (up_cp plan))
      as (k' & after & Hrun & Hk' & Hsame & Htr & Hafter).
    + intros b c. subst k2. cbn [k_log k_put k_heap]. rewrite Hh1, lookup_insert.
      case_decide.
      { intros Hc. assert (Hgt0 : 0 <= v) by (unfold v; lia).
        replace c with (up_cp plan) by congruence. now rewrite Hcnt. }
      rewrite lookup_insert_ne by assumption. apply Hk.
    + destruct Hlinked as [Hnd Hin]. subst k2. unfold registry_linked.
      cbn [k_log k_put k_nmp k_heap].
      rewrite Hn1. split; [exact Hnd|]. intros b Hb. rewrite Hh1, lookup_insert.
      case_decide; [eauto|]. rewrite lookup_insert_ne by assumption. now apply Hin.
    + subst k2. cbn [k_log k_put k_heap]. apply lookup_insert_eq.
    + exists k', after, held. split; [exact Hrun|]. split; [exact Hk'|].
      split; [intros cp' Hcp'; apply Hsame in Hcp'; congruence|].
      split; [|split; assumption].
      rewrite Htr. subst k2. cbn [k_log k_put k_trace]. rewrite Htr1. reflexivity.
  - intros Hreq Hzero. unfold nfs_gss_clnt_ctx_unref. rewrite Hreq, Ha, Hzero.
    reflexivity.
Qed.

Lemma sample_registry_linked (now : Z) : registry_linked (sample_registry now).
Proof.
  split; cbn [sample_registry k_nmp nm_gsscl k_heap].
  - apply NoDup_cons. split; [|apply NoDup_singleton].
    intros Hx. apply list_elem_of_In in Hx. simpl in Hx. lia.
  - intros b Hb. apply list_elem_of_In in Hb. simpl in Hb.
    destruct Hb as [<-|[<-|[]]]; eexists; reflexivity.
Qed.

Lemma sample_registry_nonneg (now : Z) : refcnts_nonneg (sample_registry now).
Proof.
  intros b c. cbn [sample_registry k_heap]. rewrite lookup_insert.
  case_decide; [intros [= <-]; cbn; lia|].
  rewrite lookup_insert. case_decide; [intros [= <-]; cbn; lia|].
  rewrite lookup_empty. discriminate.
Qed.

(** C8 on the sample registry: the valid context at address 11 has one
    reference, the INVALID one at 12 has none. *)
Lemma ctx_refcnt_never_negative_witness :
  (exists k',
     @nfs_gss_clnt_ctx_ref sample_req 11 (sample_registry 102)
       = KOk (with_r_gss_ctx (Some 11) sample_req, k') /\
     refcnts_nonneg k') /\
  (exists k',
     @nfs_gss_clnt_ctx_unref sample_limits (with_r_gss_ctx (Some 11) sample_req)
        (sample_registry 102) = KOk (sample_req, k') /\
     refcnts_nonneg k') /\
  @nfs_gss_clnt_ctx_unref sample_limits (with_r_gss_ctx (Some 12) sample_req)
     (sample_registry 102) = KPanic.
Proof.
  split; [|split].
  - destruct (@ctx_refcnt_never_negative sample_limits sample_req 11
                (with_cred (mk_cred 200 502 502) sample_complete_ctx) (sample_registry 102)
                (sample_registry_nonneg 102) (sample_registry_linked 102) eq_refl
                ltac:(vm_compute; discriminate))
      as [Href _].
    destruct (Href eq_refl) as (k' & Hrun & _ & Hk' & _).
    exists k'. split; assumption.
  - destruct (@ctx_refcnt_never_negative sample_limits (with_r_gss_ctx (Some 11) sample_req)
                11 (with_cred (mk_cred 200 502 502) sample_complete_ctx)
                (sample_registry 102)
                (sample_registry_nonneg 102) (sample_registry_linked 102) eq_refl
                ltac:(vm_compute; discriminate))
      as (_ & Hunref & _).
    destruct (Hunref eq_refl eq_refl) as (k' & after & held & Hrun & Hk' & _).
    exists k'. split; assumption.
  - apply (@ctx_refcnt_never_negative sample_limits (with_r_gss_ctx (Some 12) sample_req)
             12 (inval_ctx 100 100 0) (sample_registry 102)
             (sample_registry_nonneg 102) (sample_registry_linked 102) eq_refl
             ltac:(vm_compute; discriminate)); reflexivity.
Defined.

(** ** The registry: finding the context of a request *)

Lemma tailq_remove_notin (a : addr) (l : list addr) : a ∉ l -> tailq_remove a l = l.
Proof.
  induction l as [|b l IH]; intros Hn; [reflexivity|].
  apply not_elem_of_cons in Hn as [Hne Hn].
  unfold tailq_remove in *. rewrite filter_cons_True by congruence.
  now rewrite IH.
Qed.

Lemma tailq_remove_middle (a : addr) (pre post : list addr) :
  NoDup (pre ++ a :: post) -> tailq_remove a (pre ++ a :: post) = pre ++ post.
Proof.
  intros Hnd. apply NoDup_app in Hnd as (_ & Hpre & Hpost).
  apply NoDup_cons in Hpost as [Hpost _].
  assert (Hna : a ∉ pre). { intros Hin. apply (Hpre a Hin). left. }
  unfold tailq_remove. rewrite filter_app, filter_cons_False by auto.
  fold (tailq_remove a pre). fold (tailq_remove a post).
  now rewrite !tailq_remove_notin.
Qed.

Lemma k_quiet_refl (k : kernel) : k_quiet k k.
Proof. repeat split. exists []. split; [reflexivity|constructor]. Qed.

Lemma k_quiet_log (ev : kevent) (k k1 : kernel) :
  mutex_event ev = true -> k_quiet k k1 -> k_quiet k (k_log ev k1).
Proof.
  intros Hev (Hh & Hn & Ht & Hx & evs & Htr & Hall).
  repeat split; try assumption.
  exists (ev :: evs). cbn [k_log k_trace]. rewrite Htr. split; [reflexivity|].
  constructor; assumption.
Qed.

(** The walk passes over the contexts that are marked for destruction or
    belong to another audit session, taking and dropping their mutexes. *)
Lemma find_principal_walk_skip `{gss_limits} (req : nfsreq)
    (principal : option (list byte)) (nt : Z) (pre rest : list addr) :
  forall k0 k,
    k_quiet k0 k ->
    (forall b, b ∈ pre -> exists c, k_heap k0 !! b = Some c /\ find_passes_over req c) ->
    exists k1,
      find_principal_walk req principal nt (pre ++ rest) k
        = find_principal_walk req principal nt rest k1 /\
      k_quiet k0 k1.
Proof.
  induction pre as [|b pre IH]; intros k0 k Hq Hpre.
  - exists k. split; [reflexivity|exact Hq].
  - destruct (Hpre b ltac:(left)) as (c & Hb & Hover).
    assert (Hpre' : forall b', b' ∈ pre ->
              exists c', k_heap k0 !! b' = Some c' /\ find_passes_over req c').
    { intros b' Hb'. apply Hpre. now right. }
    pose proof Hq as (Hh & _).
    cbn [app find_principal_walk]. rewrite Hh, Hb.
    assert (Hq' : k_quiet k0 (k_log (EvUnlock b) (k_log (EvLock b) k))).
    { apply k_quiet_log; [reflexivity|]. apply k_quiet_log; [reflexivity|exact Hq]. }
    destruct (has_flag (gss_clnt_flags c) GSS_CTX_DESTROY) eqn:Hd.
    + exact (IH k0 _ Hq' Hpre').
    + destruct Hover as [Hover|Hover]; [congruence|]. rewrite Hover.
      exact (IH k0 _ Hq' Hpre').
Qed.

(** C6.  Let the first context on the list that the walk does not pass
    over be at [a]: it belongs to the audit session of the request, is
    not marked for destruction, and does not differ from the principal
    asked for, if any.  If it is INVALID and its negative-cache time is 0
    or at most GSS_NEG_CACHE_TO seconds back, the lookup returns
    NFSERR_EAUTH at once: the request gets no context, no context is
    allocated, changed or released, the count of the negative cache is
    as it was, and the only events are mutex operations, so the setup
    (and with it gssd) is not called, whatever it would have answered.
    The matched context has moved to the head of the list. *)
Theorem find_principal_fast_fail `{gss_limits} (init_retry : init_retry_fn)
    (nfs_root_steals_ctx : bool) (req : nfsreq) (principal : option (list byte)) (nt : Z)
    (k : kernel) (pre post : list addr) (a : addr) (cp : nfs_gss_clnt_ctx) :
  r_nmp req = true ->
  nm_gsscl (k_nmp k) = pre ++ a :: post ->
  NoDup (nm_gsscl (k_nmp k)) ->
  (forall b, b ∈ pre -> exists c, k_heap k !! b = Some c /\ find_passes_over req c) ->
  k_heap k !! a = Some cp ->
  has_flag (gss_clnt_flags cp) GSS_CTX_DESTROY = false ->
  nfs_gss_clnt_ctx_cred_match (gss_clnt_cred cp) (r_cred req) = true ->
  (forall p, principal = Some p -> principal_mismatch cp p nt = false) ->
  has_flag (gss_clnt_flags cp) GSS_CTX_INVAL = true ->
  k_now k <= gss_clnt_nctime cp + GSS_NEG_CACHE_TO \/ gss_clnt_nctime cp = 0 ->
  exists k',
    nfs_gss_clnt_ctx_find_principal init_retry nfs_root_steals_ctx req principal nt k
      = Some (KOk (NFSERR_EAUTH, req, k')) /\
    k_heap k' = k_heap k /\
    k_next k' = k_next k /\
    nm_gsscl (k_nmp k') = a :: pre ++ post /\
    nm_ncentries (k_nmp k') = nm_ncentries (k_nmp k) /\
    exists evs, k_trace k' = evs ++ k_trace k /\
                Forall (fun ev => mutex_event ev = true) evs.
Proof.
  intros Hnmp Hlist Hnd Hpre Ha Hdestroy Hmatch Hprin Hinval Hgrace.
  unfold nfs_gss_clnt_ctx_find_principal. rewrite Hnmp. cbn [negb].
  cbn [k_log k_nmp]. rewrite Hlist.
  destruct (find_principal_walk_skip req principal nt pre (a :: post) k
              (k_log EvLockMount k))
    as (k1 & -> & Hh & Hn & Ht & Hx & evs & Htr & Hall).
  { apply k_quiet_log; [reflexivity|apply k_quiet_refl]. }
  { exact Hpre. }
  cbn [find_principal_walk]. rewrite Hh, Ha, Hdestroy, Hmatch.
  assert (Hp : match principal with
               | Some p => principal_mismatch cp p nt
               | None => false
               end = false).
  { destruct principal as [p|]; [now apply Hprin|reflexivity]. }
  rewrite Hp, Hinval. cbn [k_log k_now k_nmp k_mount].
  assert (Hg : (k_now k1 <=? gss_clnt_nctime cp + GSS_NEG_CACHE_TO)
               || (gss_clnt_nctime cp =? 0) = true).
  { rewrite Ht. apply orb_true_iff. destruct Hgrace as [Hg|Hg].
    - left. now apply Z.leb_le.
    - right. now apply Z.eqb_eq. }
  destruct (bool_decide (head (nm_gsscl (k_nmp k1)) = Some a)) eqn:Hhead.
  - cbn [k_log k_now]. rewrite Hg.
    eexists. split; [reflexivity|]. cbn [k_log k_heap k_next k_nmp k_trace].
    split; [exact Hh|]. split; [exact Hx|]. rewrite Hn.
    apply bool_decide_eq_true_1 in Hhead. rewrite Hn, Hlist in Hhead.
    split.
    { rewrite Hlist. destruct pre as [|b pre]; [reflexivity|].
      exfalso. injection Hhead as ->. rewrite Hlist in Hnd.
      apply NoDup_cons in Hnd as [Hna _]. apply Hna.
      apply elem_of_app. right. left. }
    split; [reflexivity|].
    exists (EvUnlockMount :: EvUnlock a :: EvLock a :: evs). rewrite Htr.
    split; [reflexivity|]. repeat constructor. exact Hall.
  - cbn [k_log k_mount k_now]. rewrite Hg.
    eexists. split; [reflexivity|]. cbn [k_log k_mount k_heap k_next k_nmp k_trace].
    split; [exact Hh|]. split; [exact Hx|]. rewrite Hn.
    split.
    { cbn [with_nm_gsscl nm_gsscl]. unfold tailq_insert_head. f_equal.
      rewrite Hlist. apply tailq_remove_middle. now rewrite <- Hlist. }
    split; [reflexivity|].
    exists (EvUnlockMount :: EvUnlock a :: EvLock a :: evs). rewrite Htr.
    split; [reflexivity|]. repeat constructor. exact Hall.
Qed.

(** C6 on the sample registry at uptime 102: the context of session 100
    at address 12 is INVALID and in the negative cache since 100, with a
    grace period of 3 seconds.  The setup given here never comes back. *)
Lemma find_principal_fast_fail_witness :
  exists k',
    @nfs_gss_clnt_ctx_find_principal sample_limits (fun _ _ => None) false sample_req
       None 0 (sample_registry 102)
      = Some (KOk (NFSERR_EAUTH, sample_req, k')) /\
    k_heap k' = k_heap (sample_registry 102) /\
    k_next k' = 13 /\
    nm_gsscl (k_nmp k') = [12; 11].
Proof.
  destruct (@find_principal_fast_fail sample_limits (fun _ _ => None) false sample_req
              None 0 (sample_registry 102) [11] [] 12 (inval_ctx 100 100 0))
    as (k' & Hrun & Hheap & Hnext & Hlist & _).
  - reflexivity.
  - reflexivity.
  - exact (proj1 (sample_registry_linked 102)).
  - intros b Hb. apply list_elem_of_In in Hb. simpl in Hb. destruct Hb as [<-|[]].
    eexists. split; [reflexivity|]. right. reflexivity.
  - reflexivity.
  - reflexivity.
  - reflexivity.
  - intros p Hp. discriminate.
  - reflexivity.
  - left. vm_compute. discriminate.
  - exists k'. repeat split; assumption.
Defined.

(** Once the grace period is over (uptime 110) the same lookup takes the
    context off the negative cache, cleans it and runs the setup on it. *)
Example find_principal_after_grace_sets_up :
  match @nfs_gss_clnt_ctx_find_principal sample_limits (fun cp nmp => Some (E0, cp, nmp))
          false sample_req None 0 (sample_registry 110) with
  | Some (KOk (error, req, k')) =>
    error = E0 /\ r_gss_ctx req = Some 12 /\
    nm_gsscl (k_nmp k') = [12; 11] /\ nm_ncentries (k_nmp k') = 0 /\
    (gss_clnt_refcnt <$> k_heap k' !! 12) = Some 1 /\
    EvInit 12 ∈ k_trace k'
  | _ => False
  end.
Proof.
  vm_compute. repeat split. apply list_elem_of_In. simpl. auto.
Qed.

(* ===================================================================== *)
(** * Part III. Further properties of the code                            *)
(* ===================================================================== *)

(** ** XDR rounding and the size of the sequence bitmap *)

Lemma nfsm_rndup_spec (a : Z) : 0 <= a -> nfsm_rndup a = 4 * ((a + 3) / 4).
Proof.
  intros Ha. unfold nfsm_rndup. rewrite <- Z.ldiff_land.
  change 3 with (Z.ones 2) at 2. rewrite Z.ldiff_ones_r by lia.
  rewrite Z.shiftl_mul_pow2, Z.shiftr_div_pow2 by lia.
  change (2 ^ 2) with 4. lia.
Qed.

Lemma nfsm_rndup_bounds (a : Z) :
  0 <= a -> a <= nfsm_rndup a <= a + 3 /\ nfsm_rndup a mod 4 = 0.
Proof.
  intros Ha. rewrite nfsm_rndup_spec by assumption.
  pose proof (Z.div_mod (a + 3) 4 ltac:(lia)) as Hdm.
  pose proof (Z.mod_pos_bound (a + 3) 4 ltac:(lia)) as Hb.
  split; [lia|]. rewrite Z.mul_comm. apply Z_mod_mult.
Qed.

Lemma nfsm_pad_bounds (a : Z) : 0 <= a -> 0 <= nfsm_pad a <= 3.
Proof. intros Ha. unfold nfsm_pad. pose proof (nfsm_rndup_bounds a Ha). lia. Qed.

(** X1.  nfs_gss_seqbits_size gives a bitmap, a whole number of 32-bit
    words, with a bit for every slot of the window and less than one
    word to spare, for a window of up to 2^32 - 8 slots.  For a larger
    window [win + 7] wraps around in uint32_t arithmetic and the size is
    0. *)
Theorem seqbits_size_covers_window (win : Z) :
  0 <= win < 2 ^ 32 ->
  (win <= 2 ^ 32 - 8 ->
   nfs_gss_seqbits_size win mod 4 = 0 /\
   win <= 8 * nfs_gss_seqbits_size win <= win + 31) /\
  (2 ^ 32 - 8 < win -> nfs_gss_seqbits_size win = 0).
Proof.
  intros Hwin. unfold nfs_gss_seqbits_size. split.
  - intros Hle. rewrite u32_small by lia.
    pose proof (Z.div_mod (win + 7) 8 ltac:(lia)) as Hdm.
    pose proof (Z.mod_pos_bound (win + 7) 8 ltac:(lia)) as Hb.
    assert (Hq : 0 <= (win + 7) / 8) by (apply Z.div_pos; lia).
    pose proof (nfsm_rndup_bounds _ Hq) as [Hr Hm].
    split; [exact Hm|lia].
  - intros Hgt. unfold u32.
    replace ((win + 7) mod 2 ^ 32) with (win + 7 - 2 ^ 32).
    2:{ apply Z.mod_unique with (q := 1); lia. }
    rewrite Z.div_small by lia. reflexivity.
Qed.

(** X1 on a window of 128 slots (16 bytes) and on the largest value a
    server can send. *)
Lemma seqbits_size_covers_window_witness :
  (nfs_gss_seqbits_size 128 mod 4 = 0 /\
   128 <= 8 * nfs_gss_seqbits_size 128 <= 128 + 31) /\
  nfs_gss_seqbits_size (2 ^ 32 - 1) = 0.
Proof.
  split.
  - apply (proj1 (seqbits_size_covers_window 128 ltac:(lia))). lia.
  - apply (proj2 (seqbits_size_covers_window (2 ^ 32 - 1) ltac:(lia))). lia.
Defined.

(** ** The protected call body on the wire *)

Lemma prepend_32_bytes (mb mb2 : list mbuf) (v : Z) :
  rpc_gss_prepend_32 mb v = (E0, mb2) ->
  mchain_bytes mb2 = txdr_unsigned v ++ mchain_bytes mb.
Proof.
  unfold rpc_gss_prepend_32. destruct mb as [|m rest]; [discriminate|].
  destruct (4 <=? m_lead m); intros Heq.
  - assert (mb2 = mk_mbuf (m_lead m - 4) (txdr_unsigned v ++ m_data m) :: rest) as ->
      by congruence.
    rewrite !mchain_bytes_cons. cbn [m_data]. now rewrite <- app_assoc.
  - assert (mb2 = mk_mbuf 0 (txdr_unsigned v) :: m :: rest) as -> by congruence.
    rewrite !mchain_bytes_cons. reflexivity.
Qed.

Lemma xdrpad_length (n : Z) : 0 <= n -> Z.of_nat (length (xdrpad n)) = n.
Proof. intros Hn. unfold xdrpad. rewrite repeat_length. lia. Qed.

(** X2.  Privacy protection, for every call body, the empty one
    included, and every mechanism whose unwrap undoes its wrap.  What
    rpc_gss_priv_data_create puts on the wire is the length of the wrap
    token, the token, and zero bytes up to the next multiple of four;
    the length it reports is that of the token without the padding; and
    rpc_gss_priv_data_restore, given that length, returns the bytes of
    the original body. *)
Theorem priv_data_frame_roundtrip (G : gss_krb5) `{!gss_krb5_laws G}
    (ctx : Z) (args : list mbuf) (seqnum : Z) (e : errno_t) (tok : list mbuf) :
  nfs_gss_mchain_length args < 2 ^ 32 - 4 ->
  gss_krb5_wrap_mbuf ctx (txdr_unsigned seqnum ++ mchain_bytes args)
    = (GSS_S_COMPLETE, e, tok) ->
  tok <> [] ->
  nfs_gss_mchain_length tok < 2 ^ 32 ->
  exists enc dec,
    rpc_gss_priv_data_create ctx args seqnum = (E0, enc, nfs_gss_mchain_length tok) /\
    mchain_bytes enc
      = txdr_unsigned (nfs_gss_mchain_length tok) ++ mchain_bytes tok
          ++ xdrpad (nfsm_pad (nfs_gss_mchain_length tok)) /\
    nfs_gss_mchain_length enc mod 4 = 0 /\
    rpc_gss_priv_data_restore ctx enc (nfs_gss_mchain_length tok) = (E0, dec) /\
    mchain_bytes dec = mchain_bytes args.
Proof.
  intros Hlen Hwrap Htok Htlen.
  pose proof (mchain_length_nonneg args) as Hnn.
  pose proof (mchain_length_nonneg tok) as Htn.
  destruct (priv_roundtrip G ctx args seqnum e tok Hlen Hwrap Htok Htlen)
    as (enc & dec & Hc & Hr & Hb).
  set (len := nfs_gss_mchain_length tok) in *.
  assert (Hframe : mchain_bytes enc
                   = txdr_unsigned len ++ mchain_bytes tok ++ xdrpad (nfsm_pad len)).
  { revert Hc. unfold rpc_gss_priv_data_create, rpc_gss_data_create.
    simpl is_error. cbv iota.
    simpl nfs_gss_mchain_length. unfold mbuf_len at 1. simpl m_data.
    rewrite txdr_unsigned_length. rewrite u32_small by lia.
    rewrite mchain_bytes_cons. simpl m_data.
    rewrite take_ge.
    2:{ rewrite length_app, txdr_unsigned_length, mchain_length_bytes. lia. }
    rewrite Hwrap. simpl negb. cbv iota. fold len.
    rewrite (u32_small len) by lia.
    destruct (rpc_gss_prepend_32 tok len) as [err mb2] eqn:Hpre.
    assert (err = E0) as ->.
    { unfold rpc_gss_prepend_32 in Hpre. destruct tok; [congruence|].
      destruct (4 <=? m_lead m); now injection Hpre as <- _. }
    simpl is_error. cbv iota. apply prepend_32_bytes in Hpre.
    destruct (nfsm_pad len =? 0) eqn:Hpad; simpl negb; cbv iota; intros [= <-].
    - apply Z.eqb_eq in Hpad. rewrite Hpre, Hpad. simpl. now rewrite app_nil_r.
    - rewrite mchain_bytes_app, Hpre, mchain_bytes_cons. cbn [m_data mchain_bytes map concat].
      now rewrite app_nil_r, <- app_assoc. }
  exists enc, dec. split; [exact Hc|]. split; [exact Hframe|].
  split; [|split; assumption].
  rewrite (mchain_length_bytes enc), Hframe, !length_app, txdr_unsigned_length.
  rewrite !Nat2Z.inj_add, <- (mchain_length_bytes tok).
  pose proof (nfsm_pad_bounds len Htn) as Hp. rewrite xdrpad_length by lia.
  fold len. unfold nfsm_pad. pose proof (nfsm_rndup_bounds len Htn) as [_ Hm].
  replace (Z.of_nat 4 + (len + (nfsm_rndup len - len))) with (nfsm_rndup len + 1 * 4) by lia.
  now rewrite Z_mod_plus_full.
Qed.

(** X2 on the stand-in mechanism and a body of 13 bytes: the token has
    18 bytes and is padded with two. *)
Lemma priv_data_frame_roundtrip_witness :
  let body := [mk_mbuf 0 (List.repeat x2a 13)] in
  let tok := [mk_mbuf 0 (x01 :: txdr_unsigned 1000 ++ List.repeat x2a 13)] in
  exists enc dec,
    @rpc_gss_priv_data_create toy_krb5 1 body 1000 = (E0, enc, 18) /\
    mchain_bytes enc = txdr_unsigned 18 ++ mchain_bytes tok ++ xdrpad 2 /\
    nfs_gss_mchain_length enc mod 4 = 0 /\
    @rpc_gss_priv_data_restore toy_krb5 1 enc 18 = (E0, dec) /\
    mchain_bytes dec = mchain_bytes body.
Proof.
  exact (priv_data_frame_roundtrip toy_krb5 (gss_krb5_laws0 := toy_krb5_laws) 1
           [mk_mbuf 0 (List.repeat x2a 13)] 1000 E0
           [mk_mbuf 0 (x01 :: txdr_unsigned 1000 ++ List.repeat x2a 13)]
           ltac:(vm_compute; reflexivity) eq_refl ltac:(discriminate)
           ltac:(vm_compute; reflexivity)).
Defined.

(** X3.  Integrity protection, for every call body of at least one
    byte.  What rpc_gss_integ_data_create puts on the wire is the length
    of sequence number and body, the sequence number, the body as it
    was, and the MIC as an XDR opaque (length, bytes, zero padding); the
    length it reports is that of the body; and
    rpc_gss_integ_data_restore, given that length, returns the bytes of
    the original body. *)
Theorem integ_data_frame_roundtrip `{gss_krb5}
    (ctx : Z) (args : list mbuf) (seqnum : Z) (e : errno_t) (mic : list byte) :
  0 < nfs_gss_mchain_length args < 2 ^ 32 - 4 ->
  gss_krb5_get_mic_mbuf ctx (txdr_unsigned seqnum ++ mchain_bytes args)
    = (GSS_S_COMPLETE, e, mic) ->
  exists enc dec,
    rpc_gss_integ_data_create ctx args seqnum = (E0, enc, nfs_gss_mchain_length args) /\
    mchain_bytes enc
      = txdr_unsigned (nfs_gss_mchain_length args + 4) ++ txdr_unsigned seqnum
          ++ mchain_bytes args
          ++ txdr_unsigned (Z.of_nat (length mic)) ++ mic
          ++ xdrpad (nfsm_pad (Z.of_nat (length mic))) /\
    rpc_gss_integ_data_restore ctx enc (nfs_gss_mchain_length args) = (E0, dec) /\
    mchain_bytes dec = mchain_bytes args.
Proof.
  intros Hlen Hmic.
  destruct (integ_roundtrip_nonempty ctx args seqnum e mic Hlen Hmic)
    as (enc & dec & Hc & Hr & Hb).
  pose proof (integ_create_shape ctx args seqnum e mic ltac:(lia) Hmic) as Hshape.
  exists enc, dec. split; [exact Hc|]. split; [|split; assumption].
  rewrite Hshape in Hc. injection Hc as <-.
  rewrite mchain_bytes_cons, mchain_bytes_app, mchain_bytes_cons.
  cbn [m_data mchain_bytes map concat]. rewrite ?app_nil_r, <- ?app_assoc. reflexivity.
Qed.

(** X3 on the stand-in mechanism and a body of 13 bytes. *)
Lemma integ_data_frame_roundtrip_witness :
  let body := [mk_mbuf 0 (List.repeat x2a 13)] in
  exists enc dec,
    @rpc_gss_integ_data_create toy_krb5 1 body 1000 = (E0, enc, 13) /\
    mchain_bytes enc
      = txdr_unsigned 17 ++ txdr_unsigned 1000 ++ mchain_bytes body
          ++ txdr_unsigned 4 ++ txdr_unsigned 17 ++ xdrpad 0 /\
    @rpc_gss_integ_data_restore 1 enc 13 = (E0, dec) /\
    mchain_bytes dec = mchain_bytes body.
Proof.
  exact (@integ_data_frame_roundtrip toy_krb5 1 [mk_mbuf 0 (List.repeat x2a 13)] 1000 E0
           (txdr_unsigned 17) ltac:(split; vm_compute; reflexivity) eq_refl).
Defined.

(** ** The sequence window: which slot is tested, and the first numbers *)

Lemma oldest_slot_next (cp : nfs_gss_clnt_ctx) :
  0 < gss_clnt_seqwin cp ->
  gss_clnt_seqwin cp <= gss_clnt_seqnum cp + 1 < 2 ^ 32 ->
  oldest_slot cp = (gss_clnt_seqnum cp + 1) mod gss_clnt_seqwin cp.
Proof.
  intros HW Hs. unfold oldest_slot. rewrite u32_small by lia.
  replace (gss_clnt_seqnum cp - gss_clnt_seqwin cp + 1)
    with (gss_clnt_seqnum cp + 1 + (-1) * gss_clnt_seqwin cp) by lia.
  apply Z_mod_plus_full.
Qed.

(** X4.  With the counter at or above window - 1 (and below the
    uint32_t wrap) the slot that lines 846-847 test is the slot of the
    next sequence number.  So a thread that finds it taken sleeps with
    the counter and the bitmap untouched, and a thread that finds it
    free is given the next number and sets that one bit, which was
    clear: no slot in use is ever handed out again. *)
Theorem seqwin_check_tests_the_slot_it_takes (t : thread_t) (ch : ctx_chan) (bits : Z) :
  gss_clnt_seqbits (ch_ctx ch) = Some bits ->
  0 < gss_clnt_seqwin (ch_ctx ch) ->
  gss_clnt_seqwin (ch_ctx ch) <= gss_clnt_seqnum (ch_ctx ch) + 1 < 2 ^ 32 ->
  let W := gss_clnt_seqwin (ch_ctx ch) in
  let next := gss_clnt_seqnum (ch_ctx ch) + 1 in
  let '(outcome, ch') := cred_put_seqwin_check t ch in
  if win_getbit bits (next mod W)
  then outcome = SeqAsleep /\
       gss_clnt_seqnum (ch_ctx ch') = gss_clnt_seqnum (ch_ctx ch) /\
       gss_clnt_seqbits (ch_ctx ch') = Some bits /\
       ch_sleepq ch' = ch_sleepq ch ++ [t]
  else outcome = SeqAssigned next /\
       gss_clnt_seqnum (ch_ctx ch') = next /\
       ch_sleepq ch' = ch_sleepq ch /\
       exists bits',
         gss_clnt_seqbits (ch_ctx ch') = Some bits' /\
         forall r, 0 <= r ->
           win_getbit bits' r = win_getbit bits r || (next mod W =? r).
Proof.
  intros Hbits HW Hs W next.
  pose proof (oldest_slot_next (ch_ctx ch) HW Hs) as Hslot.
  unfold cred_put_seqwin_check. rewrite Hbits.
  replace (gss_clnt_seqwin (ch_ctx ch) =? 0) with false by (symmetry; apply Z.eqb_neq; lia).
  rewrite Hslot. fold W next.
  destruct (win_getbit bits (next mod W)) eqn:Hbit.
  - unfold msleep. ctx_simpl. cbn [ch_ctx ch_sleepq]. ctx_simpl.
    repeat split; try reflexivity; assumption.
  - rewrite u32_small by lia. cbn [ch_ctx ch_sleepq]. ctx_simpl.
    split; [reflexivity|]. split; [reflexivity|]. split; [reflexivity|].
    eexists. split; [reflexivity|]. intros r Hr. fold next. fold W.
    apply win_getbit_setbit; [apply Z.mod_pos_bound; lia|assumption].
Qed.

(** X4 on the full window of the scenario: counter 1003, window 4, the
    slot of 1004 is still held by 1000. *)
Lemma seqwin_check_tests_the_slot_it_takes_witness :
  fst (cred_put_seqwin_check 5 scenario_full) = SeqAsleep /\
  gss_clnt_seqnum (ch_ctx (snd (cred_put_seqwin_check 5 scenario_full))) = 1003.
Proof.
  pose proof (seqwin_check_tests_the_slot_it_takes 5 scenario_full 15 eq_refl
                ltac:(vm_compute; reflexivity)
                ltac:(split; vm_compute; [discriminate|reflexivity])) as Hw.
  cbv zeta in Hw. destruct (cred_put_seqwin_check 5 scenario_full) as [o ch'].
  change (win_getbit 15 ((gss_clnt_seqnum (ch_ctx scenario_full) + 1)
                           mod gss_clnt_seqwin (ch_ctx scenario_full))) with true in Hw.
  destruct Hw as (Ho & Hn & _). split; [exact Ho|exact Hn].
Defined.

(** X5.  When nfs_gss_clnt_ctx_init has verified the window and
    allocated the bitmap (what follows the loop returns 0), it starts
    the counter at (random() & 0xffff) + window, so, for a window W > 0
    with 2W + 65536 <= 2^32, at or above the window, with an empty
    bitmap.  On such a context the first requests, as many as the window
    has slots, are all given sequence numbers without waiting, and the
    numbers are the counter plus 1, 2, ... *)
Theorem ctx_init_seed_admits_full_window `{gss_krb5} (rnd : Z) (kalloc_ok : bool)
    (cp cp' : nfs_gss_clnt_ctx) (ts : list thread_t) :
  ctx_init_established rnd kalloc_ok cp = (E0, cp') ->
  0 < gss_clnt_seqwin cp ->
  2 * gss_clnt_seqwin cp + 65536 <= 2 ^ 32 ->
  Z.of_nat (length ts) <= gss_clnt_seqwin cp ->
  gss_clnt_seqwin cp' = gss_clnt_seqwin cp /\
  gss_clnt_seqwin cp <= gss_clnt_seqnum cp' <= gss_clnt_seqwin cp + 65535 /\
  gss_clnt_seqbits cp' = Some 0 /\
  exists ch',
    seqwin_take ts (mk_chan cp' [])
      = Some (seqZ (gss_clnt_seqnum cp' + 1) (Z.of_nat (length ts)), ch').
Proof.
  intros Hinit HW Hbound Hts. unfold ctx_init_established in Hinit.
  destruct (ctx_init_verify_window _) as [major minor].
  destruct (negb (major =? GSS_S_COMPLETE)); [discriminate|].
  destruct kalloc_ok; [|discriminate].
  injection Hinit as -> <-. ctx_simpl.
  assert (Hrnd : 0 <= Z.land rnd 65535 <= 65535).
  { change 65535 with (Z.ones 16). rewrite Z.land_ones by lia.
    pose proof (Z.mod_pos_bound rnd (2 ^ 16) ltac:(lia)). change (Z.ones 16) with 65535.
    change (2 ^ 16) with 65536 in *. lia. }
  rewrite u32_small by lia.
  split; [reflexivity|]. split; [lia|]. split; [reflexivity|].
  match goal with
  | |- context [seqwin_take ts ?c] => set (ch := c)
  end.
  assert (Hseq : gss_clnt_seqnum (ch_ctx ch) = Z.land rnd 65535 + gss_clnt_seqwin cp).
  { reflexivity. }
  assert (Hwin : gss_clnt_seqwin (ch_ctx ch) = gss_clnt_seqwin cp) by reflexivity.
  assert (Hbits : gss_clnt_seqbits (ch_ctx ch) = Some 0) by reflexivity.
  destruct (seqwin_take_from_empty ts ch 0 0 Hbits) as (ns & ch' & Htake);
    rewrite ?Hwin, ?Hseq; try lia.
  { intros r Hr Hget. unfold win_getbit in Hget. rewrite Z.bits_0 in Hget. discriminate. }
  exists ch'. rewrite Htake.
  destruct (seqwin_take_spec ts ch ch' ns 0 Htake Hbits) as (Hns & _);
    rewrite ?Hwin, ?Hseq; try lia.
  rewrite Hns, Hseq. reflexivity.
Qed.

(** X5 on the setup of the sample context: window 4, random() = 12345. *)
Lemma ctx_init_seed_admits_full_window_witness :
  exists cp' ch',
    @ctx_init_established toy_krb5 12345 true
       (with_verf (Some (txdr_unsigned 4)) (with_seqwin 4 sample_complete_ctx)) = (E0, cp') /\
    gss_clnt_seqnum cp' = 12349 /\
    seqwin_take [1; 2; 3; 4] (mk_chan cp' []) = Some ([12350; 12351; 12352; 12353], ch').
Proof.
  destruct (@ctx_init_established toy_krb5 12345 true
              (with_verf (Some (txdr_unsigned 4)) (with_seqwin 4 sample_complete_ctx)))
    as [e cp'] eqn:Hinit.
  assert (He : e = E0) by (vm_compute in Hinit; congruence). subst e.
  destruct (@ctx_init_seed_admits_full_window toy_krb5 12345 true _ cp' [1; 2; 3; 4] Hinit
              ltac:(vm_compute; reflexivity) ltac:(vm_compute; discriminate)
              ltac:(vm_compute; discriminate))
    as (_ & _ & _ & ch' & Htake).
  assert (Hn : gss_clnt_seqnum cp' = 12349)
    by (vm_compute in Hinit; injection Hinit as <-; reflexivity).
  exists cp', ch'. split; [reflexivity|]. split; [exact Hn|].
  rewrite Htake, Hn. reflexivity.
Defined.

(** ** The encryption types offered to gssd, in full *)

Lemma for_loop_copy_up (src : list Z) (n : nat) :
  forall (i : Z) (e : list Z),
    0 <= i ->
    (Z.to_nat i + 1 + n <= length e)%nat ->
    (Z.to_nat i + n <= length src)%nat ->
    forall j : nat,
      for_loop n i (fun i e => arr_set e (i + 1) (arr_get src i)) e !! j =
      if bool_decide (Z.to_nat i + 1 <= j < Z.to_nat i + 1 + n)%nat
      then src !! (j - 1)%nat
      else e !! j.
Proof.
  induction n as [|n IH]; intros i e Hi Hlen Hsrc j.
  - simpl. rewrite bool_decide_eq_false_2 by lia. reflexivity.
  - simpl for_loop. rewrite IH by (rewrite ?arr_set_length; lia).
    unfold arr_set, arr_get.
    destruct (lookup_lt_is_Some_2 src (Z.to_nat i) ltac:(lia)) as [x Hx].
    rewrite Hx. simpl default.
    destruct (decide (j = Z.to_nat (i + 1))) as [->|Hne].
    + rewrite bool_decide_eq_false_2 by lia.
      rewrite bool_decide_eq_true_2 by lia.
      rewrite list_lookup_insert_eq by lia.
      rewrite <- Hx. f_equal. lia.
    + destruct (decide (Z.to_nat (i + 1) + 1 <= j < Z.to_nat (i + 1) + 1 + n)%nat).
      * rewrite bool_decide_eq_true_2 by assumption.
        rewrite bool_decide_eq_true_2 by lia. reflexivity.
      * rewrite bool_decide_eq_false_2 by assumption.
        rewrite bool_decide_eq_false_2 by lia.
        apply list_lookup_insert_ne. lia.
Qed.

Lemma for_loop_copy_same (src : list Z) (n : nat) :
  forall (i : Z) (e : list Z),
    0 <= i ->
    (Z.to_nat i + n <= length e)%nat ->
    (Z.to_nat i + n <= length src)%nat ->
    forall j : nat,
      for_loop n i (fun i e => arr_set e i (arr_get src i)) e !! j =
      if bool_decide (Z.to_nat i <= j < Z.to_nat i + n)%nat
      then src !! j
      else e !! j.
Proof.
  induction n as [|n IH]; intros i e Hi Hlen Hsrc j.
  - simpl. rewrite bool_decide_eq_false_2 by lia. reflexivity.
  - simpl for_loop. rewrite IH by (rewrite ?arr_set_length; lia).
    unfold arr_set, arr_get.
    destruct (lookup_lt_is_Some_2 src (Z.to_nat i) ltac:(lia)) as [x Hx].
    rewrite Hx. simpl default.
    destruct (decide (j = Z.to_nat i)) as [->|Hne].
    + rewrite bool_decide_eq_false_2 by lia.
      rewrite bool_decide_eq_true_2 by lia.
      rewrite list_lookup_insert_eq by lia. now rewrite Hx.
    + destruct (decide (Z.to_nat (i + 1) <= j < Z.to_nat (i + 1) + n)%nat).
      * rewrite bool_decide_eq_true_2 by assumption.
        rewrite bool_decide_eq_true_2 by lia. reflexivity.
      * rewrite bool_decide_eq_false_2 by assumption.
        rewrite bool_decide_eq_false_2 by lia.
        apply list_lookup_insert_ne. lia.
Qed.

(** The order of preference, entry by entry. *)
Lemma etypes_ordered_lookup (nm : nfs_etype) (j : nat) :
  0 <= et_selected nm < et_count nm ->
  (Z.to_nat (et_count nm) <= length (et_etypes nm))%nat ->
  etypes_ordered nm !! j =
    if bool_decide (j = 0)%nat then et_etypes nm !! Z.to_nat (et_selected nm)
    else if bool_decide (j <= Z.to_nat (et_selected nm))%nat then et_etypes nm !! (j - 1)%nat
    else et_etypes nm !! j.
Proof.
  intros Hs Hlen. unfold etypes_ordered, for_range.
  replace (et_selected nm <? et_count nm) with true by (symmetry; apply Z.ltb_lt; lia).
  rewrite for_loop_copy_same;
    [|lia|rewrite for_loop_length, arr_set_length by (intros; apply arr_set_length); lia|lia].
  rewrite for_loop_copy_up; [|lia|rewrite arr_set_length; lia|lia].
  unfold arr_set, arr_get. change (Z.to_nat 0) with 0%nat.
  destruct (lookup_lt_is_Some_2 (et_etypes nm) (Z.to_nat (et_selected nm)) ltac:(lia))
    as [x Hx].
  rewrite Hx. simpl default.
  destruct (decide (j = 0%nat)) as [->|Hj0].
  - rewrite !bool_decide_eq_false_2 by lia. rewrite bool_decide_eq_true_2 by reflexivity.
    apply list_lookup_insert_eq. lia.
  - rewrite (bool_decide_eq_false_2 (j = 0%nat)) by assumption.
    destruct (decide (j <= Z.to_nat (et_selected nm))%nat).
    + rewrite bool_decide_eq_false_2 by lia.
      rewrite !bool_decide_eq_true_2 by lia. reflexivity.
    + rewrite (bool_decide_eq_false_2 (j <= _)%nat) by assumption.
      destruct (decide (Z.to_nat (et_selected nm + 1) <= j
                        < Z.to_nat (et_selected nm + 1)
                          + Z.to_nat (et_count nm - (et_selected nm + 1)))%nat).
      * rewrite bool_decide_eq_true_2 by assumption. reflexivity.
      * rewrite bool_decide_eq_false_2 by assumption.
        rewrite bool_decide_eq_false_2 by lia.
        apply list_lookup_insert_ne. lia.
Qed.

(** X6.  What nfs_gss_clnt_gssd_upcall offers to gssd on the retry
    numbered [r].  With an encryption type selected, the order of
    preference is the selected type followed by the other configured
    types in their configured order, each exactly once; without one it
    is the configured order.  The retry numbered [r] offers that order
    without its first [r] entries. *)
Theorem etypes_offered_order (nm : nfs_etype) (r : Z) :
  0 <= r <= et_count nm ->
  (Z.to_nat (et_count nm) <= length (et_etypes nm))%nat ->
  let src := et_etypes nm in
  let c := Z.to_nat (et_count nm) in
  let s := Z.to_nat (et_selected nm) in
  (0 <= et_selected nm < et_count nm ->
   exists x,
     src !! s = Some x /\
     etypes_offered nm r
       = drop (Z.to_nat r) (x :: take s src ++ drop (S s) (take c src)) /\
     x :: take s src ++ drop (S s) (take c src) ≡ₚ take c src) /\
  (et_count nm <= et_selected nm ->
   etypes_offered nm r = drop (Z.to_nat r) (take c src)).
Proof.
  intros Hr Hlen src c s. subst src c s. split.
  - intros Hs.
    destruct (lookup_lt_is_Some_2 (et_etypes nm) (Z.to_nat (et_selected nm)) ltac:(lia))
      as [x Hx].
    exists x. split; [exact Hx|]. split.
    + apply list_eq. intros j.
      rewrite etypes_offered_lookup by assumption.
      rewrite lookup_drop.
      destruct (decide (j < Z.to_nat (et_count nm - r))%nat) as [Hj|Hj].
      * rewrite bool_decide_eq_true_2 by assumption.
        rewrite etypes_ordered_lookup by assumption.
        destruct (Z.to_nat r + j)%nat as [|m] eqn:Hm.
        { replace (j + Z.to_nat r)%nat with 0%nat by lia.
          rewrite bool_decide_eq_true_2 by reflexivity. now rewrite Hx. }
        replace (j + Z.to_nat r)%nat with (S m) by lia.
        rewrite bool_decide_eq_false_2 by lia. rewrite lookup_cons. cbv iota.
        destruct (decide (S m <= Z.to_nat (et_selected nm))%nat).
        -- rewrite bool_decide_eq_true_2 by assumption.
           rewrite lookup_app_l by (rewrite length_take; lia).
           rewrite lookup_take_lt by lia. f_equal. lia.
        -- rewrite bool_decide_eq_false_2 by assumption.
           rewrite lookup_app_r by (rewrite length_take; lia).
           rewrite length_take, lookup_drop.
           replace (S (Z.to_nat (et_selected nm))
                    + (m - (Z.to_nat (et_selected nm) `min` length (et_etypes nm))))%nat
             with (S m) by lia.
           rewrite lookup_take_lt by lia. reflexivity.
      * rewrite bool_decide_eq_false_2 by assumption. symmetry.
        apply lookup_ge_None. cbn [length]. rewrite length_app, length_take, length_drop.
        rewrite length_take. lia.
    + rewrite <- (take_drop_middle (take (Z.to_nat (et_count nm)) (et_etypes nm))
                   (Z.to_nat (et_selected nm)) x) at 2
        by (rewrite lookup_take_lt by lia; exact Hx).
      rewrite take_take.
      replace (Z.to_nat (et_selected nm) `min` Z.to_nat (et_count nm))%nat
        with (Z.to_nat (et_selected nm)) by lia.
      apply Permutation_middle.
  - intros Hs. apply list_eq. intros j.
    rewrite etypes_offered_lookup by assumption.
    rewrite lookup_drop. unfold etypes_ordered.
    replace (et_selected nm <? et_count nm) with false by (symmetry; apply Z.ltb_ge; lia).
    destruct (decide (j < Z.to_nat (et_count nm - r))%nat) as [Hj|Hj].
    + rewrite bool_decide_eq_true_2 by assumption.
      rewrite lookup_take_lt by lia. f_equal. lia.
    + rewrite bool_decide_eq_false_2 by assumption. symmetry.
      apply lookup_take_ge. lia.
Qed.

(** X6 on three configured types with the second selected, on the
    first retry. *)
Lemma etypes_offered_order_witness :
  etypes_offered (mk_etype 3 1 [18; 17; 16]) 1 = [18; 16] /\
  [17; 18; 16] ≡ₚ [18; 17; 16].
Proof.
  destruct (proj1 (etypes_offered_order (mk_etype 3 1 [18; 17; 16]) 1
                     ltac:(simpl; lia) ltac:(simpl; lia)) ltac:(simpl; lia))
    as (x & Hx & Hoff & Hperm).
  injection Hx as <-. split; [exact Hoff|exact Hperm].
Defined.

Lemma etype_index_spec (et : Z) (l : list Z) :
  forall i0 i,
    etype_index et l i0 = Some i ->
    i0 <= i /\ (Z.to_nat (i - i0) < length l)%nat /\ l !! Z.to_nat (i - i0) = Some et.
Proof.
  induction l as [|x l IH]; intros i0 i Hidx; [discriminate|].
  simpl in Hidx. destruct (x =? et) eqn:Hx.
  - injection Hidx as <-. apply Z.eqb_eq in Hx. subst x.
    rewrite Z.sub_diag. simpl. repeat split; [lia|lia].
  - destruct (IH _ _ Hidx) as (Hle & Hlt & Hl).
    replace (Z.to_nat (i - i0)) with (S (Z.to_nat (i - (i0 + 1)))) by lia.
    simpl. repeat split; [lia|lia|exact Hl].
Qed.

Lemma etype_index_found (et : Z) (l : list Z) :
  forall i0, et ∈ l -> exists i, etype_index et l i0 = Some i.
Proof.
  induction l as [|x l IH]; intros i0 Hin; [inversion Hin|].
  simpl. destruct (x =? et) eqn:Hx; [eauto|].
  apply IH. apply elem_of_cons in Hin as [->|Hin]; [|exact Hin].
  rewrite Z.eqb_refl in Hx. discriminate.
Qed.

(** X7.  When gssd answers an upcall with an exported context whose
    encryption type is one of the types configured on the mount,
    nfs_gss_clnt_gssd_upcall returns 0, keeps the Kerberos context made
    from the export, and records the type as the selected one: the
    configured types are as they were, and the next negotiation on the
    mount offers that type first. *)
Theorem upcall_selected_type_is_offered_first (nmp : nfsmount) (cp : nfs_gss_clnt_ctx)
    (retrycnt major minor id et : Z) (otoken : list byte) :
  nm_gone nmp = false ->
  0 <= retrycnt < et_count (nm_etype nmp) ->
  (Z.to_nat (et_count (nm_etype nmp)) <= length (et_etypes (nm_etype nmp)))%nat ->
  et ∈ take (Z.to_nat (et_count (nm_etype nmp))) (et_etypes (nm_etype nmp)) ->
  exists cp' nmp' offered,
    nfs_gss_clnt_gssd_upcall nmp cp retrycnt (GssdReply major minor (Some (id, et)) otoken)
      = (E0, cp', nmp', Some offered) /\
    gss_clnt_ctx_id cp' = Some id /\
    gss_clnt_major cp' = major /\
    et_count (nm_etype nmp') = et_count (nm_etype nmp) /\
    et_etypes (nm_etype nmp') = et_etypes (nm_etype nmp) /\
    head (etypes_offered (nm_etype nmp') 0) = Some et.
Proof.
  intros Hgone Hr Hlen Hin.
  destruct (etype_index_found et _ 0 Hin) as [i Hi].
  destruct (etype_index_spec et _ 0 i Hi) as (Hi0 & Hilt & Hil).
  rewrite Z.sub_0_r in Hilt, Hil. rewrite length_take in Hilt.
  rewrite lookup_take_lt in Hil by lia.
  unfold nfs_gss_clnt_gssd_upcall. rewrite Hgone.
  replace (et_count (nm_etype nmp) <=? retrycnt) with false
    by (symmetry; apply Z.leb_gt; lia).
  rewrite Hi. eexists _, _, _. split; [reflexivity|].
  cbn [nm_etype with_nm_selected et_count et_etypes].
  split; [destruct (gss_major_bad major); reflexivity|].
  split.
  { destruct (has_flag _ GSSD_RESTART), (gss_major_bad major); reflexivity. }
  split; [reflexivity|]. split; [reflexivity|].
  rewrite head_lookup, etypes_offered_lookup by (cbn [et_count et_etypes]; lia).
  cbn [et_count et_etypes]. rewrite bool_decide_eq_true_2 by lia.
  rewrite etypes_ordered_lookup by (cbn [et_count et_etypes et_selected]; lia).
  rewrite bool_decide_eq_true_2 by reflexivity. exact Hil.
Qed.

(** X7 on the sample mount: gssd reports type 17, the second of 18, 17
    and 16. *)
Lemma upcall_selected_type_is_offered_first_witness :
  exists cp' nmp' offered,
    nfs_gss_clnt_gssd_upcall sample_mount sample_new_ctx 0
      (GssdReply GSS_S_COMPLETE 0 (Some (7, 17)) [x01])
      = (E0, cp', nmp', Some offered) /\
    head (etypes_offered (nm_etype nmp') 0) = Some 17.
Proof.
  destruct (upcall_selected_type_is_offered_first sample_mount sample_new_ctx 0
              GSS_S_COMPLETE 0 7 17 [x01] eq_refl ltac:(simpl; lia) ltac:(simpl; lia))
    as (cp' & nmp' & offered & Hrun & _ & _ & _ & _ & Hhead).
  - apply list_elem_of_In. simpl. auto.
  - exists cp', nmp', offered. split; assumption.
Defined.

(** ** Context setup: which errors come out of it *)

(** X8.  With a mechanism that does not leave ENEEDAUTH as the minor
    status of a MIC it accepts, nfs_gss_clnt_ctx_init never returns
    ENEEDAUTH: inside the loop the procedure is INIT or CONTINUE_INIT, so
    an ENEEDAUTH of the server is always taken as a reason to try the
    next encryption type.  Whatever it returns, the context is no longer
    owned by the thread that set it up and NEEDCTX is clear; and when it
    returns an error the context is marked INVALID. *)
Theorem ctx_init_never_returns_needauth `{gss_limits} `{G : gss_krb5}
    (fuel : nat) (world : nat -> round_answer) (rnd : Z) (kalloc_ok : bool)
    (svcname : list byte) (r_auth : r_auth_t) (nmp nmp' : nfsmount)
    (cp cp' : nfs_gss_clnt_ctx) (error : errno_t) (offers : list (Z * list Z)) :
  verified_minor_not_needauth G ->
  nfs_gss_clnt_ctx_init fuel world rnd kalloc_ok svcname r_auth nmp cp
    = Some (error, cp', nmp', offers) ->
  error <> ENEEDAUTH /\
  gss_clnt_thread cp' = None /\
  has_flag (gss_clnt_flags cp') GSS_NEEDCTX = false /\
  (error <> E0 -> has_flag (gss_clnt_flags cp') GSS_CTX_INVAL = true).
Proof.
  intros Hmech Hrun.
  destruct (ctx_init_never_returns_needauth_aux fuel world rnd kalloc_ok svcname r_auth
              nmp nmp' cp cp' error offers Hmech Hrun) as (e & c & He & Hn).
  unfold ctx_init_nfsmout in Hn.
  rewrite (bool_decide_eq_false_2 (e = ENEEDAUTH)) in Hn by assumption.
  injection Hn as <- <-. split; [exact He|].
  destruct (is_error e) eqn:Herr.
  - ctx_simpl. destruct (has_flag _ GSS_NEEDCTX) eqn:Hn; ctx_simpl.
    + repeat split; [flag_simpl; reflexivity|intros _; flag_simpl; reflexivity].
    + repeat split; [exact Hn|intros _; flag_simpl; reflexivity].
  - apply is_error_false in Herr. subst e.
    ctx_simpl. destruct (has_flag _ GSS_NEEDCTX) eqn:Hn; ctx_simpl.
    + repeat split; [flag_simpl; reflexivity|congruence].
    + repeat split; [exact Hn|congruence].
Qed.

(** X8 on the setup of the sample context against a server whose
    verifier is wrong. *)
Lemma ctx_init_never_returns_needauth_witness :
  sample_init_badverf.1.1.1 <> ENEEDAUTH /\
  gss_clnt_thread sample_init_badverf.1.1.2 = None /\
  has_flag (gss_clnt_flags sample_init_badverf.1.1.2) GSS_NEEDCTX = false /\
  (sample_init_badverf.1.1.1 <> E0 ->
   has_flag (gss_clnt_flags sample_init_badverf.1.1.2) GSS_CTX_INVAL = true).
Proof.
  apply (@ctx_init_never_returns_needauth sample_limits toy_krb5 5 (world_complete [x00])
           12345 true sample_svcname RPCAUTH_KRB5 sample_mount sample_init_badverf.1.2
           sample_new_ctx sample_init_badverf.1.1.2 sample_init_badverf.1.1.1
           sample_init_badverf.2 toy_verified_minor_not_needauth).
  vm_compute. reflexivity.
Defined.

(** Without that property of the mechanism the statement fails: the
    minor status of the accepted MIC is what the setup returns, and with
    ENEEDAUTH there it returns before the owner is cleared, the context
    COMPLETE and not INVALID. *)
Example ctx_init_returns_minor_of_verified_mic :
  exists cp' nmp' offers,
    @nfs_gss_clnt_ctx_init sample_limits needauth_krb5 5 (world_complete [x00])
       12345 true sample_svcname RPCAUTH_KRB5 sample_mount sample_new_ctx
      = Some (ENEEDAUTH, cp', nmp', offers) /\
    gss_clnt_thread cp' = Some 9 /\
    has_flag (gss_clnt_flags cp') GSS_CTX_COMPLETE = true /\
    has_flag (gss_clnt_flags cp') GSS_CTX_INVAL = false.
Proof. vm_compute. eexists _, _, _. repeat split. Qed.

(** ** The verifier of a reply: what is accepted *)

Lemma verf_get_search_spec `{gss_krb5} (ctx_id : Z) (cksum : list byte) (seqlist : list Z) :
  forall calls,
    match verf_get_search ctx_id cksum seqlist calls with
    | (Some s, calls') =>
      s ∈ seqlist /\
      fst (gss_krb5_verify_mic ctx_id (txdr_unsigned s) cksum) = GSS_S_COMPLETE /\
      exists tried, calls' = (txdr_unsigned s, cksum) :: tried
    | (None, calls') =>
      (forall s, s ∈ seqlist ->
         fst (gss_krb5_verify_mic ctx_id (txdr_unsigned s) cksum) <> GSS_S_COMPLETE) /\
      calls' = reverse ((fun s => (txdr_unsigned s, cksum)) <$> seqlist) ++ calls
    end.
Proof.
  induction seqlist as [|s seqlist IH]; intros calls.
  - simpl. split; [intros s Hs; inversion Hs|reflexivity].
  - simpl verf_get_search.
    destruct (fst (gss_krb5_verify_mic ctx_id (txdr_unsigned s) cksum) =? GSS_S_COMPLETE)
      eqn:Hv.
    + apply Z.eqb_eq in Hv. split; [left|]. split; [exact Hv|]. eauto.
    + apply Z.eqb_neq in Hv.
      specialize (IH ((txdr_unsigned s, cksum) :: calls)).
      destruct (verf_get_search ctx_id cksum seqlist _) as [[s'|] calls'].
      * destruct IH as (Hin & Hok & Htried). split; [now right|]. split; assumption.
      * destruct IH as (Hnone & ->). split.
        -- intros s0 Hs0. apply elem_of_cons in Hs0 as [->|Hs0]; [exact Hv|now apply Hnone].
        -- rewrite fmap_cons, reverse_cons, <- app_assoc. reflexivity.
Qed.

(** X10.  On an established context a reply with an RPCSEC_GSS verifier
    is accepted (nfs_gss_clnt_verf_get returns 0) only if the verifier
    has at most KRB5_MAX_MIC_SIZE bytes and the mechanism has verified
    it as the MIC of one of the sequence numbers the request was sent
    with; the context is not changed.  The sequence numbers are tried
    most recent first, and a reply that matches none of them is refused
    with NFSERR_EAUTH after each has been tried once. *)
Theorem verf_get_accepts_only_verified_replies {chain : Type} `{gss_krb5}
    `{nfsm_subs chain} (kalloc_ok : bool) (cp : nfs_gss_clnt_ctx) (seqlist : list Z)
    (nmc : chain) (verflen : Z) :
  has_flag (gss_clnt_flags cp) GSS_CTX_COMPLETE = true ->
  let r := nfs_gss_clnt_verf_get kalloc_ok (Some cp) seqlist nmc RPCSEC_GSS verflen in
  let ctx_id := default 0 (gss_clnt_ctx_id cp) in
  vg_cp r = Some cp /\
  (vg_error r = E0 ->
   verflen <= KRB5_MAX_MIC_SIZE /\
   exists s cksum,
     s ∈ seqlist /\
     fst (gss_krb5_verify_mic ctx_id (txdr_unsigned s) cksum) = GSS_S_COMPLETE /\
     (txdr_unsigned s, cksum) ∈ vg_mic_calls r) /\
  (forall cksum,
     verflen <= KRB5_MAX_MIC_SIZE ->
     (chain_get_opaque E0 nmc verflen (List.repeat x00 (Z.to_nat verflen))).1.1 = E0 ->
     (chain_get_opaque E0 nmc verflen (List.repeat x00 (Z.to_nat verflen))).2 = cksum ->
     (forall s, s ∈ seqlist ->
        fst (gss_krb5_verify_mic ctx_id (txdr_unsigned s) cksum) <> GSS_S_COMPLETE) ->
     vg_error r = NFSERR_EAUTH /\
     vg_mic_calls r = reverse ((fun s => (txdr_unsigned s, cksum)) <$> seqlist)).
Proof.
  intros Hc r ctx_id. subst r. unfold nfs_gss_clnt_verf_get.
  change (RPCSEC_GSS =? RPCSEC_GSS) with true. cbv beta iota. simpl negb. cbv iota.
  rewrite Hc. simpl negb. cbv iota.
  destruct (KRB5_MAX_MIC_SIZE <? verflen) eqn:Hlen.
  { apply Z.ltb_lt in Hlen. split; [reflexivity|]. split; [discriminate|].
    intros cksum Hle. lia. }
  apply Z.ltb_ge in Hlen. fold ctx_id.
  destruct (chain_get_opaque E0 nmc verflen (List.repeat x00 (Z.to_nat verflen)))
    as [[error nmc1] cksum] eqn:Hget.
  destruct (is_error error) eqn:Herr.
  { split; [reflexivity|]. split.
    - cbn. intros ->. discriminate.
    - intros cksum' _ He _. cbn in He. subst error. discriminate. }
  pose proof (verf_get_search_spec ctx_id cksum seqlist []) as Hsearch.
  destruct (verf_get_search ctx_id cksum seqlist []) as [[s|] calls].
  - destruct Hsearch as (Hin & Hok & tried & ->).
    assert (Hmem : forall l, (txdr_unsigned s, cksum) ∈ l ++ (txdr_unsigned s, cksum) :: tried).
    { intros l. apply elem_of_app. right. left. }
    split; [|split].
    + repeat (case_match; cbn [vg_cp]); reflexivity.
    + intros _. split; [exact Hlen|]. exists s, cksum.
      split; [exact Hin|]. split; [exact Hok|].
      repeat (case_match; cbn [vg_mic_calls]);
        first [ apply (Hmem []) | apply (Hmem [_]) ].
    + intros cksum' _ _ Hck Hnone. cbn in Hck. subst cksum'.
      exfalso. exact (Hnone s Hin Hok).
  - destruct Hsearch as (Hnone & ->). rewrite app_nil_r.
    split; [reflexivity|]. split; [discriminate|].
    intros cksum' _ _ Hck _. cbn in Hck. subst cksum'. split; reflexivity.
Qed.

(** X10 on the established sample context and a reply whose verifier
    is the MIC of sequence number 1003. *)
Lemma verf_get_accepts_only_verified_replies_witness :
  let r := @nfs_gss_clnt_verf_get _ toy_krb5 stream_chain true (Some sample_complete_ctx)
             [1003] (txdr_unsigned 4 ++ txdr_unsigned RPC_SUCCESS) RPCSEC_GSS 4 in
  vg_cp r = Some sample_complete_ctx /\
  (vg_error r = E0 ->
   4 <= KRB5_MAX_MIC_SIZE /\
   exists s cksum,
     s ∈ [1003] /\
     fst (@gss_krb5_verify_mic toy_krb5 7 (txdr_unsigned s) cksum) = GSS_S_COMPLETE /\
     (txdr_unsigned s, cksum) ∈ vg_mic_calls r).
Proof.
  pose proof (@verf_get_accepts_only_verified_replies _ toy_krb5 stream_chain true
                sample_complete_ctx [1003] (txdr_unsigned 4 ++ txdr_unsigned RPC_SUCCESS) 4
                eq_refl) as (Hcp & Hok & _).
  split; [exact Hcp|exact Hok].
Defined.

(** ** The registry: more about lookups *)

(** X11.  Let the first context on the list that the walk does not pass
    over be valid: of the audit session of the request, not marked for
    destruction, not INVALID, and not differing from the principal asked
    for, if any.  Then the lookup returns 0 with the request pointing at
    that context: its reference count has gone up by one under its
    mutex, it has moved to the head of the list, no context has been
    allocated or released, and the setup has not been called. *)
Theorem find_principal_reuses_valid_context `{gss_limits} (init_retry : init_retry_fn)
    (nfs_root_steals_ctx : bool) (req : nfsreq) (principal : option (list byte)) (nt : Z)
    (k : kernel) (pre post : list addr) (a : addr) (cp : nfs_gss_clnt_ctx) :
  r_nmp req = true ->
  nm_gsscl (k_nmp k) = pre ++ a :: post ->
  NoDup (nm_gsscl (k_nmp k)) ->
  (forall b, b ∈ pre -> exists c, k_heap k !! b = Some c /\ find_passes_over req c) ->
  k_heap k !! a = Some cp ->
  has_flag (gss_clnt_flags cp) GSS_CTX_DESTROY = false ->
  nfs_gss_clnt_ctx_cred_match (gss_clnt_cred cp) (r_cred req) = true ->
  (forall p, principal = Some p -> principal_mismatch cp p nt = false) ->
  has_flag (gss_clnt_flags cp) GSS_CTX_INVAL = false ->
  0 <= gss_clnt_refcnt cp < INT32_MAX ->
  exists k',
    nfs_gss_clnt_ctx_find_principal init_retry nfs_root_steals_ctx req principal nt k
      = Some (KOk (E0, with_r_gss_ctx (Some a) req, k')) /\
    k_heap k' = <[a := with_refcnt (gss_clnt_refcnt cp + 1) cp]> (k_heap k) /\
    k_next k' = k_next k /\
    nm_gsscl (k_nmp k') = a :: pre ++ post /\
    nm_ncentries (k_nmp k') = nm_ncentries (k_nmp k) /\
    exists evs,
      k_trace k' = EvUnlockMount :: EvUnlock a :: EvRefcnt a (gss_clnt_refcnt cp + 1)
                     :: EvLock a :: evs ++ k_trace k /\
      Forall (fun ev => mutex_event ev = true) evs.
Proof.
  intros Hnmp Hlist Hnd Hpre Ha Hdestroy Hmatch Hprin Hinval Href.
  unfold nfs_gss_clnt_ctx_find_principal. rewrite Hnmp. cbn [negb].
  cbn [k_log k_nmp]. rewrite Hlist.
  destruct (find_principal_walk_skip req principal nt pre (a :: post) k
              (k_log EvLockMount k))
    as (k1 & -> & Hh & Hn & Ht & Hx & evs & Htr & Hall).
  { apply k_quiet_log; [reflexivity|apply k_quiet_refl]. }
  { exact Hpre. }
  cbn [find_principal_walk]. rewrite Hh, Ha, Hdestroy, Hmatch.
  assert (Hp : match principal with
               | Some p => principal_mismatch cp p nt
               | None => false
               end = false).
  { destruct principal as [p|]; [now apply Hprin|reflexivity]. }
  rewrite Hp, Hinval. rewrite s32_small by (unfold INT32_MAX in Href; lia).
  assert (Hl : nm_gsscl (k_nmp
                 (if bool_decide (head (nm_gsscl (k_nmp (k_log (EvLock a) k1))) = Some a)
                  then k_log (EvLock a) k1
                  else k_mount (with_nm_gsscl
                                  (tailq_insert_head a
                                     (tailq_remove a (nm_gsscl (k_nmp (k_log (EvLock a) k1)))))
                                  (k_nmp (k_log (EvLock a) k1))) (k_log (EvLock a) k1)))
               = a :: pre ++ post).
  { cbn [k_log k_nmp]. rewrite Hn, Hlist. case_bool_decide as Hhead.
    - cbn [k_log k_nmp]. rewrite Hn, Hlist. destruct pre as [|b pre]; [reflexivity|].
      exfalso. injection Hhead as ->. rewrite Hlist in Hnd.
      apply NoDup_cons in Hnd as [Hna _]. apply Hna. apply elem_of_app. right. left.
    - cbn [k_mount k_nmp with_nm_gsscl nm_gsscl]. unfold tailq_insert_head. f_equal.
      apply tailq_remove_middle. now rewrite <- Hlist. }
  eexists. split; [reflexivity|].
  cbn [k_log k_put k_heap k_next k_nmp k_trace].
  split; [|split; [|split; [exact Hl|split]]].
  - destruct (bool_decide (head (nm_gsscl (k_nmp k1)) = Some a));
      cbn [k_log k_mount k_heap]; now rewrite Hh.
  - destruct (bool_decide (head (nm_gsscl (k_nmp k1)) = Some a));
      cbn [k_log k_mount k_next]; exact Hx.
  - destruct (bool_decide (head (nm_gsscl (k_nmp k1)) = Some a));
      cbn [k_log k_mount k_nmp with_nm_gsscl nm_ncentries]; now rewrite Hn.
  - exists evs. split; [|exact Hall].
    destruct (bool_decide (head (nm_gsscl (k_nmp k1)) = Some a));
      cbn [k_log k_mount k_trace]; now rewrite Htr.
Qed.

(** X11 on the sample registry: a request of session 200 is given the
    context at address 11. *)
Lemma find_principal_reuses_valid_context_witness :
  exists k',
    @nfs_gss_clnt_ctx_find_principal sample_limits (fun _ _ => None) false
       (mk_req true (mk_cred 200 502 502) 9 None) None 0 (sample_registry 102)
      = Some (KOk (E0, mk_req true (mk_cred 200 502 502) 9 (Some 11), k')) /\
    (gss_clnt_refcnt <$> k_heap k' !! 11) = Some 2 /\
    nm_gsscl (k_nmp k') = [11; 12].
Proof.
  destruct (@find_principal_reuses_valid_context sample_limits (fun _ _ => None) false
              (mk_req true (mk_cred 200 502 502) 9 None) None 0 (sample_registry 102)
              [] [12] 11 (with_cred (mk_cred 200 502 502) sample_complete_ctx))
    as (k' & Hrun & Hheap & _ & Hlist & _).
  - reflexivity.
  - reflexivity.
  - exact (proj1 (sample_registry_linked 102)).
  - intros b Hb. inversion Hb.
  - reflexivity.
  - reflexivity.
  - reflexivity.
  - intros p Hp. discriminate.
  - reflexivity.
  - vm_compute. split; [discriminate|reflexivity].
  - exists k'. split; [exact Hrun|]. split; [|exact Hlist].
    rewrite Hheap, lookup_insert_eq. reflexivity.
Defined.

(** With the count at or below the ceiling the reaper changes nothing. *)
Lemma reap_walk_below_ceiling `{gss_limits} (todo : list addr) (k : kernel) :
  nm_ncentries (k_nmp k) <= GSS_MAX_NEG_CACHE_ENTRIES ->
  (forall b, b ∈ todo -> is_Some (k_heap k !! b)) ->
  neg_cache_reap_walk todo k = KOk k.
Proof.
  intros Hmax. induction todo as [|a rest IH]; intros Hin; [reflexivity|].
  destruct (Hin a ltac:(left)) as [cp Ha].
  cbn [neg_cache_reap_walk]. rewrite Ha.
  destruct (_ || _).
  - apply IH. intros b Hb. apply Hin. now right.
  - replace (nm_ncentries (k_nmp k) <=? GSS_MAX_NEG_CACHE_ENTRIES) with true
      by (symmetry; apply Z.leb_le; exact Hmax).
    reflexivity.
Qed.

(** The lookup when every context on the list is passed over: a new
    context is allocated for the request, linked at the head of the
    list and handed to the setup, with one reference. *)
Lemma find_principal_setup_new `{gss_limits} (init_retry : init_retry_fn) (req : nfsreq)
    (k : kernel) :
  r_nmp req = true ->
  (forall b, b ∈ nm_gsscl (k_nmp k) ->
     exists c, k_heap k !! b = Some c /\ find_passes_over req c) ->
  exists k1,
    k_quiet k k1 /\
    nfs_gss_clnt_ctx_find init_retry false req k
      = find_principal_setup init_retry req None 0 None (mk_req true zero_cred 0 None) k1.
Proof.
  intros Hnmp Hpre.
  unfold nfs_gss_clnt_ctx_find, nfs_gss_clnt_ctx_find_principal. rewrite Hnmp. cbn [negb].
  cbn [k_log k_nmp].
  destruct (find_principal_walk_skip req None 0 (nm_gsscl (k_nmp k)) [] k
              (k_log EvLockMount k))
    as (k1 & Hwalk & Hq).
  { apply k_quiet_log; [reflexivity|apply k_quiet_refl]. }
  { exact Hpre. }
  rewrite app_nil_r in Hwalk. rewrite Hwalk. cbn [find_principal_walk].
  rewrite andb_false_r. cbn [andb]. exists k1. split; [exact Hq|reflexivity].
Qed.


(** The last reference to an INVALID context that is not marked for
    destruction and not yet in the negative cache: the context stays,
    stamped with the time, and the count goes up. *)
Lemma unref_enters_negative_cache `{gss_limits} (req : nfsreq) (a : addr)
    (cp : nfs_gss_clnt_ctx) (k : kernel) :
  r_gss_ctx req = Some a ->
  r_nmp req = true ->
  k_heap k !! a = Some cp ->
  gss_clnt_refcnt cp = 1 ->
  has_flag (gss_clnt_flags cp) GSS_CTX_INVAL = true ->
  has_flag (gss_clnt_flags cp) GSS_CTX_DESTROY = false ->
  gss_clnt_nctime cp = 0 ->
  u32 (nm_ncentries (k_nmp k) + 1) <= GSS_MAX_NEG_CACHE_ENTRIES ->
  (forall b, b ∈ nm_gsscl (k_nmp k) -> is_Some (k_heap k !! b)) ->
  exists k' cp',
    nfs_gss_clnt_ctx_unref req k = KOk (with_r_gss_ctx None req, k') /\
    k_heap k' = <[a := cp']> (k_heap k) /\
    gss_clnt_refcnt cp' = 0 /\
    gss_clnt_nctime cp' = k_now k /\
    gss_clnt_flags cp' = gss_clnt_flags cp /\
    gss_clnt_cred cp' = gss_clnt_cred cp /\
    gss_clnt_ctx_id cp' = None /\
    k_nmp k' = with_nm_ncentries (u32 (nm_ncentries (k_nmp k) + 1)) (k_nmp k) /\
    k_now k' = k_now k /\ k_next k' = k_next k.
Proof.
  intros Hreq Hnmp Ha Hcnt Hinval Hdestroy Hnct Hmax Hin.
  unfold nfs_gss_clnt_ctx_unref. rewrite Hreq, Ha, Hcnt.
  change (s32 (1 - 1)) with 0. change (0 <? 0) with false. cbv iota zeta.
  set (cpz := with_refcnt 0 cp).
  assert (Hplan : exists cp',
            unref_locked (nfs_gss_clnt_mnt_rele (r_nmp (with_r_gss_ctx None req))
                            (k_log (EvRefcnt a 0) (k_put a cpz (k_log (EvLock a) k))))
                         (k_now (k_log (EvRefcnt a 0) (k_put a cpz (k_log (EvLock a) k)))) cpz
              = mk_plan cp' false false true (gss_clnt_ctx_id cp) /\
            gss_clnt_refcnt cp' = 0 /\ gss_clnt_nctime cp' = k_now k /\
            gss_clnt_flags cp' = gss_clnt_flags cp /\
            gss_clnt_cred cp' = gss_clnt_cred cp /\ gss_clnt_ctx_id cp' = None).
  { unfold unref_locked. subst cpz. ctx_simpl. change (0 =? 0) with true.
    rewrite Hinval. cbn [andb].
    destruct (gss_clnt_ctx_id cp) as [id|] eqn:Hid; ctx_simpl;
      rewrite ?Hdestroy; cbn [andb negb]; ctx_simpl;
      rewrite ?Hnct, ?Hinval; change (0 =? 0) with true; cbn [andb negb];
      eexists; (split; [reflexivity|]); ctx_simpl; cbn [k_log k_put k_now];
      repeat split; try reflexivity; assumption. }
  destruct Hplan as (cp' & -> & Hc0 & Hn0 & Hf0 & Hcr0 & Hid0).
  cbn [up_krb5 up_cp]. unfold unref_unlocked. cbn [up_destroy up_neg_cache r_nmp with_r_gss_ctx].
  rewrite Hnmp. unfold nfs_gss_clnt_ctx_neg_cache_reap.
  match goal with
  | |- context [neg_cache_reap_walk ?l ?K] => set (K1 := K)
  end.
  assert (Hh1 : k_heap K1 = <[a := cp']> (k_heap k)).
  { subst K1. destruct (gss_clnt_ctx_id cp); cbn [k_log k_put k_mount k_heap];
      now rewrite insert_insert_eq. }
  assert (Hn1 : k_nmp K1 = with_nm_ncentries (u32 (nm_ncentries (k_nmp k) + 1)) (k_nmp k)).
  { subst K1. destruct (gss_clnt_ctx_id cp); reflexivity. }
  assert (Ht1 : k_now K1 = k_now k /\ k_next K1 = k_next k).
  { subst K1. destruct (gss_clnt_ctx_id cp); split; reflexivity. }
  rewrite (reap_walk_below_ceiling (nm_gsscl (k_nmp K1)) K1).
  - exists (k_log EvUnlockMount K1), cp'. split; [reflexivity|].
    cbn [k_log k_heap k_nmp k_now k_next]. repeat split; try tauto; assumption.
  - rewrite Hn1. cbn [nm_ncentries with_nm_ncentries]. exact Hmax.
  - intros b Hb. rewrite Hn1 in Hb. cbn in Hb. rewrite Hh1, lookup_insert.
    case_decide; [eauto|]. now apply Hin.
Qed.

(** X12.  A request for which no context is on the list gets a new one,
    and a setup that fails on it (leaving it INVALID, as
    nfs_gss_clnt_ctx_init_retry does) ends with the error handed to the
    caller, the request without a context, and the new context kept at
    the head of the list as a negative-cache entry: no references, the
    time of entry recorded, the count (a uint32_t) one higher and still
    at or below the ceiling.  A second lookup for
    the same identity within GSS_NEG_CACHE_TO seconds then fails at once
    with NFSERR_EAUTH and leaves that entry, its time included, as it
    is. *)
Theorem find_failed_setup_is_negative_cached `{gss_limits}
    (init_retry init_retry2 : init_retry_fn) (req : nfsreq) (k : kernel) (e : errno_t)
    (cp1 : nfs_gss_clnt_ctx) (nmp1 : nfsmount) (now2 : Z) :
  let a := k_next k in
  let cp0 := with_refcnt 1 (with_thread (Some (r_thread req))
                                        (with_cred (r_cred req) zero_ctx)) in
  let nmp0 := with_nm_gsscl (a :: nm_gsscl (k_nmp k)) (k_nmp k) in
  r_nmp req = true ->
  (forall b, b ∈ nm_gsscl (k_nmp k) ->
     exists c, k_heap k !! b = Some c /\ find_passes_over req c) ->
  k_heap k !! a = None ->
  u32 (nm_ncentries (k_nmp k) + 1) <= GSS_MAX_NEG_CACHE_ENTRIES ->
  init_retry cp0 nmp0 = Some (e, cp1, nmp1) ->
  e <> E0 ->
  gss_clnt_cred cp1 = r_cred req ->
  gss_clnt_refcnt cp1 = 1 ->
  gss_clnt_nctime cp1 = 0 ->
  has_flag (gss_clnt_flags cp1) GSS_CTX_INVAL = true ->
  has_flag (gss_clnt_flags cp1) GSS_CTX_DESTROY = false ->
  nm_gsscl nmp1 = nm_gsscl nmp0 ->
  nm_ncentries nmp1 = nm_ncentries nmp0 ->
  k_now k <= now2 <= k_now k + GSS_NEG_CACHE_TO ->
  exists k' cp',
    nfs_gss_clnt_ctx_find init_retry false req k
      = Some (KOk (e, with_r_gss_ctx None req, k')) /\
    k_heap k' = <[a := cp']> (k_heap k) /\
    gss_clnt_refcnt cp' = 0 /\
    gss_clnt_nctime cp' = k_now k /\
    has_flag (gss_clnt_flags cp') GSS_CTX_INVAL = true /\
    nm_gsscl (k_nmp k') = a :: nm_gsscl (k_nmp k) /\
    nm_ncentries (k_nmp k') = u32 (nm_ncentries (k_nmp k) + 1) /\
    exists k'',
      nfs_gss_clnt_ctx_find init_retry2 false req (k_tick now2 k')
        = Some (KOk (NFSERR_EAUTH, req, k'')) /\
      k_heap k'' = k_heap k' /\
      nm_ncentries (k_nmp k'') = nm_ncentries (k_nmp k').
Proof.
  intros a cp0 nmp0 Hnmp Hpre Hfresh Hmax Hinit Hne Hcred Hcnt Hnct Hinval Hdestroy
         Hlist1 Hcount1 Hnow2.
  destruct (find_principal_setup_new init_retry req k Hnmp Hpre)
    as (k1 & (Hh & Hn & Ht & Hx & evs & Htr & Hall) & ->).
  unfold find_principal_setup. cbn [k_alloc k_heap]. rewrite Hx. fold a.
  rewrite lookup_insert_eq.
  unfold nfs_gss_clnt_ctx_ref. cbn [k_put k_heap]. rewrite lookup_insert_eq.
  ctx_simpl. cbn [with_cred zero_ctx gss_clnt_refcnt]. rewrite s32_small by lia.
  cbn [k_log k_put k_mount k_heap k_nmp]. rewrite lookup_insert_eq.
  rewrite Hn. fold nmp0.
  replace (with_refcnt (0 + 1) (with_thread (Some (r_thread req))
                                            (with_cred (r_cred req) zero_ctx)))
    with cp0 by reflexivity.
  unfold tailq_insert_head. fold nmp0. rewrite Hinit.
  rewrite (is_error_true e Hne).
  match goal with
  | |- context [nfs_gss_clnt_ctx_unref (with_r_gss_ctx (Some a) req) ?K] => set (K7 := K)
  end.
  assert (Hh7 : k_heap K7 = <[a := cp1]> (k_heap k)).
  { subst K7. cbn [k_mount k_put k_log k_heap]. rewrite !insert_insert_eq. now rewrite Hh. }
  assert (Hn7 : k_nmp K7 = nmp1) by reflexivity.
  assert (Ht7 : k_now K7 = k_now k) by (subst K7; cbn [k_mount k_put k_log k_now]; exact Ht).
  destruct (unref_enters_negative_cache (with_r_gss_ctx (Some a) req) a cp1 K7)
    as (k' & cp' & Hun & Hh' & Hc' & Hn' & Hf' & Hcr' & _ & Hnmp' & Hnow' & _);
    try assumption; try reflexivity.
  { rewrite Hh7. apply lookup_insert_eq. }
  { rewrite Hn7, Hcount1. subst nmp0. cbn. exact Hmax. }
  { intros b Hb. rewrite Hn7, Hlist1 in Hb. subst nmp0. cbn in Hb.
    rewrite Hh7, lookup_insert. case_decide; [eauto|].
    apply elem_of_cons in Hb as [->|Hb]; [congruence|].
    destruct (Hpre b Hb) as (c & Hc & _). eauto. }
  rewrite Hun. unfold nfs_gss_clnt_ctx_unref at 1. cbn [r_gss_ctx with_r_gss_ctx].
  exists k', cp'. split; [reflexivity|].
  assert (Hheap : k_heap k' = <[a := cp']> (k_heap k)).
  { rewrite Hh', Hh7. apply insert_insert_eq. }
  assert (Hlist : nm_gsscl (k_nmp k') = a :: nm_gsscl (k_nmp k)).
  { rewrite Hnmp', Hn7. cbn. rewrite Hlist1. reflexivity. }
  assert (Hcount : nm_ncentries (k_nmp k') = u32 (nm_ncentries (k_nmp k) + 1)).
  { rewrite Hnmp', Hn7. cbn. rewrite Hcount1. reflexivity. }
  split; [exact Hheap|]. split; [exact Hc'|]. split; [now rewrite Hn', Ht7|].
  split; [now rewrite Hf'|]. split; [exact Hlist|]. split; [exact Hcount|].
  unfold nfs_gss_clnt_ctx_find, nfs_gss_clnt_ctx_find_principal. rewrite Hnmp.
  cbn [negb k_log k_tick k_nmp]. rewrite Hlist. cbn [find_principal_walk k_log k_tick k_heap].
  rewrite Hheap, lookup_insert_eq, Hf', Hdestroy, Hcr', Hcred.
  unfold nfs_gss_clnt_ctx_cred_match. rewrite Z.eqb_refl, Hinval.
  cbn [k_nmp k_now k_mount k_log k_tick]. rewrite Hlist. cbn [head].
  rewrite bool_decide_eq_true_2 by reflexivity. cbn [k_now k_log k_tick].
  rewrite Hn', Ht7.
  replace (now2 <=? k_now k + GSS_NEG_CACHE_TO) with true by (symmetry; apply Z.leb_le; lia).
  cbn [orb]. eexists. split; [reflexivity|].
  split; [cbn [k_heap k_log k_tick]; now rewrite Hheap | reflexivity].
Qed.

(** X12 on the sample registry: a request of session 300 has no context
    there; its setup is refused with EACCES, the new context 13 becomes
    a negative-cache entry, and a second lookup two seconds later is
    answered NFSERR_EAUTH. *)
Lemma find_failed_setup_is_negative_cached_witness :
  exists k',
    @nfs_gss_clnt_ctx_find sample_limits
       (fun cp nmp => Some (EACCES, ctx_init_retry_bad cp, nmp)) false
       (mk_req true (mk_cred 300 503 503) 9 None) (sample_registry 102)
      = Some (KOk (EACCES, mk_req true (mk_cred 300 503 503) 9 None, k')) /\
    nm_gsscl (k_nmp k') = [13; 11; 12] /\
    nm_ncentries (k_nmp k') = 2 /\
    exists k'',
      @nfs_gss_clnt_ctx_find sample_limits (fun _ _ => None) false
         (mk_req true (mk_cred 300 503 503) 9 None) (k_tick 104 k')
        = Some (KOk (NFSERR_EAUTH, mk_req true (mk_cred 300 503 503) 9 None, k'')).
Proof.
  destruct (@find_failed_setup_is_negative_cached sample_limits
              (fun cp nmp => Some (EACCES, ctx_init_retry_bad cp, nmp)) (fun _ _ => None)
              (mk_req true (mk_cred 300 503 503) 9 None) (sample_registry 102) EACCES
              (ctx_init_retry_bad
                 (with_refcnt 1 (with_thread (Some 9)
                                   (with_cred (mk_cred 300 503 503) zero_ctx))))
              (with_nm_gsscl [13; 11; 12] (k_nmp (sample_registry 102))) 104)
    as (k' & cp' & Hrun & _ & _ & _ & _ & Hlist & Hcount & k'' & Hrun2 & _).
  - reflexivity.
  - intros b Hb. apply list_elem_of_In in Hb. simpl in Hb.
    destruct Hb as [<-|[<-|[]]]; (eexists; split; [reflexivity|]; right; reflexivity).
  - reflexivity.
  - vm_compute. discriminate.
  - reflexivity.
  - discriminate.
  - reflexivity.
  - reflexivity.
  - reflexivity.
  - reflexivity.
  - reflexivity.
  - reflexivity.
  - reflexivity.
  - vm_compute. split; intro Hc; discriminate Hc.
  - exists k'. split; [exact Hrun|]. split; [exact Hlist|]. split; [exact Hcount|].
    exists k''. exact Hrun2.
Defined.

(** ** Dropping the last reference of a context marked for destruction *)

(** What nfs_gss_clnt_ctx_unref decides under the mutex when the count
    has reached zero on a context marked for destruction. *)
Lemma unref_locked_destroy (e : errno_t) (now : Z) (cp : nfs_gss_clnt_ctx) :
  gss_clnt_refcnt cp = 0 -> has_flag (gss_clnt_flags cp) GSS_CTX_DESTROY = true ->
  let plan := unref_locked e now cp in
  up_destroy plan = true /\ up_neg_cache plan = false /\
  up_on_neg_cache plan = negb (gss_clnt_nctime cp =? 0) /\
  up_krb5 plan = (if has_flag (gss_clnt_flags cp) GSS_CTX_INVAL
                  then gss_clnt_ctx_id cp else None) /\
  gss_clnt_ctx_id (up_cp plan) = (if has_flag (gss_clnt_flags cp) GSS_CTX_INVAL
                                  then None else gss_clnt_ctx_id cp).
Proof.
  intros Hcnt Hdestroy. unfold unref_locked. rewrite Hcnt. change (0 =? 0) with true.
  cbn [andb].
  destruct (has_flag (gss_clnt_flags cp) GSS_CTX_INVAL) eqn:Hinval;
    destruct (gss_clnt_ctx_id cp) as [id|] eqn:Hid; ctx_simpl; rewrite ?Hdestroy;
    cbn [andb negb];
    destruct (has_flag (gss_clnt_flags cp) GSS_CTX_USECOUNT && negb (is_error e));
    ctx_simpl; cbn [up_destroy up_neg_cache up_on_neg_cache up_krb5 up_cp]; ctx_simpl;
    rewrite ?Hid; repeat split; reflexivity.
Qed.

(** Solves [?evs ++ t = e1 :: ... :: en :: t] by reading the events off
    the right-hand side. *)
Ltac trace_prefix t l :=
  lazymatch l with
  | t => constr:(@nil kevent)
  | ?e :: ?r => let r' := trace_prefix t r in constr:(e :: r')
  end.

Ltac solve_trace :=
  lazymatch goal with
  | |- _ ++ ?t = ?l => let p := trace_prefix t l in change l with (p ++ t); reflexivity
  | |- ?l = _ ++ ?t => let p := trace_prefix t l in change l with (p ++ t); reflexivity
  end.

(** The last reference of a context marked for destruction: the context
    is unlinked and released, the count of the negative cache goes down
    if the context was counted, and its Kerberos context, if it has one,
    is destroyed once. *)
Lemma unref_last_destroy_aux `{gss_limits} (req : nfsreq) (a : addr)
    (cp : nfs_gss_clnt_ctx) (k : kernel) :
  r_gss_ctx req = Some a -> r_nmp req = true -> k_heap k !! a = Some cp ->
  gss_clnt_refcnt cp = 1 -> has_flag (gss_clnt_flags cp) GSS_CTX_DESTROY = true ->
  exists k' evs,
    nfs_gss_clnt_ctx_unref req k = KOk (with_r_gss_ctx None req, k') /\
    k_heap k' = delete a (k_heap k) /\
    nm_gsscl (k_nmp k') = tailq_remove a (nm_gsscl (k_nmp k)) /\
    nm_ncentries (k_nmp k')
      = (if gss_clnt_nctime cp =? 0 then nm_ncentries (k_nmp k)
         else u32 (nm_ncentries (k_nmp k) - 1)) /\
    k_now k' = k_now k /\ k_next k' = k_next k /\
    k_trace k' = evs ++ k_trace k /\
    krb5_destroyed evs = match gss_clnt_ctx_id cp with Some id => [id] | None => [] end /\
    ctx_freed evs = [a].
Proof.
  intros Hreq Hnmp Ha Hcnt Hdestroy.
  unfold nfs_gss_clnt_ctx_unref. rewrite Hreq, Ha, Hcnt.
  change (s32 (1 - 1)) with 0. change (0 <? 0) with false. cbv iota zeta.
  set (cpz := with_refcnt 0 cp).
  match goal with |- context [unref_locked ?e ?n cpz] => set (plan := unref_locked e n cpz) end.
  destruct (unref_locked_destroy
              (nfs_gss_clnt_mnt_rele (r_nmp (with_r_gss_ctx None req))
                 (k_log (EvRefcnt a 0) (k_put a cpz (k_log (EvLock a) k))))
              (k_now (k_log (EvRefcnt a 0) (k_put a cpz (k_log (EvLock a) k)))) cpz)
    as (Hd & Hn & Hon & Hk & Hid); [reflexivity|exact Hdestroy|].
  fold plan in Hd, Hn, Hon, Hk, Hid. subst cpz. ctx_simpl.
  unfold unref_unlocked. rewrite Hd. cbn [r_nmp with_r_gss_ctx]. rewrite Hnmp, Hon.
  unfold nfs_gss_clnt_ctx_destroy. rewrite Hk.
  assert (Hlist : forall nmp : nfsmount,
            nm_gsscl (if bool_decide (a ∈ nm_gsscl nmp)
                      then with_nm_gsscl (tailq_remove a (nm_gsscl nmp)) nmp else nmp)
            = tailq_remove a (nm_gsscl nmp)).
  { intros nmp. case_bool_decide; [reflexivity|]. symmetry. now apply tailq_remove_notin. }
  assert (Hcount : forall nmp : nfsmount,
            nm_ncentries (if bool_decide (a ∈ nm_gsscl nmp)
                          then with_nm_gsscl (tailq_remove a (nm_gsscl nmp)) nmp else nmp)
            = nm_ncentries nmp).
  { intros nmp. case_bool_decide; reflexivity. }
  destruct (has_flag (gss_clnt_flags cp) GSS_CTX_INVAL);
    destruct (gss_clnt_ctx_id cp) as [id|];
    cbn [k_log k_put k_mount k_heap k_nmp]; rewrite lookup_insert_eq, Hid;
    destruct (gss_clnt_nctime cp =? 0); cbn [negb];
    eexists _, _; (split; [reflexivity|]);
    cbn [k_free k_log k_put k_mount k_heap k_nmp k_now k_next k_trace
         with_nm_ncentries nm_gsscl nm_ncentries];
    rewrite ?Hlist, ?Hcount, ?insert_insert_eq, ?delete_insert_eq;
    (split; [reflexivity|]); (split; [reflexivity|]); (split; [reflexivity|]);
    (split; [reflexivity|]); (split; [reflexivity|]);
    (split; [solve_trace|]); split; reflexivity.
Qed.

(** A reference that is not the last: the context stays allocated and
    linked with one reference less.  If it is INVALID and not yet timed
    it enters the negative cache; nothing is released. *)
Lemma unref_not_last_aux `{gss_limits} (req : nfsreq) (a : addr)
    (cp : nfs_gss_clnt_ctx) (k : kernel) :
  r_gss_ctx req = Some a -> r_nmp req = true -> k_heap k !! a = Some cp ->
  2 <= gss_clnt_refcnt cp <= INT32_MAX ->
  ((gss_clnt_nctime cp =? 0) && has_flag (gss_clnt_flags cp) GSS_CTX_INVAL = true ->
   u32 (nm_ncentries (k_nmp k) + 1) <= GSS_MAX_NEG_CACHE_ENTRIES) ->
  (forall b, b ∈ nm_gsscl (k_nmp k) -> is_Some (k_heap k !! b)) ->
  exists k' evs,
    nfs_gss_clnt_ctx_unref req k = KOk (with_r_gss_ctx None req, k') /\
    k_heap k' = <[a := (if (gss_clnt_nctime cp =? 0)
                           && has_flag (gss_clnt_flags cp) GSS_CTX_INVAL
                        then with_nctime (k_now k) (with_refcnt (gss_clnt_refcnt cp - 1) cp)
                        else with_refcnt (gss_clnt_refcnt cp - 1) cp)]> (k_heap k) /\
    k_nmp k' = (if (gss_clnt_nctime cp =? 0) && has_flag (gss_clnt_flags cp) GSS_CTX_INVAL
                then with_nm_ncentries (u32 (nm_ncentries (k_nmp k) + 1)) (k_nmp k)
                else k_nmp k) /\
    k_now k' = k_now k /\ k_next k' = k_next k /\
    k_trace k' = evs ++ k_trace k /\ krb5_destroyed evs = [] /\ ctx_freed evs = [].
Proof.
  intros Hreq Hnmp Ha Hcnt Hmax Hin. unfold INT32_MAX in Hcnt.
  unfold nfs_gss_clnt_ctx_unref. rewrite Hreq, Ha.
  rewrite s32_small by lia.
  replace (gss_clnt_refcnt cp - 1 <? 0) with false by (symmetry; apply Z.ltb_ge; lia).
  cbv iota zeta. unfold unref_locked. ctx_simpl.
  replace (gss_clnt_refcnt cp - 1 =? 0) with false by (symmetry; apply Z.eqb_neq; lia).
  cbn [andb negb]. ctx_simpl. cbn [up_krb5 up_cp up_destroy up_neg_cache].
  unfold unref_unlocked. cbn [up_destroy up_neg_cache r_nmp with_r_gss_ctx].
  rewrite Hnmp.
  destruct ((gss_clnt_nctime cp =? 0) && has_flag (gss_clnt_flags cp) GSS_CTX_INVAL)
    eqn:Hneg.
  - unfold nfs_gss_clnt_ctx_neg_cache_reap.
    match goal with
    | |- context [neg_cache_reap_walk ?l ?K] => set (K1 := K)
    end.
    rewrite (reap_walk_below_ceiling (nm_gsscl (k_nmp K1)) K1).
    + eexists _, _. split; [reflexivity|]. subst K1.
      cbn [k_log k_put k_mount k_heap k_nmp k_now k_next k_trace].
      rewrite insert_insert_eq.
      split; [reflexivity|]. split; [reflexivity|]. split; [reflexivity|].
      split; [reflexivity|]. split; [solve_trace|]. split; reflexivity.
    + subst K1. cbn [k_log k_put k_mount k_nmp nm_ncentries with_nm_ncentries].
      exact (Hmax eq_refl).
    + intros b Hb. subst K1. cbn in Hb. cbn [k_log k_put k_mount k_heap].
      rewrite !lookup_insert. repeat case_decide; eauto.
  - eexists _, _. split; [reflexivity|].
    cbn [k_log k_put k_mount k_heap k_nmp k_now k_next k_trace].
    rewrite insert_insert_eq.
    split; [reflexivity|]. split; [reflexivity|]. split; [reflexivity|].
    split; [reflexivity|]. split; [solve_trace|]. split; reflexivity.
Qed.

(** ** Removing the context of a session *)

Lemma set_flag_lor (f A B : Z) : set_flag f (Z.lor A B) = set_flag (set_flag f A) B.
Proof. unfold set_flag. apply Z.lor_assoc. Qed.

Lemma has_flag_marked_destroy (f : Z) :
  has_flag (set_flag f (Z.lor GSS_CTX_INVAL GSS_CTX_DESTROY)) GSS_CTX_DESTROY = true.
Proof. rewrite set_flag_lor. flag_simpl. reflexivity. Qed.

Lemma has_flag_marked_inval (f : Z) :
  has_flag (set_flag f (Z.lor GSS_CTX_INVAL GSS_CTX_DESTROY)) GSS_CTX_INVAL = true.
Proof. rewrite set_flag_lor. flag_simpl. reflexivity. Qed.

Lemma krb5_destroyed_app (l1 l2 : list kevent) :
  krb5_destroyed (l1 ++ l2) = krb5_destroyed l1 ++ krb5_destroyed l2.
Proof. apply omap_app. Qed.

Lemma ctx_freed_app (l1 l2 : list kevent) :
  ctx_freed (l1 ++ l2) = ctx_freed l1 ++ ctx_freed l2.
Proof. apply omap_app. Qed.

Lemma mutex_events_release_nothing (evs : list kevent) :
  Forall (fun ev => mutex_event ev = true) evs ->
  krb5_destroyed evs = [] /\ ctx_freed evs = [].
Proof.
  induction 1 as [|ev evs Hev _ [IH1 IH2]]; [split; reflexivity|].
  destruct ev; try discriminate Hev; split; assumption.
Qed.

(** The walk of nfs_gss_clnt_ctx_remove passes over the contexts that
    are marked for destruction or belong to another audit session. *)
Lemma ctx_remove_walk_skip `{gss_limits} (cred : kauth_cred) (pre rest : list addr) :
  forall k0 k,
    k_quiet k0 k ->
    (forall b, b ∈ pre ->
       exists c, k_heap k0 !! b = Some c /\
                 (has_flag (gss_clnt_flags c) GSS_CTX_DESTROY = true \/
                  nfs_gss_clnt_ctx_cred_match (gss_clnt_cred c) cred = false)) ->
    exists k1,
      ctx_remove_walk cred (pre ++ rest) k = ctx_remove_walk cred rest k1 /\
      k_quiet k0 k1.
Proof.
  induction pre as [|b pre IH]; intros k0 k Hq Hpre.
  - exists k. split; [reflexivity|exact Hq].
  - destruct (Hpre b ltac:(left)) as (c & Hb & Hover).
    assert (Hpre' : forall b', b' ∈ pre ->
              exists c', k_heap k0 !! b' = Some c' /\
                         (has_flag (gss_clnt_flags c') GSS_CTX_DESTROY = true \/
                          nfs_gss_clnt_ctx_cred_match (gss_clnt_cred c') cred = false)).
    { intros b' Hb'. apply Hpre. now right. }
    cbn [app ctx_remove_walk].
    replace (k_heap k !! b) with (Some c) by (destruct Hq as (-> & _); now rewrite Hb).
    assert (Hq' : k_quiet k0 (k_log (EvUnlock b) (k_log (EvLock b) k))).
    { apply k_quiet_log; [reflexivity|]. apply k_quiet_log; [reflexivity|exact Hq]. }
    destruct (nfs_gss_clnt_ctx_cred_match (gss_clnt_cred c) cred) eqn:Hm.
    + destruct Hover as [Hd|Hd]; [|discriminate Hd]. rewrite Hd.
      exact (IH k0 _ Hq' Hpre').
    + exact (IH k0 _ Hq' Hpre').
Qed.

Lemma ctx_remove_walk_enoent `{gss_limits} (cred : kauth_cred) (todo : list addr) :
  forall k0 k1 k',
    k_quiet k0 k1 ->
    ctx_remove_walk cred todo k1 = KOk (ENOENT, k') ->
    forall b, b ∈ todo ->
      exists c, k_heap k0 !! b = Some c /\
                (has_flag (gss_clnt_flags c) GSS_CTX_DESTROY = true \/
                 nfs_gss_clnt_ctx_cred_match (gss_clnt_cred c) cred = false).
Proof.
  induction todo as [|a rest IH]; intros k0 k1 k' Hq Hrun b Hb.
  - inversion Hb.
  - cbn [ctx_remove_walk] in Hrun.
    assert (Hh : k_heap k1 = k_heap k0) by (destruct Hq as (-> & _); reflexivity).
    rewrite Hh in Hrun.
    destruct (k_heap k0 !! a) as [cp|] eqn:Ha; [|discriminate Hrun].
    assert (Hq' : k_quiet k0 (k_log (EvUnlock a) (k_log (EvLock a) k1))).
    { apply k_quiet_log; [reflexivity|]. apply k_quiet_log; [reflexivity|exact Hq]. }
    destruct (nfs_gss_clnt_ctx_cred_match (gss_clnt_cred cp) cred) eqn:Hm.
    + destruct (has_flag (gss_clnt_flags cp) GSS_CTX_DESTROY) eqn:Hd.
      * apply elem_of_cons in Hb as [->|Hb]; [eauto|].
        exact (IH k0 _ k' Hq' Hrun b Hb).
      * exfalso. revert Hrun.
        match goal with
        | |- context [nfs_gss_clnt_ctx_unref ?r ?K] =>
            destruct (nfs_gss_clnt_ctx_unref r K) as [[? ?]| |]
        end; discriminate.
    + apply elem_of_cons in Hb as [->|Hb]; [eauto|].
      exact (IH k0 _ k' Hq' Hrun b Hb).
Qed.

(** X13.  nfs_gss_clnt_ctx_remove returns ENOENT exactly when every
    context on the list of the mount is marked for destruction or
    belongs to another audit session than the credential; and then it
    has done nothing but take and release mutexes: no context, no
    reference count, no list, no counter has changed. *)
Theorem ctx_remove_enoent_iff_no_live_match `{gss_limits} (cred : kauth_cred) (k : kernel) :
  ((exists k', nfs_gss_clnt_ctx_remove cred k = KOk (ENOENT, k')) <->
   (forall b, b ∈ nm_gsscl (k_nmp k) ->
      exists c, k_heap k !! b = Some c /\
                (has_flag (gss_clnt_flags c) GSS_CTX_DESTROY = true \/
                 nfs_gss_clnt_ctx_cred_match (gss_clnt_cred c) cred = false))) /\
  (forall k', nfs_gss_clnt_ctx_remove cred k = KOk (ENOENT, k') -> k_quiet k k').
Proof.
  assert (Hq0 : k_quiet k (k_log EvLockMount k)).
  { apply k_quiet_log; [reflexivity|apply k_quiet_refl]. }
  assert (Hfwd : forall k', nfs_gss_clnt_ctx_remove cred k = KOk (ENOENT, k') ->
            forall b, b ∈ nm_gsscl (k_nmp k) ->
              exists c, k_heap k !! b = Some c /\
                        (has_flag (gss_clnt_flags c) GSS_CTX_DESTROY = true \/
                         nfs_gss_clnt_ctx_cred_match (gss_clnt_cred c) cred = false)).
  { intros k' Hrun. unfold nfs_gss_clnt_ctx_remove in Hrun. cbn [k_log k_nmp] in Hrun.
    exact (ctx_remove_walk_enoent cred _ k _ k' Hq0 Hrun). }
  assert (Hbwd : (forall b, b ∈ nm_gsscl (k_nmp k) ->
                    exists c, k_heap k !! b = Some c /\
                      (has_flag (gss_clnt_flags c) GSS_CTX_DESTROY = true \/
                       nfs_gss_clnt_ctx_cred_match (gss_clnt_cred c) cred = false)) ->
                 exists k', nfs_gss_clnt_ctx_remove cred k = KOk (ENOENT, k') /\
                            k_quiet k k').
  { intros Hall. unfold nfs_gss_clnt_ctx_remove. cbn [k_log k_nmp].
    destruct (ctx_remove_walk_skip cred (nm_gsscl (k_nmp k)) [] k _ Hq0 Hall)
      as (k1 & Hrun & Hq1).
    rewrite app_nil_r in Hrun. rewrite Hrun. cbn [ctx_remove_walk].
    eexists. split; [reflexivity|]. apply k_quiet_log; [reflexivity|exact Hq1]. }
  split; [split|].
  - intros [k' Hrun]. exact (Hfwd k' Hrun).
  - intros Hall. destruct (Hbwd Hall) as (k' & Hrun & _). eauto.
  - intros k' Hrun. destruct (Hbwd (Hfwd k' Hrun)) as (k2 & Hrun2 & Hq2).
    rewrite Hrun in Hrun2. injection Hrun2 as ->. exact Hq2.
Qed.

(** X14.  Let the first context on the list that nfs_gss_clnt_ctx_remove
    does not pass over (it is of the audit session of the credential and
    not marked for destruction) have no references.  Then the call
    returns 0 and the context is gone at once: released, unlinked with
    the order of the others kept, its Kerberos context, if it had one,
    destroyed once, and the count of the negative cache, a uint32_t, one
    lower if the context was a negative-cache entry (from 0 it wraps to
    4294967295).  No other context is released. *)
Theorem ctx_remove_releases_unreferenced `{gss_limits} (cred : kauth_cred) (k : kernel)
    (pre rest : list addr) (a : addr) (cp : nfs_gss_clnt_ctx) :
  nm_gsscl (k_nmp k) = pre ++ a :: rest ->
  NoDup (nm_gsscl (k_nmp k)) ->
  (forall b, b ∈ pre ->
     exists c, k_heap k !! b = Some c /\
               (has_flag (gss_clnt_flags c) GSS_CTX_DESTROY = true \/
                nfs_gss_clnt_ctx_cred_match (gss_clnt_cred c) cred = false)) ->
  k_heap k !! a = Some cp ->
  nfs_gss_clnt_ctx_cred_match (gss_clnt_cred cp) cred = true ->
  has_flag (gss_clnt_flags cp) GSS_CTX_DESTROY = false ->
  gss_clnt_refcnt cp = 0 ->
  exists k' evs,
    nfs_gss_clnt_ctx_remove cred k = KOk (E0, k') /\
    k_heap k' = delete a (k_heap k) /\
    nm_gsscl (k_nmp k') = pre ++ rest /\
    nm_ncentries (k_nmp k')
      = (if gss_clnt_nctime cp =? 0 then nm_ncentries (k_nmp k)
         else u32 (nm_ncentries (k_nmp k) - 1)) /\
    k_trace k' = evs ++ k_trace k /\
    krb5_destroyed evs = match gss_clnt_ctx_id cp with Some id => [id] | None => [] end /\
    ctx_freed evs = [a].
Proof.
  intros Hlist Hnd Hpre Ha Hm Hd Hcnt.
  assert (Hq0 : k_quiet k (k_log EvLockMount k)).
  { apply k_quiet_log; [reflexivity|apply k_quiet_refl]. }
  unfold nfs_gss_clnt_ctx_remove. cbn [k_log k_nmp]. rewrite Hlist.
  destruct (ctx_remove_walk_skip cred pre (a :: rest) k _ Hq0 Hpre)
    as (k1 & -> & (Hh1 & Hn1 & Ht1 & Hx1 & evs1 & Htr1 & Hall1)).
  cbn [ctx_remove_walk]. rewrite Hh1, Ha, Hm, Hd, Hcnt.
  change (s32 (0 + 1)) with 1.
  set (cp2 := with_flags _ (with_refcnt 1 cp)).
  match goal with
  | |- context [nfs_gss_clnt_ctx_unref ?r ?K] => set (K2 := K)
  end.
  destruct (unref_last_destroy_aux (mk_req true zero_cred 0 (Some a)) a cp2 K2)
    as (k' & evs & Hun & Hh' & Hl' & Hc' & _ & _ & Htr' & Hk' & Hf');
    try reflexivity.
  { subst K2. cbn [k_log k_put k_heap]. apply lookup_insert_eq. }
  { subst cp2. ctx_simpl. apply has_flag_marked_destroy. }
  rewrite Hun. exists k'.
  destruct (mutex_events_release_nothing evs1 Hall1) as [Hk1 Hf1].
  exists (evs ++ [EvUnlockMount; EvUnlock a; EvRefcnt a 1; EvLock a] ++ evs1).
  split; [reflexivity|].
  split. { rewrite Hh'. subst K2. cbn [k_log k_put k_heap]. rewrite Hh1.
           apply delete_insert_eq. }
  split. { rewrite Hl'. subst K2. cbn [k_log k_put k_nmp]. rewrite Hn1, Hlist.
           apply tailq_remove_middle. now rewrite <- Hlist. }
  split. { rewrite Hc'. subst K2 cp2. cbn [k_log k_put k_nmp]. ctx_simpl.
           now rewrite Hn1. }
  split. { rewrite Htr'. subst K2. cbn [k_log k_put k_trace]. rewrite Htr1.
           rewrite <- !app_assoc. reflexivity. }
  rewrite !krb5_destroyed_app, !ctx_freed_app, Hk', Hf', Hk1, Hf1.
  subst cp2. ctx_simpl. cbn. rewrite !app_nil_r. split; reflexivity.
Qed.

(** X14 on the sample registry: removing the context of session 100
    releases the negative-cache entry at 12 and leaves the count at 0. *)
Lemma ctx_remove_releases_unreferenced_witness :
  exists k',
    @nfs_gss_clnt_ctx_remove sample_limits (mk_cred 100 501 501) (sample_registry 102)
      = KOk (E0, k') /\
    k_heap k' !! 12 = None /\
    nm_gsscl (k_nmp k') = [11] /\
    nm_ncentries (k_nmp k') = 0.
Proof.
  destruct (@ctx_remove_releases_unreferenced sample_limits (mk_cred 100 501 501)
              (sample_registry 102) [11] [] 12 (inval_ctx 100 100 0))
    as (k' & evs & Hrun & Hheap & Hlist & Hcount & _).
  - reflexivity.
  - exact (proj1 (sample_registry_linked 102)).
  - intros b Hb. apply list_elem_of_In in Hb. simpl in Hb. destruct Hb as [<-|[]].
    eexists. split; [reflexivity|]. right. reflexivity.
  - reflexivity.
  - reflexivity.
  - reflexivity.
  - reflexivity.
  - exists k'. split; [exact Hrun|]. split; [|split; [exact Hlist|exact Hcount]].
    rewrite Hheap. apply lookup_delete_eq.
Defined.

(** X15.  Let the first context on the list that nfs_gss_clnt_ctx_remove
    does not pass over be held by a request, with one reference, on a
    mount whose negative-cache count, a uint32_t, is still at or below
    the ceiling after one more entry, at an uptime other than 0.  Then
    the call returns 0 but releases nothing: the context stays allocated
    and linked with its one reference, marked INVALID and for
    destruction, so that every later lookup passes over it, and it is
    counted as a negative-cache entry if it was not one before.  When
    the holder then drops its reference the context is released and
    unlinked, its Kerberos context is destroyed once, and the count of
    the negative cache is what it was before the removal, less one
    (from 0 it wraps to 4294967295) if the context had been a
    negative-cache entry. *)
Theorem ctx_remove_defers_to_last_holder `{gss_limits} (cred : kauth_cred) (k : kernel)
    (pre rest : list addr) (a : addr) (cp : nfs_gss_clnt_ctx) (req : nfsreq) :
  nm_gsscl (k_nmp k) = pre ++ a :: rest ->
  registry_linked k ->
  (forall b, b ∈ pre ->
     exists c, k_heap k !! b = Some c /\
               (has_flag (gss_clnt_flags c) GSS_CTX_DESTROY = true \/
                nfs_gss_clnt_ctx_cred_match (gss_clnt_cred c) cred = false)) ->
  k_heap k !! a = Some cp ->
  nfs_gss_clnt_ctx_cred_match (gss_clnt_cred cp) cred = true ->
  has_flag (gss_clnt_flags cp) GSS_CTX_DESTROY = false ->
  gss_clnt_refcnt cp = 1 ->
  r_gss_ctx req = Some a -> r_nmp req = true ->
  u32 (nm_ncentries (k_nmp k) + 1) <= GSS_MAX_NEG_CACHE_ENTRIES ->
  k_now k <> 0 ->
  exists k1 cp1 k2 evs,
    nfs_gss_clnt_ctx_remove cred k = KOk (E0, k1) /\
    k_heap k1 = <[a := cp1]> (k_heap k) /\
    nm_gsscl (k_nmp k1) = nm_gsscl (k_nmp k) /\
    nm_ncentries (k_nmp k1)
      = (if gss_clnt_nctime cp =? 0 then u32 (nm_ncentries (k_nmp k) + 1)
         else nm_ncentries (k_nmp k)) /\
    gss_clnt_refcnt cp1 = 1 /\
    has_flag (gss_clnt_flags cp1) GSS_CTX_INVAL = true /\
    has_flag (gss_clnt_flags cp1) GSS_CTX_DESTROY = true /\
    nfs_gss_clnt_ctx_unref req k1 = KOk (with_r_gss_ctx None req, k2) /\
    k_heap k2 = delete a (k_heap k) /\
    nm_gsscl (k_nmp k2) = pre ++ rest /\
    nm_ncentries (k_nmp k2)
      = u32 (nm_ncentries (k_nmp k) - (if gss_clnt_nctime cp =? 0 then 0 else 1)) /\
    k_trace k2 = evs ++ k_trace k /\
    krb5_destroyed evs = match gss_clnt_ctx_id cp with Some id => [id] | None => [] end /\
    ctx_freed evs = [a].
Proof.
  intros Hlist [Hnd Hin] Hpre Ha Hm Hd Hcnt Hreq Hnmp Hmax Hnow.
  assert (Hq0 : k_quiet k (k_log EvLockMount k)).
  { apply k_quiet_log; [reflexivity|apply k_quiet_refl]. }
  unfold nfs_gss_clnt_ctx_remove. cbn [k_log k_nmp]. rewrite Hlist.
  destruct (ctx_remove_walk_skip cred pre (a :: rest) k _ Hq0 Hpre)
    as (k0 & -> & (Hh0 & Hn0 & Ht0 & Hx0 & evs0 & Htr0 & Hall0)).
  cbn [ctx_remove_walk]. rewrite Hh0, Ha, Hm, Hd, Hcnt.
  change (s32 (1 + 1)) with 2.
  set (cp2 := with_flags _ (with_refcnt 2 cp)).
  match goal with
  | |- context [nfs_gss_clnt_ctx_unref ?r ?K] => set (K2 := K)
  end.
  assert (Hinv2 : has_flag (gss_clnt_flags cp2) GSS_CTX_INVAL = true).
  { subst cp2. ctx_simpl. apply has_flag_marked_inval. }
  assert (Hd2 : has_flag (gss_clnt_flags cp2) GSS_CTX_DESTROY = true).
  { subst cp2. ctx_simpl. apply has_flag_marked_destroy. }
  assert (HhK2 : k_heap K2 = <[a := cp2]> (k_heap k)).
  { subst K2. cbn [k_log k_put k_heap]. now rewrite Hh0. }
  assert (HnK2 : k_nmp K2 = k_nmp k) by (subst K2; cbn [k_log k_put k_nmp]; exact Hn0).
  assert (HtK2 : k_now K2 = k_now k) by (subst K2; cbn [k_log k_put k_now]; exact Ht0).
  destruct (unref_not_last_aux (mk_req true zero_cred 0 (Some a)) a cp2 K2)
    as (k1 & evs1 & Hun1 & Hh1 & Hn1 & Ht1 & _ & Htr1 & Hk1 & Hf1);
    try reflexivity.
  { rewrite HhK2. apply lookup_insert_eq. }
  { subst cp2. ctx_simpl. unfold INT32_MAX. lia. }
  { intros _. rewrite HnK2. exact Hmax. }
  { intros b Hb. rewrite HnK2 in Hb. rewrite HhK2, lookup_insert.
    case_decide; [eauto|]. now apply Hin. }
  rewrite Hun1. rewrite Hinv2, andb_true_r in Hh1, Hn1.
  set (cp1 := if gss_clnt_nctime cp2 =? 0
              then with_nctime (k_now K2) (with_refcnt (gss_clnt_refcnt cp2 - 1) cp2)
              else with_refcnt (gss_clnt_refcnt cp2 - 1) cp2) in Hh1.
  assert (Hr1 : gss_clnt_refcnt cp1 = 1).
  { subst cp1 cp2. ctx_simpl. destruct (gss_clnt_nctime cp =? 0); reflexivity. }
  assert (Hfl1 : gss_clnt_flags cp1 = gss_clnt_flags cp2).
  { subst cp1. destruct (gss_clnt_nctime cp2 =? 0); reflexivity. }
  assert (Hid1 : gss_clnt_ctx_id cp1 = gss_clnt_ctx_id cp).
  { subst cp1 cp2. ctx_simpl. destruct (gss_clnt_nctime cp =? 0); reflexivity. }
  assert (Hheap1 : k_heap k1 = <[a := cp1]> (k_heap k)).
  { rewrite Hh1, HhK2. apply insert_insert_eq. }
  assert (Hlist1 : nm_gsscl (k_nmp k1) = nm_gsscl (k_nmp k)).
  { rewrite Hn1, HnK2. destruct (gss_clnt_nctime cp2 =? 0); reflexivity. }
  destruct (unref_last_destroy_aux req a cp1 k1)
    as (k2 & evs2 & Hun2 & Hh2 & Hl2 & Hc2 & _ & _ & Htr2 & Hk2 & Hf2);
    try assumption.
  { rewrite Hheap1. apply lookup_insert_eq. }
  { now rewrite Hfl1. }
  exists k1, cp1, k2.
  destruct (mutex_events_release_nothing evs0 Hall0) as [Hk0 Hf0].
  exists (evs2 ++ evs1 ++ [EvUnlockMount; EvUnlock a; EvRefcnt a 2; EvLock a] ++ evs0).
  assert (Hcount1 : nm_ncentries (k_nmp k1)
                    = (if gss_clnt_nctime cp =? 0 then u32 (nm_ncentries (k_nmp k) + 1)
                       else nm_ncentries (k_nmp k))).
  { rewrite Hn1, HnK2. subst cp2. ctx_simpl.
    destruct (gss_clnt_nctime cp =? 0); reflexivity. }
  split; [reflexivity|]. split; [exact Hheap1|]. split; [now rewrite Hlist1|].
  split; [exact Hcount1|].
  split; [exact Hr1|]. split; [now rewrite Hfl1|]. split; [now rewrite Hfl1|].
  split; [exact Hun2|].
  split. { rewrite Hh2, Hheap1. apply delete_insert_eq. }
  split. { rewrite Hl2, Hlist1, Hlist. apply tailq_remove_middle. now rewrite <- Hlist. }
  split.
  { rewrite Hc2, Hcount1. subst cp1 cp2. ctx_simpl.
    destruct (gss_clnt_nctime cp =? 0) eqn:Hz; ctx_simpl.
    - rewrite HtK2. replace (k_now k =? 0) with false by (symmetry; now apply Z.eqb_neq).
      unfold u32. rewrite Zminus_mod_idemp_l. f_equal. lia.
    - rewrite Hz. reflexivity. }
  split. { rewrite Htr2, Htr1. subst K2. cbn [k_log k_put k_trace]. rewrite Htr0.
           rewrite <- !app_assoc. reflexivity. }
  rewrite !krb5_destroyed_app, !ctx_freed_app, Hk2, Hf2, Hk1, Hf1, Hk0, Hf0, Hid1.
  cbn. rewrite !app_nil_r. split; reflexivity.
Qed.

(** X15 on the sample registry: the context of session 200 at 11 is held
    by a request; it survives the removal and goes when the request lets
    go of it. *)
Lemma ctx_remove_defers_to_last_holder_witness :
  exists k1 k2,
    @nfs_gss_clnt_ctx_remove sample_limits (mk_cred 200 502 502) (sample_registry 102)
      = KOk (E0, k1) /\
    nm_gsscl (k_nmp k1) = [11; 12] /\
    @nfs_gss_clnt_ctx_unref sample_limits
       (mk_req true (mk_cred 200 502 502) 9 (Some 11)) k1
      = KOk (mk_req true (mk_cred 200 502 502) 9 None, k2) /\
    k_heap k2 !! 11 = None /\
    nm_gsscl (k_nmp k2) = [12] /\
    nm_ncentries (k_nmp k2) = 1.
Proof.
  destruct (@ctx_remove_defers_to_last_holder sample_limits (mk_cred 200 502 502)
              (sample_registry 102) [] [12] 11
              (with_cred (mk_cred 200 502 502) sample_complete_ctx)
              (mk_req true (mk_cred 200 502 502) 9 (Some 11)))
    as (k1 & cp1 & k2 & evs & Hrun & _ & Hlist1 & _ & _ & _ & _ & Hun & Hheap & Hlist2 &
        Hcount & _).
  - reflexivity.
  - exact (sample_registry_linked 102).
  - intros b Hb. inversion Hb.
  - reflexivity.
  - reflexivity.
  - reflexivity.
  - reflexivity.
  - reflexivity.
  - reflexivity.
  - vm_compute. discriminate.
  - vm_compute. discriminate.
  - exists k1, k2. split; [exact Hrun|]. split; [exact Hlist1|]. split; [exact Hun|].
    split; [rewrite Hheap; apply lookup_delete_eq|]. split; [exact Hlist2|exact Hcount].
Defined.

(** ** Dropping the last reference *)

(** The last reference of a context that is not marked for destruction:
    the context stays allocated and linked.  If it is INVALID its
    Kerberos context is destroyed, and it enters the negative cache
    unless it is there already. *)
Lemma unref_last_keep_aux `{gss_limits} (req : nfsreq) (a : addr)
    (cp : nfs_gss_clnt_ctx) (k : kernel) :
  r_gss_ctx req = Some a -> r_nmp req = true -> k_heap k !! a = Some cp ->
  gss_clnt_refcnt cp = 1 -> has_flag (gss_clnt_flags cp) GSS_CTX_DESTROY = false ->
  u32 (nm_ncentries (k_nmp k) + 1) <= GSS_MAX_NEG_CACHE_ENTRIES ->
  (forall b, b ∈ nm_gsscl (k_nmp k) -> is_Some (k_heap k !! b)) ->
  exists k' evs,
    nfs_gss_clnt_ctx_unref req k = KOk (with_r_gss_ctx None req, k') /\
    k_heap k' =
      <[a := if has_flag (gss_clnt_flags cp) GSS_CTX_INVAL
             then with_nctime (if gss_clnt_nctime cp =? 0 then k_now k
                               else gss_clnt_nctime cp)
                              (with_ctx_id None (with_refcnt 0 cp))
             else with_refcnt 0 cp]> (k_heap k) /\
    k_nmp k' = (if has_flag (gss_clnt_flags cp) GSS_CTX_INVAL && (gss_clnt_nctime cp =? 0)
                then with_nm_ncentries (u32 (nm_ncentries (k_nmp k) + 1)) (k_nmp k)
                else k_nmp k) /\
    k_now k' = k_now k /\ k_next k' = k_next k /\
    k_trace k' = evs ++ k_trace k /\
    krb5_destroyed evs = (if has_flag (gss_clnt_flags cp) GSS_CTX_INVAL
                          then match gss_clnt_ctx_id cp with Some id => [id] | None => [] end
                          else []) /\
    ctx_freed evs = [].
Proof.
  intros Hreq Hnmp Ha Hcnt Hdestroy Hmax Hin.
  unfold nfs_gss_clnt_ctx_unref. rewrite Hreq, Ha, Hcnt.
  change (s32 (1 - 1)) with 0. change (0 <? 0) with false. cbv iota zeta.
  unfold unref_locked. ctx_simpl. change (0 =? 0) with true. cbn [andb].
  assert (Hreap : forall K : kernel,
            k_heap K = <[a := match k_heap K !! a with Some c => c | None => cp end]>
                         (k_heap k) ->
            nm_gsscl (k_nmp K) = nm_gsscl (k_nmp k) ->
            nm_ncentries (k_nmp K) = u32 (nm_ncentries (k_nmp k) + 1) ->
            nfs_gss_clnt_ctx_neg_cache_reap K = KOk K).
  { intros K HK HL HC. unfold nfs_gss_clnt_ctx_neg_cache_reap.
    apply reap_walk_below_ceiling; [now rewrite HC|].
    intros b Hb. rewrite HL in Hb. rewrite HK, lookup_insert.
    case_decide; [eauto|]. now apply Hin. }
  destruct (has_flag (gss_clnt_flags cp) GSS_CTX_INVAL) eqn:Hinval.
  - destruct (gss_clnt_ctx_id cp) as [id|] eqn:Hid; ctx_simpl;
      rewrite ?Hdestroy, ?Hinval; cbn [andb negb]; ctx_simpl;
      destruct (gss_clnt_nctime cp =? 0) eqn:Hz; cbn [andb negb];
      ctx_simpl; rewrite ?Hinval;
      cbn [up_krb5 up_cp up_destroy up_neg_cache];
      unfold unref_unlocked; cbn [up_destroy up_neg_cache r_nmp with_r_gss_ctx];
      rewrite ?Hnmp, ?Hinval.
    + rewrite Hreap.
      * eexists _, _. split; [reflexivity|].
        cbn [k_log k_put k_mount k_heap k_nmp k_now k_next k_trace].
        rewrite !insert_insert_eq.
        split; [reflexivity|]. split; [reflexivity|]. split; [reflexivity|].
        split; [reflexivity|]. split; [solve_trace|]. split; reflexivity.
      * cbn [k_log k_put k_mount k_heap]. rewrite lookup_insert_eq.
        now rewrite !insert_insert_eq.
      * reflexivity.
      * reflexivity.
    + eexists _, _. split; [reflexivity|].
      cbn [k_log k_put k_mount k_heap k_nmp k_now k_next k_trace].
      rewrite !insert_insert_eq.
      split; [destruct cp; reflexivity|]. split; [reflexivity|]. split; [reflexivity|].
      split; [reflexivity|]. split; [solve_trace|]. split; reflexivity.
    + rewrite Hreap.
      * eexists _, _. split; [reflexivity|].
        cbn [k_log k_put k_mount k_heap k_nmp k_now k_next k_trace].
        rewrite !insert_insert_eq.
        split; [f_equal; destruct cp; cbn in Hid; subst; reflexivity|].
        split; [reflexivity|]. split; [reflexivity|].
        split; [reflexivity|]. split; [solve_trace|]. split; reflexivity.
      * cbn [k_log k_put k_mount k_heap]. rewrite lookup_insert_eq.
        now rewrite !insert_insert_eq.
      * reflexivity.
      * reflexivity.
    + eexists _, _. split; [reflexivity|].
      cbn [k_log k_put k_mount k_heap k_nmp k_now k_next k_trace].
      rewrite !insert_insert_eq.
      split; [f_equal; destruct cp; cbn in Hid; subst; reflexivity|].
      split; [reflexivity|]. split; [reflexivity|].
      split; [reflexivity|]. split; [solve_trace|]. split; reflexivity.
  - ctx_simpl. rewrite ?Hdestroy, ?Hinval. cbn [andb negb]. ctx_simpl.
    rewrite ?Hinval, ?andb_false_r. cbn [up_krb5 up_cp up_destroy up_neg_cache].
    unfold unref_unlocked. cbn [up_destroy up_neg_cache r_nmp with_r_gss_ctx].
    eexists _, _. split; [reflexivity|].
    cbn [k_log k_put k_mount k_heap k_nmp k_now k_next k_trace].
    rewrite !insert_insert_eq.
    split; [reflexivity|]. split; [reflexivity|]. split; [reflexivity|].
    split; [reflexivity|]. split; [solve_trace|]. split; reflexivity.
Qed.


(** The mount after the last reference of a context marked for
    destruction has gone. *)
Lemma unref_last_destroy_nmp `{gss_limits} (req req' : nfsreq) (a : addr)
    (cp : nfs_gss_clnt_ctx) (k k' : kernel) :
  r_gss_ctx req = Some a -> r_nmp req = true -> k_heap k !! a = Some cp ->
  gss_clnt_refcnt cp = 1 -> has_flag (gss_clnt_flags cp) GSS_CTX_DESTROY = true ->
  nfs_gss_clnt_ctx_unref req k = KOk (req', k') ->
  k_nmp k' = with_nm_ncentries
               (if gss_clnt_nctime cp =? 0 then nm_ncentries (k_nmp k)
          else u32 (nm_ncentries (k_nmp k) - 1))
               (with_nm_gsscl (tailq_remove a (nm_gsscl (k_nmp k))) (k_nmp k)) /\
  k_mnt_error k' = k_mnt_error k /\ k_upcall_port k' = k_upcall_port k.
Proof.
  intros Hreq Hnmp Ha Hcnt Hdestroy.
  unfold nfs_gss_clnt_ctx_unref. rewrite Hreq, Ha, Hcnt.
  change (s32 (1 - 1)) with 0. change (0 <? 0) with false. cbv iota zeta.
  set (cpz := with_refcnt 0 cp).
  match goal with |- context [unref_locked ?e ?n cpz] => set (plan := unref_locked e n cpz) end.
  destruct (unref_locked_destroy
              (nfs_gss_clnt_mnt_rele (r_nmp (with_r_gss_ctx None req))
                 (k_log (EvRefcnt a 0) (k_put a cpz (k_log (EvLock a) k))))
              (k_now (k_log (EvRefcnt a 0) (k_put a cpz (k_log (EvLock a) k)))) cpz)
    as (Hd & Hn & Hon & Hk & Hid); [reflexivity|exact Hdestroy|].
  fold plan in Hd, Hn, Hon, Hk, Hid. subst cpz. ctx_simpl.
  unfold unref_unlocked. rewrite Hd. cbn [r_nmp with_r_gss_ctx]. rewrite Hnmp, Hon.
  unfold nfs_gss_clnt_ctx_destroy. rewrite Hk.
  assert (Hlist : forall nmp : nfsmount,
            (if bool_decide (a ∈ nm_gsscl nmp)
             then with_nm_gsscl (tailq_remove a (nm_gsscl nmp)) nmp else nmp)
            = with_nm_gsscl (tailq_remove a (nm_gsscl nmp)) nmp).
  { intros nmp. case_bool_decide; [reflexivity|].
    rewrite tailq_remove_notin by assumption. destruct nmp. reflexivity. }
  destruct (has_flag (gss_clnt_flags cp) GSS_CTX_INVAL);
    destruct (gss_clnt_ctx_id cp) as [id|];
    cbn [k_log k_put k_mount k_heap k_nmp]; rewrite lookup_insert_eq, Hid;
    destruct (gss_clnt_nctime cp =? 0); cbn [negb];
    intros [= <- <-];
    cbn [k_free k_log k_put k_mount k_heap k_nmp k_mnt_error k_upcall_port];
    rewrite Hlist; (split; [|split; reflexivity]);
    destruct (k_nmp k); reflexivity.
Qed.

(** ** Renewing a context *)

Lemma land_lor_test (f A B : Z) :
  negb (Z.land f (Z.lor A B) =? 0) = has_flag f A || has_flag f B.
Proof.
  unfold has_flag. rewrite Z.land_lor_distr_r.
  destruct (Z.land f A =? 0) eqn:HA; destruct (Z.land f B =? 0) eqn:HB; cbn [negb orb].
  - apply Z.eqb_eq in HA, HB. rewrite HA, HB. reflexivity.
  - apply negb_true_iff, Z.eqb_neq. intros H0. apply Z.lor_eq_0_iff in H0 as [_ H0].
    apply Z.eqb_neq in HB. contradiction.
  - apply negb_true_iff, Z.eqb_neq. intros H0. apply Z.lor_eq_0_iff in H0 as [H0 _].
    apply Z.eqb_neq in HA. contradiction.
  - apply negb_true_iff, Z.eqb_neq. intros H0. apply Z.lor_eq_0_iff in H0 as [H0 _].
    apply Z.eqb_neq in HA. contradiction.
Qed.

Lemma has_flag_marked_other (f j : Z) :
  0 <= j -> j <> 1 -> j <> 5 ->
  has_flag (set_flag f (Z.lor GSS_CTX_INVAL GSS_CTX_DESTROY)) (2 ^ j) = has_flag f (2 ^ j).
Proof.
  intros Hj H1 H5. rewrite set_flag_lor. unfold GSS_CTX_INVAL, GSS_CTX_DESTROY.
  rewrite !has_flag_set by lia.
  replace (5 =? j) with false by (symmetry; apply Z.eqb_neq; lia).
  replace (1 =? j) with false by (symmetry; apply Z.eqb_neq; lia).
  now rewrite !orb_false_r.
Qed.

(** X16.  A request that is the only holder of a valid context in use
    (procedure DATA) asks for its renewal.  The old context is marked
    INVALID and for destruction, released and unlinked, and its Kerberos
    context is destroyed once; threads waiting on it are woken exactly
    if NEEDCTX or NEEDSEQ was set.  A new context for the same
    credential, principal and service, owned by the calling thread, is
    put at the head of the list and handed to the setup; when the setup
    succeeds the call returns 0 with the request holding the one
    reference of the new context. *)
Theorem renew_replaces_context `{gss_limits} (init_retry : init_retry_fn) (req : nfsreq)
    (k : kernel) (a : addr) (cp c1 : nfs_gss_clnt_ctx) (nmp1 : nfsmount) :
  let n := k_next k in
  let c0 :=
    with_refcnt 1
      (with_thread (Some (r_thread req))
         (with_status (gss_clnt_major cp) (gss_clnt_minor cp)
            (with_gssd_flags (gss_clnt_gssd_flags cp)
               (with_ctx_id None
                  (with_service (gss_clnt_service cp)
                     (with_principal (gss_clnt_principal cp) (gss_clnt_prinnt cp)
                        (with_cred (gss_clnt_cred cp) zero_ctx))))))) in
  let nmp0 :=
    with_nm_gsscl (n :: tailq_remove a (nm_gsscl (k_nmp k)))
      (with_nm_ncentries
         (if gss_clnt_nctime cp =? 0 then nm_ncentries (k_nmp k)
          else u32 (nm_ncentries (k_nmp k) - 1))
         (with_nm_gsscl (tailq_remove a (nm_gsscl (k_nmp k))) (k_nmp k))) in
  r_gss_ctx req = Some a -> r_nmp req = true ->
  k_heap k !! a = Some cp -> k_heap k !! n = None ->
  has_flag (gss_clnt_flags cp) GSS_CTX_INVAL = false ->
  gss_clnt_refcnt cp = 1 ->
  gss_clnt_proc cp = RPCSEC_GSS_DATA ->
  k_upcall_port k = true ->
  init_retry c0 nmp0 = Some (E0, c1, nmp1) ->
  exists k' evs,
    nfs_gss_clnt_ctx_renew init_retry req k
      = Some (KOk (E0, with_r_gss_ctx (Some n) req, k',
                   has_flag (gss_clnt_flags cp) GSS_NEEDCTX
                   || has_flag (gss_clnt_flags cp) GSS_NEEDSEQ)) /\
    k_heap k' = <[n := c1]> (delete a (k_heap k)) /\
    k_nmp k' = nmp1 /\
    k_trace k' = evs ++ k_trace k /\
    krb5_destroyed evs = match gss_clnt_ctx_id cp with Some id => [id] | None => [] end /\
    ctx_freed evs = [a] /\
    In (EvInit n) evs.
Proof.
  intros n c0 nmp0 Hreq Hnmp Ha Hfresh Hinval Hcnt Hproc Hport Hinit.
  assert (Hna : n <> a) by (intros ->; congruence).
  unfold nfs_gss_clnt_ctx_renew. rewrite Hreq, Hnmp. cbn [negb].
  rewrite Ha. rewrite Hinval. cbv zeta.
  set (w := negb (Z.land _ (Z.lor GSS_NEEDCTX GSS_NEEDSEQ) =? 0)).
  assert (Hw : w = has_flag (gss_clnt_flags cp) GSS_NEEDCTX
                   || has_flag (gss_clnt_flags cp) GSS_NEEDSEQ).
  { subst w. ctx_simpl. rewrite land_lor_test. unfold GSS_NEEDCTX, GSS_NEEDSEQ.
    rewrite !has_flag_marked_other by lia. reflexivity. }
  set (cpm := if w then _ else _).
  assert (Hpm : gss_clnt_proc cpm = RPCSEC_GSS_DATA).
  { subst cpm. destruct w; ctx_simpl; exact Hproc. }
  rewrite Hpm. rewrite bool_decide_eq_false_2 by discriminate.
  rewrite bool_decide_eq_true_2 by reflexivity. cbn [negb].
  unfold nfs_gss_clnt_ctx_copy. cbn [k_alloc k_log k_put k_next k_upcall_port].
  fold n. rewrite Hport. cbn [negb].
  match goal with
  | |- context [nfs_gss_clnt_ctx_unref req ?K] => set (K4 := K)
  end.
  assert (HaK4 : k_heap K4 !! a = Some cpm).
  { subst K4. cbn [k_log k_put k_heap]. rewrite !lookup_insert_ne by exact Hna.
    apply lookup_insert_eq. }
  assert (Hcm : gss_clnt_refcnt cpm = 1 /\
                has_flag (gss_clnt_flags cpm) GSS_CTX_DESTROY = true /\
                gss_clnt_nctime cpm = gss_clnt_nctime cp /\
                gss_clnt_ctx_id cpm = gss_clnt_ctx_id cp).
  { subst cpm. destruct w; ctx_simpl; (split; [exact Hcnt|]);
      (split; [|split; reflexivity]).
    - unfold GSS_NEEDSEQ, GSS_CTX_DESTROY at 2. rewrite has_flag_clear by lia.
      fold GSS_CTX_DESTROY. rewrite has_flag_marked_destroy. reflexivity.
    - apply has_flag_marked_destroy. }
  destruct Hcm as (Hcm1 & Hcm2 & Hcm3 & Hcm4).
  destruct (unref_last_destroy_aux req a cpm K4 Hreq Hnmp HaK4 Hcm1 Hcm2)
    as (k5 & evs5 & Hun & Hh5 & Hl5 & Hc5 & Ht5 & Hx5 & Htr5 & Hk5 & Hf5).
  destruct (unref_last_destroy_nmp req _ a cpm K4 k5 Hreq Hnmp HaK4 Hcm1 Hcm2 Hun)
    as (Hn5 & _ & _).
  rewrite Hun. change (is_error E0) with false. cbv iota.
  set (d := with_status (gss_clnt_major cp) (gss_clnt_minor cp)
              (with_gssd_flags (gss_clnt_gssd_flags cp)
                 (with_ctx_id None
                    (with_service (gss_clnt_service cp)
                       (with_principal (gss_clnt_principal cp) (gss_clnt_prinnt cp)
                          (with_cred (gss_clnt_cred cp) zero_ctx)))))).
  assert (HnK4 : k_heap K4 !! n = Some d).
  { subst K4 cpm. cbn [k_log k_put k_heap]. rewrite lookup_insert_eq.
    destruct w; reflexivity. }
  assert (Hn5' : k_heap k5 !! n = Some d).
  { rewrite Hh5, lookup_delete_ne by congruence. exact HnK4. }
  cbn [k_log k_heap]. rewrite Hn5'.
  unfold nfs_gss_clnt_ctx_ref. cbn [k_put k_log k_heap]. rewrite lookup_insert_eq.
  ctx_simpl. cbn [with_r_gss_ctx r_thread].
  replace (gss_clnt_refcnt d) with 0 by reflexivity.
  change (s32 (0 + 1)) with 1.
  cbn [k_mount k_put k_log k_heap k_nmp]. rewrite lookup_insert_eq.
  unfold tailq_insert_head.
  replace (with_refcnt 1 (with_thread (Some (r_thread req)) d)) with c0 by reflexivity.
  replace (with_nm_gsscl (n :: nm_gsscl (k_nmp k5)) (k_nmp k5)) with nmp0.
  2:{ subst nmp0. rewrite Hn5, Hcm3. subst K4. cbn [k_log k_put k_nmp].
      reflexivity. }
  rewrite Hinit. change (is_error E0) with false. cbv iota.
  eexists _, ([EvInit n; EvUnlockMount; EvUnlock n; EvRefcnt n 1; EvLock n; EvLockMount]
               ++ evs5 ++ [EvAlloc n; EvUnlock a; EvLock a]).
  split; [rewrite Hw; reflexivity|].
  cbn [k_mount k_put k_log k_heap k_nmp k_trace].
  split. { rewrite !insert_insert_eq, Hh5. subst K4. cbn [k_log k_put k_heap].
           rewrite !delete_insert_ne by congruence.
           rewrite insert_insert_eq. rewrite delete_insert_eq.
           now rewrite insert_insert_eq. }
  split; [reflexivity|].
  split. { rewrite Htr5. subst K4. cbn [k_log k_put k_trace].
           rewrite <- !app_assoc. reflexivity. }
  rewrite !krb5_destroyed_app, !ctx_freed_app, Hk5, Hf5, Hcm4.
  split; [cbn; now rewrite app_nil_r|]. split; [reflexivity|]. left. reflexivity.
Qed.

(** X16 on the sample registry: the request holding the context at 11
    has it renewed; the new context is at 13, at the head of the list,
    and 11 is gone. *)
Lemma renew_replaces_context_witness :
  exists k',
    @nfs_gss_clnt_ctx_renew sample_limits
       (fun c nmp => Some (E0, with_flags GSS_CTX_COMPLETE (with_thread None c), nmp))
       (mk_req true (mk_cred 200 502 502) 9 (Some 11)) (sample_registry 102)
      = Some (KOk (E0, mk_req true (mk_cred 200 502 502) 9 (Some 13), k', false)) /\
    k_heap k' !! 11 = None /\
    (gss_clnt_cred <$> k_heap k' !! 13) = Some (mk_cred 200 502 502) /\
    nm_gsscl (k_nmp k') = [13; 12].
Proof.
  destruct (@renew_replaces_context sample_limits
              (fun c nmp => Some (E0, with_flags GSS_CTX_COMPLETE (with_thread None c), nmp))
              (mk_req true (mk_cred 200 502 502) 9 (Some 11)) (sample_registry 102) 11
              (with_cred (mk_cred 200 502 502) sample_complete_ctx)
              (with_flags GSS_CTX_COMPLETE
                 (with_thread None
                    (with_refcnt 1
                       (with_thread (Some 9)
                          (with_service (gss_clnt_service sample_complete_ctx)
                             (with_cred (mk_cred 200 502 502) zero_ctx))))))
              (with_nm_gsscl [13; 12] (with_nm_ncentries 1 (k_nmp (sample_registry 102)))))
    as (k' & evs & Hrun & Hheap & Hnmp & _).
  - reflexivity.
  - reflexivity.
  - reflexivity.
  - reflexivity.
  - reflexivity.
  - reflexivity.
  - reflexivity.
  - reflexivity.
  - reflexivity.
  - exists k'. split; [exact Hrun|]. rewrite Hheap, Hnmp.
    split; [reflexivity|]. split; reflexivity.
Defined.

(** X17.  What nfs_gss_clnt_ctx_unref does with the last reference of a
    context, on a mount whose negative-cache count, a uint32_t, is still
    at or below the ceiling after one more entry.  A context marked for
    destruction is released and unlinked, and the count of the negative
    cache goes down by one if the context was counted (from 0 it wraps
    to 4294967295).  Any other context stays allocated and linked with
    no references: a valid one as it is, its Kerberos context included;
    an INVALID one without its Kerberos context and, unless it has one
    already, with the time of entry into the negative cache, the count
    going up by one.  In every case the Kerberos context is destroyed at
    most once, and exactly when the context is INVALID or marked for
    destruction. *)
Theorem unref_last_reference `{gss_limits} (req : nfsreq) (a : addr)
    (cp : nfs_gss_clnt_ctx) (k : kernel) :
  r_gss_ctx req = Some a -> r_nmp req = true -> k_heap k !! a = Some cp ->
  gss_clnt_refcnt cp = 1 ->
  u32 (nm_ncentries (k_nmp k) + 1) <= GSS_MAX_NEG_CACHE_ENTRIES ->
  (forall b, b ∈ nm_gsscl (k_nmp k) -> is_Some (k_heap k !! b)) ->
  exists k' evs,
    nfs_gss_clnt_ctx_unref req k = KOk (with_r_gss_ctx None req, k') /\
    k_trace k' = evs ++ k_trace k /\
    krb5_destroyed evs =
      (if has_flag (gss_clnt_flags cp) GSS_CTX_INVAL
          || has_flag (gss_clnt_flags cp) GSS_CTX_DESTROY
       then match gss_clnt_ctx_id cp with Some id => [id] | None => [] end
       else []) /\
    if has_flag (gss_clnt_flags cp) GSS_CTX_DESTROY then
      ctx_freed evs = [a] /\
      k_heap k' = delete a (k_heap k) /\
      nm_gsscl (k_nmp k') = tailq_remove a (nm_gsscl (k_nmp k)) /\
      nm_ncentries (k_nmp k')
        = (if gss_clnt_nctime cp =? 0 then nm_ncentries (k_nmp k)
         else u32 (nm_ncentries (k_nmp k) - 1))
    else
      ctx_freed evs = [] /\
      nm_gsscl (k_nmp k') = nm_gsscl (k_nmp k) /\
      if has_flag (gss_clnt_flags cp) GSS_CTX_INVAL then
        k_heap k' = <[a := with_nctime (if gss_clnt_nctime cp =? 0 then k_now k
                                        else gss_clnt_nctime cp)
                                       (with_ctx_id None (with_refcnt 0 cp))]> (k_heap k) /\
        nm_ncentries (k_nmp k')
          = (if gss_clnt_nctime cp =? 0 then u32 (nm_ncentries (k_nmp k) + 1)
             else nm_ncentries (k_nmp k))
      else
        k_heap k' = <[a := with_refcnt 0 cp]> (k_heap k) /\
        nm_ncentries (k_nmp k') = nm_ncentries (k_nmp k).
Proof.
  intros Hreq Hnmp Ha Hcnt Hmax Hin.
  destruct (has_flag (gss_clnt_flags cp) GSS_CTX_DESTROY) eqn:Hd.
  - destruct (unref_last_destroy_aux req a cp k Hreq Hnmp Ha Hcnt Hd)
      as (k' & evs & Hun & Hh & Hl & Hc & _ & _ & Htr & Hk & Hf).
    exists k', evs. rewrite orb_true_r. repeat split; assumption.
  - destruct (unref_last_keep_aux req a cp k Hreq Hnmp Ha Hcnt Hd Hmax Hin)
      as (k' & evs & Hun & Hh & Hn & _ & _ & Htr & Hk & Hf).
    exists k', evs. rewrite orb_false_r.
    split; [exact Hun|]. split; [exact Htr|]. split; [exact Hk|]. split; [exact Hf|].
    rewrite Hn.
    destruct (has_flag (gss_clnt_flags cp) GSS_CTX_INVAL); cbn [andb].
    + destruct (gss_clnt_nctime cp =? 0); cbn [nm_gsscl nm_ncentries with_nm_ncentries];
        (split; [reflexivity|]); (split; [exact Hh|reflexivity]).
    + split; [reflexivity|]. split; [exact Hh|reflexivity].
Qed.

(** X17 on the sample registry: the valid context at 11 loses its one
    reference and stays, with its Kerberos context. *)
Lemma unref_last_reference_witness :
  exists k',
    @nfs_gss_clnt_ctx_unref sample_limits
       (mk_req true (mk_cred 200 502 502) 9 (Some 11)) (sample_registry 102)
      = KOk (mk_req true (mk_cred 200 502 502) 9 None, k') /\
    (gss_clnt_refcnt <$> k_heap k' !! 11) = Some 0 /\
    (gss_clnt_ctx_id <$> k_heap k' !! 11) = Some (Some 7) /\
    nm_gsscl (k_nmp k') = [11; 12].
Proof.
  destruct (@unref_last_reference sample_limits
              (mk_req true (mk_cred 200 502 502) 9 (Some 11)) 11
              (with_cred (mk_cred 200 502 502) sample_complete_ctx) (sample_registry 102))
    as (k' & evs & Hrun & _ & _ & Hrest).
  - reflexivity.
  - reflexivity.
  - reflexivity.
  - reflexivity.
  - vm_compute. discriminate.
  - exact (proj2 (sample_registry_linked 102)).
  - change (has_flag (gss_clnt_flags (with_cred (mk_cred 200 502 502) sample_complete_ctx))
                     GSS_CTX_DESTROY) with false in Hrest.
    change (has_flag (gss_clnt_flags (with_cred (mk_cred 200 502 502) sample_complete_ctx))
                     GSS_CTX_INVAL) with false in Hrest.
    cbv iota in Hrest. destruct Hrest as (_ & Hlist & Hheap & _).
    exists k'. split; [exact Hrun|]. rewrite Hheap, lookup_insert_eq.
    split; [reflexivity|]. split; [reflexivity|exact Hlist].
Defined.

(** ** The results of a reply *)

Lemma chain_get_32_ok {chain : Type} `{nfsm_subs chain} (e : errno_t) (nmc nmc' : chain)
    (d v : Z) :
  chain_get_32 e nmc d = (E0, nmc', v) -> nfsm_chain_get_32 nmc = (E0, nmc', v).
Proof.
  unfold chain_get_32. destruct (is_error e) eqn:He.
  - intros [= -> _ _]. discriminate He.
  - destruct (nfsm_chain_get_32 nmc) as [[e1 n1] v1].
    destruct (is_error e1) eqn:He1.
    + intros [= -> _ _]. discriminate He1.
    + intros [= -> -> ->]. reflexivity.
Qed.

Lemma chain_get_32_E0 {chain : Type} `{nfsm_subs chain} (e : errno_t) (nmc nmc' : chain)
    (d v : Z) :
  chain_get_32 e nmc d = (E0, nmc', v) -> e = E0 /\ nfsm_chain_get_32 nmc = (E0, nmc', v).
Proof.
  intros Hget. split; [|exact (chain_get_32_ok _ _ _ _ _ Hget)].
  unfold chain_get_32 in Hget. destruct (is_error e) eqn:He.
  - injection Hget as -> _ _. discriminate He.
  - now apply is_error_false.
Qed.

Lemma chain_get_opaque_ok {chain : Type} `{nfsm_subs chain} (nmc nmc' : chain)
    (len : Z) (buf v : list byte) (e : errno_t) :
  chain_get_opaque E0 nmc len buf = (e, nmc', v) -> is_error e = false ->
  e = E0 /\ nfsm_chain_get_opaque nmc len = (E0, nmc', v).
Proof.
  unfold chain_get_opaque. change (is_error E0) with false. cbv iota.
  destruct (nfsm_chain_get_opaque nmc len) as [[e1 n1] v1].
  destruct (is_error e1) eqn:He1.
  - intros [= <- _ _] He. congruence.
  - intros [= <- <- <-] _. apply is_error_false in He1. subst e1. split; reflexivity.
Qed.

(** X18.  Integrity service on an established context: when
    nfs_gss_clnt_verf_get returns 0 for a reply the server accepted
    (RPC_SUCCESS), the results are bound to the request.  The verifier,
    read from the head of the reply, is the MIC of a sequence number [s]
    the request was sent with.  Behind the accepted status the macros
    take the length [reslen] of the results (at most NFS_MAXPACKET),
    skip that many bytes and take the MIC (at most KRB5_MAX_MIC_SIZE
    bytes) that follows them; the mechanism has accepted that MIC over
    the [reslen] bytes at the position behind the length word, with
    minor status 0, and that is the last call made to it; the word at
    that position is [s]; and the chain is left behind that word.  The
    error that the macros may set while the status, the lengths and the
    MIC are read is not looked at (line 1140 overwrites it): the values
    are what the macros leave in their variables. *)
Theorem verf_get_integrity_binds_reply {chain : Type} `{gss_krb5} `{nfsm_subs chain}
    (kalloc_ok : bool) (cp : nfs_gss_clnt_ctx) (seqlist : list Z) (nmc : chain)
    (verflen : Z) :
  has_flag (gss_clnt_flags cp) GSS_CTX_COMPLETE = true ->
  gss_clnt_service cp = RPCSEC_GSS_SVC_INTEGRITY ->
  let r := nfs_gss_clnt_verf_get kalloc_ok (Some cp) seqlist nmc RPCSEC_GSS verflen in
  let ctx_id := default 0 (gss_clnt_ctx_id cp) in
  vg_error r = E0 -> vg_accepted_status r = RPC_SUCCESS ->
  exists s cksum nmc0 e1 nmcs e2 nmc1 reslen e3 nmc2 e4 nmc3 cklen e5 nmc4 mic,
    nfsm_chain_get_opaque nmc verflen = (E0, nmc0, cksum) /\
    s ∈ seqlist /\
    fst (gss_krb5_verify_mic ctx_id (txdr_unsigned s) cksum) = GSS_S_COMPLETE /\
    chain_get_32 E0 nmc0 0 = (e1, nmcs, RPC_SUCCESS) /\
    chain_get_32 e1 nmcs 0 = (e2, nmc1, reslen) /\
    reslen <= NFS_MAXPACKET /\
    chain_adv e2 nmc1 reslen = (e3, nmc2) /\
    chain_get_32 e3 nmc2 verflen = (e4, nmc3, cklen) /\
    cklen <= KRB5_MAX_MIC_SIZE /\
    chain_get_opaque e4 nmc3 cklen (List.repeat x00 (Z.to_nat cklen)) = (e5, nmc4, mic) /\
    gss_krb5_verify_mic ctx_id (nfsm_chain_data nmc1 reslen) mic = (GSS_S_COMPLETE, E0) /\
    head (vg_mic_calls r) = Some (nfsm_chain_data nmc1 reslen, mic) /\
    nfsm_chain_get_32 nmc1 = (E0, vg_nmc r, s).
Proof.
  intros Hc Hsvc r ctx_id. subst r. unfold nfs_gss_clnt_verf_get.
  change (RPCSEC_GSS =? RPCSEC_GSS) with true. cbv beta iota. simpl negb. cbv iota.
  rewrite Hc. simpl negb. cbv iota.
  destruct (KRB5_MAX_MIC_SIZE <? verflen) eqn:Hlen; [discriminate|].
  fold ctx_id.
  destruct (chain_get_opaque E0 nmc verflen (List.repeat x00 (Z.to_nat verflen)))
    as [[error nmc0] cksum] eqn:Hget.
  destruct (is_error error) eqn:Herr.
  { cbn. intros ->. discriminate. }
  destruct (chain_get_opaque_ok _ _ _ _ _ _ Hget Herr) as [-> Hget0].
  pose proof (verf_get_search_spec ctx_id cksum seqlist []) as Hsearch.
  destruct (verf_get_search ctx_id cksum seqlist []) as [[s|] calls]; [|discriminate].
  destruct Hsearch as (Hin & Hok & _).
  destruct (chain_get_32 E0 nmc0 0) as [[e1 nmcs] status] eqn:Hst.
  destruct (negb (status =? RPC_SUCCESS)) eqn:Hs.
  { cbn. intros _ ->. discriminate. }
  apply negb_false_iff, Z.eqb_eq in Hs. subst status.
  rewrite Hsvc.
  destruct (chain_get_32 e1 nmcs 0) as [[e2 nmc1] reslen] eqn:Hres.
  destruct (NFS_MAXPACKET <? reslen) eqn:Hmax; [discriminate|].
  apply Z.ltb_ge in Hmax.
  destruct (chain_adv e2 nmc1 reslen) as [e3 nmc2] eqn:Hadv.
  destruct (chain_get_32 e3 nmc2 verflen) as [[e4 nmc3] cklen] eqn:Hck.
  destruct (KRB5_MAX_MIC_SIZE <? cklen) eqn:Hckmax; [discriminate|].
  apply Z.ltb_ge in Hckmax.
  destruct (chain_get_opaque e4 nmc3 cklen (List.repeat x00 (Z.to_nat cklen)))
    as [[e5 nmc4] mic] eqn:Hmicget.
  destruct (gss_krb5_verify_mic ctx_id (nfsm_chain_data nmc1 reslen) mic)
    as [major minor] eqn:Hmic.
  destruct (negb (major =? GSS_S_COMPLETE)) eqn:Hmaj; [discriminate|].
  apply negb_false_iff, Z.eqb_eq in Hmaj. subst major.
  destruct (chain_get_32 minor nmc1 0) as [[error7 nmc7] seqnum] eqn:Hseq.
  destruct (negb (s =? seqnum)) eqn:Hsq; [discriminate|].
  apply negb_false_iff, Z.eqb_eq in Hsq. subst seqnum.
  cbn [vg_error vg_nmc vg_mic_calls]. intros -> _.
  destruct (chain_get_32_E0 _ _ _ _ _ Hseq) as [-> Hseq0].
  exists s, cksum, nmc0, e1, nmcs, e2, nmc1, reslen, e3, nmc2, e4, nmc3, cklen, e5, nmc4, mic.
  split; [exact Hget0|]. split; [exact Hin|]. split; [exact Hok|].
  split; [exact Hst|]. split; [exact Hres|]. split; [exact Hmax|].
  split; [exact Hadv|]. split; [exact Hck|]. split; [exact Hckmax|].
  split; [exact Hmicget|]. split; [exact Hmic|]. split; [reflexivity|exact Hseq0].
Qed.

(** X18 on a reply to request 1004 under integrity: verifier, accepted
    status, eight bytes of results headed by 1004, and their MIC. *)
Lemma verf_get_integrity_binds_reply_witness :
  let reply := txdr_unsigned 4 ++ txdr_unsigned RPC_SUCCESS ++ txdr_unsigned 8
               ++ txdr_unsigned 1004 ++ [x0a; x0b; x0c; x0d]
               ++ txdr_unsigned 4 ++ txdr_unsigned 8 in
  let r := @nfs_gss_clnt_verf_get _ toy_krb5 stream_chain true
             (Some (with_service RPCSEC_GSS_SVC_INTEGRITY sample_complete_ctx))
             [1004; 1003] reply RPCSEC_GSS 4 in
  vg_error r = E0 /\
  exists s nmc1 reslen mic,
    s ∈ [1004; 1003] /\
    @gss_krb5_verify_mic toy_krb5 7 (@nfsm_chain_data _ stream_chain nmc1 reslen) mic
      = (GSS_S_COMPLETE, E0) /\
    @nfsm_chain_get_32 _ stream_chain nmc1 = (E0, vg_nmc r, s).
Proof.
  intros reply r. split; [reflexivity|].
  destruct (@verf_get_integrity_binds_reply _ toy_krb5 stream_chain true
              (with_service RPCSEC_GSS_SVC_INTEGRITY sample_complete_ctx)
              [1004; 1003] reply 4 eq_refl eq_refl eq_refl eq_refl)
    as (s & cksum & nmc0 & e1 & nmcs & e2 & nmc1 & reslen & e3 & nmc2 & e4 & nmc3 & cklen
        & e5 & nmc4 & mic & _ & Hin & _ & _ & _ & _ & _ & _ & _ & _ & Hmic & _ & Hget).
  exists s, nmc1, reslen, mic. split; [exact Hin|]. split; [exact Hmic|exact Hget].
Defined.

Lemma toy_unwrap_failure_has_minor : unwrap_failure_has_minor toy_krb5.
Proof.
  intros ctx token major minor results. cbn.
  destruct token as [|b msg]; [intros [= <- <- _] _; discriminate|].
  destruct (bool_decide (b = x01)) eqn:Hb.
  - apply bool_decide_eq_true_1 in Hb. subst b. intros [= <- _ _] Hm. now elim Hm.
  - apply bool_decide_eq_false_1 in Hb.
    destruct b; try (intros [= <- <- _] _; discriminate). now elim Hb.
Qed.

Lemma chain_get_32_read {chain : Type} `{nfsm_subs chain} (e e' : errno_t)
    (nmc nmc' : chain) (d v : Z) :
  chain_get_32 e nmc d = (e', nmc', v) -> v <> d ->
  e = E0 /\ e' = E0 /\ nfsm_chain_get_32 nmc = (E0, nmc', v).
Proof.
  unfold chain_get_32. destruct (is_error e) eqn:He.
  - intros [= _ _ <-] Hne. now elim Hne.
  - apply is_error_false in He. subst e.
    destruct (nfsm_chain_get_32 nmc) as [[e1 n1] v1].
    destruct (is_error e1) eqn:He1.
    + intros [= _ _ <-] Hne. now elim Hne.
    + apply is_error_false in He1. subst e1. intros [= <- <- <-] _. repeat split.
Qed.

(** X19.  Privacy service on an established context, with a mechanism
    whose unwrap reports a minor status whenever it fails: when
    nfs_gss_clnt_verf_get returns 0 for a reply the server accepted,
    the verifier read from the head of the reply is the MIC of a
    sequence number [s] the request was sent with; the accepted status
    and the length [reslen] of the token (not 0, at most NFS_MAXPACKET)
    have been read from the reply behind the verifier; the token is
    what gss_normalize_mbuf splits off at the position behind the length
    word; the mechanism has unwrapped that token, with minor status 0;
    the word at the head of the plain text is [s]; and the chain is left
    behind that word in the plain text. *)
Theorem verf_get_privacy_binds_reply {chain : Type} `{G : gss_krb5} `{nfsm_subs chain}
    (kalloc_ok : bool) (cp : nfs_gss_clnt_ctx) (seqlist : list Z) (nmc : chain)
    (verflen : Z) :
  unwrap_failure_has_minor G ->
  has_flag (gss_clnt_flags cp) GSS_CTX_COMPLETE = true ->
  gss_clnt_service cp = RPCSEC_GSS_SVC_PRIVACY ->
  let r := nfs_gss_clnt_verf_get kalloc_ok (Some cp) seqlist nmc RPCSEC_GSS verflen in
  let ctx_id := default 0 (gss_clnt_ctx_id cp) in
  vg_error r = E0 -> vg_accepted_status r = RPC_SUCCESS ->
  exists s cksum nmc0 nmcs nmc1 reslen token rest results,
    nfsm_chain_get_opaque nmc verflen = (E0, nmc0, cksum) /\
    s ∈ seqlist /\
    fst (gss_krb5_verify_mic ctx_id (txdr_unsigned s) cksum) = GSS_S_COMPLETE /\
    nfsm_chain_get_32 nmc0 = (E0, nmcs, RPC_SUCCESS) /\
    nfsm_chain_get_32 nmcs = (E0, nmc1, reslen) /\
    0 <> reslen /\ reslen <= NFS_MAXPACKET /\
    gss_normalize_mbuf nmc1 reslen = (E0, token, rest) /\
    gss_krb5_unwrap_mbuf ctx_id token = (0, E0, results) /\
    nfsm_chain_get_32 (nfsm_chain_splice results rest) = (E0, vg_nmc r, s).
Proof.
  intros Hlaw Hc Hsvc r ctx_id. subst r. unfold nfs_gss_clnt_verf_get.
  change (RPCSEC_GSS =? RPCSEC_GSS) with true. cbv beta iota. simpl negb. cbv iota.
  rewrite Hc. simpl negb. cbv iota.
  destruct (KRB5_MAX_MIC_SIZE <? verflen) eqn:Hlen; [discriminate|].
  fold ctx_id.
  destruct (chain_get_opaque E0 nmc verflen (List.repeat x00 (Z.to_nat verflen)))
    as [[error nmc0] cksum] eqn:Hget.
  destruct (is_error error) eqn:Herr.
  { cbn. intros ->. discriminate. }
  destruct (chain_get_opaque_ok _ _ _ _ _ _ Hget Herr) as [-> Hget0].
  pose proof (verf_get_search_spec ctx_id cksum seqlist []) as Hsearch.
  destruct (verf_get_search ctx_id cksum seqlist []) as [[s|] calls]; [|discriminate].
  destruct Hsearch as (Hin & Hok & _).
  destruct (chain_get_32 E0 nmc0 0) as [[e1 nmcs] status] eqn:Hst.
  destruct (negb (status =? RPC_SUCCESS)) eqn:Hs.
  { cbn. intros _ ->. discriminate. }
  apply negb_false_iff, Z.eqb_eq in Hs. subst status.
  rewrite Hsvc.
  destruct (chain_get_32 e1 nmcs 0) as [[e2 nmc1] reslen] eqn:Hres.
  destruct ((reslen =? 0) || (NFS_MAXPACKET <? reslen)) eqn:Hrl; [discriminate|].
  apply orb_false_iff in Hrl as [Hr0 Hmax].
  apply Z.eqb_neq in Hr0. apply Z.ltb_ge in Hmax.
  destruct (chain_get_32_read _ _ _ _ _ _ Hres Hr0) as (-> & -> & Hres0).
  destruct (chain_get_32_E0 _ _ _ _ _ Hst) as [_ Hst0].
  destruct (gss_normalize_mbuf nmc1 reslen) as [[error4 token] rest] eqn:Hnorm.
  destruct (is_error error4) eqn:He4.
  { cbn. intros ->. discriminate. }
  apply is_error_false in He4. subst error4.
  destruct (gss_krb5_unwrap_mbuf ctx_id token) as [[major minor] results] eqn:Hun.
  destruct (negb (major =? 0)) eqn:Hmaj.
  { cbn [vg_error]. intros -> _. exfalso.
    apply negb_true_iff, Z.eqb_neq in Hmaj. exact (Hlaw _ _ _ _ _ Hun Hmaj eq_refl). }
  apply negb_false_iff, Z.eqb_eq in Hmaj. subst major.
  destruct (chain_get_32 minor (nfsm_chain_splice results rest) 0)
    as [[error7 nmc7] seqnum] eqn:Hseq.
  destruct (negb (s =? seqnum)) eqn:Hsq; [discriminate|].
  apply negb_false_iff, Z.eqb_eq in Hsq. subst seqnum.
  cbn [vg_error vg_nmc]. intros -> _.
  destruct (chain_get_32_E0 _ _ _ _ _ Hseq) as [-> Hseq0].
  exists s, cksum, nmc0, nmcs, nmc1, reslen, token, rest, results.
  split; [exact Hget0|]. split; [exact Hin|]. split; [exact Hok|].
  split; [exact Hst0|]. split; [exact Hres0|]. split; [lia|]. split; [exact Hmax|].
  split; [exact Hnorm|]. split; [exact Hun|exact Hseq0].
Qed.

(** X19 on a reply to request 1003 under privacy: verifier, accepted
    status and a token of eight bytes that unwraps to 1003 and three
    bytes of results. *)
Lemma verf_get_privacy_binds_reply_witness :
  let reply := txdr_unsigned 4 ++ txdr_unsigned RPC_SUCCESS ++ txdr_unsigned 8
               ++ x01 :: txdr_unsigned 1003 ++ [x0a; x0b; x0c] in
  let r := @nfs_gss_clnt_verf_get _ toy_krb5 stream_chain true
             (Some (with_service RPCSEC_GSS_SVC_PRIVACY sample_complete_ctx))
             [1003] reply RPCSEC_GSS 4 in
  vg_error r = E0 /\ vg_nmc r = [x0a; x0b; x0c] /\
  exists s token rest results,
    s ∈ [1003] /\
    @gss_krb5_unwrap_mbuf toy_krb5 7 token = (0, E0, results) /\
    @nfsm_chain_get_32 _ stream_chain (@nfsm_chain_splice _ stream_chain results rest)
      = (E0, vg_nmc r, s).
Proof.
  intros reply r. split; [reflexivity|]. split; [reflexivity|].
  destruct (@verf_get_privacy_binds_reply _ toy_krb5 stream_chain true
              (with_service RPCSEC_GSS_SVC_PRIVACY sample_complete_ctx)
              [1003] reply 4 toy_unwrap_failure_has_minor eq_refl eq_refl eq_refl eq_refl)
    as (s & cksum & nmc0 & nmcs & nmc1 & reslen & token & rest & results & _ & Hin & _ & _
        & _ & _ & _ & _ & Hun & Hget).
  exists s, token, rest, results.
  split; [exact Hin|]. split; [exact Hun|exact Hget].
Defined.

(** Without that property of the mechanism the hypothesis of X19 cannot
    be dropped: line 1200 returns the minor status of a failed unwrap,
    and a mechanism that fails with minor status 0 makes the call return
    0 with the chain still at the wrapped token. *)
Example verf_get_privacy_returns_minor_of_failed_unwrap :
  let reply := txdr_unsigned 4 ++ txdr_unsigned RPC_SUCCESS ++ txdr_unsigned 8
               ++ x01 :: txdr_unsigned 1003 ++ [x0a; x0b; x0c] in
  let r := @nfs_gss_clnt_verf_get _ silent_krb5 stream_chain true
             (Some (with_service RPCSEC_GSS_SVC_PRIVACY sample_complete_ctx))
             [1003] reply RPCSEC_GSS 4 in
  vg_error r = E0 /\ vg_accepted_status r = RPC_SUCCESS /\
  vg_nmc r = x01 :: txdr_unsigned 1003 ++ [x0a; x0b; x0c].
Proof. vm_compute. repeat split. Qed.

(** ** The superuser without a context *)

Lemma find_root_steal_first (pre rest : list addr) (a : addr) (cp : nfs_gss_clnt_ctx)
    (k : kernel) :
  (forall b, b ∈ pre ->
     exists c, k_heap k !! b = Some c /\
               (has_flag (gss_clnt_flags c) GSS_CTX_INVAL = true \/
                has_flag (gss_clnt_flags c) GSS_CTX_DESTROY = true)) ->
  k_heap k !! a = Some cp ->
  has_flag (gss_clnt_flags cp) GSS_CTX_INVAL = false ->
  has_flag (gss_clnt_flags cp) GSS_CTX_DESTROY = false ->
  find_root_steal (pre ++ a :: rest) k = KOk (Some a).
Proof.
  intros Hpre Ha Hi Hd. induction pre as [|b pre IH].
  - cbn [app find_root_steal]. rewrite Ha.
    pose proof (land_lor_test (gss_clnt_flags cp) GSS_CTX_INVAL GSS_CTX_DESTROY) as Ht.
    rewrite Hi, Hd in Ht. apply negb_false_iff in Ht. rewrite Ht. reflexivity.
  - destruct (Hpre b ltac:(left)) as (c & Hb & Hc).
    cbn [app find_root_steal]. rewrite Hb.
    pose proof (land_lor_test (gss_clnt_flags c) GSS_CTX_INVAL GSS_CTX_DESTROY) as Ht.
    replace (has_flag (gss_clnt_flags c) GSS_CTX_INVAL
             || has_flag (gss_clnt_flags c) GSS_CTX_DESTROY) with true in Ht
      by (destruct Hc as [-> | ->]; now rewrite ?orb_true_r).
    apply negb_true_iff in Ht. rewrite Ht. apply IH.
    intros b' Hb'. apply Hpre. now right.
Qed.

(** X20.  With nfs_root_steals_ctx set, a request of the superuser (uid
    0, no principal asked for) whose audit session has no context on the
    mount is given the first context on the list that is neither INVALID
    nor marked for destruction: a context of another session.  The call
    returns 0, the reference count of that context goes up by one, the
    list is as it was, and nothing is allocated or set up. *)
Theorem find_principal_root_steals_first_valid `{gss_limits} (init_retry : init_retry_fn)
    (req : nfsreq) (k : kernel) (pre rest : list addr) (a : addr)
    (cp : nfs_gss_clnt_ctx) :
  r_nmp req = true -> cr_uid (r_cred req) = 0 ->
  nm_gsscl (k_nmp k) = pre ++ a :: rest ->
  (forall b, b ∈ nm_gsscl (k_nmp k) ->
     exists c, k_heap k !! b = Some c /\ find_passes_over req c) ->
  (forall b, b ∈ pre ->
     exists c, k_heap k !! b = Some c /\
               (has_flag (gss_clnt_flags c) GSS_CTX_INVAL = true \/
                has_flag (gss_clnt_flags c) GSS_CTX_DESTROY = true)) ->
  k_heap k !! a = Some cp ->
  has_flag (gss_clnt_flags cp) GSS_CTX_INVAL = false ->
  has_flag (gss_clnt_flags cp) GSS_CTX_DESTROY = false ->
  gss_clnt_refcnt cp < INT32_MAX -> 0 <= gss_clnt_refcnt cp ->
  exists k' evs,
    nfs_gss_clnt_ctx_find_principal init_retry true req None 0 k
      = Some (KOk (E0, with_r_gss_ctx (Some a) req, k')) /\
    nfs_gss_clnt_ctx_cred_match (gss_clnt_cred cp) (r_cred req) = false /\
    k_heap k' = <[a := with_refcnt (gss_clnt_refcnt cp + 1) cp]> (k_heap k) /\
    k_nmp k' = k_nmp k /\ k_next k' = k_next k /\
    k_trace k' = evs ++ k_trace k /\
    Forall (fun ev => mutex_event ev = true \/ ev = EvRefcnt a (gss_clnt_refcnt cp + 1)) evs.
Proof.
  intros Hnmp Huid Hlist Hover Hpre Ha Hi Hd Hmax Hmin. unfold INT32_MAX in Hmax.
  assert (Hmatch : nfs_gss_clnt_ctx_cred_match (gss_clnt_cred cp) (r_cred req) = false).
  { destruct (Hover a) as (c & Hc & [Hcd|Hcm]).
    - rewrite Hlist. apply elem_of_app. right. left.
    - rewrite Ha in Hc. injection Hc as <-. congruence.
    - rewrite Ha in Hc. injection Hc as <-. exact Hcm. }
  unfold nfs_gss_clnt_ctx_find_principal. rewrite Hnmp. cbn [negb].
  assert (Hq0 : k_quiet k (k_log EvLockMount k)).
  { apply k_quiet_log; [reflexivity|apply k_quiet_refl]. }
  cbn [k_log k_nmp].
  destruct (find_principal_walk_skip req None 0 (nm_gsscl (k_nmp k)) [] k _ Hq0 Hover)
    as (k1 & Hwalk & (Hh1 & Hn1 & Ht1 & Hx1 & evs1 & Htr1 & Hall1)).
  rewrite app_nil_r in Hwalk. rewrite Hwalk. cbn [find_principal_walk].
  rewrite Huid. rewrite !bool_decide_eq_true_2 by reflexivity.
  change (0 =? 0) with true. cbn [andb]. rewrite Hn1, Hlist.
  rewrite (find_root_steal_first pre rest a cp k1); try assumption.
  2:{ intros b Hb. rewrite Hh1. now apply Hpre. }
  2:{ now rewrite Hh1. }
  unfold nfs_gss_clnt_ctx_ref. rewrite Hh1, Ha. rewrite s32_small by lia.
  eexists _, ([EvUnlockMount; EvUnlock a; EvRefcnt a (gss_clnt_refcnt cp + 1); EvLock a]
              ++ evs1).
  split; [reflexivity|]. split; [exact Hmatch|].
  cbn [k_log k_put k_heap k_nmp k_next k_trace].
  split; [now rewrite Hh1|]. split; [exact Hn1|]. split; [exact Hx1|].
  split; [now rewrite Htr1|].
  apply Forall_app. split.
  - constructor; [left; reflexivity|]. constructor; [left; reflexivity|].
    constructor; [right; reflexivity|]. constructor; [left; reflexivity|].
    constructor.
  - eapply Forall_impl; [exact Hall1|]. intros ev Hev. now left.
Qed.

(** X20 on the sample registry: the superuser in session 300 is given
    the context of session 200 at 11. *)
Lemma find_principal_root_steals_first_valid_witness :
  exists k',
    @nfs_gss_clnt_ctx_find_principal sample_limits (fun _ _ => None) true
       (mk_req true (mk_cred 300 0 0) 9 None) None 0 (sample_registry 102)
      = Some (KOk (E0, mk_req true (mk_cred 300 0 0) 9 (Some 11), k')) /\
    (gss_clnt_refcnt <$> k_heap k' !! 11) = Some 2 /\
    (gss_clnt_cred <$> k_heap k' !! 11) = Some (mk_cred 200 502 502).
Proof.
  destruct (@find_principal_root_steals_first_valid sample_limits (fun _ _ => None)
              (mk_req true (mk_cred 300 0 0) 9 None) (sample_registry 102) [] [12] 11
              (with_cred (mk_cred 200 502 502) sample_complete_ctx))
    as (k' & evs & Hrun & _ & Hheap & _).
  - reflexivity.
  - reflexivity.
  - reflexivity.
  - intros b Hb. apply list_elem_of_In in Hb. simpl in Hb.
    destruct Hb as [<-|[<-|[]]]; (eexists; split; [reflexivity|]; right; reflexivity).
  - intros b Hb. inversion Hb.
  - reflexivity.
  - reflexivity.
  - reflexivity.
  - vm_compute. reflexivity.
  - vm_compute. discriminate.
  - exists k'. split; [exact Hrun|]. rewrite Hheap, lookup_insert_eq.
    split; reflexivity.
Defined.

(** ** An expired entry of the negative cache *)

Lemma with_nm_gsscl_eta (nmp : nfsmount) : with_nm_gsscl (nm_gsscl nmp) nmp = nmp.
Proof. destruct nmp. reflexivity. Qed.

Lemma with_nm_gsscl_twice (l1 l2 : list addr) (nmp : nfsmount) :
  with_nm_gsscl l2 (with_nm_gsscl l1 nmp) = with_nm_gsscl l2 nmp.
Proof. destruct nmp. reflexivity. Qed.

Lemma with_nm_gsscl_ncentries (l : list addr) (n : Z) (nmp : nfsmount) :
  with_nm_gsscl l (with_nm_ncentries n nmp) = with_nm_ncentries n (with_nm_gsscl l nmp).
Proof. destruct nmp. reflexivity. Qed.

Lemma with_nm_gsscl_over (l1 l2 : list addr) (n : Z) (nmp : nfsmount) :
  with_nm_gsscl l2 (with_nm_ncentries n (with_nm_gsscl l1 nmp))
  = with_nm_gsscl l2 (with_nm_ncentries n nmp).
Proof. destruct nmp. reflexivity. Qed.

Lemma tailq_remove_head (a : addr) (l : list addr) :
  tailq_remove a (a :: l) = tailq_remove a l.
Proof. unfold tailq_remove. now rewrite filter_cons_False by auto. Qed.

(** The list after a context found in the middle of it has been moved
    to the head (lines 608-611). *)
Lemma move_to_head_nmp (a : addr) (pre rest : list addr) (k1 : kernel) :
  nm_gsscl (k_nmp k1) = pre ++ a :: rest -> NoDup (nm_gsscl (k_nmp k1)) ->
  k_nmp (if bool_decide (head (nm_gsscl (k_nmp k1)) = Some a) then k1
         else k_mount (with_nm_gsscl
                         (tailq_insert_head a (tailq_remove a (nm_gsscl (k_nmp k1))))
                         (k_nmp k1)) k1)
  = with_nm_gsscl (a :: pre ++ rest) (k_nmp k1).
Proof.
  intros Hlist Hnd. case_bool_decide as Hhead.
  - rewrite Hlist in Hhead. destruct pre as [|b pre].
    + cbn [app]. rewrite <- (with_nm_gsscl_eta (k_nmp k1)) at 1. now rewrite Hlist.
    + exfalso. injection Hhead as ->. rewrite Hlist in Hnd.
      apply NoDup_cons in Hnd as [Hna _]. apply Hna. apply elem_of_app. right. left.
  - cbn [k_mount k_nmp]. unfold tailq_insert_head. rewrite Hlist at 1.
    rewrite tailq_remove_middle by (now rewrite <- Hlist). reflexivity.
Qed.

(** X21.  Let the first context on the list that the lookup does not
    pass over be an INVALID one without references whose time in the
    negative cache is over.  Then it is used again, in place: it is
    taken off the negative cache (the count, a uint32_t, one lower, from
    0 wrapping to 4294967295), cleaned, given to the calling thread with
    one reference, put at the head of the list and handed to the setup;
    nothing is allocated.  When the setup succeeds the call returns 0
    with the request holding the context. *)
Theorem find_principal_reuses_expired_entry `{gss_limits} (init_retry : init_retry_fn)
    (nfs_root_steals_ctx : bool) (req : nfsreq) (k : kernel) (pre rest : list addr)
    (a : addr) (cp c1 : nfs_gss_clnt_ctx) (nmp1 : nfsmount) :
  let c0 := with_refcnt 1 (with_thread (Some (r_thread req)) (nfs_gss_clnt_ctx_clean cp)) in
  let nmp0 := with_nm_gsscl (a :: pre ++ rest)
                (with_nm_ncentries (u32 (nm_ncentries (k_nmp k) - 1)) (k_nmp k)) in
  r_nmp req = true ->
  nm_gsscl (k_nmp k) = pre ++ a :: rest ->
  NoDup (nm_gsscl (k_nmp k)) ->
  (forall b, b ∈ pre -> exists c, k_heap k !! b = Some c /\ find_passes_over req c) ->
  k_heap k !! a = Some cp ->
  has_flag (gss_clnt_flags cp) GSS_CTX_DESTROY = false ->
  nfs_gss_clnt_ctx_cred_match (gss_clnt_cred cp) (r_cred req) = true ->
  has_flag (gss_clnt_flags cp) GSS_CTX_INVAL = true ->
  gss_clnt_refcnt cp = 0 ->
  gss_clnt_nctime cp <> 0 ->
  gss_clnt_nctime cp + GSS_NEG_CACHE_TO < k_now k ->
  init_retry c0 nmp0 = Some (E0, c1, nmp1) ->
  exists k' evs,
    nfs_gss_clnt_ctx_find_principal init_retry nfs_root_steals_ctx req None 0 k
      = Some (KOk (E0, with_r_gss_ctx (Some a) req, k')) /\
    k_heap k' = <[a := c1]> (k_heap k) /\
    k_nmp k' = nmp1 /\
    k_next k' = k_next k /\
    k_trace k' = evs ++ k_trace k /\
    In (EvInit a) evs /\ ctx_freed evs = [] /\ krb5_destroyed evs = [].
Proof.
  intros c0 nmp0 Hnmp Hlist Hnd Hpre Ha Hdestroy Hmatch Hinval Hcnt Hnct Hexp Hinit.
  unfold nfs_gss_clnt_ctx_find_principal. rewrite Hnmp. cbn [negb].
  cbn [k_log k_nmp]. rewrite Hlist.
  destruct (find_principal_walk_skip req None 0 pre (a :: rest) k
              (k_log EvLockMount k))
    as (k1 & -> & Hh & Hn & Ht & Hx & evs1 & Htr & Hall).
  { apply k_quiet_log; [reflexivity|apply k_quiet_refl]. }
  { exact Hpre. }
  cbn [find_principal_walk]. rewrite Hh, Ha, Hdestroy, Hmatch, Hinval, Hcnt.
  change (0 =? 0) with true. cbn [negb].
  replace (gss_clnt_nctime cp =? 0) with false by (symmetry; now apply Z.eqb_neq).
  match goal with
  | |- context [if bool_decide (head ?l = Some a) then ?K else ?K'] =>
      set (KA := if bool_decide (head l = Some a) then K else K')
  end.
  assert (HhA : k_heap KA = k_heap k).
  { subst KA. case_bool_decide; cbn [k_log k_mount k_heap]; exact Hh. }
  assert (HnA : k_nmp KA = with_nm_gsscl (a :: pre ++ rest) (k_nmp k)).
  { subst KA. rewrite <- Hn.
    apply (move_to_head_nmp a pre rest (k_log (EvLock a) k1)); cbn [k_log k_nmp];
      rewrite Hn; assumption. }
  assert (HtA : k_now KA = k_now k).
  { subst KA. case_bool_decide; cbn [k_log k_mount k_now]; exact Ht. }
  assert (HxA : k_next KA = k_next k).
  { subst KA. case_bool_decide; cbn [k_log k_mount k_next]; exact Hx. }
  assert (HtrA : k_trace KA = EvLock a :: evs1 ++ k_trace k).
  { subst KA. case_bool_decide; cbn [k_log k_mount k_trace]; now rewrite Htr. }
  clearbody KA.
  replace (k_now KA <=? gss_clnt_nctime cp + GSS_NEG_CACHE_TO) with false
    by (symmetry; apply Z.leb_gt; lia).
  cbn [orb]. rewrite !bool_decide_eq_false_2 by discriminate. cbn [andb].
  match goal with
  | |- context [find_principal_setup _ _ _ _ _ _ ?K] => set (K5 := K)
  end.
  assert (Hh5 : k_heap K5 = k_heap k) by exact HhA.
  assert (Hn5 : k_nmp K5 = with_nm_gsscl (pre ++ rest)
                             (with_nm_ncentries (u32 (nm_ncentries (k_nmp k) - 1)) (k_nmp k))).
  { subst K5. cbn [k_log k_mount k_nmp]. rewrite HnA.
    cbn [nm_gsscl nm_ncentries with_nm_ncentries with_nm_gsscl].
    rewrite tailq_remove_head, tailq_remove_notin.
    - destruct (k_nmp k). reflexivity.
    - rewrite Hlist in Hnd. apply NoDup_app in Hnd as (Hnd1 & Hnd2 & Hnd3).
      apply NoDup_cons in Hnd3 as [Hnd3 _]. intros Hin.
      apply elem_of_app in Hin as [Hin|Hin]; [|contradiction].
      apply (Hnd2 a Hin). left. }
  assert (Ht5 : k_now K5 = k_now k) by exact HtA.
  assert (Hx5 : k_next K5 = k_next k) by exact HxA.
  assert (Htr5 : k_trace K5 = EvUnlock a :: EvLock a :: evs1 ++ k_trace k).
  { subst K5. cbn [k_log k_mount k_trace]. now rewrite HtrA. }
  clearbody K5.
  unfold find_principal_setup. rewrite Hh5, Ha.
  cbn [k_put k_heap]. rewrite lookup_insert_eq.
  unfold nfs_gss_clnt_ctx_ref. cbn [k_put k_heap]. rewrite lookup_insert_eq.
  assert (Hv : s32 (gss_clnt_refcnt (with_thread (Some (r_thread req))
                                                  (nfs_gss_clnt_ctx_clean cp)) + 1) = 1).
  { unfold nfs_gss_clnt_ctx_clean. ctx_simpl. now rewrite Hcnt. }
  rewrite Hv.
  cbn [k_log k_put k_mount k_heap k_nmp]. rewrite lookup_insert_eq.
  unfold tailq_insert_head. rewrite Hn5.
  replace (with_refcnt 1 (with_thread (Some (r_thread req)) (nfs_gss_clnt_ctx_clean cp)))
    with c0 by reflexivity.
  assert (Hnmp0 : with_nm_gsscl
                    (a :: nm_gsscl
                            (with_nm_gsscl (pre ++ rest)
                               (with_nm_ncentries (u32 (nm_ncentries (k_nmp k) - 1)) (k_nmp k))))
                    (with_nm_gsscl (pre ++ rest)
                       (with_nm_ncentries (u32 (nm_ncentries (k_nmp k) - 1)) (k_nmp k)))
                  = nmp0).
  { subst nmp0. cbn [nm_gsscl with_nm_gsscl]. apply with_nm_gsscl_twice. }
  rewrite Hnmp0.
  rewrite Hinit. change (is_error E0) with false. cbv iota.
  unfold nfs_gss_clnt_ctx_unref. cbn [r_gss_ctx with_r_gss_ctx].
  eexists _, ([EvInit a; EvUnlockMount; EvUnlock a; EvRefcnt a 1; EvLock a; EvUnlock a;
               EvLock a] ++ evs1).
  split; [reflexivity|].
  cbn [k_log k_put k_mount k_heap k_nmp k_next k_trace].
  split; [rewrite !insert_insert_eq, Hh5; reflexivity|].
  split; [reflexivity|]. split; [exact Hx5|].
  split; [now rewrite Htr5|].
  split; [left; reflexivity|].
  destruct (mutex_events_release_nothing evs1 Hall) as [Hk1 Hf1].
  rewrite ctx_freed_app, krb5_destroyed_app, Hk1, Hf1. split; reflexivity.
Qed.

(** X21 on the sample registry at uptime 110: the entry of session 100
    at 12, in the negative cache since 100, is set up again in place. *)
Lemma find_principal_reuses_expired_entry_witness :
  exists k',
    @nfs_gss_clnt_ctx_find_principal sample_limits
       (fun c nmp => Some (E0, with_flags GSS_CTX_COMPLETE (with_thread None c), nmp))
       false sample_req None 0 (sample_registry 110)
      = Some (KOk (E0, mk_req true (mk_cred 100 501 501) 9 (Some 12), k')) /\
    (gss_clnt_flags <$> k_heap k' !! 12) = Some GSS_CTX_COMPLETE /\
    nm_gsscl (k_nmp k') = [12; 11] /\
    nm_ncentries (k_nmp k') = 0 /\
    k_next k' = 13.
Proof.
  destruct (@find_principal_reuses_expired_entry sample_limits
              (fun c nmp => Some (E0, with_flags GSS_CTX_COMPLETE (with_thread None c), nmp))
              false sample_req (sample_registry 110) [11] [] 12 (inval_ctx 100 100 0)
              (with_flags GSS_CTX_COMPLETE
                 (with_thread None
                    (with_refcnt 1
                       (with_thread (Some 9)
                          (nfs_gss_clnt_ctx_clean (inval_ctx 100 100 0))))))
              (with_nm_gsscl [12; 11]
                 (with_nm_ncentries 0 (k_nmp (sample_registry 110)))))
    as (k' & evs & Hrun & Hheap & Hnmp & Hnext & _).
  - reflexivity.
  - reflexivity.
  - exact (proj1 (sample_registry_linked 110)).
  - intros b Hb. apply list_elem_of_In in Hb. simpl in Hb. destruct Hb as [<-|[]].
    eexists. split; [reflexivity|]. right. reflexivity.
  - reflexivity.
  - reflexivity.
  - reflexivity.
  - reflexivity.
  - reflexivity.
  - vm_compute. discriminate.
  - vm_compute. reflexivity.
  - reflexivity.
  - exists k'. split; [exact Hrun|]. rewrite Hheap, Hnmp, lookup_insert_eq.
    split; [reflexivity|]. split; [reflexivity|]. split; [reflexivity|exact Hnext].
Defined.

(** ** Unmounting *)

Lemma tailq_remove_NoDup (a : addr) (l : list addr) : NoDup l -> NoDup (tailq_remove a l).
Proof. unfold tailq_remove. apply NoDup_filter. Qed.

Lemma reap_walk_NoDup `{gss_limits} (todo : list addr) :
  forall k k', neg_cache_reap_walk todo k = KOk k' ->
               NoDup (nm_gsscl (k_nmp k)) -> NoDup (nm_gsscl (k_nmp k')).
Proof.
  induction todo as [|a rest IH]; intros k k' Hrun Hnd.
  - injection Hrun as <-. exact Hnd.
  - cbn [neg_cache_reap_walk] in Hrun.
    destruct (k_heap k !! a) as [cp|]; [|discriminate Hrun].
    destruct (has_flag (gss_clnt_flags cp) GSS_CTX_STICKY
              || negb (has_flag (gss_clnt_flags cp) GSS_CTX_INVAL)).
    { exact (IH _ _ Hrun Hnd). }
    destruct (nm_ncentries (k_nmp k) <=? GSS_MAX_NEG_CACHE_ENTRIES).
    { injection Hrun as <-. exact Hnd. }
    destruct (k_now k <=? gss_clnt_nctime cp + GSS_NEG_CACHE_TO).
    { exact (IH _ _ Hrun Hnd). }
    destruct (gss_clnt_refcnt cp =? 0).
    + apply (IH _ _ Hrun). unfold nfs_gss_clnt_ctx_destroy.
      cbn [k_heap k_mount k_log k_put]. rewrite lookup_insert_eq.
      destruct (gss_clnt_ctx_id _); cbn [k_free k_log k_nmp with_nm_ncentries nm_gsscl
                                         with_nm_gsscl k_mount k_put];
        now apply tailq_remove_NoDup.
    + exact (IH _ _ Hrun Hnd).
Qed.

Lemma reap_post_log `{gss_limits} (todo : list addr) (k k' : kernel) (ev : kevent) :
  refcnt_event ev = false -> reap_post todo k k' -> reap_post todo k (k_log ev k').
Proof.
  intros Hev (Hnow & (evs & Hevs & Hall) & Hl & Hsub & Hd).
  split; [exact Hnow|]. split.
  { exists (ev :: evs). cbn [k_log k_trace]. rewrite Hevs. split; [reflexivity|].
    constructor; assumption. }
  split; [exact Hl|]. split; [exact Hsub|exact Hd].
Qed.

(** A reference that is not the last, on any mount: the context stays
    with one reference less, and what else happens is a run of the
    reaper. *)
Lemma unref_not_last_reap `{gss_limits} (req : nfsreq) (a : addr)
    (cp : nfs_gss_clnt_ctx) (k : kernel) :
  r_gss_ctx req = Some a -> r_nmp req = true -> k_heap k !! a = Some cp ->
  2 <= gss_clnt_refcnt cp <= INT32_MAX ->
  registry_linked k ->
  exists K k' cp',
    nfs_gss_clnt_ctx_unref req k = KOk (with_r_gss_ctx None req, k') /\
    k_heap K = <[a := cp']> (k_heap k) /\
    gss_clnt_refcnt cp' = gss_clnt_refcnt cp - 1 /\
    gss_clnt_flags cp' = gss_clnt_flags cp /\
    gss_clnt_cred cp' = gss_clnt_cred cp /\
    nm_gsscl (k_nmp K) = nm_gsscl (k_nmp k) /\ k_now K = k_now k /\
    reap_post (nm_gsscl (k_nmp k)) K k' /\
    NoDup (nm_gsscl (k_nmp k')).
Proof.
  intros Hreq Hnmp Ha Hcnt [Hnd Hin]. unfold INT32_MAX in Hcnt.
  unfold nfs_gss_clnt_ctx_unref. rewrite Hreq, Ha.
  rewrite s32_small by lia.
  replace (gss_clnt_refcnt cp - 1 <? 0) with false by (symmetry; apply Z.ltb_ge; lia).
  cbv iota zeta. unfold unref_locked. ctx_simpl.
  replace (gss_clnt_refcnt cp - 1 =? 0) with false by (symmetry; apply Z.eqb_neq; lia).
  cbn [andb negb]. ctx_simpl. cbn [up_krb5 up_cp up_destroy up_neg_cache].
  unfold unref_unlocked. cbn [up_destroy up_neg_cache r_nmp with_r_gss_ctx].
  rewrite Hnmp.
  destruct ((gss_clnt_nctime cp =? 0) && has_flag (gss_clnt_flags cp) GSS_CTX_INVAL).
  - unfold nfs_gss_clnt_ctx_neg_cache_reap.
    match goal with
    | |- context [neg_cache_reap_walk ?l ?K] => set (K1 := K)
    end.
    assert (Hl1 : nm_gsscl (k_nmp K1) = nm_gsscl (k_nmp k)) by reflexivity.
    assert (Hh1 : k_heap K1 = <[a := with_nctime (k_now k)
                                       (with_refcnt (gss_clnt_refcnt cp - 1) cp)]>
                                (k_heap k)).
    { subst K1. cbn [k_log k_put k_mount k_heap]. now rewrite insert_insert_eq. }
    destruct (neg_cache_reap_walk_spec (nm_gsscl (k_nmp K1)) K1) as (k2 & Hrun & Hpost).
    { now rewrite Hl1. }
    { intros b Hb. rewrite Hl1 in Hb. rewrite Hh1, lookup_insert.
      case_decide; [eauto|]. now apply Hin. }
    rewrite Hrun. exists K1, (k_log EvUnlockMount k2). eexists.
    split; [reflexivity|]. split; [exact Hh1|].
    ctx_simpl. split; [reflexivity|]. split; [reflexivity|]. split; [reflexivity|].
    split; [exact Hl1|]. split; [reflexivity|].
    split; [rewrite <- Hl1; apply reap_post_log; [reflexivity|exact Hpost]|].
    cbn [k_log k_nmp]. apply (reap_walk_NoDup _ _ _ Hrun). now rewrite Hl1.
  - match goal with
    | |- context [KOk (with_r_gss_ctx None req, ?X)] => exists X, X
    end.
    eexists. split; [reflexivity|].
    split; [cbn [k_log k_put k_heap]; now rewrite insert_insert_eq|].
    ctx_simpl. split; [reflexivity|]. split; [reflexivity|]. split; [reflexivity|].
    split; [reflexivity|]. split; [reflexivity|].
    split; [apply reap_post_refl|exact Hnd].
Qed.

(** One turn of the loop of nfs_gss_clnt_ctx_unmount on a forced
    unmount, at the head [a] of the list. *)
Lemma ctx_unmount_step `{gss_limits} (n : nat) (rq : addr -> kernel -> kernel) (k : kernel)
    (a : addr) (tail : list addr) (cp : nfs_gss_clnt_ctx) :
  nm_gsscl (k_nmp k) = a :: tail -> registry_linked k ->
  k_heap k !! a = Some cp -> 0 <= gss_clnt_refcnt cp < INT32_MAX ->
  exists k4,
    ctx_unmount_loop (Datatypes.S n) true rq k = ctx_unmount_loop n true rq k4 /\
    NoDup (nm_gsscl (k_nmp k4)) /\
    (forall b, b ∈ nm_gsscl (k_nmp k4) -> b ∈ tail) /\
    (forall b, b <> a -> b ∉ tail -> k_heap k4 !! b = k_heap k !! b) /\
    (if has_flag (gss_clnt_flags cp) GSS_CTX_DESTROY then k_heap k4 !! a = Some cp
     else if gss_clnt_refcnt cp =? 0 then k_heap k4 !! a = None
     else exists cp',
            k_heap k4 !! a = Some cp' /\
            gss_clnt_refcnt cp' = gss_clnt_refcnt cp /\
            gss_clnt_cred cp' = gss_clnt_cred cp /\
            has_flag (gss_clnt_flags cp') GSS_CTX_INVAL = true /\
            has_flag (gss_clnt_flags cp') GSS_CTX_DESTROY = true) /\
    (forall b c, b ∈ tail -> k_heap k !! b = Some c ->
       (k_heap k4 !! b = Some c /\ b ∈ nm_gsscl (k_nmp k4)) \/
       (k_heap k4 !! b = None /\ (b ∉ nm_gsscl (k_nmp k4)) /\ gss_clnt_refcnt c = 0)).
Proof.
  intros Hlist [Hnd Hin] Ha Hcnt. unfold INT32_MAX in Hcnt.
  rewrite Hlist in Hnd. apply NoDup_cons in Hnd as [Hna Hnd].
  assert (Htail : tailq_remove a (a :: tail) = tail).
  { rewrite tailq_remove_head. now apply tailq_remove_notin. }
  cbn [ctx_unmount_loop]. rewrite Hlist, Htail. cbn [k_mount k_heap]. rewrite Ha.
  destruct (has_flag (gss_clnt_flags cp) GSS_CTX_DESTROY) eqn:Hd.
  - eexists. split; [reflexivity|]. cbn [k_log k_mount k_nmp k_heap nm_gsscl with_nm_gsscl].
    split; [exact Hnd|]. split; [auto|]. split; [reflexivity|]. split; [exact Ha|].
    intros b c Hb Hc. left. split; assumption.
  - rewrite s32_small by lia. cbn [negb andb].
    set (cp1 := with_refcnt (gss_clnt_refcnt cp + 1) cp).
    cbn [k_log k_put k_heap]. rewrite lookup_insert_eq.
    set (cp2 := with_flags (set_flag (gss_clnt_flags cp1)
                                     (Z.lor GSS_CTX_INVAL GSS_CTX_DESTROY)) cp1).
    match goal with
    | |- context [nfs_gss_clnt_ctx_unref ?r ?K] => set (K2 := K)
    end.
    assert (HhK2 : k_heap K2 = <[a := cp2]> (k_heap k)).
    { subst K2. cbn [k_log k_put k_mount k_heap]. now rewrite insert_insert_eq. }
    assert (HlK2 : nm_gsscl (k_nmp K2) = tail) by reflexivity.
    assert (Hi2 : has_flag (gss_clnt_flags cp2) GSS_CTX_INVAL = true)
      by apply has_flag_marked_inval.
    assert (Hd2 : has_flag (gss_clnt_flags cp2) GSS_CTX_DESTROY = true)
      by apply has_flag_marked_destroy.
    assert (HaK2 : k_heap K2 !! a = Some cp2) by (rewrite HhK2; apply lookup_insert_eq).
    destruct (gss_clnt_refcnt cp =? 0) eqn:Hz.
    + apply Z.eqb_eq in Hz.
      destruct (unref_last_destroy_aux (mk_req true zero_cred 0 (Some a)) a cp2 K2)
        as (k3 & evs & Hun & Hh3 & Hl3 & _); try reflexivity; try assumption.
      { subst cp2 cp1. ctx_simpl. lia. }
      rewrite Hun. eexists. split; [reflexivity|]. cbn [k_log k_nmp k_heap].
      rewrite Hl3, HlK2, (tailq_remove_notin a tail Hna), Hh3, HhK2, delete_insert_eq.
      split; [exact Hnd|]. split; [auto|].
      split; [intros b Hb _; now apply lookup_delete_ne|].
      split; [apply lookup_delete_eq|].
      intros b c Hb Hc. left. split; [|exact Hb].
      rewrite lookup_delete_ne by (intros ->; contradiction). exact Hc.
    + apply Z.eqb_neq in Hz.
      destruct (unref_not_last_reap (mk_req true zero_cred 0 (Some a)) a cp2 K2)
        as (K & k3 & cp' & Hun & HhK & Hr' & Hf' & Hc' & HlK & _ & Hpost & Hnd3);
        try reflexivity; try assumption.
      { subst cp2 cp1. ctx_simpl. unfold INT32_MAX. lia. }
      { split; [now rewrite HlK2|]. intros b Hb. rewrite HlK2 in Hb.
        rewrite HhK2, lookup_insert. case_decide; [eauto|].
        apply Hin. rewrite Hlist. now right. }
      rewrite Hun. eexists. split; [reflexivity|]. cbn [k_log k_nmp k_heap].
      destruct Hpost as (_ & _ & Hsub & Hback & Hkeep).
      rewrite HlK, HlK2 in Hsub. rewrite HhK, HhK2, insert_insert_eq in *.
      split; [exact Hnd3|]. split; [exact Hsub|].
      assert (Hexempt : forall c, gss_clnt_refcnt c <> 0 -> reap_exempt (k_now K) c = true).
      { intros c Hc. unfold reap_exempt.
        replace (gss_clnt_refcnt c =? 0) with false by (symmetry; now apply Z.eqb_neq).
        cbn [negb]. now rewrite orb_true_r. }
      split.
      { intros b Hb Hnt. destruct (k_heap k !! b) as [c|] eqn:Hc.
        - destruct (Hkeep b c) as [[Hk _]|(Hbt & _)].
          + rewrite lookup_insert_ne by congruence. exact Hc.
          + exact Hk.
          + rewrite HlK2 in Hbt. contradiction.
        - destruct (k_heap k3 !! b) as [c|] eqn:Hc3; [|reflexivity].
          apply Hback in Hc3. rewrite lookup_insert_ne in Hc3 by congruence.
          congruence. }
      split.
      { exists cp'. destruct (Hkeep a cp') as [[Hk _]|(_ & _ & _ & Hex & _)].
        - apply lookup_insert_eq.
        - split; [exact Hk|]. subst cp2 cp1. ctx_simpl.
          split; [lia|]. split; [exact Hc'|]. rewrite Hf'. split; assumption.
        - rewrite Hexempt in Hex; [discriminate|]. subst cp2 cp1. ctx_simpl. lia. }
      intros b c Hb Hc.
      assert (Hba : b <> a) by (intros ->; contradiction).
      destruct (Hkeep b c) as [[Hk Hl]|(_ & Hn3 & Hl3 & Hex & _)].
      * rewrite lookup_insert_ne by congruence. exact Hc.
      * left. split; [exact Hk|]. apply Hl. now rewrite HlK, HlK2.
      * right. split; [exact Hn3|]. split; [exact Hl3|].
        destruct (Z.eq_dec (gss_clnt_refcnt c) 0) as [Hc0|Hc0]; [exact Hc0|].
        rewrite Hexempt in Hex by exact Hc0. discriminate.
Qed.

Lemma ctx_unmount_loop_spec `{gss_limits} (rq : addr -> kernel -> kernel) :
  forall (n : nat) (k : kernel),
    (length (nm_gsscl (k_nmp k)) < n)%nat ->
    registry_linked k ->
    (forall b c, b ∈ nm_gsscl (k_nmp k) -> k_heap k !! b = Some c ->
                 0 <= gss_clnt_refcnt c < INT32_MAX) ->
    exists k', ctx_unmount_loop n true rq k = Some (KOk k') /\ unmount_post k k'.
Proof.
  induction n as [|n IH]; intros k Hlen Hlinked Hbound; [inversion Hlen|].
  destruct (nm_gsscl (k_nmp k)) as [|a tail] eqn:Hlist.
  - exists (k_log EvUnlockMount k). cbn [ctx_unmount_loop]. rewrite Hlist.
    split; [reflexivity|]. unfold unmount_post. cbn [k_log k_nmp k_heap]. rewrite Hlist.
    split; [reflexivity|]. split; [reflexivity|]. intros b cp Hb. inversion Hb.
  - destruct Hlinked as [Hnd Hin].
    destruct (Hin a) as [cp Ha]; [rewrite Hlist; left|].
    assert (Hcnt : 0 <= gss_clnt_refcnt cp < INT32_MAX).
    { apply (Hbound a cp); [left|exact Ha]. }
    destruct (ctx_unmount_step n rq k a tail cp Hlist (conj Hnd Hin) Ha Hcnt)
      as (k4 & Hstep & Hnd4 & Hsub4 & Hout & Hata & Htl).
    rewrite Hlist in Hnd. apply NoDup_cons in Hnd as [Hna Hndt].
    destruct (IH k4) as (k' & Hrun & Hempty & Hother & Hlisted).
    + cbn [length] in Hlen.
      pose proof (submseteq_length _ _ (NoDup_submseteq _ _ Hnd4 Hsub4)). lia.
    + split; [exact Hnd4|]. intros b Hb.
      destruct (Hin b) as [c Hc]; [rewrite Hlist; right; now apply Hsub4|].
      destruct (Htl b c (Hsub4 b Hb) Hc) as [[Hk _]|(_ & Hn & _)]; [eauto|contradiction].
    + intros b c Hb Hc.
      destruct (Hin b) as [c0 Hc0]; [rewrite Hlist; right; now apply Hsub4|].
      destruct (Htl b c0 (Hsub4 b Hb) Hc0) as [[Hk _]|(_ & Hn & _)]; [|contradiction].
      rewrite Hk in Hc. injection Hc as <-.
      apply (Hbound b c0); [right; now apply Hsub4|exact Hc0].
    + exists k'. split; [now rewrite Hstep|].
      assert (Ha4 : a ∉ nm_gsscl (k_nmp k4)) by (intros Hx; apply Hna; now apply Hsub4).
      split; [exact Hempty|]. split.
      * intros b Hb. rewrite ?Hlist in Hb. apply not_elem_of_cons in Hb as [Hba Hbt].
        rewrite Hother by (intros Hx; apply Hbt; now apply Hsub4).
        now apply Hout.
      * intros b c Hb Hc. rewrite ?Hlist in Hb. apply elem_of_cons in Hb as [->|Hb].
        -- rewrite Ha in Hc. injection Hc as <-. rewrite (Hother a Ha4).
           destruct (has_flag (gss_clnt_flags cp) GSS_CTX_DESTROY); [now left|].
           destruct (gss_clnt_refcnt cp =? 0); exact Hata.
        -- destruct (Htl b c Hb Hc) as [[Hk Hl]|(Hn & Hl & Hz)].
           ++ exact (Hlisted b c Hl Hk).
           ++ rewrite (Hother b Hl), Hn.
              destruct (has_flag (gss_clnt_flags c) GSS_CTX_DESTROY); [right; now split|].
              rewrite Hz. reflexivity.
Qed.

(** X22.  A forced unmount (nfs_mount_gone): on a mount whose list links
    allocated contexts, each once, with reference counts from 0 to below
    INT32_MAX, nfs_gss_clnt_ctx_unmount comes to an end after at most
    one turn of its loop per context and leaves the list empty.  A
    context that was on the list and not marked for destruction is
    released if it had no references; if it had references it stays
    allocated with the same count, marked INVALID and for destruction,
    for its last holder to release.  Contexts that were not on the list
    are as they were. *)
Theorem unmount_empties_list `{gss_limits} (rq : addr -> kernel -> kernel) (k : kernel) :
  registry_linked k ->
  (forall b c, b ∈ nm_gsscl (k_nmp k) -> k_heap k !! b = Some c ->
               0 <= gss_clnt_refcnt c < INT32_MAX) ->
  exists k',
    nfs_gss_clnt_ctx_unmount (Datatypes.S (length (nm_gsscl (k_nmp k)))) true rq true k
      = Some (KOk k') /\
    nm_gsscl (k_nmp k') = [] /\
    (forall b, b ∉ nm_gsscl (k_nmp k) -> k_heap k' !! b = k_heap k !! b) /\
    (forall b cp, b ∈ nm_gsscl (k_nmp k) -> k_heap k !! b = Some cp ->
       has_flag (gss_clnt_flags cp) GSS_CTX_DESTROY = false ->
       if gss_clnt_refcnt cp =? 0 then k_heap k' !! b = None
       else exists cp',
              k_heap k' !! b = Some cp' /\
              gss_clnt_refcnt cp' = gss_clnt_refcnt cp /\
              gss_clnt_cred cp' = gss_clnt_cred cp /\
              has_flag (gss_clnt_flags cp') GSS_CTX_INVAL = true /\
              has_flag (gss_clnt_flags cp') GSS_CTX_DESTROY = true).
Proof.
  intros Hlinked Hbound. unfold nfs_gss_clnt_ctx_unmount. cbn [negb].
  destruct (ctx_unmount_loop_spec rq (Datatypes.S (length (nm_gsscl (k_nmp k))))
              (k_log EvLockMount k))
    as (k' & Hrun & Hempty & Hother & Hlisted).
  - cbn [k_log k_nmp]. lia.
  - exact Hlinked.
  - exact Hbound.
  - exists k'. split; [exact Hrun|]. split; [exact Hempty|]. split; [exact Hother|].
    intros b cp Hb Hc Hd. specialize (Hlisted b cp Hb Hc). cbn [k_log k_heap] in Hlisted.
    rewrite Hd in Hlisted. exact Hlisted.
Qed.

(** X22 on the sample registry: the forced unmount releases the
    unreferenced entry at 12 and keeps the context at 11, which a
    request still holds, marked for destruction. *)
Lemma unmount_empties_list_witness :
  exists k',
    @nfs_gss_clnt_ctx_unmount sample_limits 3 true (fun _ k => k) true (sample_registry 102)
      = Some (KOk k') /\
    nm_gsscl (k_nmp k') = [] /\
    k_heap k' !! 12 = None /\
    (gss_clnt_refcnt <$> k_heap k' !! 11) = Some 1.
Proof.
  destruct (@unmount_empties_list sample_limits (fun _ k => k) (sample_registry 102))
    as (k' & Hrun & Hempty & _ & Hlisted).
  - exact (sample_registry_linked 102).
  - intros b c Hb Hc. apply list_elem_of_In in Hb. simpl in Hb.
    destruct Hb as [<-|[<-|[]]]; vm_compute in Hc; injection Hc as <-;
      unfold INT32_MAX; simpl; lia.
  - exists k'. split; [exact Hrun|]. split; [exact Hempty|]. split.
    + exact (Hlisted 12 (inval_ctx 100 100 0) ltac:(right; left) eq_refl eq_refl).
    + destruct (Hlisted 11 (with_cred (mk_cred 200 502 502) sample_complete_ctx)
                  ltac:(left) eq_refl eq_refl) as (cp' & Hk & Hr & _).
      transitivity (gss_clnt_refcnt <$> Some cp'); [f_equal; exact Hk|].
      cbn. now rewrite Hr.
Defined.

(** ** The list and the store stay consistent *)

Lemma reap_keeps_registry_linked `{gss_limits} (k k' : kernel) :
  registry_linked k -> nfs_gss_clnt_ctx_neg_cache_reap k = KOk k' ->
  registry_linked k' /\ reap_post (nm_gsscl (k_nmp k)) k k'.
Proof.
  intros [Hnd Hin] Hrun. unfold nfs_gss_clnt_ctx_neg_cache_reap in Hrun.
  destruct (neg_cache_reap_walk_spec (nm_gsscl (k_nmp k)) k Hnd Hin) as (k2 & Hrun2 & Hpost).
  rewrite Hrun in Hrun2. injection Hrun2 as <-.
  split; [|exact Hpost]. split; [exact (reap_walk_NoDup _ _ _ Hrun Hnd)|].
  destruct Hpost as (_ & _ & Hsub & _ & Hkeep).
  intros b Hb. destruct (Hin b (Hsub b Hb)) as [c Hc].
  destruct (Hkeep b c Hc) as [[Hk _]|(_ & _ & Hn & _)]; [eauto|contradiction].
Qed.

(** What follows the unlock in nfs_gss_clnt_ctx_unref: the list stays
    consistent with the store, and a context that is released is the
    one of the request, with [destroy] set, or one the reaper did not
    exempt. *)
Lemma unref_unlocked_linked `{gss_limits} (req : nfsreq) (a : addr) (plan : unref_plan)
    (k : kernel) :
  registry_linked k -> r_nmp req = true ->
  exists k',
    unref_unlocked req a plan k = KOk (req, k') /\
    registry_linked k' /\
    (forall b c, k_heap k !! b = Some c -> k_heap k' !! b = None ->
       (b = a /\ up_destroy plan = true) \/
       (up_destroy plan = false /\ reap_exempt (k_now k) c = false)) /\
    (forall b c, k_heap k' !! b = Some c -> k_heap k !! b = Some c) /\
    k_now k' = k_now k.
Proof.
  intros [Hnd Hin] Hnmp. unfold unref_unlocked. rewrite Hnmp.
  destruct (up_destroy plan).
  - assert (Hh : forall K : kernel, k_heap (nfs_gss_clnt_ctx_destroy a K) = delete a (k_heap K)).
    { intros K. unfold nfs_gss_clnt_ctx_destroy.
      destruct (k_heap K !! a) as [c|]; [destruct (gss_clnt_ctx_id c)|]; reflexivity. }
    assert (Hl : forall K : kernel, k_nmp (nfs_gss_clnt_ctx_destroy a K) = k_nmp K).
    { intros K. unfold nfs_gss_clnt_ctx_destroy.
      destruct (k_heap K !! a) as [c|]; [destruct (gss_clnt_ctx_id c)|]; reflexivity. }
    eexists. split; [reflexivity|].
    match goal with |- registry_linked ?K /\ _ => set (K' := K) end.
    assert (Hlist : nm_gsscl (k_nmp K') = tailq_remove a (nm_gsscl (k_nmp k))).
    { unfold K'. rewrite Hl. cbn [k_log k_mount k_nmp].
      destruct (up_on_neg_cache plan); cbn [nm_gsscl with_nm_ncentries];
        destruct (bool_decide (a ∈ nm_gsscl (k_nmp k))) eqn:Hdec;
        cbn [nm_gsscl with_nm_gsscl]; try reflexivity;
        apply bool_decide_eq_false_1 in Hdec; symmetry; now apply tailq_remove_notin. }
    assert (Hh' : k_heap K' = delete a (k_heap k)) by (unfold K'; now rewrite Hh).
    assert (Ht' : k_now K' = k_now k).
    { unfold K', nfs_gss_clnt_ctx_destroy.
      match goal with
      | |- context [k_heap ?K !! a] =>
          destruct (k_heap K !! a) as [c|]; [destruct (gss_clnt_ctx_id c)|]
      end; reflexivity. }
    clearbody K'.
    split; [split|split; [|split; [|exact Ht']]].
    + rewrite Hlist. now apply tailq_remove_NoDup.
    + intros b Hb. rewrite Hlist in Hb. apply elem_of_tailq_remove in Hb as [Hne Hb].
      rewrite Hh', lookup_delete_ne by congruence. now apply Hin.
    + intros b c Hb Hnone. rewrite Hh' in Hnone.
      destruct (decide (b = a)) as [->|Hne]; [left; split; reflexivity|].
      rewrite lookup_delete_ne in Hnone by congruence. congruence.
    + intros b c. rewrite Hh'.
      intros Hb. apply lookup_delete_Some in Hb as [_ Hb]. exact Hb.
  - destruct (up_neg_cache plan).
    + set (K1 := k_mount _ (k_log EvLockMount k)).
      assert (HK1 : registry_linked K1) by (split; assumption).
      destruct (neg_cache_reap_walk_spec (nm_gsscl (k_nmp K1)) K1 Hnd Hin)
        as (k2 & Hrun & _).
      unfold nfs_gss_clnt_ctx_neg_cache_reap at 1. rewrite Hrun.
      destruct (reap_keeps_registry_linked K1 k2 HK1 Hrun)
        as (Hlinked2 & Hnow2 & _ & _ & Hback & Hkeep).
      eexists. split; [reflexivity|].
      split; [exact Hlinked2|]. cbn [k_log k_heap k_now]. split; [|split].
      * intros b c Hb Hnone. right. split; [reflexivity|].
        destruct (Hkeep b c Hb) as [[Hk _]|(_ & _ & _ & Hex & _)]; [congruence|exact Hex].
      * exact Hback.
      * exact Hnow2.
    + eexists. split; [reflexivity|]. split; [split; assumption|].
      split; [intros b c Hb Hnone; congruence|auto].
Qed.

(** Dropping a reference of a count from 1 to INT32_MAX, on a list that
    links allocated contexts, each once. *)
Lemma unref_consistent_aux `{gss_limits} (req : nfsreq) (a : addr)
    (cp : nfs_gss_clnt_ctx) (k : kernel) :
  registry_linked k ->
  r_gss_ctx req = Some a -> r_nmp req = true -> k_heap k !! a = Some cp ->
  1 <= gss_clnt_refcnt cp <= INT32_MAX ->
  exists k',
    nfs_gss_clnt_ctx_unref req k = KOk (with_r_gss_ctx None req, k') /\
    registry_linked k' /\
    (forall b c, k_heap k !! b = Some c -> k_heap k' !! b = None ->
       gss_clnt_refcnt c = if bool_decide (b = a) then 1 else 0) /\
    (forall b c, b <> a -> k_heap k' !! b = Some c -> k_heap k !! b = Some c) /\
    (forall c, k_heap k' !! a = Some c ->
               gss_clnt_refcnt c = gss_clnt_refcnt cp - 1 /\
               gss_clnt_cred c = gss_clnt_cred cp /\
               has_flag (gss_clnt_flags c) GSS_CTX_DESTROY
                 = has_flag (gss_clnt_flags cp) GSS_CTX_DESTROY) /\
    k_now k' = k_now k.
Proof.
  intros [Hnd Hin] Hreq Hnmp Ha Hcnt. unfold INT32_MAX in Hcnt.
  unfold nfs_gss_clnt_ctx_unref. rewrite Hreq, Ha. rewrite s32_small by lia.
  replace (gss_clnt_refcnt cp - 1 <? 0) with false by (symmetry; apply Z.ltb_ge; lia).
  cbv zeta.
  set (cpv := with_refcnt (gss_clnt_refcnt cp - 1) cp).
  match goal with |- context [unref_locked ?e ?n cpv] => set (plan := unref_locked e n cpv) end.
  match goal with
  | |- context [unref_unlocked _ a plan ?K] => set (K2 := K)
  end.
  assert (HhK2 : k_heap K2 = <[a := up_cp plan]> (k_heap k)).
  { subst K2. destruct (up_krb5 plan); cbn [k_log k_put k_heap];
      now rewrite insert_insert_eq. }
  assert (HlK2 : nm_gsscl (k_nmp K2) = nm_gsscl (k_nmp k)).
  { subst K2. destruct (up_krb5 plan); reflexivity. }
  assert (HtK2 : k_now K2 = k_now k).
  { subst K2. destruct (up_krb5 plan); reflexivity. }
  assert (Hrp : gss_clnt_refcnt (up_cp plan) = gss_clnt_refcnt cp - 1).
  { subst plan. rewrite unref_locked_refcnt. reflexivity. }
  assert (Hfp : gss_clnt_cred (up_cp plan) = gss_clnt_cred cp /\
                has_flag (gss_clnt_flags (up_cp plan)) GSS_CTX_DESTROY
                  = has_flag (gss_clnt_flags cp) GSS_CTX_DESTROY).
  { subst plan cpv. unfold unref_locked. cbv zeta. cbn [up_cp].
    repeat case_match; ctx_simpl; split; try reflexivity;
      unfold GSS_CTX_USECOUNT, GSS_CTX_DESTROY; rewrite has_flag_clear by lia;
      apply andb_true_r. }
  assert (Hdp : up_destroy plan = true -> gss_clnt_refcnt cp = 1).
  { subst plan cpv. unfold unref_locked. ctx_simpl. cbn [up_destroy].
    destruct (gss_clnt_refcnt cp - 1 =? 0) eqn:Hz; [|discriminate].
    apply Z.eqb_eq in Hz. lia. }
  clearbody K2 plan.
  destruct (unref_unlocked_linked (with_r_gss_ctx None req) a plan K2)
    as (k' & Hun & Hlinked & Hfreed & Hback & Hnow').
  { split; [now rewrite HlK2|]. intros b Hb. rewrite HlK2 in Hb.
    rewrite HhK2, lookup_insert. case_decide; [eauto|]. now apply Hin. }
  { exact Hnmp. }
  exists k'. split; [exact Hun|]. split; [exact Hlinked|]. split; [|split; [|split]].
  - intros b c Hb Hnone. case_bool_decide as Hba.
    + subst b. rewrite Ha in Hb. injection Hb as <-.
      destruct (Hfreed a (up_cp plan)) as [[_ Hd]|[_ Hex]].
      * rewrite HhK2. apply lookup_insert_eq.
      * exact Hnone.
      * now apply Hdp.
      * unfold reap_exempt in Hex. apply orb_false_iff in Hex as [Hex _].
        apply orb_false_iff in Hex as [_ Hex]. apply negb_false_iff, Z.eqb_eq in Hex.
        lia.
    + destruct (Hfreed b c) as [[Hx _]|[_ Hex]].
      * rewrite HhK2, lookup_insert_ne by congruence. exact Hb.
      * exact Hnone.
      * contradiction.
      * unfold reap_exempt in Hex. apply orb_false_iff in Hex as [Hex _].
        apply orb_false_iff in Hex as [_ Hex]. now apply negb_false_iff, Z.eqb_eq in Hex.
  - intros b c Hba Hb. apply Hback in Hb.
    rewrite HhK2, lookup_insert_ne in Hb by congruence. exact Hb.
  - intros c Hc. apply Hback in Hc. rewrite HhK2, lookup_insert_eq in Hc.
    injection Hc as <-. split; [exact Hrp|]. exact Hfp.
  - now rewrite Hnow'.
Qed.

(** X23.  nfs_gss_clnt_ctx_unref keeps the list of the mount consistent
    with the store of contexts and never releases a context somebody
    else holds.  On a list that links allocated contexts, each once,
    dropping a reference (of a count from 1 to INT32_MAX) comes back
    with the list again linking allocated contexts, each once; a context
    that is no longer allocated had no reference but the one dropped;
    and every context still allocated, other than the one of the
    request, is as it was. *)
Theorem unref_keeps_registry_consistent `{gss_limits} (req : nfsreq) (a : addr)
    (cp : nfs_gss_clnt_ctx) (k : kernel) :
  registry_linked k ->
  r_gss_ctx req = Some a -> r_nmp req = true -> k_heap k !! a = Some cp ->
  1 <= gss_clnt_refcnt cp <= INT32_MAX ->
  exists k',
    nfs_gss_clnt_ctx_unref req k = KOk (with_r_gss_ctx None req, k') /\
    registry_linked k' /\
    (forall b c, k_heap k !! b = Some c -> k_heap k' !! b = None ->
       gss_clnt_refcnt c = if bool_decide (b = a) then 1 else 0) /\
    (forall b c, b <> a -> k_heap k' !! b = Some c -> k_heap k !! b = Some c).
Proof.
  intros Hlinked Hreq Hnmp Ha Hcnt.
  destruct (unref_consistent_aux req a cp k Hlinked Hreq Hnmp Ha Hcnt)
    as (k' & Hun & Hlinked' & Hfreed & Hback & _).
  exists k'. split; [exact Hun|]. split; [exact Hlinked'|].
  split; [exact Hfreed|exact Hback].
Qed.

(** X23 on the sample registry: the request holding the context at 11
    lets go of it; the list still links the two contexts, both
    allocated. *)
Lemma unref_keeps_registry_consistent_witness :
  exists k',
    @nfs_gss_clnt_ctx_unref sample_limits
       (mk_req true (mk_cred 200 502 502) 9 (Some 11)) (sample_registry 102)
      = KOk (mk_req true (mk_cred 200 502 502) 9 None, k') /\
    registry_linked k'.
Proof.
  destruct (@unref_keeps_registry_consistent sample_limits
              (mk_req true (mk_cred 200 502 502) 9 (Some 11)) 11
              (with_cred (mk_cred 200 502 502) sample_complete_ctx) (sample_registry 102))
    as (k' & Hrun & Hlinked & _).
  - exact (sample_registry_linked 102).
  - reflexivity.
  - reflexivity.
  - reflexivity.
  - vm_compute. split; discriminate.
  - exists k'. split; [exact Hrun|exact Hlinked].
Defined.

Lemma ctx_remove_walk_safe `{gss_limits} (cred : kauth_cred) (todo : list addr) :
  forall k0 k1,
    k_quiet k0 k1 -> registry_linked k0 ->
    (forall b c, b ∈ nm_gsscl (k_nmp k0) -> k_heap k0 !! b = Some c ->
                 0 <= gss_clnt_refcnt c < INT32_MAX) ->
    (forall b, b ∈ todo -> b ∈ nm_gsscl (k_nmp k0)) ->
    exists e k',
      ctx_remove_walk cred todo k1 = KOk (e, k') /\
      (e = E0 \/ e = ENOENT) /\
      registry_linked k' /\
      (forall b c, k_heap k0 !! b = Some c -> k_heap k' !! b = None ->
                   gss_clnt_refcnt c = 0) /\
      (forall b c, k_heap k' !! b = Some c ->
         exists c0, k_heap k0 !! b = Some c0 /\ gss_clnt_refcnt c = gss_clnt_refcnt c0).
Proof.
  induction todo as [|a rest IH]; intros k0 k1 Hq Hlinked Hbound Htodo.
  - destruct Hq as (Hh & Hn & _). exists ENOENT, (k_log EvUnlockMount k1).
    split; [reflexivity|]. split; [now right|]. cbn [k_log k_nmp k_heap].
    rewrite Hh. split; [|split].
    + destruct Hlinked as [Hnd Hin].
      split; cbn [k_log k_nmp k_heap]; rewrite ?Hn, ?Hh; [exact Hnd|exact Hin].
    + intros b c Hb Hnone. congruence.
    + intros b c Hb. eauto.
  - assert (Hal : a ∈ nm_gsscl (k_nmp k0)) by (apply Htodo; left).
    destruct Hlinked as [Hnd Hin]. destruct (Hin a Hal) as [cp Ha].
    assert (Hrest : forall b, b ∈ rest -> b ∈ nm_gsscl (k_nmp k0)).
    { intros b Hb. apply Htodo. now right. }
    assert (Hq' : k_quiet k0 (k_log (EvUnlock a) (k_log (EvLock a) k1))).
    { apply k_quiet_log; [reflexivity|]. apply k_quiet_log; [reflexivity|exact Hq]. }
    cbn [ctx_remove_walk].
    replace (k_heap k1 !! a) with (Some cp) by (destruct Hq as (-> & _); now rewrite Ha).
    destruct (nfs_gss_clnt_ctx_cred_match (gss_clnt_cred cp) cred);
      [|exact (IH k0 _ Hq' (conj Hnd Hin) Hbound Hrest)].
    destruct (has_flag (gss_clnt_flags cp) GSS_CTX_DESTROY);
      [exact (IH k0 _ Hq' (conj Hnd Hin) Hbound Hrest)|].
    pose proof (Hbound a cp Hal Ha) as Hcnt. unfold INT32_MAX in Hcnt.
    rewrite s32_small by lia.
    set (cp2 := with_flags _ (with_refcnt (gss_clnt_refcnt cp + 1) cp)).
    match goal with
    | |- context [nfs_gss_clnt_ctx_unref ?r ?K] => set (K2 := K)
    end.
    destruct Hq as (Hh & Hn & _).
    assert (HhK2 : k_heap K2 = <[a := cp2]> (k_heap k0)).
    { subst K2. cbn [k_log k_put k_heap]. now rewrite Hh. }
    assert (HlK2 : nm_gsscl (k_nmp K2) = nm_gsscl (k_nmp k0)).
    { subst K2. cbn [k_log k_put k_nmp]. now rewrite Hn. }
    clearbody K2.
    destruct (unref_consistent_aux (mk_req true zero_cred 0 (Some a)) a cp2 K2)
      as (k' & Hun & Hlinked' & Hfreed & Hback & Hata & _); try reflexivity.
    { split; [now rewrite HlK2|]. intros b Hb. rewrite HlK2 in Hb.
      rewrite HhK2, lookup_insert. case_decide; [eauto|]. now apply Hin. }
    { rewrite HhK2. apply lookup_insert_eq. }
    { subst cp2. ctx_simpl. unfold INT32_MAX. lia. }
    rewrite Hun. exists E0, k'. split; [reflexivity|]. split; [now left|].
    split; [exact Hlinked'|]. split.
    + intros b c Hb Hnone. destruct (decide (b = a)) as [->|Hne].
      * rewrite Ha in Hb. injection Hb as <-.
        pose proof (Hfreed a cp2) as Hf. rewrite HhK2, lookup_insert_eq in Hf.
        specialize (Hf eq_refl Hnone). rewrite bool_decide_eq_true_2 in Hf by reflexivity.
        subst cp2. ctx_simpl. lia.
      * pose proof (Hfreed b c) as Hf. rewrite HhK2, lookup_insert_ne in Hf by congruence.
        specialize (Hf Hb Hnone). now rewrite bool_decide_eq_false_2 in Hf by congruence.
    + intros b c Hb. destruct (decide (b = a)) as [->|Hne].
      * exists cp. split; [exact Ha|]. destruct (Hata c Hb) as (Hr & _).
        rewrite Hr. subst cp2. ctx_simpl. lia.
      * exists c. split; [|reflexivity]. apply (Hback b c Hne) in Hb.
        rewrite HhK2, lookup_insert_ne in Hb by congruence. exact Hb.
Qed.

(** X24.  nfs_gss_clnt_ctx_remove is safe on every mount whose list
    links allocated contexts, each once, with reference counts from 0 to
    below INT32_MAX: it comes back with 0 or ENOENT, the list again
    links allocated contexts, each once, every context it has released
    had no references, and every context still allocated has the
    reference count it had. *)
Theorem ctx_remove_is_safe `{gss_limits} (cred : kauth_cred) (k : kernel) :
  registry_linked k ->
  (forall b c, b ∈ nm_gsscl (k_nmp k) -> k_heap k !! b = Some c ->
               0 <= gss_clnt_refcnt c < INT32_MAX) ->
  exists e k',
    nfs_gss_clnt_ctx_remove cred k = KOk (e, k') /\
    (e = E0 \/ e = ENOENT) /\
    registry_linked k' /\
    (forall b c, k_heap k !! b = Some c -> k_heap k' !! b = None ->
                 gss_clnt_refcnt c = 0) /\
    (forall b c, k_heap k' !! b = Some c ->
       exists c0, k_heap k !! b = Some c0 /\ gss_clnt_refcnt c = gss_clnt_refcnt c0).
Proof.
  intros Hlinked Hbound. unfold nfs_gss_clnt_ctx_remove. cbn [k_log k_nmp].
  apply (ctx_remove_walk_safe cred (nm_gsscl (k_nmp k)) k (k_log EvLockMount k)).
  - apply k_quiet_log; [reflexivity|apply k_quiet_refl].
  - exact Hlinked.
  - exact Hbound.
  - auto.
Qed.

(** X24 on the sample registry and the credential of session 200, whose
    context is held by a request. *)
Lemma ctx_remove_is_safe_witness :
  exists e k',
    @nfs_gss_clnt_ctx_remove sample_limits (mk_cred 200 502 502) (sample_registry 102)
      = KOk (e, k') /\
    registry_linked k' /\
    (exists c, k_heap k' !! 11 = Some c /\ gss_clnt_refcnt c = 1).
Proof.
  destruct (@ctx_remove_is_safe sample_limits (mk_cred 200 502 502) (sample_registry 102))
    as (e & k' & Hrun & _ & Hlinked & Hfreed & Hkept).
  - exact (sample_registry_linked 102).
  - intros b c Hb Hc. apply list_elem_of_In in Hb. simpl in Hb.
    destruct Hb as [<-|[<-|[]]]; vm_compute in Hc; injection Hc as <-;
      unfold INT32_MAX; simpl; lia.
  - exists e, k'. split; [exact Hrun|]. split; [exact Hlinked|].
    destruct (k_heap k' !! 11) as [c|] eqn:Hc.
    + exists c. split; [reflexivity|].
      destruct (Hkept 11 c Hc) as (c0 & Hc0 & ->).
      vm_compute in Hc0. injection Hc0 as <-. reflexivity.
    + exfalso.
      pose proof (Hfreed 11 (with_cred (mk_cred 200 502 502) sample_complete_ctx)
                    eq_refl Hc) as Hz.
      vm_compute in Hz. discriminate Hz.
Defined.

(** ** The sequence counter at the end of its range *)

(** X25.  nfs_gss_clnt_cred_put has no upper limit for the sequence
    number.  With the counter at 2^32 - 1 the slot tested at lines
    846-847 is 2^32 mod window; if that slot is free the request is
    given the sequence number 0, on the same context, and the bit set is
    that of slot 0, whether it was in use or not.  The slot tested is
    the slot taken only if the window divides 2^32. *)
Theorem seqwin_wraps_to_zero (t : thread_t) (ch : ctx_chan) (bits : Z) :
  gss_clnt_seqbits (ch_ctx ch) = Some bits ->
  0 < gss_clnt_seqwin (ch_ctx ch) < 2 ^ 32 ->
  gss_clnt_seqnum (ch_ctx ch) = 2 ^ 32 - 1 ->
  oldest_slot (ch_ctx ch) = 2 ^ 32 mod gss_clnt_seqwin (ch_ctx ch) /\
  (win_getbit bits (2 ^ 32 mod gss_clnt_seqwin (ch_ctx ch)) = false ->
   exists ch',
     cred_put_seqwin_check t ch = (SeqAssigned 0, ch') /\
     gss_clnt_seqnum (ch_ctx ch') = 0 /\
     gss_clnt_seqbits (ch_ctx ch') = Some (win_setbit bits 0) /\
     gss_clnt_flags (ch_ctx ch') = gss_clnt_flags (ch_ctx ch) /\
     ch_sleepq ch' = ch_sleepq ch) /\
  (win_getbit bits (2 ^ 32 mod gss_clnt_seqwin (ch_ctx ch)) = true ->
   fst (cred_put_seqwin_check t ch) = SeqAsleep).
Proof.
  intros Hbits HW Hs.
  assert (Hslot : oldest_slot (ch_ctx ch) = 2 ^ 32 mod gss_clnt_seqwin (ch_ctx ch)).
  { unfold oldest_slot. rewrite Hs.
    replace (2 ^ 32 - 1 - gss_clnt_seqwin (ch_ctx ch) + 1)
      with (2 ^ 32 - gss_clnt_seqwin (ch_ctx ch)) by lia.
    rewrite u32_small by lia.
    replace (2 ^ 32 - gss_clnt_seqwin (ch_ctx ch))
      with (2 ^ 32 + (-1) * gss_clnt_seqwin (ch_ctx ch)) by lia.
    apply Z_mod_plus_full. }
  split; [exact Hslot|].
  unfold cred_put_seqwin_check. rewrite Hbits.
  replace (gss_clnt_seqwin (ch_ctx ch) =? 0) with false by (symmetry; apply Z.eqb_neq; lia).
  rewrite Hslot, Hs. split.
  - intros ->. replace (u32 (2 ^ 32 - 1 + 1)) with 0 by reflexivity.
    eexists. split; [reflexivity|]. cbn [ch_ctx ch_sleepq]. ctx_simpl.
    rewrite Z.mod_0_l by lia. repeat split; reflexivity.
  - intros ->. reflexivity.
Qed.

(** X25 for a window of three slots with slot 0 in use: slot 1 is
    tested, and sequence number 0 is handed out on slot 0. *)
Lemma seqwin_wraps_to_zero_witness :
  let cp := with_seqbits (Some 1) (with_seqwin 3 (with_seqnum (2 ^ 32 - 1)
              sample_complete_ctx)) in
  oldest_slot cp = 1 /\
  win_getbit 1 0 = true /\
  fst (cred_put_seqwin_check 9 (mk_chan cp [])) = SeqAssigned 0.
Proof.
  intros cp.
  destruct (seqwin_wraps_to_zero 9 (mk_chan cp []) 1) as (Hslot & Hfree & _).
  - reflexivity.
  - vm_compute. split; reflexivity.
  - reflexivity.
  - split; [exact Hslot|]. split; [reflexivity|].
    destruct (Hfree eq_refl) as (ch' & -> & _). reflexivity.
Defined.

(** X26.  nfs_gss_clnt_ctx_renew when no port to gssd can be had
    (nfs_gss_clnt_ctx_copy fails with EPIPE): the call returns EPIPE and
    the request, the only holder of a valid context in use, is left
    without a context.  The old context has been marked, released and
    unlinked, with its Kerberos context destroyed once; the new context
    that was allocated for the copy has been released again; nothing
    has been put on the list, and the outcome does not depend on the
    setup routine, which is not reached. *)
Theorem renew_without_upcall_port `{gss_limits} (init_retry : init_retry_fn) (req : nfsreq)
    (k : kernel) (a : addr) (cp : nfs_gss_clnt_ctx) :
  r_gss_ctx req = Some a -> r_nmp req = true ->
  k_heap k !! a = Some cp -> k_heap k !! k_next k = None ->
  has_flag (gss_clnt_flags cp) GSS_CTX_INVAL = false ->
  gss_clnt_refcnt cp = 1 ->
  gss_clnt_proc cp = RPCSEC_GSS_DATA ->
  k_upcall_port k = false ->
  exists k' evs,
    nfs_gss_clnt_ctx_renew init_retry req k
      = Some (KOk (EPIPE, with_r_gss_ctx None req, k',
                   has_flag (gss_clnt_flags cp) GSS_NEEDCTX
                   || has_flag (gss_clnt_flags cp) GSS_NEEDSEQ)) /\
    k_heap k' = delete a (k_heap k) /\
    nm_gsscl (k_nmp k') = tailq_remove a (nm_gsscl (k_nmp k)) /\
    k_trace k' = evs ++ k_trace k /\
    ctx_freed evs = [a; k_next k] /\
    krb5_destroyed evs = match gss_clnt_ctx_id cp with Some id => [id] | None => [] end.
Proof.
  intros Hreq Hnmp Ha Hfresh Hinval Hcnt Hproc Hport.
  set (n := k_next k) in *.
  assert (Hna : n <> a) by (intros ->; congruence).
  unfold nfs_gss_clnt_ctx_renew. rewrite Hreq, Hnmp. cbn [negb].
  rewrite Ha. rewrite Hinval. cbv zeta.
  set (w := negb (Z.land _ (Z.lor GSS_NEEDCTX GSS_NEEDSEQ) =? 0)).
  assert (Hw : w = has_flag (gss_clnt_flags cp) GSS_NEEDCTX
                   || has_flag (gss_clnt_flags cp) GSS_NEEDSEQ).
  { subst w. ctx_simpl. rewrite land_lor_test. unfold GSS_NEEDCTX, GSS_NEEDSEQ.
    rewrite !has_flag_marked_other by lia. reflexivity. }
  set (cpm := if w then _ else _).
  assert (Hpm : gss_clnt_proc cpm = RPCSEC_GSS_DATA).
  { subst cpm. destruct w; ctx_simpl; exact Hproc. }
  rewrite Hpm. rewrite bool_decide_eq_false_2 by discriminate.
  rewrite bool_decide_eq_true_2 by reflexivity. cbn [negb].
  unfold nfs_gss_clnt_ctx_copy. cbn [k_alloc k_log k_put k_next k_upcall_port].
  fold n. rewrite Hport. cbn [negb].
  match goal with
  | |- context [nfs_gss_clnt_ctx_unref req ?K] => set (K4 := K)
  end.
  assert (HhK4 : k_heap K4 = <[a := cpm]> (k_heap k)).
  { subst K4. cbn [k_free k_log k_put k_heap]. rewrite delete_insert_eq.
    apply delete_id. rewrite lookup_insert_ne by congruence. exact Hfresh. }
  assert (Hcm : gss_clnt_refcnt cpm = 1 /\
                has_flag (gss_clnt_flags cpm) GSS_CTX_DESTROY = true /\
                gss_clnt_ctx_id cpm = gss_clnt_ctx_id cp).
  { subst cpm. destruct w; ctx_simpl; (split; [exact Hcnt|]); (split; [|reflexivity]).
    - unfold GSS_NEEDSEQ, GSS_CTX_DESTROY at 2. rewrite has_flag_clear by lia.
      fold GSS_CTX_DESTROY. rewrite has_flag_marked_destroy. reflexivity.
    - apply has_flag_marked_destroy. }
  destruct Hcm as (Hcm1 & Hcm2 & Hcm4).
  destruct (unref_last_destroy_aux req a cpm K4)
    as (k5 & evs5 & Hun & Hh5 & Hl5 & _ & _ & _ & Htr5 & Hk5 & Hf5); try assumption.
  { rewrite HhK4. apply lookup_insert_eq. }
  rewrite Hun. change (is_error EPIPE) with true. cbv iota.
  exists k5, (evs5 ++ [EvFree n; EvAlloc n; EvUnlock a; EvLock a]).
  split; [now rewrite Hw|].
  split; [rewrite Hh5, HhK4; apply delete_insert_eq|].
  split; [rewrite Hl5; reflexivity|].
  split; [rewrite Htr5; subst K4; cbn [k_free k_log k_put k_trace];
          now rewrite <- app_assoc|].
  rewrite ctx_freed_app, krb5_destroyed_app, Hf5, Hk5, Hcm4.
  split; [reflexivity|]. cbn. now rewrite app_nil_r.
Qed.

(** X26 on the sample mount with no port to gssd: the request holding
    the context at 11 gets EPIPE and is left without a context; 11 and
    the copy at 13 have been released, and the list keeps 12. *)
Lemma renew_without_upcall_port_witness :
  exists k' evs,
    @nfs_gss_clnt_ctx_renew sample_limits (fun _ _ => None)
       (mk_req true (mk_cred 200 502 502) 9 (Some 11))
       (mk_kernel (k_heap (sample_registry 102)) (k_nmp (sample_registry 102))
                  102 13 EINVAL false [])
      = Some (KOk (EPIPE, mk_req true (mk_cred 200 502 502) 9 None, k', false)) /\
    k_heap k' !! 11 = None /\ k_heap k' !! 13 = None /\
    nm_gsscl (k_nmp k') = [12] /\
    ctx_freed evs = [11; 13].
Proof.
  destruct (@renew_without_upcall_port sample_limits (fun _ _ => None)
              (mk_req true (mk_cred 200 502 502) 9 (Some 11))
              (mk_kernel (k_heap (sample_registry 102)) (k_nmp (sample_registry 102))
                         102 13 EINVAL false [])
              11 (with_cred (mk_cred 200 502 502) sample_complete_ctx))
    as (k' & evs & Hrun & Hheap & Hnmp & _ & Hfree & _).
  - reflexivity.
  - reflexivity.
  - reflexivity.
  - reflexivity.
  - reflexivity.
  - reflexivity.
  - reflexivity.
  - reflexivity.
  - exists k', evs. split; [exact Hrun|]. rewrite Hheap, Hnmp.
    split; [reflexivity|]. split; [reflexivity|]. split; [reflexivity|exact Hfree].
Defined.
